(* ===== verification/_CoqProject ===== *)
-Q . S2P
Prelude.v
Utf8.v
PyStr.v
Regex.v
Filler.v
World.v
Float.v
Json.v
JsonParse.v
JsonRoundTrip.v
Report.v
Network.v
Dotenv.v
