(* ===== verification/Prelude.v ===== *)
(** * A verification development for clarity-coach's [src/bullshit_meter.py]

    The program is one script.  At import it loads a [.env] file into
    the environment (line 7), reads [GEMINI_API_KEY] and refuses to
    start without it (lines 9-15); it holds a prompt template
    (lines 17-42); [extract_speaker_filler_counts] (lines 44-67) groups
    the transcript's [SPEAKER_..:] lines by speaker with [re.match] and
    counts filler phrases per speaker with [re.findall];
    [run_bullshit_meter] (lines 69-107) reads the transcript, counts the
    fillers, sends the transcript inside the template to the Gemini
    service, takes the narrative from the reply (or an error block),
    appends the filler section, writes the document and prints a preview;
    the [__main__] block (lines 110-115) checks the arguments.

    ** Files

    - [Prelude]: Python text as code points ([pystr]), exceptions
      ([exn], [res] and its notation [x <- c ;; k]), computations on a
      state that may raise ([stres], notation [x <-- c ;;; k]),
      insertion-ordered dicts ([dict_get], [dict_set]), the hint
      databases [pydb] and [pyrw] and the shared tactics.
    - [Utf8]: CPython's strict [utf-8] codec, with [decode_utf8], the
      decoder that locates and classifies the first undecodable bytes
      for [UnicodeDecodeError]; [py] turns a Rocq string literal (UTF-8,
      backslashes verbatim as in a raw string) into the Python text it
      denotes.
    - [PyStr]: the Unicode-database interface [UnicodeDB] with its laws
      on ASCII and the instance [latin1_db]; [str.strip], [splitlines],
      [lower], [join], [split], [count], [format], [str(int)] and [repr].
    - [Regex]: the part of [re] the program uses: [re.compile] (a parser
      for the [sre_parse] subset, with fuel), a backtracking matcher [mt]
      over positions and captures, [re.match], [re.search],
      [re.findall], [re.escape], and the declarative semantics
      [matches].
    - [Filler]: [extract_speaker_filler_counts] as [extract_with] applied
      to the two pattern literals of the source, the dict code of lines
      46-67 step by step, and its specification [spec_report].
    - [World]: the files, the paths that cannot be written and standard
      output; [read_text], [open_write], [write_text], [print] as [io]
      computations, with CPython's texts of the errors they raise.
    - [Float]: Python's [float] as the Stdlib's [spec_float] at binary64:
      [float()] of a decimal literal ([py_float], [float_of_dec], the
      nearest double with ties to even), [repr] ([float_repr]: the
      shortest digit search of [_Py_dg_dtoa] mode 0 and
      [format_float_short]) and the text [json.dumps] writes for a float
      ([json_float]: [NaN], [Infinity], [-Infinity] or [repr]).
    - [Json]: the values [response.json()] returns, subscripting with
      Python's exceptions, and [json.dumps] with [ensure_ascii].
    - [JsonParse]: [response.json()] (line 87), that is [json.loads] of
      the reply's text, after CPython's C scanner ([scan_once],
      [parse_object], [parse_array], [scanstring], [match_number]) with
      the messages of [JSONDecodeError] and the 4300-digit limit of
      [int].
    - [JsonRoundTrip]: the proof that [json.loads] reads back what
      [json.dumps] writes (decimal text of [int], the text of a float,
      [\uXXXX] escapes and surrogate pairs, strings, arrays and
      objects).
    - [Report]: the configuration check, the template, the request,
      [run_bullshit_meter], [main]; the HTTP request is the class
      [GeminiService] (URL and body to the reply's text), so every
      theorem holds for any behaviour of the service, and [reply_service]
      gives concrete runs; the reply is then decoded by [json_loads].
    - [Network]: the same run stopped at the request of line 86
      ([start], [Posting] with the rest of the run [after_reply]), a
      network that answers or stays silent at each instant ([sched]),
      the transition relation [step] on configurations and its runs
      ([star], [infseq], after Leroy's [Sequences]); answering the
      stopped run with a [GeminiService] is [main] ([answer_start]).
    - [Dotenv]: line 7, python-dotenv's [load_dotenv()] (version 1.0):
      [find_dotenv] from the script's directory up to [/], the strict
      UTF-8 read of [.env], the parser of [parser.py] with each regular
      expression written as the function computing its match
      ([parse_binding], [parse_stream]), [${NAME:-default}] expansion
      ([resolve_variables]) and [set_as_environment_variables] with
      [override=False] through [os.putenv]'s refusals, on [os.environ]
      as a dict ([environ]); line 9 ([os_getenv]); and the whole script
      [run_script], which hands [main] the key they give.

    ** What the theorems show

    - The extraction ([Filler]): it never raises and equals
      [spec_report] (a refinement proof through the loop invariants of
      [collect] and [build_report]); its report is well formed and
      attributes counts to the right speaker.  The source's raw strings
      double every backslash, so the speaker pattern needs the text
      [SPEAKER_] backslash [d] and the filler pattern the text backslash
      [b]: every transcript without a backslash (every transcript in the
      specification's format, Scenario A included) gets an empty report.
    - The run ([Report]): Scenario C (a reply without text still gives
      exit status 0 and an error block in the file), Scenario B (no
      speaker lines: the document is the narrative; composed with
      [JsonRoundTrip], a service answering [json.dumps] of an envelope
      whose text is [s] gives the document [s]), and every abort:
      missing key, missing or undecodable transcript (with CPython's
      [UnicodeDecodeError] message), unwritable output, failed request
      (which escapes, unlike the specification says), a non-string or
      unencodable text (which crashes after truncating the file), the
      usage line (exit status 0); the [OSError] texts name the path, and
      the [KeyError] texts of the lookup and of [str.format] the key, by
      its [repr] ([PyStr.py_repr], after [unicode_repr]).  The filler
      section and the preview use the two characters backslash and [n]
      where newlines are meant.  The
      [+=] of the filler section keeps the type of [text] and raises
      [TypeError] exactly on a value that is neither [str] nor [list].
    - The network ([Network]): [requests.post] has no timeout, so a
      silent network keeps the run waiting forever, without touching the
      output file.
    - The libraries: the matcher is sound and complete for [matches];
      [re.escape] round-trips through [re.compile]; [re.findall] of an
      escaped word counts like [str.count]; a match starts with the
      pattern's literal prefix; UTF-8 encoding and decoding are inverse
      (both ways) and encoding writes one to four bytes below 256 per
      code point; the error-reporting decoder agrees with the strict one
      and reports its error where decoding stops; [split] and [join] round-trip; [json.dumps] writes
      ASCII; [json.loads] terminates on every text and raises only
      [JSONDecodeError] or [ValueError]; [json.loads] of [json.dumps v]
      is [v] for every value [json.dumps] writes faithfully, floats
      included.
    - The configuration ([Dotenv]): [load_dotenv] refines the merge of
      the environment with the [.env] file (a variable already set keeps
      its value; a binding [os.putenv] refuses raises [ValueError], as a
      quoted name holding [=] does), and the script runs [main] with the
      environment's key if set, else the file's.
    - Floats ([Float]): [float()] of a decimal is correctly rounded: a
      valid binary64 with the literal's sign, [0.0] up to [2^-1075],
      [inf] from [2^1024 - 2^970] on, and in between a finite double
      within half a unit in its last place; and [float()] of [repr x] is
      [x] for every finite [x].

    ** Bounds and fuel

    - [parse_fuel p = 3 * length p + 4] for [re.compile]: each round of
      the parser consumes a character or closes a level; running out is
      the error [POutOfFuel], never a wrong result, and the patterns the
      program compiles are shown to parse by computation and, for every
      [re.escape]d word, by a theorem.
    - [star_fuel i = length - i + 1] for a starred sub-pattern: each
      iteration must consume a character; the theorem on star fuel shows
      more fuel changes nothing.
    - [re.findall] scans with [2 * length + 2] rounds and [str.split]
      with [length + 1]; both are shown enough (the scan by its
      equivalence with [str.count], the split by [split_fuel_spec]).
    - [json_loads] gives its scanner [2 * length + 2] units of fuel: a
      value and the rest of an array or object after it each take one
      unit and every other call reads a code point first, so the lemma
      [scan_once_fuel] shows the fuel never runs out; the round trip
      needs only the size of the value ([json_size]), which is at most
      the length of its text.
    - Floats: [float_of_dec] answers [inf] for a decimal of at least
      [10^310] and [0.0] below [10^-324] without computing the powers of
      ten (the largest double is below [1.8 * 10^308], half the smallest
      subnormal above [2.4 * 10^-324]: the theorem shows the cuts change
      no result); the digit search of [repr] tries 1 to 17 digits, and 17
      always succeed ([pick_digits_17]); [strip_zeros] gets 18 rounds,
      more than the 17 digits there are; [ndigits] counts digits with
      fuel the size of the number in bits.
    - [.env] parsing: [parse_stream] gets [S (length s)] rounds; every
      binding consumes at least one code point ([parse_binding_progress]),
      so more fuel changes nothing ([parse_stream_fuel_enough]).
    - Integers: counts and positions are [nat] (Python's integers are
      unbounded); code points and bytes are [N]; float arithmetic is
      exact on [Z], in units of the smallest subnormal [2^-1074].

    ** Not modelled

    the warning python-dotenv logs to standard error for a [.env] line it
    cannot parse (the line is skipped, as in the model); the HTTP exchange itself (inside
    [GeminiService]; [Network] models only when an answer arrives); in
    [json.loads], the recursion limit of deeply nested replies; [json.dumps] of an [int] of more than 4300 digits, which
    CPython refuses (no such value reaches it: [json_loads] refuses them
    first); the
    Unicode database beyond Latin-1 in the concrete instance (theorems use
    the interface); [re] features outside the subset (refused as
    [PUnsupported]); operating-system errors other than a refused output
    path; the traceback printed for an uncaught exception (its exit
    status 1 is [exit_code]). *)

From Stdlib Require Import Ascii String List Arith NArith Lia Bool.
Import ListNotations.

(** ** Python text

    A Python [str] is a sequence of Unicode code points, kept here as a
    [list N].  Source literals are written as Rocq strings (UTF-8 bytes,
    a backslash kept as one byte exactly as a Python raw string keeps it)
    and decoded by [Utf8.py]. *)

Abbreviation pystr := (list N).

(** ** Exceptions

    An exception is its class and the text [str(e)] renders. *)

Inductive exc_class :=
| ReError            (** [re.error]: a malformed pattern *)
| KeyError
| IndexError
| TypeError
| ValueError
| JSONDecodeError    (** [json.JSONDecodeError], a [ValueError] *)
| FileNotFoundError
| OSError
| RequestException   (** [requests.exceptions.RequestException] *)
| AttributeError
| UnicodeDecodeError
| UnicodeEncodeError
| Unmodelled.        (** a construct this model does not cover *)

Record exn := Exc { exc_cls : exc_class; exc_msg : pystr }.

(** ** The result of a Python computation: a value or a raised exception *)

Inductive res (A : Type) : Type :=
| Ok (a : A)
| Raise (e : exn).
Arguments Ok {A} a.
Arguments Raise {A} e.

Definition res_bind {A B} (c : res A) (k : A -> res B) : res B :=
  match c with
  | Ok a => k a
  | Raise e => Raise e
  end.

Definition res_map {A B} (f : A -> B) (c : res A) : res B :=
  res_bind c (fun a => Ok (f a)).

Declare Scope py_scope.
Delimit Scope py_scope with py.

Notation "x <- c ;; k" := (res_bind c (fun x => k))
  (at level 61, c at next level, right associativity) : py_scope.
Notation "' p <- c ;; k" := (res_bind c (fun x => match x with p => k end))
  (at level 61, p pattern, c at next level, right associativity) : py_scope.

(** ** Generic lemmas on results *)

Create HintDb pydb discriminated.
Create Rewrite HintDb pyrw.

Lemma res_bind_ok {A B} (a : A) (k : A -> res B) : res_bind (Ok a) k = k a.
Proof. reflexivity. Qed.

Lemma res_bind_raise {A B} (e : exn) (k : A -> res B) :
  res_bind (Raise e) k = Raise e.
Proof. reflexivity. Qed.

Lemma res_bind_assoc {A B C} (c : res A) (f : A -> res B) (g : B -> res C) :
  res_bind (res_bind c f) g = res_bind c (fun a => res_bind (f a) g).
Proof. destruct c; reflexivity. Qed.

Lemma res_bind_ok_inv {A B} (c : res A) (k : A -> res B) (b : B) :
  res_bind c k = Ok b -> exists a, c = Ok a /\ k a = Ok b.
Proof. destruct c; simpl; [eauto | discriminate]. Qed.

Lemma ok_inj {A} (a b : A) : @Ok A a = Ok b -> a = b.
Proof. congruence. Qed.

#[export] Hint Rewrite @res_bind_ok @res_bind_raise @res_bind_assoc : pyrw.

(** ** Computations on a state that may raise

    [stres S A] threads a state [S] (the program's world) and keeps the
    state reached when an exception escapes, as Python does: effects done
    before a [raise] stay done. *)

Definition stres (S A : Type) : Type := S -> res A * S.

Definition st_ret {S A} (a : A) : stres S A := fun s => (Ok a, s).
Definition st_lift {S A} (r : res A) : stres S A := fun s => (r, s).
Definition st_raise {S A} (e : exn) : stres S A := fun s => (Raise e, s).

Definition st_bind {S A B} (c : stres S A) (k : A -> stres S B) : stres S B :=
  fun s => match c s with
           | (Ok a, s') => k a s'
           | (Raise e, s') => (Raise e, s')
           end.

Notation "x <-- c ;;; k" := (st_bind c (fun x => k))
  (at level 61, c at next level, right associativity) : py_scope.

Lemma st_bind_ok {S A B} (c : stres S A) (k : A -> stres S B) s a s' :
  c s = (Ok a, s') -> st_bind c k s = k a s'.
Proof. intros H. unfold st_bind. now rewrite H. Qed.

Lemma st_bind_raise {S A B} (c : stres S A) (k : A -> stres S B) s e s' :
  c s = (Raise e, s') -> st_bind c k s = (Raise e, s').
Proof. intros H. unfold st_bind. now rewrite H. Qed.

Lemma st_lift_bind {S A B} (r : res A) (k : A -> stres S B) s :
  st_bind (st_lift r) k s = match r with Ok a => k a s | Raise e => (Raise e, s) end.
Proof. now destruct r. Qed.

(** ** Generic lemmas on lists *)

(** [is_prefix w s]: the list [s] starts with [w]. *)
Fixpoint is_prefix (w s : pystr) : bool :=
  match w, s with
  | [], _ => true
  | c :: w', d :: s' => N.eqb c d && is_prefix w' s'
  | _ :: _, [] => false
  end.

Lemma is_prefix_spec (w s : pystr) :
  is_prefix w s = true <-> exists r, s = w ++ r.
Proof.
  revert s; induction w as [|c w IH]; intros [|d s]; simpl.
  - split; eauto.
  - split; eauto.
  - split; [discriminate | intros [r Hr]; discriminate].
  - rewrite andb_true_iff, N.eqb_eq, IH. split.
    + intros [-> [r ->]]. eauto.
    + intros [r Hr]. injection Hr as -> ->. eauto.
Qed.

(** Equality of texts. *)
Fixpoint pystr_eqb (a b : pystr) : bool :=
  match a, b with
  | [], [] => true
  | c :: a', d :: b' => N.eqb c d && pystr_eqb a' b'
  | _, _ => false
  end.

Lemma pystr_eqb_spec (a b : pystr) : reflect (a = b) (pystr_eqb a b).
Proof.
  apply iff_reflect. revert b; induction a as [|c a IH]; intros [|d b]; simpl;
    try (split; congruence).
  rewrite andb_true_iff, N.eqb_eq, <- IH. split; [intros [= -> ->]|intros [-> ->]]; auto.
Qed.

Lemma pystr_eqb_refl (a : pystr) : pystr_eqb a a = true.
Proof. destruct (pystr_eqb_spec a a); congruence. Qed.

#[export] Hint Rewrite pystr_eqb_refl : pyrw.

Lemma is_prefix_app (w r : pystr) : is_prefix w (w ++ r) = true.
Proof. apply is_prefix_spec. eauto. Qed.

#[export] Hint Resolve is_prefix_app : pydb.

Lemma nth_error_skipn {A} (l : list A) (i k : nat) :
  nth_error (skipn i l) k = nth_error l (i + k).
Proof.
  revert l k; induction i as [|i IH]; intros [|x l] k; simpl; auto.
  destruct k; reflexivity.
Qed.

Lemma flat_map_app_distr {A B} (f : A -> list B) (l1 l2 : list A) :
  flat_map f (l1 ++ l2) = flat_map f l1 ++ flat_map f l2.
Proof. induction l1 as [|x l1 IH]; simpl; [reflexivity|]. now rewrite IH, app_assoc. Qed.

Lemma flat_map_ext_in {A B} (f g : A -> list B) (l : list A) :
  (forall x, In x l -> f x = g x) -> flat_map f l = flat_map g l.
Proof.
  induction l as [|x l IH]; intros H; simpl; [reflexivity|].
  rewrite (H x (or_introl eq_refl)), IH; [reflexivity|]. intros y Hy; apply H; now right.
Qed.

#[export] Hint Rewrite @flat_map_app_distr : pyrw.

Lemma forallb_map {A B} (f : B -> bool) (g : A -> B) (l : list A) :
  forallb f (map g l) = forallb (fun x => f (g x)) l.
Proof. induction l as [|x l IH]; simpl; [reflexivity|]. now rewrite IH. Qed.

Lemma forallb_imp {A} (f g : A -> bool) (l : list A) :
  (forall x, f x = true -> g x = true) -> forallb f l = true -> forallb g l = true.
Proof.
  intros H. induction l as [|x l IH]; simpl; [reflexivity|].
  rewrite !andb_true_iff. intros [Hx Hl]. auto.
Qed.

Lemma existsb_ext_in {A} (f g : A -> bool) (l : list A) :
  (forall x, In x l -> f x = g x) -> existsb f l = existsb g l.
Proof.
  induction l as [|x l IH]; simpl; intros H; [reflexivity|].
  rewrite (H x (or_introl eq_refl)), IH; [reflexivity|]. intros y Hy. apply H. now right.
Qed.

#[export] Hint Rewrite @forallb_map @forallb_app : pyrw.

(** ** Python dicts as insertion-ordered association lists *)

Abbreviation dict V := (list (pystr * V)).

Fixpoint dict_get {V} (k : pystr) (d : dict V) : option V :=
  match d with
  | [] => None
  | (k', v) :: d' => if pystr_eqb k k' then Some v else dict_get k d'
  end.

(** [d[k] = v]: replace in place, or append a new key. *)
Fixpoint dict_set {V} (k : pystr) (v : V) (d : dict V) : dict V :=
  match d with
  | [] => [(k, v)]
  | (k', v') :: d' => if pystr_eqb k k' then (k', v) :: d' else (k', v') :: dict_set k v d'
  end.

Definition keys {V} (d : dict V) : list pystr := map fst d.

Lemma dict_get_none {V} (k : pystr) (d : dict V) :
  ~ In k (keys d) -> dict_get k d = None.
Proof.
  induction d as [|[k' v] d IH]; simpl; [reflexivity|]. intros H.
  destruct (pystr_eqb_spec k k'); [subst; tauto|]. apply IH. tauto.
Qed.

Lemma dict_set_new {V} (k : pystr) (v : V) (d : dict V) :
  ~ In k (keys d) -> dict_set k v d = d ++ [(k, v)].
Proof.
  induction d as [|[k' v'] d IH]; simpl; [reflexivity|]. intros H.
  destruct (pystr_eqb_spec k k'); [subst; tauto|]. rewrite IH; [reflexivity|tauto].
Qed.

Lemma keys_app {V} (d1 d2 : dict V) : keys (d1 ++ d2) = keys d1 ++ keys d2.
Proof. apply map_app. Qed.


Lemma dict_get_set_same {V} (k : pystr) (v : V) (d : dict V) :
  dict_get k (dict_set k v d) = Some v.
Proof.
  induction d as [|[k' v'] d IH]; simpl; [now rewrite pystr_eqb_refl|].
  destruct (pystr_eqb_spec k k'); simpl; [subst; now rewrite pystr_eqb_refl|].
  destruct (pystr_eqb_spec k k'); [contradiction|exact IH].
Qed.

Lemma dict_get_set_other {V} (k k2 : pystr) (v : V) (d : dict V) :
  k2 <> k -> dict_get k2 (dict_set k v d) = dict_get k2 d.
Proof.
  intros Hne. induction d as [|[k' v'] d IH]; simpl.
  - destruct (pystr_eqb_spec k2 k); [contradiction|reflexivity].
  - destruct (pystr_eqb_spec k k'); simpl.
    + subst. destruct (pystr_eqb_spec k2 k'); [contradiction|reflexivity].
    + destruct (pystr_eqb_spec k2 k'); [reflexivity|exact IH].
Qed.

#[export] Hint Rewrite @dict_get_set_same : pyrw.

(** ** Tactics shared by the development *)

Ltac inv H := inversion H; subst; clear H.

(** Case on every [if]/[match] scrutinee of the goal that is a boolean
    test of [N.eqb] or [Nat.eqb], turning it into an equation. *)
Ltac case_eqb :=
  repeat match goal with
  | |- context [N.eqb ?a ?b] => destruct (N.eqb_spec a b); subst
  | |- context [Nat.eqb ?a ?b] => destruct (Nat.eqb_spec a b); subst
  | |- context [Nat.ltb ?a ?b] => destruct (Nat.ltb_spec a b)
  | |- context [Nat.leb ?a ?b] => destruct (Nat.leb_spec a b)
  end.

(** Close a goal with the hint databases of the development. *)
Ltac py_auto := autorewrite with pyrw in *; eauto with pydb.
