(* ===== verification/Utf8.v ===== *)
(** * UTF-8: the text codec of the program's files and source literals

    [open(path, "r").read()] and [open(path, "w").write(text)] in
    [run_bullshit_meter] (src/bullshit_meter.py, lines 70-71 and 102-103)
    decode and encode UTF-8 (the locale encoding assumed here), and the
    source file itself is UTF-8: its prompt template holds U+2013.  This
    file models CPython's strict [utf-8] codec: [utf8_encode] refuses
    surrogates, [utf8_decode] accepts exactly the shortest-form encodings
    of scalar values, and [decode_utf8] is the decoder as CPython writes
    it, which also says where and why it stops.  Bytes are [N] values
    below 256. *)

From Stdlib Require Import Ascii String List NArith Lia Bool.
From S2P Require Import Prelude.
Import ListNotations.
Local Open Scope N_scope.

Abbreviation bytes := (list N).

(** A continuation byte 10xxxxxx. *)
Definition is_cont (b : N) : bool := (128 <=? b) && (b <=? 191).

(** A Unicode scalar value: a code point that is not a surrogate. *)
Definition is_scalar (c : N) : bool :=
  (c <? 1114112) && negb ((55296 <=? c) && (c <=? 57343)).

Definition utf8_encode1 (c : N) : option bytes :=
  if c <? 128 then Some [c]
  else if c <? 2048 then Some [192 + c / 64; 128 + c mod 64]
  else if c <? 65536 then
    if (55296 <=? c) && (c <=? 57343) then None
    else Some [224 + c / 4096; 128 + (c / 64) mod 64; 128 + c mod 64]
  else if c <? 1114112 then
    Some [240 + c / 262144; 128 + (c / 4096) mod 64;
          128 + (c / 64) mod 64; 128 + c mod 64]
  else None.

Fixpoint utf8_encode (s : pystr) : option bytes :=
  match s with
  | [] => Some []
  | c :: s' =>
      match utf8_encode1 c, utf8_encode s' with
      | Some b, Some r => Some (b ++ r)
      | _, _ => None
      end
  end.

(** The range of the second byte of a three- or four-byte sequence led
    by [b0] (CPython's decoder table). *)
Definition second_lo (b0 : N) : N :=
  if b0 =? 224 then 160 else if b0 =? 240 then 144 else 128.
Definition second_hi (b0 : N) : N :=
  if b0 =? 237 then 159 else if b0 =? 244 then 143 else 191.

Definition in_second (b0 b1 : N) : bool :=
  (second_lo b0 <=? b1) && (b1 <=? second_hi b0).

Fixpoint utf8_decode (b : bytes) : option pystr :=
  match b with
  | [] => Some []
  | b0 :: r =>
      if b0 <? 128 then option_map (cons b0) (utf8_decode r)
      else if (194 <=? b0) && (b0 <=? 223) then
        match r with
        | b1 :: r' =>
            if is_cont b1
            then option_map (cons ((b0 - 192) * 64 + (b1 - 128))) (utf8_decode r')
            else None
        | [] => None
        end
      else if (224 <=? b0) && (b0 <=? 239) then
        match r with
        | b1 :: b2 :: r' =>
            if in_second b0 b1 && is_cont b2
            then option_map (cons ((b0 - 224) * 4096 + (b1 - 128) * 64 + (b2 - 128)))
                            (utf8_decode r')
            else None
        | _ => None
        end
      else if (240 <=? b0) && (b0 <=? 244) then
        match r with
        | b1 :: b2 :: b3 :: r' =>
            if in_second b0 b1 && is_cont b2 && is_cont b3
            then option_map (cons ((b0 - 240) * 262144 + (b1 - 128) * 4096
                                   + (b2 - 128) * 64 + (b3 - 128)))
                            (utf8_decode r')
            else None
        | _ => None
        end
      else None
  end.

(** ** Where the strict decoder stops

    CPython's [utf8_decode] ([Objects/stringlib/codecs.h]) classifies the
    first byte sequence it cannot decode, and [unicode_decode_utf8]
    ([Objects/unicodeobject.c]) turns the class into the range of
    [UnicodeDecodeError]: an invalid start byte covers one byte; an
    invalid continuation byte covers the bytes before it; the end of
    the data covers the rest of the input. *)

Inductive utf8_reason := EndOfData | InvalidStart | InvalidContinuation.

Record utf8_error := Utf8Error { err_start : nat; err_end : nat; err_reason : utf8_reason }.

Definition cons_ok (c : N) (x : pystr + utf8_error) : pystr + utf8_error :=
  match x with inl s => inl (c :: s) | inr e => inr e end.

(** [decode_utf8 b pos]: [b] starts at byte [pos] of the input. *)
Fixpoint decode_utf8 (b : bytes) (pos : nat) : pystr + utf8_error :=
  let ic n := inr (Utf8Error pos (pos + n) InvalidContinuation) in
  match b with
  | [] => inl []
  | b0 :: r =>
      if b0 <? 128 then cons_ok b0 (decode_utf8 r (S pos))
      else if b0 <? 194 then inr (Utf8Error pos (S pos) InvalidStart)
      else if b0 <? 224 then
        match r with
        | [] => inr (Utf8Error pos (S pos) EndOfData)
        | b1 :: r' =>
            if negb (is_cont b1) then ic 1%nat
            else cons_ok ((b0 - 192) * 64 + (b1 - 128)) (decode_utf8 r' (pos + 2))
        end
      else if b0 <? 240 then
        match r with
        | [] => inr (Utf8Error pos (S pos) EndOfData)
        | [b1] =>
            if negb (is_cont b1) || (if b1 <? 160 then b0 =? 224 else b0 =? 237) then ic 1%nat
            else inr (Utf8Error pos (pos + 2) EndOfData)
        | b1 :: b2 :: r' =>
            if negb (is_cont b1) then ic 1%nat
            else if (b0 =? 224) && (b1 <? 160) then ic 1%nat
            else if (b0 =? 237) && (160 <=? b1) then ic 1%nat
            else if negb (is_cont b2) then ic 2%nat
            else cons_ok ((b0 - 224) * 4096 + (b1 - 128) * 64 + (b2 - 128)) (decode_utf8 r' (pos + 3))
        end
      else if b0 <? 245 then
        match r with
        | [] => inr (Utf8Error pos (S pos) EndOfData)
        | [b1] =>
            if negb (is_cont b1) || (if b1 <? 144 then b0 =? 240 else b0 =? 244) then ic 1%nat
            else inr (Utf8Error pos (pos + 2) EndOfData)
        | [b1; b2] =>
            if negb (is_cont b1) || (if b1 <? 144 then b0 =? 240 else b0 =? 244) then ic 1%nat
            else if negb (is_cont b2) then ic 2%nat
            else inr (Utf8Error pos (pos + 3) EndOfData)
        | b1 :: b2 :: b3 :: r' =>
            if negb (is_cont b1) then ic 1%nat
            else if (b0 =? 240) && (b1 <? 144) then ic 1%nat
            else if (b0 =? 244) && (144 <=? b1) then ic 1%nat
            else if negb (is_cont b2) then ic 2%nat
            else if negb (is_cont b3) then ic 3%nat
            else cons_ok ((b0 - 240) * 262144 + (b1 - 128) * 4096 + (b2 - 128) * 64 + (b3 - 128))
                         (decode_utf8 r' (pos + 4))
        end
      else inr (Utf8Error pos (S pos) InvalidStart)
  end.

(** A Python source literal: the UTF-8 bytes of a Rocq string, decoded. *)
Definition py (s : string) : pystr :=
  match utf8_decode (map N_of_ascii (list_ascii_of_string s)) with
  | Some l => l
  | None => []
  end.

Example py_en_dash : py "1–2" = [49; 8211; 50].
Proof. reflexivity. Qed.

(** ** Which texts the codec accepts *)

Lemma utf8_encode1_scalar (c : N) :
  is_scalar c = true <-> exists b, utf8_encode1 c = Some b.
Proof.
  unfold is_scalar, utf8_encode1.
  destruct (N.ltb_spec c 128), (N.ltb_spec c 2048), (N.ltb_spec c 65536),
    (N.ltb_spec c 1114112), (N.leb_spec 55296 c), (N.leb_spec c 57343);
    simpl; split; intros Hx; try discriminate; try (destruct Hx; discriminate);
    eauto; lia.
Qed.

Lemma utf8_encode_app (s1 s2 : pystr) :
  utf8_encode (s1 ++ s2) =
  match utf8_encode s1, utf8_encode s2 with
  | Some b1, Some b2 => Some (b1 ++ b2)
  | _, _ => None
  end.
Proof.
  induction s1 as [|c s1 IH]; simpl.
  - now destruct (utf8_encode s2).
  - rewrite IH. destruct (utf8_encode1 c), (utf8_encode s1), (utf8_encode s2); try reflexivity.
    now rewrite app_assoc.
Qed.

(** [str.encode("utf-8")] succeeds exactly on texts without surrogates. *)
Lemma utf8_encode_scalars (s : pystr) :
  Forall (fun c => is_scalar c = true) s <-> exists b, utf8_encode s = Some b.
Proof.
  induction s as [|c s IH]; simpl.
  - split; eauto.
  - rewrite Forall_cons_iff, IH, utf8_encode1_scalar. split.
    + intros [[b1 ->] [b2 ->]]. eauto.
    + destruct (utf8_encode1 c), (utf8_encode s); intros [b Hb]; try discriminate; eauto.
Qed.

Lemma is_scalar_range (c : N) :
  c < 55296 \/ (57343 < c /\ c < 1114112) -> is_scalar c = true.
Proof.
  intros H. unfold is_scalar. apply andb_true_iff. split; [apply N.ltb_lt; lia|].
  apply negb_true_iff, andb_false_iff.
  destruct H; [left; apply N.leb_gt | right; apply N.leb_gt]; lia.
Qed.

(** ** Decoding undoes encoding *)

Ltac byte_cases :=
  repeat (match goal with
  | |- context [?a <? ?b] => destruct (N.ltb_spec a b)
  | |- context [?a <=? ?b] => destruct (N.leb_spec a b)
  | |- context [?a =? ?b] => destruct (N.eqb_spec a b)
  end; cbn [andb negb orb]; try lia).

Lemma utf8_decode_2 (b0 b1 : N) (r : bytes) :
  194 <= b0 <= 223 -> 128 <= b1 <= 191 ->
  utf8_decode (b0 :: b1 :: r) = option_map (cons ((b0 - 192) * 64 + (b1 - 128))) (utf8_decode r).
Proof. intros. cbn [utf8_decode]. unfold is_cont. byte_cases; reflexivity. Qed.

Lemma utf8_decode_3 (b0 b1 b2 : N) (r : bytes) :
  224 <= b0 <= 239 -> second_lo b0 <= b1 <= second_hi b0 -> 128 <= b2 <= 191 ->
  utf8_decode (b0 :: b1 :: b2 :: r) =
  option_map (cons ((b0 - 224) * 4096 + (b1 - 128) * 64 + (b2 - 128))) (utf8_decode r).
Proof. intros. cbn [utf8_decode]. unfold is_cont, in_second. byte_cases; reflexivity. Qed.

Lemma utf8_decode_4 (b0 b1 b2 b3 : N) (r : bytes) :
  240 <= b0 <= 244 -> second_lo b0 <= b1 <= second_hi b0 -> 128 <= b2 <= 191 -> 128 <= b3 <= 191 ->
  utf8_decode (b0 :: b1 :: b2 :: b3 :: r) =
  option_map (cons ((b0 - 240) * 262144 + (b1 - 128) * 4096 + (b2 - 128) * 64 + (b3 - 128)))
             (utf8_decode r).
Proof. intros. cbn [utf8_decode]. unfold is_cont, in_second. byte_cases; reflexivity. Qed.

Lemma some_inj {A} (x y : A) : Some x = Some y -> x = y.
Proof. congruence. Qed.

(** The base-64 digits of [c], as [lia] can use them. *)
Ltac base64_digits c :=
  let q1 := fresh "q" in let m1 := fresh "m" in let q2 := fresh "q" in
  let m2 := fresh "m" in let q3 := fresh "q" in let m3 := fresh "m" in
  pose proof (N.div_mod c 64 ltac:(lia)); pose proof (N.mod_lt c 64 ltac:(lia));
  pose proof (N.div_mod (c / 64) 64 ltac:(lia)); pose proof (N.mod_lt (c / 64) 64 ltac:(lia));
  pose proof (N.div_mod (c / 64 / 64) 64 ltac:(lia)); pose proof (N.mod_lt (c / 64 / 64) 64 ltac:(lia));
  replace (c / 4096) with (c / 64 / 64) in * by (rewrite N.Div0.div_div; reflexivity);
  replace (c / 262144) with (c / 64 / 64 / 64) in * by (rewrite !N.Div0.div_div; reflexivity);
  remember (c / 64 / 64 / 64) as q3; remember (c / 64 / 64 mod 64) as m3;
  remember (c / 64 / 64) as q2; remember (c / 64 mod 64) as m2;
  remember (c / 64) as q1; remember (c mod 64) as m1;
  repeat match goal with H : _ = _ / _ |- _ => clear H | H : _ = _ mod _ |- _ => clear H end.

Lemma utf8_decode_encode1 (c : N) (b r : bytes) :
  utf8_encode1 c = Some b -> utf8_decode (b ++ r) = option_map (cons c) (utf8_decode r).
Proof.
  unfold utf8_encode1. intros H. unfold second_lo, second_hi.
  destruct (N.ltb_spec c 128).
  { apply some_inj in H. subst b. cbn [app utf8_decode]. destruct (N.ltb_spec c 128); [reflexivity|lia]. }
  destruct (N.ltb_spec c 2048).
  { apply some_inj in H. subst b. cbn [app]. base64_digits c.
    rewrite utf8_decode_2 by lia. do 2 f_equal. lia. }
  destruct (N.ltb_spec c 65536).
  { destruct ((55296 <=? c) && (c <=? 57343)) eqn:S; [discriminate|].
    apply some_inj in H. subst b. cbn [app]. apply andb_false_iff in S.
    destruct S as [S|S]; apply N.leb_gt in S; base64_digits c;
    (rewrite utf8_decode_3; [do 2 f_equal; lia | lia | unfold second_lo, second_hi; byte_cases | lia]). }
  destruct (N.ltb_spec c 1114112); [|discriminate].
  apply some_inj in H. subst b. cbn [app]. base64_digits c.
  rewrite utf8_decode_4; [do 2 f_equal; lia | lia | unfold second_lo, second_hi; byte_cases | lia | lia].
Qed.

(** Decoding undoes encoding. *)
Theorem utf8_decode_encode (s : pystr) (b : bytes) :
  utf8_encode s = Some b -> utf8_decode b = Some s.
Proof.
  revert b; induction s as [|c s IH]; intros b H; simpl in H.
  - apply some_inj in H. now subst b.
  - destruct (utf8_encode1 c) as [b1|] eqn:E1; [|discriminate].
    destruct (utf8_encode s) as [b2|]; [|discriminate]. apply some_inj in H. subst b.
    rewrite (utf8_decode_encode1 c b1 b2 E1), (IH b2 eq_refl). reflexivity.
Qed.

Ltac bool_facts :=
  repeat match goal with
  | H : (_ && _) = true |- _ => apply andb_true_iff in H as [? ?]
  | H : (_ <=? _) = true |- _ => apply N.leb_le in H
  | H : (_ <? _) = true |- _ => apply N.ltb_lt in H
  | H : (_ <? _) = false |- _ => apply N.ltb_ge in H
  end.

(** Every code point [utf8_decode] produces is a scalar value. *)
Lemma utf8_decode_scalars (n : nat) :
  forall b s, (length b <= n)%nat -> utf8_decode b = Some s ->
  Forall (fun c => is_scalar c = true) s.
Proof.
  induction n as [|n IH]; intros [|b0 r] s Hn H; simpl in *;
    try (injection H as <-; constructor); try lia.
  assert (Rec : forall r' s', (length r' <= n)%nat -> utf8_decode r' = Some s' ->
                 forall c, is_scalar c = true -> option_map (cons c) (utf8_decode r') = Some s ->
                 Forall (fun c => is_scalar c = true) s).
  { intros r' s' Hl E c Hc Hs. rewrite E in Hs. injection Hs as <-.
    constructor; [exact Hc | eapply IH; eauto]. }
  destruct (b0 <? 128) eqn:L0.
  { destruct (utf8_decode r) eqn:E; [|discriminate].
    eapply Rec; [|exact E| |rewrite E; exact H]; [lia|]. apply is_scalar_range. bool_facts; lia. }
  destruct ((194 <=? b0) && (b0 <=? 223)) eqn:L2.
  { destruct r as [|b1 r']; [discriminate|]. destruct (is_cont b1) eqn:C1; [|discriminate].
    destruct (utf8_decode r') eqn:E; [|discriminate].
    eapply Rec; [|exact E| |rewrite E; exact H]; [simpl in Hn; lia|].
    unfold is_cont in C1. bool_facts. apply is_scalar_range. left; lia. }
  destruct ((224 <=? b0) && (b0 <=? 239)) eqn:L3.
  { destruct r as [|b1 [|b2 r']]; try discriminate.
    destruct (in_second b0 b1 && is_cont b2) eqn:C1; [|discriminate].
    destruct (utf8_decode r') eqn:E; [|discriminate].
    eapply Rec; [|exact E| |rewrite E; exact H]; [simpl in Hn; lia|].
    unfold in_second, second_lo, second_hi, is_cont in C1. bool_facts.
    apply is_scalar_range.
    destruct (N.eqb_spec b0 224), (N.eqb_spec b0 237), (N.eqb_spec b0 240), (N.eqb_spec b0 244);
      subst; lia. }
  destruct ((240 <=? b0) && (b0 <=? 244)) eqn:L4; [|discriminate].
  destruct r as [|b1 [|b2 [|b3 r']]]; try discriminate.
  destruct (in_second b0 b1 && is_cont b2 && is_cont b3) eqn:C1; [|discriminate].
  destruct (utf8_decode r') eqn:E; [|discriminate].
  eapply Rec; [|exact E| |rewrite E; exact H]; [simpl in Hn; lia|].
  unfold in_second, second_lo, second_hi, is_cont in C1. bool_facts.
  apply is_scalar_range. right.
  destruct (N.eqb_spec b0 224), (N.eqb_spec b0 237), (N.eqb_spec b0 240), (N.eqb_spec b0 244);
    subst; lia.
Qed.

(** ASCII bytes decode to themselves. *)
Lemma utf8_decode_ascii (b : bytes) :
  forallb (fun x => x <? 128) b = true -> utf8_decode b = Some b.
Proof.
  induction b as [|x b IH]; simpl; [reflexivity|]. intros H.
  apply andb_true_iff in H as [Hx Hb]. rewrite Hx, IH by exact Hb. reflexivity.
Qed.

(** A source literal of ASCII characters is its character codes. *)
Lemma py_ascii (s : string) :
  forallb (fun a => N_of_ascii a <? 128) (list_ascii_of_string s) = true ->
  py s = map N_of_ascii (list_ascii_of_string s).
Proof.
  intros H. unfold py. rewrite utf8_decode_ascii; [reflexivity|].
  rewrite forallb_map. exact H.
Qed.

(** ** Encoding undoes decoding *)

Lemma second_range (b0 b1 : N) : second_lo b0 <= b1 <= second_hi b0 -> 128 <= b1 <= 191.
Proof.
  unfold second_lo, second_hi.
  destruct (N.eqb_spec b0 224), (N.eqb_spec b0 237), (N.eqb_spec b0 240), (N.eqb_spec b0 244); lia.
Qed.

Lemma div_mod_eq (a k q r : N) : r < k -> a = q * k + r -> a / k = q /\ a mod k = r.
Proof.
  intros Hr ->. split; [symmetry; apply N.div_unique with r | symmetry; apply N.mod_unique with q]; lia.
Qed.

Lemma utf8_encode1_2 (b0 b1 : N) :
  194 <= b0 <= 223 -> 128 <= b1 <= 191 ->
  utf8_encode1 ((b0 - 192) * 64 + (b1 - 128)) = Some [b0; b1].
Proof.
  intros. remember ((b0 - 192) * 64 + (b1 - 128)) as c. unfold utf8_encode1.
  destruct (div_mod_eq c 64 (b0 - 192) (b1 - 128)) as [-> ->]; [lia|lia|].
  byte_cases. repeat f_equal; lia.
Qed.

Lemma utf8_encode1_3 (b0 b1 b2 : N) :
  224 <= b0 <= 239 -> second_lo b0 <= b1 <= second_hi b0 -> 128 <= b2 <= 191 ->
  utf8_encode1 ((b0 - 224) * 4096 + (b1 - 128) * 64 + (b2 - 128)) = Some [b0; b1; b2].
Proof.
  intros H0 H1 H2. pose proof (second_range b0 b1 H1).
  remember ((b0 - 224) * 4096 + (b1 - 128) * 64 + (b2 - 128)) as c.
  unfold utf8_encode1.
  destruct (div_mod_eq c 4096 (b0 - 224) ((b1 - 128) * 64 + (b2 - 128))) as [-> _]; [lia|lia|].
  destruct (div_mod_eq c 64 ((b0 - 224) * 64 + (b1 - 128)) (b2 - 128)) as [-> ->]; [lia|lia|].
  destruct (div_mod_eq ((b0 - 224) * 64 + (b1 - 128)) 64 (b0 - 224) (b1 - 128)) as [_ ->]; [lia|lia|].
  unfold second_lo, second_hi in H1.
  destruct (N.eqb_spec b0 224), (N.eqb_spec b0 237), (N.eqb_spec b0 240), (N.eqb_spec b0 244);
    byte_cases; repeat f_equal; lia.
Qed.

Lemma utf8_encode1_4 (b0 b1 b2 b3 : N) :
  240 <= b0 <= 244 -> second_lo b0 <= b1 <= second_hi b0 -> 128 <= b2 <= 191 -> 128 <= b3 <= 191 ->
  utf8_encode1 ((b0 - 240) * 262144 + (b1 - 128) * 4096 + (b2 - 128) * 64 + (b3 - 128))
  = Some [b0; b1; b2; b3].
Proof.
  intros H0 H1 H2 H3. pose proof (second_range b0 b1 H1).
  remember ((b0 - 240) * 262144 + (b1 - 128) * 4096 + (b2 - 128) * 64 + (b3 - 128)) as c.
  unfold utf8_encode1.
  destruct (div_mod_eq c 262144 (b0 - 240) ((b1 - 128) * 4096 + (b2 - 128) * 64 + (b3 - 128)))
    as [-> _]; [lia|lia|].
  destruct (div_mod_eq c 4096 ((b0 - 240) * 64 + (b1 - 128)) ((b2 - 128) * 64 + (b3 - 128)))
    as [-> _]; [lia|lia|].
  destruct (div_mod_eq c 64 (((b0 - 240) * 64 + (b1 - 128)) * 64 + (b2 - 128)) (b3 - 128))
    as [-> ->]; [lia|lia|].
  destruct (div_mod_eq ((b0 - 240) * 64 + (b1 - 128)) 64 (b0 - 240) (b1 - 128)) as [_ ->]; [lia|lia|].
  destruct (div_mod_eq (((b0 - 240) * 64 + (b1 - 128)) * 64 + (b2 - 128)) 64
              ((b0 - 240) * 64 + (b1 - 128)) (b2 - 128)) as [_ ->]; [lia|lia|].
  unfold second_lo, second_hi in H1.
  destruct (N.eqb_spec b0 224), (N.eqb_spec b0 237), (N.eqb_spec b0 240), (N.eqb_spec b0 244);
    byte_cases; repeat f_equal; lia.
Qed.

Lemma option_map_cons_inv {A} (c : A) (o : option (list A)) (s : list A) :
  option_map (cons c) o = Some s -> exists s', o = Some s' /\ s = c :: s'.
Proof. destruct o as [s'|]; simpl; [intros H; apply some_inj in H; eauto | discriminate]. Qed.

Lemma utf8_encode_decode_len (n : nat) :
  forall b s, (length b <= n)%nat -> utf8_decode b = Some s -> utf8_encode s = Some b.
Proof.
  induction n as [|n IH]; intros [|b0 r] s Hn H; cbn [length] in Hn;
    try (simpl in H; apply some_inj in H; subst s; reflexivity); try lia.
  assert (Rec : forall c bs r', utf8_encode1 c = Some bs -> b0 :: r = bs ++ r' ->
                 (length r' <= n)%nat -> option_map (cons c) (utf8_decode r') = Some s ->
                 utf8_encode s = Some (b0 :: r)).
  { intros c bs r' Hc Hb Hl Hs. apply option_map_cons_inv in Hs as (s' & Hs' & ->).
    cbn [utf8_encode]. rewrite Hc, (IH r' s' Hl Hs'), Hb. reflexivity. }
  cbn [utf8_decode] in H.
  destruct (N.ltb_spec b0 128).
  { eapply (Rec b0 [b0] r); [| reflexivity | lia | exact H].
    unfold utf8_encode1. destruct (N.ltb_spec b0 128); [reflexivity | lia]. }
  destruct ((194 <=? b0) && (b0 <=? 223)) eqn:L2.
  { destruct r as [|b1 r']; [discriminate|]. destruct (is_cont b1) eqn:C1; [|discriminate].
    unfold is_cont in C1. bool_facts.
    eapply (Rec _ [b0; b1] r'); [apply utf8_encode1_2; lia | reflexivity | cbn [length] in Hn; lia | exact H]. }
  destruct ((224 <=? b0) && (b0 <=? 239)) eqn:L3.
  { destruct r as [|b1 [|b2 r']]; try discriminate.
    destruct (in_second b0 b1 && is_cont b2) eqn:C1; [|discriminate].
    unfold in_second, is_cont in C1. bool_facts.
    eapply (Rec _ [b0; b1; b2] r'); [apply utf8_encode1_3; lia | reflexivity | cbn [length] in Hn; lia | exact H]. }
  destruct ((240 <=? b0) && (b0 <=? 244)) eqn:L4; [|discriminate].
  destruct r as [|b1 [|b2 [|b3 r']]]; try discriminate.
  destruct (in_second b0 b1 && is_cont b2 && is_cont b3) eqn:C1; [|discriminate].
  unfold in_second, is_cont in C1. bool_facts.
  eapply (Rec _ [b0; b1; b2; b3] r'); [apply utf8_encode1_4; lia | reflexivity | cbn [length] in Hn; lia | exact H].
Qed.

Lemma utf8_encode1_bounds (c : N) (b : bytes) :
  utf8_encode1 c = Some b -> Forall (fun x => x < 256) b /\ (1 <= length b <= 4)%nat.
Proof.
  unfold utf8_encode1. intros H. base64_digits c.
  destruct (N.ltb_spec c 128).
  { apply some_inj in H. subst b. split; [repeat constructor; lia | simpl; lia]. }
  destruct (N.ltb_spec c 2048).
  { apply some_inj in H. subst b. split; [repeat constructor; lia | simpl; lia]. }
  destruct (N.ltb_spec c 65536).
  { destruct (_ && _); [discriminate|].
    apply some_inj in H. subst b. split; [repeat constructor; lia | simpl; lia]. }
  destruct (N.ltb_spec c 1114112); [|discriminate].
  apply some_inj in H. subst b. split; [repeat constructor; lia | simpl; lia].
Qed.

(** ** The error-reporting decoder agrees with the strict decoder *)

Lemma cons_ok_agree (c : N) (x : pystr + utf8_error) (o : option pystr) :
  match x with inl s => o = Some s | inr _ => o = None end ->
  match cons_ok c x with inl s => option_map (cons c) o = Some s | inr _ => option_map (cons c) o = None end.
Proof. destruct x; simpl; intros ->; reflexivity. Qed.

Ltac decode_cases :=
  unfold is_cont, in_second, second_lo, second_hi in *; cbn [negb orb andb] in *;
  repeat (match goal with
  | |- context [?a <? ?b] => destruct (N.ltb_spec a b)
  | |- context [?a <=? ?b] => destruct (N.leb_spec a b)
  | |- context [?a =? ?b] => destruct (N.eqb_spec a b)
  end; cbn [andb negb orb] in *; try lia);
  try reflexivity.

(** Rewrite the comparisons [lia] decides from the context. *)
Ltac resolve_cmp :=
  repeat match goal with
  | |- context [?x <? ?y] =>
      (rewrite (proj2 (N.ltb_lt x y)) by lia) || (rewrite (proj2 (N.ltb_ge x y)) by lia)
  | |- context [?x <=? ?y] =>
      (rewrite (proj2 (N.leb_le x y)) by lia) || (rewrite (proj2 (N.leb_gt x y)) by lia)
  end; cbn [andb orb negb].

(** The strict decoder's test on a three- or four-byte sequence is the
    conjunction of the tests CPython makes one by one. *)
Lemma in_second3 (b0 b1 b2 : N) : 224 <= b0 <= 239 ->
  in_second b0 b1 && is_cont b2 =
  negb (negb (is_cont b1) || (b0 =? 224) && (b1 <? 160) || (b0 =? 237) && (160 <=? b1)
        || negb (is_cont b2)).
Proof.
  intros. unfold in_second, second_lo, second_hi.
  destruct (N.eqb_spec b0 224), (N.eqb_spec b0 237), (N.eqb_spec b0 240), (N.eqb_spec b0 244);
    try lia; decode_cases.
Qed.

Lemma in_second4 (b0 b1 b2 b3 : N) : 240 <= b0 <= 244 ->
  in_second b0 b1 && is_cont b2 && is_cont b3 =
  negb (negb (is_cont b1) || (b0 =? 240) && (b1 <? 144) || (b0 =? 244) && (144 <=? b1)
        || negb (is_cont b2) || negb (is_cont b3)).
Proof.
  intros. unfold in_second, second_lo, second_hi.
  destruct (N.eqb_spec b0 224), (N.eqb_spec b0 237), (N.eqb_spec b0 240), (N.eqb_spec b0 244);
    try lia; decode_cases.
Qed.

(** Where the first tests fail, both decoders fail. *)
Ltac fail_chain :=
  repeat match goal with
  | |- context [if ?c then _ else _] => destruct c; cbn [orb andb negb]; try reflexivity
  end.

Lemma decode_utf8_agrees_len (n : nat) : forall b pos, (length b <= n)%nat ->
  match decode_utf8 b pos with inl s => utf8_decode b = Some s | inr _ => utf8_decode b = None end.
Proof.
  induction n as [|n IH]; intros [|b0 r] pos Hn; cbn [length] in Hn; try lia; try reflexivity.
  cbn [decode_utf8 utf8_decode].
  destruct (N.ltb_spec b0 128); [apply cons_ok_agree, IH; lia|].
  destruct (N.ltb_spec b0 194); [resolve_cmp; reflexivity|].
  destruct (N.ltb_spec b0 224).
  { resolve_cmp. destruct r as [|b1 r']; [reflexivity|]. cbn [length] in Hn.
    destruct (is_cont b1); cbn [negb]; [apply cons_ok_agree, IH; lia | reflexivity]. }
  destruct (N.ltb_spec b0 240).
  { resolve_cmp. destruct r as [|b1 [|b2 r']]; [reflexivity | fail_chain |]. cbn [length] in Hn.
    rewrite in_second3 by lia.
    destruct (negb (is_cont b1)), ((b0 =? 224) && (b1 <? 160)), ((b0 =? 237) && (160 <=? b1)),
      (negb (is_cont b2)); cbn [orb negb]; try reflexivity.
    apply cons_ok_agree, IH; lia. }
  destruct (N.ltb_spec b0 245).
  { resolve_cmp. destruct r as [|b1 [|b2 [|b3 r']]]; [reflexivity | fail_chain.. |]. cbn [length] in Hn.
    rewrite in_second4 by lia.
    destruct (negb (is_cont b1)), ((b0 =? 240) && (b1 <? 144)), ((b0 =? 244) && (144 <=? b1)),
      (negb (is_cont b2)), (negb (is_cont b3)); cbn [orb negb]; try reflexivity.
    apply cons_ok_agree, IH; lia. }
  resolve_cmp. reflexivity.
Qed.

Lemma decode_utf8_ok (b : bytes) (pos : nat) (s : pystr) :
  utf8_decode b = Some s -> decode_utf8 b pos = inl s.
Proof.
  intros H. pose proof (decode_utf8_agrees_len (length b) b pos (le_n _)) as A.
  destruct (decode_utf8 b pos); congruence.
Qed.

(** Decoding the bytes before an error: each step of [decode_utf8]
    that succeeds is a step of [utf8_decode] on any continuation. *)
Lemma decode_step_prefix (hs r : bytes) (c : N) :
  (forall t, utf8_decode (hs ++ t) = option_map (cons c) (utf8_decode t)) ->
  forall m s, utf8_decode (firstn m r) = Some s ->
  utf8_decode (firstn (length hs + m) (hs ++ r)) = Some (c :: s).
Proof.
  intros Hh m s Hs. rewrite firstn_app, firstn_all2 by lia.
  replace (length hs + m - length hs)%nat with m by lia. rewrite Hh, Hs. reflexivity.
Qed.

(** Where [decode_utf8] reports an error: inside the input, after a
    prefix that decodes; at the end of the input exactly when the data
    ends too early, before it for an invalid continuation byte. *)
Definition error_at (b : bytes) (pos : nat) (e : utf8_error) : Prop :=
  (pos <= err_start e < err_end e)%nat /\ (err_end e <= pos + length b)%nat /\
  (exists s, utf8_decode (firstn (err_start e - pos)%nat b) = Some s) /\
  (err_reason e = EndOfData -> err_end e = pos + length b)%nat /\
  (err_reason e = InvalidContinuation -> (err_end e < pos + length b)%nat).

Lemma error_at_here (b : bytes) (pos k : nat) (rs : utf8_reason) :
  (0 < k)%nat -> (k <= length b)%nat -> (rs = EndOfData -> k = length b)%nat ->
  (rs = InvalidContinuation -> (k < length b)%nat) ->
  error_at b pos (Utf8Error pos (pos + k)%nat rs).
Proof.
  intros H1 H2 H3 H4. unfold error_at; cbn [err_start err_end err_reason].
  replace (pos - pos)%nat with 0%nat by lia. cbn [firstn utf8_decode].
  split; [lia|]. split; [lia|]. split; [eauto|]. split; intros H; [rewrite (H3 H)|specialize (H4 H)]; lia.
Qed.

Lemma error_at_cons (hs r : bytes) (c : N) (pos : nat) (e : utf8_error) :
  hs <> [] -> (forall t, utf8_decode (hs ++ t) = option_map (cons c) (utf8_decode t)) ->
  error_at r (pos + length hs)%nat e -> error_at (hs ++ r) pos e.
Proof.
  intros Hne Hh (H1 & H2 & [s Hs] & H3 & H4). destruct hs as [|h hs']; [contradiction|].
  cbn [length] in *. unfold error_at. rewrite length_app. cbn [length].
  split; [lia|]. split; [lia|]. split.
  - exists (c :: s). replace (err_start e - pos)%nat with (length (h :: hs') + (err_start e - (pos + S (length hs'))))%nat
      by (cbn [length]; lia).
    apply decode_step_prefix; assumption.
  - split; intros H; [rewrite (H3 H) | specialize (H4 H)]; lia.
Qed.

Lemma cons_ok_inr (c : N) (x : pystr + utf8_error) (e : utf8_error) :
  cons_ok c x = inr e -> x = inr e.
Proof. destruct x; simpl; congruence. Qed.

(** An error raised at the first byte of the input. *)
Ltac err_here :=
  match goal with
  | H : inr (Utf8Error ?p ?q ?rs) = inr ?e |- _ =>
      injection H as <-;
      replace q with (p + (q - p))%nat by lia;
      apply error_at_here; cbn [length] in *; try lia; intros ?Hr; try discriminate; lia
  end.

(** Split the tests of [decode_utf8] in the order CPython makes them. *)
Ltac err_chain :=
  repeat match goal with
  | H : (if ?c then _ else _) = inr _ |- _ =>
      let C := fresh "C" in destruct c eqn:C; [try err_here|]
  | H : inr _ = inr _ |- _ => err_here
  end.

Lemma decode_utf8_error_at_len (n : nat) : forall b pos e, (length b <= n)%nat ->
  decode_utf8 b pos = inr e -> error_at b pos e.
Proof.
  induction n as [|n IH]; intros [|b0 r] pos e Hn H; cbn [length] in Hn; try lia; try discriminate.
  cbn [decode_utf8] in H.
  destruct (N.ltb_spec b0 128).
  { apply cons_ok_inr in H. change (b0 :: r) with ([b0] ++ r). apply (error_at_cons [b0] r b0).
    - discriminate.
    - intros t. cbn [app utf8_decode]. destruct (N.ltb_spec b0 128); [reflexivity | lia].
    - replace (pos + length [b0])%nat with (S pos) by (cbn; lia). apply IH; [lia | exact H]. }
  destruct (N.ltb_spec b0 194); [err_here|].
  destruct (N.ltb_spec b0 224).
  { destruct r as [|b1 r']; [err_here|]. cbn [length] in Hn. err_chain.
    apply cons_ok_inr in H. change (b0 :: b1 :: r') with ([b0; b1] ++ r').
    apply (error_at_cons [b0; b1] r' ((b0 - 192) * 64 + (b1 - 128))); [discriminate | |].
    - intros t. unfold is_cont in C. apply negb_false_iff in C. bool_facts. apply utf8_decode_2; lia.
    - apply IH; [lia | exact H]. }
  destruct (N.ltb_spec b0 240).
  { destruct r as [|b1 [|b2 r']]; [err_here | err_chain |]. cbn [length] in Hn. err_chain.
    assert (Hs : in_second b0 b1 && is_cont b2 = true)
      by (rewrite in_second3 by lia; rewrite C, C0, C1, C2; reflexivity).
    apply andb_true_iff in Hs as [Hs1 Hs2]. unfold in_second, is_cont in Hs1, Hs2. bool_facts.
    apply cons_ok_inr in H. change (b0 :: b1 :: b2 :: r') with ([b0; b1; b2] ++ r').
    apply (error_at_cons [b0; b1; b2] r' ((b0 - 224) * 4096 + (b1 - 128) * 64 + (b2 - 128)));
      [discriminate | intros t; apply utf8_decode_3; lia | apply IH; [lia | exact H]]. }
  destruct (N.ltb_spec b0 245).
  { destruct r as [|b1 [|b2 [|b3 r']]]; [err_here | err_chain | err_chain |]. cbn [length] in Hn. err_chain.
    assert (Hs : in_second b0 b1 && is_cont b2 && is_cont b3 = true)
      by (rewrite in_second4 by lia; rewrite C, C0, C1, C2, C3; reflexivity).
    apply andb_true_iff in Hs as [Hs Hs3]. apply andb_true_iff in Hs as [Hs1 Hs2].
    unfold in_second, is_cont in Hs1, Hs2, Hs3. bool_facts.
    apply cons_ok_inr in H. change (b0 :: b1 :: b2 :: b3 :: r') with ([b0; b1; b2; b3] ++ r').
    apply (error_at_cons [b0; b1; b2; b3] r'
             ((b0 - 240) * 262144 + (b1 - 128) * 4096 + (b2 - 128) * 64 + (b3 - 128)));
      [discriminate | intros t; apply utf8_decode_4; lia | apply IH; [lia | exact H]]. }
  err_here.
Qed.

(** ** Theorems *)

(** C35.  [s.encode("utf-8")] succeeds on every text without surrogates
    and [bytes.decode("utf-8")] gives the text back. *)
Theorem utf8_roundtrip (s : pystr) :
  Forall (fun c => is_scalar c = true) s ->
  exists b, utf8_encode s = Some b /\ utf8_decode b = Some s.
Proof.
  intros H. destruct (proj1 (utf8_encode_scalars s) H) as [b Hb].
  exists b. split; [exact Hb | exact (utf8_decode_encode s b Hb)].
Qed.

Lemma utf8_roundtrip_witness :
  exists b, utf8_encode (py "1–2") = Some b /\ utf8_decode b = Some (py "1–2").
Proof. apply utf8_roundtrip. change (py "1–2") with [49; 8211; 50]. repeat constructor. Defined.

(** C12.  [bytes.decode("utf-8")] followed by [str.encode("utf-8")]
    gives the bytes back: the decoder accepts only the shortest form of
    each scalar value, which is the form the encoder writes. *)
Theorem utf8_encode_decode (b : bytes) (s : pystr) :
  utf8_decode b = Some s -> utf8_encode s = Some b.
Proof. apply (utf8_encode_decode_len (length b)). lia. Qed.

Lemma utf8_encode_decode_witness :
  utf8_decode [49; 226; 128; 147; 240; 159; 152; 128] = Some [49; 8211; 128512] /\
  utf8_encode [49; 8211; 128512] = Some [49; 226; 128; 147; 240; 159; 152; 128].
Proof. split; [reflexivity | apply utf8_encode_decode; reflexivity]. Defined.

(** C13.  [str.encode("utf-8")] writes bytes: every value is below 256,
    and a text of [n] code points takes between [n] and [4 * n] bytes. *)
Theorem utf8_encode_bounds (s : pystr) (b : bytes) :
  utf8_encode s = Some b ->
  Forall (fun x => x < 256) b /\ (length s <= length b <= 4 * length s)%nat.
Proof.
  revert b; induction s as [|c s IH]; intros b H; cbn [utf8_encode] in H.
  - apply some_inj in H. subst b. split; [constructor | simpl; lia].
  - destruct (utf8_encode1 c) as [b1|] eqn:E1; [|discriminate].
    destruct (utf8_encode s) as [b2|]; [|discriminate]. apply some_inj in H. subst b.
    destruct (utf8_encode1_bounds c b1 E1) as [F1 L1]. destruct (IH b2 eq_refl) as [F2 L2].
    split; [apply Forall_app; split; assumption | rewrite length_app; cbn [length]; lia].
Qed.

Lemma utf8_encode_bounds_witness :
  utf8_encode [49; 8211; 128512] = Some [49; 226; 128; 147; 240; 159; 152; 128] /\
  Forall (fun x => x < 256) [49; 226; 128; 147; 240; 159; 152; 128] /\ (3 <= 8 <= 4 * 3)%nat.
Proof.
  assert (H : utf8_encode [49; 8211; 128512] = Some [49; 226; 128; 147; 240; 159; 152; 128])
    by reflexivity.
  split; [exact H|]. exact (utf8_encode_bounds _ _ H).
Defined.

(** C14.  The decoder that reports errors ([decode_utf8], CPython's
    [unicode_decode_utf8]) accepts exactly what the strict decoder
    accepts and decodes it to the same text. *)
Theorem decode_utf8_agrees (b : bytes) :
  (forall s, decode_utf8 b 0 = inl s <-> utf8_decode b = Some s) /\
  ((exists e, decode_utf8 b 0 = inr e) <-> utf8_decode b = None).
Proof.
  pose proof (decode_utf8_agrees_len (length b) b 0 (le_n _)) as A.
  destruct (decode_utf8 b 0) as [s'|e]; split.
  - intros s. split; [intros [= <-]; exact A | rewrite A; intros [= ->]; reflexivity].
  - split; [intros [e H]; discriminate | rewrite A; discriminate].
  - intros s. split; [discriminate | rewrite A; discriminate].
  - split; [intros _; exact A | intros _; eauto].
Qed.

(** C15.  The range of [UnicodeDecodeError] is where decoding stops: it lies
    in the input, everything before it decodes, it reaches the end of
    the input for [unexpected end of data] and stops before it for an
    [invalid continuation byte]. *)
Theorem decode_utf8_error (b : bytes) (e : utf8_error) :
  decode_utf8 b 0 = inr e ->
  (err_start e < err_end e <= length b)%nat /\
  (exists s, utf8_decode (firstn (err_start e) b) = Some s) /\
  (err_reason e = EndOfData -> err_end e = length b) /\
  (err_reason e = InvalidContinuation -> (err_end e < length b)%nat).
Proof.
  intros H. destruct (decode_utf8_error_at_len (length b) b 0 e (le_n _) H) as (H1 & H2 & H3 & H4 & H5).
  replace (err_start e - 0)%nat with (err_start e) in H3 by lia. cbn [Nat.add] in *.
  repeat split; auto; lia.
Qed.

Lemma decode_utf8_error_witness :
  decode_utf8 [83; 233] 0 = inr (Utf8Error 1 2 EndOfData) /\
  (1 < 2 <= length [83; 233])%nat /\ (exists s, utf8_decode (firstn 1 [83; 233]) = Some s) /\
  (EndOfData = EndOfData -> 2%nat = length [83; 233]) /\
  (EndOfData = InvalidContinuation -> (2 < length [83; 233])%nat).
Proof.
  assert (H : decode_utf8 [83; 233] 0 = inr (Utf8Error 1 2 EndOfData)) by reflexivity.
  split; [exact H | exact (decode_utf8_error _ _ H)].
Defined.
