(* ===== verification/PyStr.v ===== *)
(** * The Python [str] operations the program calls

    [extract_speaker_filler_counts] calls [str.strip], [str.splitlines],
    [str.lower] and [" ".join]; [run_bullshit_meter] calls [str.format],
    f-strings over [int], [str.split] and ["\\n".join].  Each is a
    definition here, written after CPython's algorithm.

    Character properties come from the Unicode database, an interface
    ([Class UnicodeDB]) with the laws CPython's database satisfies on
    ASCII ([UnicodeDB_ok]); general theorems are proved against the
    interface, and [latin1_db] is an instance, exact on U+0000..U+00FF,
    used to evaluate concrete runs. *)

From Stdlib Require Import Ascii String List NArith Lia Bool.
From Stdlib Require Import DecimalString.
From S2P Require Import Prelude Utf8.
Import ListNotations.
Local Open Scope N_scope.

(** ** The Unicode character database *)

Class UnicodeDB := {
  u_lower : N -> pystr;       (** full lower-case mapping ([str.lower]) *)
  u_isspace : N -> bool;      (** [str.isspace], [\s] of [re] *)
  u_linebreak : N -> bool;    (** the boundaries of [str.splitlines] *)
  u_isdecimal : N -> bool;    (** [\d] of [re] *)
  u_isalnum : N -> bool;      (** [str.isalnum]; [\w] adds [_] *)
  u_isprintable : N -> bool   (** [Py_UNICODE_ISPRINTABLE], used by [repr] *)
}.

Definition in_range (lo hi c : N) : bool := (lo <=? c) && (c <=? hi).

Definition ascii_lower (c : N) : N := if in_range 65 90 c then c + 32 else c.
Definition ascii_space (c : N) : bool := in_range 9 13 c || in_range 28 32 c.
Definition ascii_linebreak (c : N) : bool := in_range 10 13 c || in_range 28 30 c.
Definition ascii_decimal (c : N) : bool := in_range 48 57 c.
Definition ascii_alnum (c : N) : bool :=
  in_range 48 57 c || in_range 65 90 c || in_range 97 122 c.

Class UnicodeDB_ok (U : UnicodeDB) := {
  u_lower_ascii : forall c, c < 128 -> u_lower c = [ascii_lower c];
  u_isspace_ascii : forall c, c < 128 -> u_isspace c = ascii_space c;
  u_linebreak_ascii : forall c, c < 128 -> u_linebreak c = ascii_linebreak c;
  u_isdecimal_ascii : forall c, c < 128 -> u_isdecimal c = ascii_decimal c;
  u_isalnum_ascii : forall c, c < 128 -> u_isalnum c = ascii_alnum c;
  u_isprintable_ascii : forall c, c < 128 -> u_isprintable c = in_range 32 126 c
}.

(** The instance used for concrete runs: CPython's tables on Latin-1
    (U+0000..U+00FF) and on every white-space and line-break code point;
    above U+00FF it treats letters and digits as neither (its case mapping
    is the identity there), so it is exact on Latin-1 text and on the
    prompt's U+2013. *)
Definition latin1_space (c : N) : bool :=
  ascii_space c || (c =? 133) || (c =? 160) || (c =? 5760)
  || in_range 8192 8202 c || (c =? 8232) || (c =? 8233) || (c =? 8239)
  || (c =? 8287) || (c =? 12288).

Definition latin1_linebreak (c : N) : bool :=
  ascii_linebreak c || (c =? 133) || (c =? 8232) || (c =? 8233).

Definition latin1_alpha (c : N) : bool :=
  in_range 65 90 c || in_range 97 122 c || (c =? 170) || (c =? 181) || (c =? 186)
  || in_range 192 214 c || in_range 216 246 c || in_range 248 255 c.

Definition latin1_numeric (c : N) : bool :=
  ascii_decimal c || (c =? 178) || (c =? 179) || (c =? 185) || in_range 188 190 c.

(** Printable: not a control, format, surrogate, private-use, unassigned
    or separator code point, the space excepted.  On Latin-1 that leaves
    U+0020..U+007E, U+00A1..U+00AC and U+00AE..U+00FF; above, every code
    point but the surrogates and the separators of [latin1_space]. *)
Definition latin1_printable (c : N) : bool :=
  in_range 32 126 c || in_range 161 172 c || in_range 174 255 c
  || ((255 <? c) && negb (in_range 55296 57343 c) && negb (latin1_space c)).

#[export] Instance latin1_db : UnicodeDB := {
  u_lower c := [if in_range 65 90 c || in_range 192 214 c || in_range 216 222 c
                then c + 32 else c];
  u_isspace := latin1_space;
  u_linebreak := latin1_linebreak;
  u_isdecimal := ascii_decimal;
  u_isalnum c := latin1_alpha c || latin1_numeric c;
  u_isprintable := latin1_printable
}.

Lemma in_range_above (lo hi c : N) : c < lo -> in_range lo hi c = false.
Proof. intros H. unfold in_range. destruct (N.leb_spec lo c); [lia|reflexivity]. Qed.

Lemma eqb_above (c k : N) : c < k -> (c =? k) = false.
Proof. intros H. apply N.eqb_neq. lia. Qed.

(** On ASCII the Latin-1 tables are the ASCII ones. *)
#[export] Instance latin1_db_ok : UnicodeDB_ok latin1_db.
Proof.
  split; intros c Hc; cbn [u_lower u_isspace u_linebreak u_isdecimal u_isalnum u_isprintable latin1_db];
    unfold ascii_lower, latin1_space, latin1_linebreak, latin1_alpha, latin1_numeric, ascii_alnum,
      latin1_printable;
    rewrite ?(in_range_above 161 172 c), ?(in_range_above 174 255 c), ?(proj2 (N.ltb_ge 255 c)) by lia;
    rewrite ?(in_range_above 192 214 c), ?(in_range_above 216 222 c),
      ?(in_range_above 8192 8202 c), ?(in_range_above 188 190 c),
      ?(in_range_above 216 246 c), ?(in_range_above 248 255 c),
      ?(eqb_above c 133), ?(eqb_above c 160), ?(eqb_above c 5760), ?(eqb_above c 8232),
      ?(eqb_above c 8233), ?(eqb_above c 8239), ?(eqb_above c 8287), ?(eqb_above c 12288),
      ?(eqb_above c 170), ?(eqb_above c 181), ?(eqb_above c 186), ?(eqb_above c 178),
      ?(eqb_above c 179), ?(eqb_above c 185) by lia;
    rewrite ?orb_false_r; try reflexivity.
  unfold ascii_decimal.
  destruct (in_range 48 57 c), (in_range 65 90 c), (in_range 97 122 c); reflexivity.
Qed.

(** ** Lower-case hexadecimal digits, as [repr] and [json] write them *)

Definition hex_digit (n : N) : N := if (n <? 10) then (48 + n)%N else (87 + n)%N.

Definition hex4 (n : N) : pystr :=
  [hex_digit (N.shiftr n 12 mod 16); hex_digit (N.shiftr n 8 mod 16);
   hex_digit (N.shiftr n 4 mod 16); hex_digit (n mod 16)]%N.

(** ** [repr] of a [str] *)

Definition quote_char : N := 39%N.   (* ' *)
Definition dquote_char : N := 34%N.  (* the double quote *)

(** [n] in [k] lower-case hexadecimal digits. *)
Fixpoint hex_digits (k : nat) (n : N) : pystr :=
  match k with
  | O => []
  | S k' => hex_digits k' (n / 16) ++ [hex_digit (n mod 16)]
  end.

Section Repr.
Context `{U : UnicodeDB}.

(** [unicode_repr] ([Objects/unicodeobject.c]): the single quote, unless
    the text holds one and no double quote. *)
Definition repr_quote (s : pystr) : N :=
  if existsb (N.eqb 39) s && negb (existsb (N.eqb 34) s) then 34 else 39.

(** One code point of [repr] between the quotes [q]. *)
Definition repr_char (q c : N) : pystr :=
  if (c =? q) || (c =? 92) then [92; c]
  else if c =? 9 then [92; 116]
  else if c =? 10 then [92; 110]
  else if c =? 13 then [92; 114]
  else if (c <? 32) || (c =? 127) then [92; 120] ++ hex_digits 2 c
  else if c <? 127 then [c]
  else if u_isprintable c then [c]
  else if c <=? 255 then [92; 120] ++ hex_digits 2 c
  else if c <=? 65535 then [92; 117] ++ hex_digits 4 c
  else [92; 85] ++ hex_digits 8 c.

(** [repr] of a [str]. *)
Definition py_repr (s : pystr) : pystr :=
  let q := repr_quote s in [q] ++ flat_map (repr_char q) s ++ [q].

End Repr.

Section Strings.
Context `{U : UnicodeDB}.

(** ** [str.lower] *)
Definition py_lower (s : pystr) : pystr := flat_map u_lower s.

(** ** [str.strip()]: drop leading and trailing white space *)
Fixpoint lstrip (s : pystr) : pystr :=
  match s with
  | c :: s' => if u_isspace c then lstrip s' else s
  | [] => []
  end.

Definition py_strip (s : pystr) : pystr := rev (lstrip (rev (lstrip s))).

(** ** [str.splitlines()]

    CPython's loop: a line ends at a line-break code point, a CR LF pair
    counting as one break; the segment after the last break is a line
    only when it is not empty.  [cur] holds the current line reversed. *)
Fixpoint splitlines_aux (s cur : pystr) : list pystr :=
  match s with
  | [] => match cur with [] => [] | _ => [rev cur] end
  | c :: s' =>
      if u_linebreak c then
        match s' with
        | d :: s'' =>
            if (c =? 13) && (d =? 10) then rev cur :: splitlines_aux s'' []
            else rev cur :: splitlines_aux s' []
        | [] => [rev cur]
        end
      else splitlines_aux s' (c :: cur)
  end.

Definition py_splitlines (s : pystr) : list pystr := splitlines_aux s [].

(** ** [sep.join(parts)] *)
Fixpoint py_join (sep : pystr) (parts : list pystr) : pystr :=
  match parts with
  | [] => []
  | [p] => p
  | p :: ps => p ++ sep ++ py_join sep ps
  end.

(** ** [str.split(sep)] with an explicit separator

    [find_sub sep s] is the leftmost occurrence of [sep] in [s], as the
    text before it and the text after it. *)
Fixpoint find_sub (sep s : pystr) : option (pystr * pystr) :=
  if is_prefix sep s then Some ([], skipn (length sep) s)
  else match s with
       | [] => None
       | c :: s' =>
           match find_sub sep s' with
           | Some (b, a) => Some (c :: b, a)
           | None => None
           end
       end.

Fixpoint split_fuel (fuel : nat) (sep s : pystr) : list pystr :=
  match fuel with
  | O => [s]
  | S f =>
      match find_sub sep s with
      | Some (b, a) => b :: split_fuel f sep a
      | None => [s]
      end
  end.

(** [str.split] raises [ValueError("empty separator")] on an empty
    separator; each occurrence consumes at least one code point, so
    [length s + 1] rounds are enough ([split_fuel_spec]). *)
Definition py_split (sep s : pystr) : res (list pystr) :=
  match sep with
  | [] => Raise (Exc ValueError (py "empty separator"))
  | _ => Ok (split_fuel (S (length s)) sep s)
  end.

(** ** [str.count(sub)]: non-overlapping occurrences, left to right

    [count_from sub s k] skips [k] code points (the rest of the last
    occurrence found) before looking again; an empty [sub] occurs
    [len(s) + 1] times. *)
Fixpoint count_from (sub s : pystr) (skip : nat) : nat :=
  match s with
  | [] => 0
  | _ :: s' =>
      match skip with
      | S k => count_from sub s' k
      | O => if is_prefix sub s then S (count_from sub s' (pred (length sub)))
             else count_from sub s' 0
      end
  end.

Definition py_count (sub s : pystr) : nat :=
  match sub with
  | [] => S (length s)
  | _ => count_from sub s 0
  end.

(** ** [template.format(transcript=...)]: named fields

    [fmt_aux s field kw]: [field] is [Some acc] inside [{...}] with the
    name read so far reversed.  [{{] and [}}] are literal braces; a field
    is looked up in [kw] ([KeyError] when absent); an empty or numeric
    name is a positional field and there are no positional arguments
    ([IndexError]); conversions, format specs, attribute and index
    lookups are not modelled. *)
Definition field_value (name : pystr) (kw : list (pystr * pystr)) : res pystr :=
  if existsb (fun c => (c =? 33) || (c =? 58) || (c =? 46) || (c =? 91)) name
  then Raise (Exc Unmodelled (py "conversion, format spec or lookup in a field"))
  else if forallb (in_range 48 57) name
  then Raise (Exc IndexError (py "Replacement index out of range for positional args tuple"))
  else match find (fun kv => pystr_eqb (fst kv) name) kw with
       | Some (_, v) => Ok v
       | None => Raise (Exc KeyError (py_repr name))
       end.

Fixpoint fmt_aux (s : pystr) (field : option pystr) (kw : list (pystr * pystr)) : res pystr :=
  match field with
  | Some acc =>
      match s with
      | [] => Raise (Exc ValueError (py "expected '}' before end of string"))
      | c :: s' =>
          if c =? 125 then
            res_bind (field_value (rev acc) kw) (fun v =>
            res_bind (fmt_aux s' None kw) (fun r => Ok (v ++ r)))
          else if c =? 123 then Raise (Exc ValueError (py "unexpected '{' in field name"))
          else fmt_aux s' (Some (c :: acc)) kw
      end
  | None =>
      match s with
      | [] => Ok []
      | c :: s' =>
          if c =? 123 then
            match s' with
            | d :: s'' =>
                if d =? 123 then res_bind (fmt_aux s'' None kw) (fun r => Ok (123 :: r))
                else fmt_aux s' (Some []) kw
            | [] => Raise (Exc ValueError (py "Single '{' encountered in format string"))
            end
          else if c =? 125 then
            match s' with
            | d :: s'' =>
                if d =? 125 then res_bind (fmt_aux s'' None kw) (fun r => Ok (125 :: r))
                else Raise (Exc ValueError (py "Single '}' encountered in format string"))
            | [] => Raise (Exc ValueError (py "Single '}' encountered in format string"))
            end
          else res_bind (fmt_aux s' None kw) (fun r => Ok (c :: r))
      end
  end.

Definition py_format (template : pystr) (kw : list (pystr * pystr)) : res pystr :=
  fmt_aux template None kw.

Definition brace_free (s : pystr) : bool :=
  forallb (fun c => negb ((c =? 123) || (c =? 125))) s.

Lemma fmt_brace_free (a rest : pystr) kw :
  brace_free a = true ->
  fmt_aux (a ++ rest) None kw = res_bind (fmt_aux rest None kw) (fun r => Ok (a ++ r)).
Proof.
  induction a as [|c a IH]; intros H; simpl.
  - now destruct (fmt_aux rest None kw).
  - simpl in H. apply andb_true_iff in H as [Hc Ha].
    destruct (c =? 123) eqn:E1; [discriminate|]. destruct (c =? 125) eqn:E2; [discriminate|].
    rewrite IH by exact Ha. now destruct (fmt_aux rest None kw).
Qed.

Lemma fmt_field (name rest : pystr) kw acc :
  brace_free name = true ->
  fmt_aux (name ++ 125 :: rest) (Some acc) kw =
  res_bind (field_value (rev acc ++ name) kw) (fun v =>
  res_bind (fmt_aux rest None kw) (fun r => Ok (v ++ r))).
Proof.
  revert acc; induction name as [|c name IH]; intros acc H; simpl.
  - now rewrite app_nil_r.
  - simpl in H. apply andb_true_iff in H as [Hc Ha].
    destruct (c =? 125) eqn:E1; [rewrite orb_true_r in Hc; discriminate|].
    destruct (c =? 123) eqn:E2; [discriminate|].
    rewrite IH by exact Ha. simpl. now rewrite <- app_assoc.
Qed.

(** ** [split] and [join] *)

Lemma is_prefix_app_r (w s r : pystr) : is_prefix w s = true -> is_prefix w (s ++ r) = true.
Proof. rewrite !is_prefix_spec. intros [x ->]. exists (x ++ r). now rewrite app_assoc. Qed.

Lemma is_prefix_app_l (p w s : pystr) : is_prefix w s = true -> is_prefix (p ++ w) (p ++ s) = true.
Proof. rewrite !is_prefix_spec. intros [x ->]. exists x. now rewrite app_assoc. Qed.

Lemma is_prefix_nil_r (w : pystr) : w <> [] -> is_prefix w [] = false.
Proof. destruct w; [congruence | reflexivity]. Qed.

Lemma find_sub_some (sep s b a : pystr) :
  find_sub sep s = Some (b, a) -> s = b ++ sep ++ a.
Proof.
  revert b; induction s as [|c s IH]; intros b H; simpl in H.
  - destruct (is_prefix sep []) eqn:E; [|discriminate].
    injection H as <- <-. apply is_prefix_spec in E as [r Er]. simpl. now destruct sep, r.
  - destruct (is_prefix sep (c :: s)) eqn:E.
    + injection H as <- <-. apply is_prefix_spec in E as [r Er]. rewrite Er.
      simpl. now rewrite skipn_app, PeanoNat.Nat.sub_diag, skipn_all.
    + destruct (find_sub sep s) as [[b' a']|]; [|discriminate].
      injection H as <- <-. simpl. now rewrite (IH b' eq_refl).
Qed.

(** The text before the leftmost occurrence holds no occurrence. *)
Lemma find_sub_before (sep s b a : pystr) :
  sep <> [] -> find_sub sep s = Some (b, a) -> find_sub sep b = None.
Proof.
  intros Hsep. revert b; induction s as [|c s IH]; intros b H; simpl in H.
  - rewrite is_prefix_nil_r in H by exact Hsep. discriminate.
  - destruct (is_prefix sep (c :: s)) eqn:E.
    + injection H as <- <-. destruct sep; [congruence|reflexivity].
    + destruct (find_sub sep s) as [[b' a']|] eqn:F; [|discriminate].
      injection H as <- <-. simpl.
      rewrite (IH b' eq_refl).
      destruct (is_prefix sep (c :: b')) eqn:E'; [|reflexivity].
      apply find_sub_some in F. subst s.
      apply (is_prefix_app_r _ _ (sep ++ a')) in E'. simpl in E'. congruence.
Qed.

Lemma split_fuel_nonempty f sep s : split_fuel f sep s <> [].
Proof. destruct f; simpl; [congruence|]. destruct (find_sub sep s) as [[]|]; congruence. Qed.

Lemma py_join_cons sep p l : l <> [] -> py_join sep (p :: l) = p ++ sep ++ py_join sep l.
Proof. destruct l; [congruence | reflexivity]. Qed.

Lemma split_fuel_spec (sep : pystr) (f : nat) :
  sep <> [] -> forall s, (length s < f)%nat ->
  py_join sep (split_fuel f sep s) = s /\
  Forall (fun p => find_sub sep p = None) (split_fuel f sep s).
Proof.
  intros Hsep; induction f as [|f IH]; intros s Hs; [lia|]. simpl.
  destruct (find_sub sep s) as [[b a]|] eqn:F; [|split; [reflexivity | now repeat constructor]].
  pose proof (find_sub_some _ _ _ _ F) as Es.
  assert (length a < f)%nat.
  { rewrite Es, !length_app in Hs. destruct sep; [congruence|simpl in Hs; lia]. }
  destruct (IH a H) as [J A]. split.
  - rewrite py_join_cons by apply split_fuel_nonempty. now rewrite J.
  - constructor; [exact (find_sub_before _ _ _ _ Hsep F) | exact A].
Qed.

Lemma py_join_firstn_prefix sep (l : list pystr) n :
  is_prefix (py_join sep (firstn n l)) (py_join sep l) = true.
Proof.
  revert n; induction l as [|p l IH]; intros [|n]; simpl; try reflexivity.
  destruct l as [|q l]; [destruct n; simpl; apply is_prefix_spec; exists []; now rewrite app_nil_r|].
  destruct n as [|n]; simpl; [apply is_prefix_app|].
  apply is_prefix_app_l, is_prefix_app_l. exact (IH (S n)).
Qed.

(** ** Containment: [strip] and [splitlines] only select code points *)

Lemma lstrip_incl (s : pystr) (c : N) : In c (lstrip s) -> In c s.
Proof.
  induction s as [|d s IH]; simpl; [tauto|].
  destruct (u_isspace d); simpl; intuition.
Qed.

Lemma py_strip_incl (s : pystr) (c : N) : In c (py_strip s) -> In c s.
Proof.
  unfold py_strip. intros H.
  apply in_rev, lstrip_incl, in_rev, lstrip_incl in H. exact H.
Qed.

Lemma splitlines_aux_incl (n : nat) :
  forall (s cur l : pystr) (c : N), (length s <= n)%nat ->
  In l (splitlines_aux s cur) -> In c l -> In c s \/ In c cur.
Proof.
  induction n as [|n IH]; intros [|d s] cur l c Hn Hl Hc; simpl in Hl, Hn;
    try (destruct cur; [destruct Hl|]; destruct Hl as [<-|[]]; right; now apply in_rev);
    try lia.
  destruct (u_linebreak d).
  - destruct s as [|e s].
    + destruct Hl as [<-|[]]. right. now apply in_rev.
    + destruct ((d =? 13) && (e =? 10)); destruct Hl as [<-|Hl];
        try (right; now apply in_rev).
      * destruct (IH s [] l c ltac:(simpl in Hn; lia) Hl Hc) as [H|[]]. left; simpl; tauto.
      * destruct (IH (e :: s) [] l c ltac:(simpl in *; lia) Hl Hc) as [H|[]]. left; simpl; tauto.
  - destruct (IH s (d :: cur) l c ltac:(lia) Hl Hc) as [H|[<-|H]]; simpl; tauto.
Qed.

Lemma py_splitlines_incl (s l : pystr) (c : N) :
  In l (py_splitlines s) -> In c l -> In c s.
Proof.
  intros Hl Hc. destruct (splitlines_aux_incl (length s) s [] l c (le_n _) Hl Hc) as [H|[]].
  exact H.
Qed.

(** No piece of [splitlines] holds a line boundary. *)
Lemma splitlines_aux_nolb (n : nat) :
  forall (s cur l : pystr), (length s <= n)%nat ->
  Forall (fun c => u_linebreak c = false) cur ->
  In l (splitlines_aux s cur) -> Forall (fun c => u_linebreak c = false) l.
Proof.
  induction n as [|n IH]; intros [|d s] cur l Hn Hcur Hl; simpl in Hl, Hn;
    try (destruct cur; [destruct Hl|]; destruct Hl as [<-|[]]; now apply Forall_rev);
    try lia.
  destruct (u_linebreak d) eqn:Ed.
  - destruct s as [|e s].
    + destruct Hl as [<-|[]]. now apply Forall_rev.
    + destruct ((d =? 13) && (e =? 10)); destruct Hl as [<-|Hl];
        try (now apply Forall_rev).
      * apply (IH s [] l); [simpl in Hn; lia | constructor | exact Hl].
      * apply (IH (e :: s) [] l); [simpl in *; lia | constructor | exact Hl].
  - apply (IH s (d :: cur) l); [lia | constructor; [exact Ed | exact Hcur] | exact Hl].
Qed.

Lemma py_splitlines_nolb (s l : pystr) :
  In l (py_splitlines s) -> Forall (fun c => u_linebreak c = false) l.
Proof. intros Hl. exact (splitlines_aux_nolb (length s) s [] l (le_n _) (Forall_nil _) Hl). Qed.

End Strings.


(** ** [str(n)] for a non-negative [int] *)
Definition py_str_nat (n : nat) : pystr :=
  py (NilEmpty.string_of_uint (Nat.to_uint n)).

Definition is_ascii (c : N) : bool := c <? 128.

Lemma forallb_py_join (f : N -> bool) (sep : pystr) (parts : list pystr) :
  forallb f sep = true -> Forall (fun p => forallb f p = true) parts ->
  forallb f (py_join sep parts) = true.
Proof.
  intros Hs Hp. induction Hp as [|p ps Hp1 Hps IH]; [reflexivity|].
  destruct ps as [|q ps]; [exact Hp1|].
  cbn [py_join]. rewrite !forallb_app, Hp1, Hs. exact IH.
Qed.

Lemma uint_digits (d : Decimal.uint) :
  forallb (fun a => in_range 48 57 (N_of_ascii a)) (list_ascii_of_string (NilEmpty.string_of_uint d)) = true.
Proof. induction d; simpl; rewrite ?IHd; reflexivity. Qed.

(** [str(n)] is made of decimal digits. *)
Lemma py_str_nat_digits (n : nat) : forallb (in_range 48 57) (py_str_nat n) = true.
Proof.
  unfold py_str_nat. pose proof (uint_digits (Nat.to_uint n)) as H.
  rewrite py_ascii.
  - rewrite forallb_map. exact H.
  - eapply forallb_imp; [|exact H]. intros a Ha. unfold in_range in Ha.
    apply andb_true_iff in Ha as [_ Ha]. apply N.leb_le in Ha. apply N.ltb_lt. lia.
Qed.

Example py_str_nat_12 : py_str_nat 12 = py "12".
Proof. reflexivity. Qed.

Lemma hex_digits_ascii (k : nat) (n : N) : forallb is_ascii (hex_digits k n) = true.
Proof.
  revert n; induction k as [|k IH]; intros n; [reflexivity|].
  cbn [hex_digits]. rewrite forallb_app, IH. cbn [forallb].
  pose proof (N.mod_lt n 16 ltac:(discriminate)).
  unfold is_ascii, hex_digit. destruct (_ <? 10); rewrite andb_true_r; apply N.ltb_lt; lia.
Qed.

Section ReprAscii.
Context `{U : UnicodeDB}.

Lemma repr_char_ascii (q c : N) :
  is_ascii q = true -> is_ascii c = true -> forallb is_ascii (repr_char q c) = true.
Proof.
  unfold is_ascii. intros Hq Hc. apply N.ltb_lt in Hc.
  unfold repr_char.
  repeat match goal with |- context [if ?b then _ else _] => destruct b eqn:? end;
    rewrite ?forallb_app, ?hex_digits_ascii; cbn [forallb]; unfold is_ascii;
    rewrite ?Hq, ?andb_true_r; try (apply N.ltb_lt; lia).
  all: rewrite ?orb_false_iff, ?N.eqb_neq, ?N.ltb_ge in *; lia.
Qed.

(** [repr] of an ASCII text is ASCII: its code points never reach the
    [isprintable] test of the database. *)
Lemma py_repr_ascii (s : pystr) : forallb is_ascii s = true -> forallb is_ascii (py_repr s) = true.
Proof.
  intros H. unfold py_repr.
  assert (Hq : is_ascii (repr_quote s) = true)
    by (unfold repr_quote; destruct (_ && _); reflexivity).
  rewrite !forallb_app. cbn [forallb]. rewrite Hq.
  replace (forallb is_ascii (flat_map _ s)) with true; [reflexivity|].
  symmetry. apply forallb_forall. intros x Hx. apply in_flat_map in Hx as (c & Hc & Hx).
  exact (proj1 (forallb_forall _ _)
           (repr_char_ascii _ _ Hq (proj1 (forallb_forall _ _) H c Hc)) x Hx).
Qed.

End ReprAscii.

(** ** Theorems *)

(** C36.  [sep.join(s.split(sep))] is [s] for every non-empty separator,
    and no piece of the split holds the separator: the fuel [len(s) + 1]
    of [py_split] is enough. *)
Theorem py_split_join (sep s : pystr) :
  sep <> [] ->
  exists l, py_split sep s = Ok l /\ py_join sep l = s /\ Forall (fun p => find_sub sep p = None) l.
Proof.
  intros Hsep. destruct (split_fuel_spec sep (S (length s)) Hsep s ltac:(lia)) as [J A].
  exists (split_fuel (S (length s)) sep s). split; [|split; assumption].
  unfold py_split. destruct sep; [congruence|reflexivity].
Qed.

Lemma py_split_join_witness :
  exists l, py_split (py "\n") (py "a\nb\n\nc") = Ok l /\ py_join (py "\n") l = py "a\nb\n\nc" /\
            Forall (fun p => find_sub (py "\n") p = None) l.
Proof. apply py_split_join. discriminate. Defined.
