(* ===== verification/Regex.v ===== *)
(** * The [re] module, as far as the program uses it

    [extract_speaker_filler_counts] (src/bullshit_meter.py, lines 44-67)
    compiles two kinds of pattern: the speaker pattern of line 48, passed
    to [re.match], and one pattern per filler word built at line 61 from
    [re.escape(word)] and passed to [re.findall] at line 62.  The
    patterns are strings; what they mean is decided by CPython's parser
    ([sre_parse]) and matcher ([_sre]).  This file models both:

    - [regex]: the parsed pattern (literals, [.], the classes [\d \s \w]
      and their negations, [\b \B], sequence, [|], greedy [* + ?],
      capturing groups);
    - [p_alt]/[p_seq]/[p_atom]: [sre_parse]'s recursive descent, with
      fuel; [re_compile] raises [re.error] for a malformed pattern and
      [Unmodelled] for syntax outside the list above;
    - [mt]: the backtracking matcher, returning every way the pattern
      matches at a position in the order [_sre] tries them (greedy
      repetition first);
    - [re_match], [search], [re_findall] (the [must_advance] rule of
      CPython 3.7+ for empty matches) and [re_escape].

    [matches] is the declarative semantics; [mt] is proved sound and
    complete for it. *)

From Stdlib Require Import Ascii String List Arith NArith Lia Bool.
From S2P Require Import Prelude Utf8 PyStr.
Import ListNotations.
Local Open Scope py_scope.

(** ** Syntax *)

Inductive cls := CDigit | CNotDigit | CSpace | CNotSpace | CWord | CNotWord.

Inductive regex :=
| REmpty
| RChar (c : N)
| RAny                       (** [.]: any code point but LF *)
| RClass (k : cls)
| RBound (neg : bool)        (** [\b] ([neg = false]) and [\B] *)
| RSeq (r1 r2 : regex)
| RAlt (r1 r2 : regex)
| RStar (r : regex)
| RPlus (r : regex)
| ROpt (r : regex)
| RGroup (n : nat) (r : regex).

(** ** Parsing: [sre_parse] *)

Inductive parse_error :=
| PBad (msg : pystr)          (** [re.error] *)
| PUnsupported (what : pystr) (** valid Python syntax this model leaves out *)
| POutOfFuel.

Abbreviation presult A := (sum parse_error A).

Local Open Scope N_scope.

(** The escape [\e] outside a character set ([sre_parse._escape]). *)
Definition p_escape (e : N) : presult regex :=
  if e =? 100 then inr (RClass CDigit)           (* d *)
  else if e =? 68 then inr (RClass CNotDigit)    (* D *)
  else if e =? 115 then inr (RClass CSpace)      (* s *)
  else if e =? 83 then inr (RClass CNotSpace)    (* S *)
  else if e =? 119 then inr (RClass CWord)       (* w *)
  else if e =? 87 then inr (RClass CNotWord)     (* W *)
  else if e =? 98 then inr (RBound false)        (* b *)
  else if e =? 66 then inr (RBound true)         (* B *)
  else if e =? 110 then inr (RChar 10)           (* n *)
  else if e =? 116 then inr (RChar 9)            (* t *)
  else if e =? 114 then inr (RChar 13)           (* r *)
  else if e =? 102 then inr (RChar 12)           (* f *)
  else if e =? 118 then inr (RChar 11)           (* v *)
  else if e =? 97 then inr (RChar 7)             (* a *)
  else if (e =? 65) || (e =? 90) || (e =? 120) || (e =? 117) || (e =? 85)
          || (e =? 78) || in_range 48 57 e
  then inl (PUnsupported (py "\A \Z \x \u \U \N or a numeric escape"))
  else if in_range 65 90 e || in_range 97 122 e
  then inl (PBad (py "bad escape"))
  else inr (RChar e).

(** What may follow a repeat: [?] (lazy) and [+] (possessive) are not
    modelled, a second [*] is [re.error("multiple repeat")]. *)
Definition p_after_repeat (q : regex) (s : pystr) : presult (regex * pystr) :=
  match s with
  | 63 :: _ => inl (PUnsupported (py "lazy repeat"))
  | 43 :: _ => inl (PUnsupported (py "possessive repeat"))
  | 42 :: _ => inl (PBad (py "multiple repeat"))
  | 123 :: _ => inl (PUnsupported (py "{m,n} repeat"))
  | _ => inr (q, s)
  end.

Definition is_at (a : regex) : bool :=
  match a with RBound _ => true | _ => false end.

Definition p_quant (a : regex) (s : pystr) : presult (regex * pystr) :=
  match s with
  | 42 :: s' => if is_at a then inl (PBad (py "nothing to repeat")) else p_after_repeat (RStar a) s'
  | 43 :: s' => if is_at a then inl (PBad (py "nothing to repeat")) else p_after_repeat (RPlus a) s'
  | 63 :: s' => if is_at a then inl (PBad (py "nothing to repeat")) else p_after_repeat (ROpt a) s'
  | 123 :: _ => inl (PUnsupported (py "{m,n} repeat"))
  | _ => inr (a, s)
  end.

Local Close Scope N_scope.

(** [p_alt f s ng]: an alternation of sequences; [ng] is the number of
    groups opened so far (a group is numbered when its [(] is read).
    The result is the regex, the rest of the input and the new count. *)
Fixpoint p_alt (f : nat) (s : pystr) (ng : nat) : presult (regex * pystr * nat) :=
  match f with
  | O => inl POutOfFuel
  | S f =>
      match p_seq f s ng with
      | inl e => inl e
      | inr (r1, 124%N :: s1, ng1) =>
          match p_alt f s1 ng1 with
          | inl e => inl e
          | inr (r2, s2, ng2) => inr (RAlt r1 r2, s2, ng2)
          end
      | inr res => inr res
      end
  end
with p_seq (f : nat) (s : pystr) (ng : nat) : presult (regex * pystr * nat) :=
  match f with
  | O => inl POutOfFuel
  | S f =>
      match s with
      | [] => inr (REmpty, s, ng)
      | 124%N :: _ | 41%N :: _ => inr (REmpty, s, ng)
      | _ =>
          match p_atom f s ng with
          | inl e => inl e
          | inr (a, s1, ng1) =>
              match p_quant a s1 with
              | inl e => inl e
              | inr (q, s2) =>
                  match p_seq f s2 ng1 with
                  | inl e => inl e
                  | inr (rest, s3, ng3) => inr (RSeq q rest, s3, ng3)
                  end
              end
          end
      end
  end
with p_atom (f : nat) (s : pystr) (ng : nat) : presult (regex * pystr * nat) :=
  match f with
  | O => inl POutOfFuel
  | S f =>
      match s with
      | 40%N :: 63%N :: _ => inl (PUnsupported (py "(? extension"))
      | 40%N :: s' =>
          match p_alt f s' (S ng) with
          | inl e => inl e
          | inr (r, 41%N :: s2, ng1) => inr (RGroup (S ng) r, s2, ng1)
          | inr _ => inl (PBad (py "missing ), unterminated subpattern"))
          end
      | 92%N :: e :: s' =>
          match p_escape e with
          | inl err => inl err
          | inr a => inr (a, s', ng)
          end
      | [92%N] => inl (PBad (py "bad escape (end of pattern)"))
      | 46%N :: s' => inr (RAny, s', ng)
      | 91%N :: _ => inl (PUnsupported (py "character set"))
      | 94%N :: _ | 36%N :: _ => inl (PUnsupported (py "anchor"))
      | 42%N :: _ | 43%N :: _ | 63%N :: _ => inl (PBad (py "nothing to repeat"))
      | 123%N :: _ => inl (PUnsupported (py "{m,n} repeat"))
      | c :: s' => inr (RChar c, s', ng)
      | [] => inl (PBad (py "unexpected end of pattern"))
      end
  end.

(** Three calls ([p_alt], [p_seq], [p_atom]) at most per code point read. *)
Definition parse_fuel (p : pystr) : nat := 3 * length p + 4.

(** [re.compile(p)]: the regex and its number of groups. *)
Definition re_compile (p : pystr) : res (regex * nat) :=
  match p_alt (parse_fuel p) p 0 with
  | inr (r, [], ng) => Ok (r, ng)
  | inr (_, _ :: _, _) => Raise (Exc ReError (py "unbalanced parenthesis"))
  | inl (PBad m) => Raise (Exc ReError m)
  | inl (PUnsupported w) => Raise (Exc Unmodelled w)
  | inl POutOfFuel => Raise (Exc Unmodelled (py "parser fuel"))
  end.

(** [re.escape(s)] (CPython 3.7+): a backslash before each code point of
    [()[]{}?*+-|^$\.&~#], space, TAB, LF, CR, VT and FF. *)
Definition escaped_chars : pystr :=
  [40; 41; 91; 93; 123; 125; 63; 42; 43; 45; 124; 94; 36; 92; 46; 38; 126; 35;
   32; 9; 10; 13; 11; 12]%N.

Definition is_escaped (c : N) : bool := existsb (N.eqb c) escaped_chars.

Definition escape_char (c : N) : pystr := if is_escaped c then [92%N; c] else [c].

Definition re_escape (s : pystr) : pystr := flat_map escape_char s.

(** ** Matching: [_sre]

    [mt r i g] lists the ways [r] matches the input from position [i]
    with captures [g], as (end position, captures), in the order the
    backtracking engine tries them: the left alternative first, the
    greedy choice first.  A repetition stops when an iteration matches
    the empty string (the [last_ptr] test of [_sre]); each further
    iteration consumes input, so [S (length inp - i)] rounds are enough. *)

Abbreviation caps := (list (nat * (nat * nat))).

Section Matcher.
Context `{U : UnicodeDB}.
Variable inp : pystr.

Definition char_at (i : nat) : option N := nth_error inp i.

Definition is_word (c : N) : bool := u_isalnum c || N.eqb c 95.

Definition word_at (i : nat) : bool :=
  match char_at i with Some c => is_word c | None => false end.

Definition word_before (i : nat) : bool :=
  match i with O => false | S j => word_at j end.

Definition at_boundary (i : nat) : bool := xorb (word_before i) (word_at i).

Definition cls_match (k : cls) (c : N) : bool :=
  match k with
  | CDigit => u_isdecimal c
  | CNotDigit => negb (u_isdecimal c)
  | CSpace => u_isspace c
  | CNotSpace => negb (u_isspace c)
  | CWord => is_word c
  | CNotWord => negb (is_word c)
  end.

(** One code point satisfying [ok]. *)
Definition one_char (ok : N -> bool) (i : nat) (g : caps) : list (nat * caps) :=
  match char_at i with
  | Some c => if ok c then [(S i, g)] else []
  | None => []
  end.

(** Greedy repetition of a body whose matcher is [m]. *)
Fixpoint star (m : nat -> caps -> list (nat * caps)) (fuel i : nat) (g : caps)
  : list (nat * caps) :=
  match fuel with
  | O => [(i, g)]
  | S f =>
      flat_map (fun p => if i <? fst p then star m f (fst p) (snd p) else []) (m i g)
      ++ [(i, g)]
  end.

Definition star_fuel (i : nat) : nat := S (length inp - i).

Fixpoint mt (r : regex) (i : nat) (g : caps) : list (nat * caps) :=
  match r with
  | REmpty => [(i, g)]
  | RChar c => one_char (N.eqb c) i g
  | RAny => one_char (fun c => negb (N.eqb c 10)) i g
  | RClass k => one_char (cls_match k) i g
  | RBound neg => if xorb neg (at_boundary i) then [(i, g)] else []
  | RSeq r1 r2 => flat_map (fun p => mt r2 (fst p) (snd p)) (mt r1 i g)
  | RAlt r1 r2 => mt r1 i g ++ mt r2 i g
  | RStar r1 => star (mt r1) (star_fuel i) i g
  | RPlus r1 =>
      flat_map (fun p => star (mt r1) (star_fuel (fst p)) (fst p) (snd p)) (mt r1 i g)
  | ROpt r1 => mt r1 i g ++ [(i, g)]
  | RGroup n r1 => map (fun p => (fst p, (n, (i, fst p)) :: snd p)) (mt r1 i g)
  end.

(** ** The declarative semantics: [matches r i g j g'] when [r] can match
    the input from [i] to [j], turning captures [g] into [g']. *)
Inductive matches : regex -> nat -> caps -> nat -> caps -> Prop :=
| m_empty i g : matches REmpty i g i g
| m_char c i g : char_at i = Some c -> matches (RChar c) i g (S i) g
| m_any c i g : char_at i = Some c -> c <> 10%N -> matches RAny i g (S i) g
| m_class k c i g : char_at i = Some c -> cls_match k c = true ->
    matches (RClass k) i g (S i) g
| m_bound neg i g : xorb neg (at_boundary i) = true -> matches (RBound neg) i g i g
| m_seq r1 r2 i j k g g1 g2 : matches r1 i g j g1 -> matches r2 j g1 k g2 ->
    matches (RSeq r1 r2) i g k g2
| m_alt_l r1 r2 i j g g' : matches r1 i g j g' -> matches (RAlt r1 r2) i g j g'
| m_alt_r r1 r2 i j g g' : matches r2 i g j g' -> matches (RAlt r1 r2) i g j g'
| m_star_nil r i g : matches (RStar r) i g i g
| m_star_cons r i j k g g1 g2 : matches r i g j g1 -> i < j ->
    matches (RStar r) j g1 k g2 -> matches (RStar r) i g k g2
| m_plus r i j k g g1 g2 : matches r i g j g1 -> matches (RStar r) j g1 k g2 ->
    matches (RPlus r) i g k g2
| m_opt_some r i j g g' : matches r i g j g' -> matches (ROpt r) i g j g'
| m_opt_none r i g : matches (ROpt r) i g i g
| m_group n r i j g g' : matches r i g j g' ->
    matches (RGroup n r) i g j ((n, (i, j)) :: g').

Lemma char_at_lt (i : nat) (c : N) : char_at i = Some c -> i < length inp.
Proof. unfold char_at. intros H. apply nth_error_Some. congruence. Qed.

(** A match never moves backwards, and a match that consumes input ends
    inside it. *)
Lemma matches_bound r i g j g' :
  matches r i g j g' -> i <= j /\ (i = j \/ j <= length inp).
Proof.
  induction 1;
    repeat match goal with H : char_at _ = Some _ |- _ => apply char_at_lt in H end;
    lia.
Qed.

Lemma one_char_spec (ok : N -> bool) i g j g' :
  In (j, g') (one_char ok i g) <->
  exists c, char_at i = Some c /\ ok c = true /\ j = S i /\ g' = g.
Proof.
  unfold one_char. destruct (char_at i) as [c|].
  - destruct (ok c) eqn:Hok; simpl.
    + split; [intros [[= <- <-]|[]]; eauto | intros (c' & [= <-] & _ & -> & ->); auto].
    + split; [intros []| intros (c' & [= <-] & Hc & _); congruence].
  - simpl. split; [intros []| intros (c' & Hc & _); discriminate].
Qed.

Lemma star_sound (r : regex) (m : nat -> caps -> list (nat * caps)) :
  (forall i g j g', In (j, g') (m i g) -> matches r i g j g') ->
  forall f i g k g2, In (k, g2) (star m f i g) -> matches (RStar r) i g k g2.
Proof.
  intros Hm f. induction f as [|f IH]; intros i g k g2; simpl.
  - intros [[= <- <-]|[]]. constructor.
  - rewrite in_app_iff, in_flat_map. intros [([j g1] & Hin & Hk)|[[= <- <-]|[]]].
    + simpl in Hk. destruct (Nat.ltb_spec i j); [|contradiction].
      eapply m_star_cons; eauto.
    + constructor.
Qed.

(** [mt] only lists real matches. *)
Theorem mt_sound r : forall i g j g', In (j, g') (mt r i g) -> matches r i g j g'.
Proof.
  induction r; intros i g j g' Hin; cbn [mt] in Hin;
    try (apply one_char_spec in Hin; destruct Hin as (c' & Hc & Hok & -> & ->)).
  - destruct Hin as [[= <- <-]|[]]. constructor.
  - apply N.eqb_eq in Hok; subst. now constructor.
  - econstructor; eauto. intros ->. simpl in Hok. discriminate.
  - econstructor; eauto.
  - destruct (xorb neg (at_boundary i)) eqn:Hb; [|destruct Hin].
    destruct Hin as [[= <- <-]|[]]. now constructor.
  - apply in_flat_map in Hin as ([j1 g1] & H1 & H2). econstructor; eauto.
  - apply in_app_iff in Hin as [H|H]; [apply m_alt_l | apply m_alt_r]; auto.
  - exact (star_sound r (mt r) IHr _ _ _ _ _ Hin).
  - apply in_flat_map in Hin as ([j1 g1] & H1 & H2). econstructor; [eauto|].
    exact (star_sound r (mt r) IHr _ _ _ _ _ H2).
  - apply in_app_iff in Hin as [H|[[= <- <-]|[]]]; [apply m_opt_some; auto | apply m_opt_none].
  - apply in_map_iff in Hin as ([j1 g1] & [= <- <-] & H). constructor; auto.
Qed.

Lemma mt_bound r i g j g' :
  In (j, g') (mt r i g) -> i <= j /\ (i = j \/ j <= length inp).
Proof. intros H. apply (matches_bound r i g j g'), mt_sound, H. Qed.

(** More fuel never loses a repetition. *)
Lemma star_fuel_mono (m : nat -> caps -> list (nat * caps)) :
  forall f f' i g k g2, f <= f' -> In (k, g2) (star m f i g) -> In (k, g2) (star m f' i g).
Proof.
  induction f as [|f IH]; intros f' i g k g2 Hle Hin; simpl in Hin.
  - destruct Hin as [[= <- <-]|[]]. destruct f'; simpl; [now left|].
    apply in_app_iff. right. now left.
  - destruct f' as [|f']; [lia|]. simpl. apply in_app_iff in Hin as [Hin|Hin];
      apply in_app_iff; [left|now right].
    apply in_flat_map in Hin as ([j g1] & H1 & H2). apply in_flat_map.
    exists (j, g1). split; [assumption|]. simpl in *.
    destruct (i <? j); [|destruct H2]. eapply IH; [|eassumption]. lia.
Qed.

(** [mt] lists every match. *)
Theorem mt_complete r i g j g' : matches r i g j g' -> In (j, g') (mt r i g).
Proof.
  induction 1; cbn [mt];
    try (apply one_char_spec; eexists; repeat split; eauto; apply N.eqb_refl).
  - now left.
  - apply one_char_spec. eexists; repeat split; eauto. apply negb_true_iff, N.eqb_neq. auto.
  - rewrite H. now left.
  - apply in_flat_map. exists (j, g1). auto.
  - apply in_app_iff. auto.
  - apply in_app_iff. auto.
  - unfold star_fuel. simpl. apply in_app_iff. right. now left.
  - unfold star_fuel at 1. cbn [star]. apply in_app_iff. left. apply in_flat_map.
    exists (j, g1). split; [assumption|]. simpl.
    destruct (Nat.ltb_spec i j); [|lia].
    pose proof (matches_bound _ _ _ _ _ H). eapply star_fuel_mono; [|exact IHmatches2].
    unfold star_fuel. lia.
  - apply in_flat_map. exists (j, g1). split; [assumption|]. exact IHmatches2.
  - apply in_app_iff. auto.
  - apply in_app_iff. right. now left.
  - apply in_map_iff. exists (j, g'). auto.
Qed.

(** C33.  Enough fuel: past [star_fuel i] rounds, more fuel changes nothing,
    so the fuel is never what stops a repetition. *)
Theorem star_fuel_enough (r : regex) :
  forall f i g, star_fuel i <= f ->
  star (mt r) f i g = star (mt r) (star_fuel i) i g.
Proof.
  assert (Hgen : forall f1 f2 i g, length inp - i < f1 -> length inp - i < f2 ->
            star (mt r) f1 i g = star (mt r) f2 i g).
  { induction f1 as [|f1 IH]; intros f2 i g H1 H2; [lia|].
    destruct f2 as [|f2]; [lia|]. simpl. f_equal.
    apply flat_map_ext_in. intros [j g1] Hin. simpl.
    destruct (Nat.ltb_spec i j); [|reflexivity].
    pose proof (mt_bound r i g j g1 Hin). apply IH; lia. }
  intros f i g Hf. apply Hgen; unfold star_fuel in *; lia.
Qed.

End Matcher.

(** ** The module-level functions *)

(** A match object: the span of the match, its captures and the number
    of groups of the pattern. *)
Record match_obj := MatchObj {
  m_start : nat; m_end : nat; m_caps : caps; m_ngroups : nat }.

Definition substr (s : pystr) (a b : nat) : pystr := firstn (b - a) (skipn a s).

Lemma substr_incl (s : pystr) (a b : nat) (c : N) : In c (substr s a b) -> In c s.
Proof.
  unfold substr. intros H.
  rewrite <- (firstn_skipn a s). apply in_or_app. right.
  rewrite <- (firstn_skipn (b - a) (skipn a s)). apply in_or_app. now left.
Qed.

(** The span of group [n]: the innermost, latest capture recorded. *)
Definition group_span (g : caps) (n : nat) : option (nat * nat) :=
  option_map snd (find (fun e => Nat.eqb (fst e) n) g).

(** [m.group(n)]: [None] for a group that did not participate,
    [IndexError] past the last group. *)
Definition match_group (s : pystr) (m : match_obj) (n : nat) : res (option pystr) :=
  match n with
  | O => Ok (Some (substr s (m_start m) (m_end m)))
  | _ => if m_ngroups m <? n then Raise (Exc IndexError (py "no such group"))
         else Ok (option_map (fun sp => substr s (fst sp) (snd sp))
                             (group_span (m_caps m) n))
  end.

Section Api.
Context `{U : UnicodeDB}.

(** [re.match(p, s)]: the first way the pattern matches at position 0. *)
Definition re_match (p s : pystr) : res (option match_obj) :=
  '(r, ng) <- re_compile p ;;
  Ok (match mt s r 0 [] with
      | (j, g) :: _ => Some (MatchObj 0 j g ng)
      | [] => None
      end).

(** The first match at [q]; with [ma] ([must_advance]) it may not be
    empty. *)
Definition first_at (r : regex) (s : pystr) (q : nat) (ma : bool) : option (nat * caps) :=
  hd_error (if ma then filter (fun x => negb (Nat.eqb (fst x) q)) (mt s r q [])
            else mt s r q []).

(** [_sre]'s search loop: try [q], [q + 1], ..., [q + n]; [must_advance]
    applies to the first position only. *)
Fixpoint scan (r : regex) (s : pystr) (n q : nat) (ma : bool) : option (nat * nat * caps) :=
  match first_at r s q ma with
  | Some (j, g) => Some (q, j, g)
  | None => match n with O => None | S n' => scan r s n' (S q) false end
  end.

Definition search (r : regex) (s : pystr) (p : nat) (ma : bool) : option (nat * nat * caps) :=
  scan r s (length s - p) p ma.

(** [pattern_findall]: after a match ending at [j], search again from [j];
    an empty match sets [must_advance].  Each round advances the start or
    sets [must_advance], so [2 * length s + 2] rounds are enough. *)
Fixpoint findall_fuel (r : regex) (s : pystr) (fuel p : nat) (ma : bool)
  : list (nat * nat * caps) :=
  match fuel with
  | O => []
  | S f =>
      if length s <? p then []
      else match search r s p ma with
           | Some (q, j, g) => (q, j, g) :: findall_fuel r s f j (Nat.eqb j q)
           | None => []
           end
  end.

Definition findall_spans (r : regex) (s : pystr) : list (nat * nat * caps) :=
  findall_fuel r s (2 * length s + 2) 0 false.

(** An item of [re.findall]: the whole match for a pattern without
    groups, else the text of each group ([''] for one that did not
    participate); Python returns a [str] for at most one group and a
    [tuple] beyond, the same texts. *)
Definition findall_item (s : pystr) (ng : nat) (m : nat * nat * caps) : list pystr :=
  let '(q, j, g) := m in
  match ng with
  | O => [substr s q j]
  | _ => map (fun n => match group_span g n with
                       | Some (a, b) => substr s a b
                       | None => []
                       end) (seq 1 ng)
  end.

Definition re_findall (p s : pystr) : res (list (list pystr)) :=
  '(r, ng) <- re_compile p ;;
  Ok (map (findall_item s ng) (findall_spans r s)).

End Api.

(** ** Literal patterns *)

(** The text a group-free pattern of literals matches. *)
Fixpoint lit_of (r : regex) : option pystr :=
  match r with
  | REmpty => Some []
  | RChar c => Some [c]
  | RSeq r1 r2 =>
      match lit_of r1, lit_of r2 with
      | Some a, Some b => Some (a ++ b)
      | _, _ => None
      end
  | _ => None
  end.

Lemma is_prefix_app_split (a b s : pystr) :
  is_prefix (a ++ b) s = is_prefix a s && is_prefix b (skipn (length a) s).
Proof.
  revert s; induction a as [|c a IH]; intros [|d s]; simpl; auto.
  now rewrite IH, andb_assoc.
Qed.

Lemma skipn_skipn_add {A} (l : list A) (i k : nat) : skipn k (skipn i l) = skipn (i + k) l.
Proof. rewrite skipn_skipn, Nat.add_comm. reflexivity. Qed.

Lemma is_prefix_one (c : N) (s : pystr) :
  is_prefix [c] s = match s with d :: _ => N.eqb c d | [] => false end.
Proof. destruct s; simpl; [reflexivity|]. now rewrite andb_true_r. Qed.

Lemma skipn_nth_error {A} (l : list A) (i : nat) :
  match skipn i l with d :: _ => Some d | [] => None end = nth_error l i.
Proof. rewrite <- (Nat.add_0_r i) at 2. rewrite <- nth_error_skipn. now destruct (skipn i l). Qed.

(** A literal pattern matches exactly its text, and only once. *)
Theorem mt_lit `{U : UnicodeDB} (s : pystr) (r : regex) (w : pystr) (i : nat) (g : caps) :
  lit_of r = Some w ->
  mt s r i g = if is_prefix w (skipn i s) then [(i + length w, g)] else [].
Proof.
  revert w i g; induction r; intros w i g Hl; simpl in Hl; try discriminate.
  - injection Hl as <-. simpl. rewrite Nat.add_0_r. reflexivity.
  - injection Hl as <-. cbn [mt]. unfold one_char, char_at.
    rewrite is_prefix_one, <- skipn_nth_error. destruct (skipn i s) as [|d t]; [reflexivity|].
    destruct (N.eqb c d); simpl; [f_equal; f_equal; lia | reflexivity].
  - destruct (lit_of r1) as [a|] eqn:E1; [|discriminate].
    destruct (lit_of r2) as [b|] eqn:E2; [|discriminate]. injection Hl as <-.
    cbn [mt]. rewrite (IHr1 a i g eq_refl), is_prefix_app_split, skipn_skipn_add.
    destruct (is_prefix a (skipn i s)); simpl; [|reflexivity].
    rewrite app_nil_r, (IHr2 b (i + length a) g eq_refl), length_app, Nat.add_assoc.
    reflexivity.
Qed.

(** ** [re.escape] round trip

    Parsing [re.escape(w)] gives the sequence of the literals of [w]. *)

Fixpoint seq_lits (w : pystr) (r : regex) : regex :=
  match w with
  | [] => r
  | c :: w' => RSeq (RChar c) (seq_lits w' r)
  end.

Lemma lit_of_seq_lits (w : pystr) (r : regex) :
  lit_of (seq_lits w r) = option_map (app w) (lit_of r).
Proof.
  induction w as [|c w IH]; simpl; [now destruct (lit_of r)|].
  rewrite IH. now destruct (lit_of r).
Qed.

Definition quant_start (s : pystr) : bool :=
  match s with c :: _ => existsb (N.eqb c) [42; 43; 63; 123]%N | [] => false end.

(** Decide a goal about a code point [c] from its binary digits, once the
    parser's matches on literals below 128 have resolved. *)
Ltac bits_cases c :=
  destruct c as [|c]; [try reflexivity; try discriminate|];
  repeat (destruct c as [c|c|]; try (simpl in *; discriminate); try reflexivity).

Lemma p_quant_plain (a : regex) (s : pystr) :
  quant_start s = false -> p_quant a s = inr (a, s).
Proof.
  destruct s as [|c s]; [reflexivity|]. unfold quant_start. intros H. bits_cases c.
Qed.

Lemma p_escape_escaped (c : N) : is_escaped c = true -> p_escape c = inr (RChar c).
Proof.
  unfold is_escaped, escaped_chars. intros H.
  repeat (apply orb_true_iff in H as [H|H]; [apply N.eqb_eq in H; subst; reflexivity|]).
  discriminate.
Qed.

(** One step of [p_seq] over a code point that needs no escape. *)
Lemma p_seq_plain (f : nat) (c : N) (s : pystr) (ng : nat) :
  is_escaped c = false ->
  p_seq (S (S f)) (c :: s) ng =
  match p_quant (RChar c) s with
  | inl e => inl e
  | inr (q, s2) =>
      match p_seq (S f) s2 ng with
      | inl e => inl e
      | inr (rest, s3, ng3) => inr (RSeq q rest, s3, ng3)
      end
  end.
Proof. unfold is_escaped, escaped_chars. intros H. bits_cases c. Qed.

(** One step of [p_seq] over an escaped code point. *)
Lemma p_seq_escaped (f : nat) (c : N) (s : pystr) (ng : nat) :
  is_escaped c = true ->
  p_seq (S (S f)) (92%N :: c :: s) ng =
  match p_quant (RChar c) s with
  | inl e => inl e
  | inr (q, s2) =>
      match p_seq (S f) s2 ng with
      | inl e => inl e
      | inr (rest, s3, ng3) => inr (RSeq q rest, s3, ng3)
      end
  end.
Proof. intros H. simpl. rewrite (p_escape_escaped c H). reflexivity. Qed.

Lemma quant_start_escape (w rest : pystr) :
  quant_start rest = false -> quant_start (re_escape w ++ rest) = false.
Proof.
  destruct w as [|c w]; [auto|]. intros _. simpl. unfold escape_char.
  destruct (is_escaped c) eqn:E; [reflexivity|]. cbn [app].
  apply not_true_iff_false. intros Hq. unfold quant_start in Hq.
  apply existsb_exists in Hq as (x & Hx & Hcx). apply N.eqb_eq in Hcx; subst.
  destruct Hx as [<-|[<-|[<-|[<-|[]]]]]; discriminate E.
Qed.

Lemma p_seq_escape (w rest : pystr) (ng f : nat) :
  quant_start rest = false ->
  p_seq (length w + S f) (re_escape w ++ rest) ng =
  match p_seq (S f) rest ng with
  | inl e => inl e
  | inr (r, s', ng') => inr (seq_lits w r, s', ng')
  end.
Proof.
  induction w as [|c w IH]; intros Hrest.
  - cbn [length re_escape flat_map app seq_lits Nat.add].
    now destruct (p_seq (S f) rest ng) as [e|[[r s'] ng']].
  - cbn [re_escape flat_map length Nat.add]. fold (re_escape w).
    pose proof (quant_start_escape w rest Hrest) as Hq.
    specialize (IH Hrest). rewrite Nat.add_succ_r in *. unfold escape_char.
    destruct (is_escaped c) eqn:Ec; rewrite <- app_assoc.
    + cbn [app]. rewrite (p_seq_escaped _ c _ ng Ec), (p_quant_plain _ _ Hq), IH.
      now destruct (p_seq (S f) rest ng) as [e|[[r s'] ng']].
    + cbn [app]. rewrite (p_seq_plain _ c _ ng Ec), (p_quant_plain _ _ Hq), IH.
      now destruct (p_seq (S f) rest ng) as [e|[[r s'] ng']].
Qed.

(** The [re.escape] contract: [re.compile(re.escape(w))] succeeds, has
    no group, and is the literal [w]. *)
Theorem re_compile_escape (w : pystr) :
  exists r, re_compile (re_escape w) = Ok (r, 0) /\ lit_of r = Some w.
Proof.
  exists (seq_lits w REmpty). split.
  - unfold re_compile, parse_fuel.
    assert (Hlen : length w <= length (re_escape w)).
    { induction w as [|c w IH]; [auto|]. cbn [re_escape flat_map length].
      fold (re_escape w). unfold escape_char.
      destruct (is_escaped c); simpl; lia. }
    replace (3 * length (re_escape w) + 4)
      with (S (length w + S (3 * length (re_escape w) + 2 - length w))) by lia.
    cbn [p_alt]. rewrite <- (app_nil_r (re_escape w)) at 2.
    rewrite p_seq_escape by reflexivity. reflexivity.
  - rewrite lit_of_seq_lits. simpl. now rewrite app_nil_r.
Qed.

(** ** [re.findall] over a literal pattern is [str.count] *)

Lemma count_from_skip (w t : pystr) (k : nat) :
  count_from w t k = count_from w (skipn k t) 0.
Proof.
  revert k; induction t as [|c t IH]; intros [|k]; simpl; auto.
Qed.

Section LitFindall.
Context `{U : UnicodeDB}.
Variables (r : regex) (w s : pystr).
Hypothesis Hlit : lit_of r = Some w.
Hypothesis Hw : w <> [].

Lemma first_at_lit (q : nat) (ma : bool) :
  first_at r s q ma =
  if is_prefix w (skipn q s) then Some (q + length w, []) else None.
Proof.
  unfold first_at. rewrite (mt_lit s r w q [] Hlit).
  destruct (is_prefix w (skipn q s)); [|now destruct ma].
  destruct ma; simpl; [|reflexivity].
  destruct w; [congruence|]. simpl. now rewrite (proj2 (Nat.eqb_neq _ _)) by lia.
Qed.

Lemma prefix_in_bounds (q : nat) :
  is_prefix w (skipn q s) = true -> q + length w <= length s.
Proof.
  intros H. apply is_prefix_spec in H as [t Ht].
  pose proof (f_equal (@length N) Ht) as L. rewrite length_skipn, length_app in L.
  assert (0 < length w) by (destruct w; [congruence|simpl; lia]). lia.
Qed.

Lemma scan_lit_ma (n q : nat) : scan r s n q true = scan r s n q false.
Proof. destruct n; simpl; now rewrite !first_at_lit. Qed.

Lemma scan_lit_some (n q q' j : nat) (g : caps) (ma : bool) :
  scan r s n q ma = Some (q', j, g) ->
  q <= q' /\ j = q' + length w /\ j <= length s /\ g = [].
Proof.
  revert q ma; induction n as [|n IH]; intros q ma; simpl; rewrite first_at_lit;
    destruct (is_prefix w (skipn q s)) eqn:E.
  1,3: intros [= <- <- <-]; pose proof (prefix_in_bounds q E); repeat split; lia.
  - discriminate.
  - intros H. apply IH in H as (? & ? & ? & ?). repeat split; auto; lia.
Qed.

Lemma count_from_prefix (t : pystr) :
  is_prefix w t = true -> count_from w t 0 = S (count_from w (skipn (length w) t) 0).
Proof.
  intros E. destruct t as [|c t]; [destruct w; [congruence|discriminate]|].
  simpl. rewrite E, count_from_skip. destruct w; [congruence|reflexivity].
Qed.

Lemma count_from_noprefix (t : pystr) :
  is_prefix w t = false -> count_from w t 0 = count_from w (skipn 1 t) 0.
Proof. intros E. destruct t as [|c t]; simpl; [reflexivity|]. now rewrite E. Qed.

Lemma count_from_scan (n q : nat) :
  length s - q <= n ->
  count_from w (skipn q s) 0 =
  match scan r s n q false with
  | Some (_, j, _) => S (count_from w (skipn j s) 0)
  | None => 0
  end.
Proof.
  revert q; induction n as [|n IH]; intros q Hq; simpl; rewrite first_at_lit;
    destruct (is_prefix w (skipn q s)) eqn:E.
  1,3: now rewrite count_from_prefix, skipn_skipn_add.
  - now rewrite skipn_all2 by lia.
  - rewrite count_from_noprefix, skipn_skipn_add, Nat.add_1_r by exact E. apply IH. lia.
Qed.

Lemma findall_fuel_lit_count (fuel p : nat) (ma : bool) :
  length s - p < fuel ->
  length (findall_fuel r s fuel p ma) = count_from w (skipn p s) 0.
Proof.
  revert p ma; induction fuel as [|f IH]; intros p ma Hf; [lia|]. simpl.
  destruct (Nat.ltb_spec (length s) p).
  - rewrite skipn_all2 by lia. reflexivity.
  - unfold search. destruct ma; [rewrite scan_lit_ma|];
      rewrite (count_from_scan (length s - p) p) by lia;
      destruct (scan r s (length s - p) p false) as [[[q j] g]|] eqn:E; try reflexivity;
      apply scan_lit_some in E; simpl; rewrite IH; [reflexivity| |reflexivity|];
      destruct w; (congruence || simpl in *; lia).
Qed.

End LitFindall.

(** The number of items [re.findall(re.escape(w), s)] returns is
    [s.count(w)], for every non-empty [w]. *)
Theorem findall_escape_count `{U : UnicodeDB} (w s : pystr) :
  w <> [] ->
  exists items, re_findall (re_escape w) s = Ok items /\ length items = py_count w s.
Proof.
  intros Hw. destruct (re_compile_escape w) as (r & Hc & Hl).
  unfold re_findall. rewrite Hc. simpl. eexists. split; [reflexivity|].
  rewrite length_map. unfold findall_spans.
  rewrite (findall_fuel_lit_count r w s Hl Hw) by lia.
  destruct w; [congruence|reflexivity].
Qed.

(** ** The text every match must start with *)

Fixpoint must_prefix (r : regex) : pystr :=
  match r with
  | RChar c => [c]
  | RGroup _ r1 | RPlus r1 => must_prefix r1
  | RSeq r1 r2 =>
      match lit_of r1 with
      | Some a => a ++ must_prefix r2
      | None => must_prefix r1
      end
  | _ => []
  end.

Lemma matches_lit `{U : UnicodeDB} (s : pystr) (r : regex) (w : pystr) i g j g' :
  lit_of r = Some w -> matches s r i g j g' ->
  j = i + length w /\ g' = g /\ is_prefix w (skipn i s) = true.
Proof.
  intros Hl Hm. apply mt_complete in Hm. rewrite (mt_lit s r w i g Hl) in Hm.
  destruct (is_prefix w (skipn i s)); [|destruct Hm].
  destruct Hm as [[= <- <-]|[]]. auto.
Qed.

(** Every match of [r] at [i] starts with [must_prefix r]. *)
Theorem matches_must_prefix `{U : UnicodeDB} (s : pystr) (r : regex) :
  forall i g j g', matches s r i g j g' -> is_prefix (must_prefix r) (skipn i s) = true.
Proof.
  induction r; intros i g j g' Hm; cbn [must_prefix]; try reflexivity; inv Hm; eauto.
  - match goal with H : char_at s i = Some _ |- _ =>
      unfold char_at in H; rewrite <- skipn_nth_error in H end.
    rewrite is_prefix_one. destruct (skipn i s); [discriminate|].
    match goal with H : Some _ = Some _ |- _ => injection H as -> end. apply N.eqb_refl.
  - destruct (lit_of r1) as [a|] eqn:E; [|eauto].
    match goal with H : matches s r1 i g _ _ |- _ =>
      destruct (matches_lit s r1 a _ _ _ _ E H) as (-> & -> & Ha) end.
    rewrite is_prefix_app_split, Ha, skipn_skipn_add. eauto.
Qed.

(** The required prefix lies inside the match. *)
Lemma matches_must_prefix_len `{U : UnicodeDB} (s : pystr) (r : regex) :
  forall i g j g', matches s r i g j g' -> i + length (must_prefix r) <= j.
Proof.
  induction r; intros i g j g' Hm; cbn [must_prefix]; inv Hm;
    try (simpl; repeat match goal with H : matches _ _ _ _ _ _ |- _ =>
                         apply matches_bound in H end; lia); eauto.
  - (* RSeq *)
    match goal with H1 : matches s r1 i g ?k ?g1, H2 : matches s r2 ?k ?g1 j g' |- _ =>
      destruct (lit_of r1) as [a|] eqn:E;
      [ destruct (matches_lit s r1 a _ _ _ _ E H1) as (-> & -> & _);
        specialize (IHr2 _ _ _ _ H2); rewrite length_app; lia
      | specialize (IHr1 _ _ _ _ H1); pose proof (matches_bound _ _ _ _ _ _ H2); lia ] end.
  - (* RPlus *)
    match goal with H1 : matches s r i g ?k ?g1, H2 : matches s (RStar r) ?k ?g1 j g' |- _ =>
      specialize (IHr _ _ _ _ H1); pose proof (matches_bound _ _ _ _ _ _ H2); lia end.
Qed.

Lemma is_prefix_firstn (w t : pystr) (n : nat) :
  is_prefix w t = true -> length w <= n -> is_prefix w (firstn n t) = true.
Proof.
  revert t n; induction w as [|c w IH]; intros [|d t] [|n] H Hn; simpl in *; auto; try lia.
  apply andb_true_iff in H as [-> H]. apply IH; auto. lia.
Qed.

(** The text of a match starts with [must_prefix r]. *)
Corollary matches_must_prefix_substr `{U : UnicodeDB} (s : pystr) (r : regex) i g j g' :
  matches s r i g j g' -> is_prefix (must_prefix r) (substr s i j) = true.
Proof.
  intros Hm. unfold substr. apply is_prefix_firstn.
  - exact (matches_must_prefix s r i g j g' Hm).
  - pose proof (matches_must_prefix_len s r i g j g' Hm). lia.
Qed.

(** ** Captures *)

Fixpoint groups_of (r : regex) : list nat :=
  match r with
  | RSeq a b | RAlt a b => groups_of a ++ groups_of b
  | RStar a | RPlus a | ROpt a => groups_of a
  | RGroup n a => n :: groups_of a
  | _ => []
  end.

(** Matching only adds captures, and only of the pattern's groups. *)
Lemma matches_caps `{U : UnicodeDB} (s : pystr) r i g j g' :
  matches s r i g j g' ->
  exists h, g' = h ++ g /\ forall e, In e h -> In (fst e) (groups_of r).
Proof.
  induction 1; cbn [groups_of];
    try (exists []; split; [reflexivity | intros e []]).
  - destruct IHmatches1 as (h1 & -> & Hh1), IHmatches2 as (h2 & -> & Hh2).
    exists (h2 ++ h1). rewrite app_assoc. split; [reflexivity|].
    intros e He. apply in_app_iff in He as [He|He]; apply in_app_iff; auto.
  - destruct IHmatches as (h & -> & Hh). exists h. split; auto. intros e He. apply in_app_iff. auto.
  - destruct IHmatches as (h & -> & Hh). exists h. split; auto. intros e He. apply in_app_iff. auto.
  - destruct IHmatches1 as (h1 & -> & Hh1), IHmatches2 as (h2 & -> & Hh2).
    exists (h2 ++ h1). rewrite app_assoc. split; [reflexivity|].
    intros e He. apply in_app_iff in He as [He|He]; auto.
  - destruct IHmatches1 as (h1 & -> & Hh1), IHmatches2 as (h2 & -> & Hh2).
    exists (h2 ++ h1). rewrite app_assoc. split; [reflexivity|].
    intros e He. apply in_app_iff in He as [He|He]; auto.
  - destruct IHmatches as (h & -> & Hh). exists h. auto.
  - destruct IHmatches as (h & -> & Hh). exists ((n, (i, j)) :: h). split; [reflexivity|].
    intros e [<-|He]; [now left | right; auto].
Qed.

Corollary matches_no_groups `{U : UnicodeDB} (s : pystr) r i g j g' :
  groups_of r = [] -> matches s r i g j g' -> g' = g.
Proof.
  intros Hg Hm. destruct (matches_caps s r i g j g' Hm) as ([|e h] & -> & Hh); [reflexivity|].
  specialize (Hh e (or_introl eq_refl)). now rewrite Hg in Hh.
Qed.

(** ** The contracts of the module functions *)

(** C32.  The backtracking matcher computes exactly the declarative semantics:
    an end position and captures are listed iff the pattern matches
    there with them. *)
Theorem mt_correct `{U : UnicodeDB} (s : pystr) (r : regex) i g j g' :
  In (j, g') (mt s r i g) <-> matches s r i g j g'.
Proof. split; [apply mt_sound | apply mt_complete]. Qed.

(** C31.  [re.compile(re.escape(w))] matches exactly the text [w]: at any
    position, once, ending [len(w)] code points later, when [w] is there,
    and nowhere else. *)
Theorem re_escape_matches_literally `{U : UnicodeDB} (w s : pystr) :
  exists r, re_compile (re_escape w) = Ok (r, 0) /\
  forall i g, mt s r i g = if is_prefix w (skipn i s) then [(i + length w, g)] else [].
Proof.
  destruct (re_compile_escape w) as (r & Hc & Hl). exists r. split; [exact Hc|].
  intros i g. exact (mt_lit s r w i g Hl).
Qed.

(** C30.  [len(re.findall(re.escape(w), s)) == s.count(w)] for non-empty [w]. *)
Theorem re_findall_escape_len `{U : UnicodeDB} (w s : pystr) :
  w <> [] -> res_map (@length _) (re_findall (re_escape w) s) = Ok (py_count w s).
Proof.
  intros Hw. destruct (findall_escape_count w s Hw) as (items & -> & <-). reflexivity.
Qed.

Lemma re_findall_escape_len_witness :
  py "so" <> [] /\
  res_map (@length _) (re_findall (re_escape (py "so")) (py "so also so"))
  = Ok (py_count (py "so") (py "so also so")).
Proof.
  split; [discriminate|]. apply re_findall_escape_len. discriminate.
Defined.

(** C34.  A match returned by [re.match] starts with the literal prefix every
    match of the compiled pattern requires. *)
Theorem re_match_must_prefix `{U : UnicodeDB} (p s : pystr) (r : regex) (ng : nat)
    (m : match_obj) :
  re_compile p = Ok (r, ng) -> re_match p s = Ok (Some m) ->
  is_prefix (must_prefix r) s = true.
Proof.
  unfold re_match. intros Hc. rewrite Hc. cbn [res_bind].
  destruct (mt s r 0 []) as [|[j g] rest] eqn:E; [discriminate|]. intros _.
  assert (Hin : In (j, g) (mt s r 0 [])) by (rewrite E; now left).
  exact (matches_must_prefix s r 0 [] j g (mt_sound s r 0 [] j g Hin)).
Qed.

Lemma re_match_must_prefix_witness :
  re_compile (py "ab+c") = Ok (RSeq (RChar 97) (RSeq (RPlus (RChar 98)) (RSeq (RChar 99) REmpty)), 0) /\
  re_match (py "ab+c") (py "abbcd") = Ok (Some (MatchObj 0 4 [] 0)) /\
  is_prefix (py "ab") (py "abbcd") = true.
Proof.
  assert (H1 : re_compile (py "ab+c") =
    Ok (RSeq (RChar 97) (RSeq (RPlus (RChar 98)) (RSeq (RChar 99) REmpty)), 0))
    by (vm_compute; reflexivity).
  assert (H2 : re_match (py "ab+c") (py "abbcd") = Ok (Some (MatchObj 0 4 [] 0)))
    by (vm_compute; reflexivity).
  split; [exact H1|]. split; [exact H2|].
  exact (re_match_must_prefix _ _ _ _ _ H1 H2).
Defined.

Lemma star_fuel_enough_witness :
  star_fuel (py "sss") 0 <= 10 /\
  star (mt (py "sss") (RChar 115)) 10 0 [] =
  star (mt (py "sss") (RChar 115)) (star_fuel (py "sss") 0) 0 [].
Proof.
  split; [vm_compute; lia|]. apply star_fuel_enough. vm_compute. lia.
Defined.
