(* ===== verification/Filler.v ===== *)
(** * The transcript parser and filler counter

    [extract_speaker_filler_counts] (src/bullshit_meter.py, lines 44-67):
    split the stripped transcript into lines; for each line the speaker
    pattern of line 48 matches, append the lower-cased group 2 to the list
    of group 1 in the dict [speakers] (first-seen order); then, for each
    speaker, join its lines with a space and count each filler word with
    [re.findall] of the pattern of line 61, keeping the positive counts in
    a [Counter] and the speakers with a non-empty [Counter].

    Dicts are association lists in insertion order, which is Python's
    iteration order.  The function is defined for any speaker pattern and
    boundary text ([extract_with]); [extract_speaker_filler_counts] is
    its instance at the strings the source writes, which are raw strings
    holding a doubled backslash. *)

From Stdlib Require Import Ascii String List Arith NArith Lia Bool.
From S2P Require Import Prelude Utf8 PyStr Regex.
Import ListNotations.
Local Open Scope py_scope.

(** ** The constants of lines 45, 48 and 61 *)

Definition filler_words : list pystr :=
  map py ["like"; "you know"; "um"; "uh"; "i mean"; "sort of"; "kind of"; "just";
          "basically"; "so"; "and so"]%string.

(** Line 48 writes the pattern as a raw string whose text has two
    backslashes before [d] and two before [s]: the regex source is
    exactly the Rocq string below. *)
Definition speaker_pattern : pystr := py "(SPEAKER_\\d+):\\s*(.*)".

(** [r'\\b']: backslash, backslash, [b]. *)
Definition boundary_src : pystr := py "\\b".

(** ** The dict operations of lines 52-54 and 64 *)

(** [if k not in d: d[k] = []] then [d[k].append(x)] (lines 52-54). *)
Definition dict_append (k : pystr) (x : pystr) (d : dict (list pystr)) : dict (list pystr) :=
  match dict_get k d with
  | Some xs => dict_set k (xs ++ [x]) d
  | None => dict_set k [x] d
  end.

(** [counter[k] += n]: a missing key counts 0. *)
Definition counter_add (k : pystr) (n : nat) (c : dict nat) : dict nat :=
  match dict_get k c with
  | Some m => dict_set k (m + n) c
  | None => dict_set k n c
  end.

(** A dict whose entries are computed from its keys. *)
Definition tabulate {V} (ks : list pystr) (F : pystr -> V) : dict V :=
  map (fun k => (k, F k)) ks.

Lemma keys_tabulate {V} ks (F : pystr -> V) : keys (tabulate ks F) = ks.
Proof. unfold keys, tabulate. rewrite map_map. apply map_id. Qed.

Lemma dict_get_tabulate {V} (k : pystr) ks (F : pystr -> V) :
  In k ks -> dict_get k (tabulate ks F) = Some (F k).
Proof.
  induction ks as [|k' ks IH]; simpl; [tauto|]. intros H.
  destruct (pystr_eqb_spec k k'); [subst; reflexivity|].
  destruct H as [->|H]; [congruence|]. now apply IH.
Qed.

Lemma dict_set_tabulate {V} (k : pystr) (v : V) ks (F : pystr -> V) :
  NoDup ks -> In k ks ->
  dict_set k v (tabulate ks F) = tabulate ks (fun k' => if pystr_eqb k' k then v else F k').
Proof.
  induction ks as [|k' ks IH]; simpl; [tauto|]. intros Hnd Hin. inv Hnd.
  destruct (pystr_eqb_spec k k') as [<-|Hne].
  - rewrite pystr_eqb_refl. f_equal. unfold tabulate. apply map_ext_in. intros k' Hk'.
    destruct (pystr_eqb_spec k' k); [subst; contradiction|reflexivity].
  - destruct (pystr_eqb_spec k' k); [congruence|].
    destruct Hin as [->|Hin]; [congruence|]. rewrite IH by assumption. reflexivity.
Qed.

(** The entries [(k, v)] of the keys [l] for which [G k = Some v]. *)
Definition entries {V} (G : pystr -> option V) (l : list pystr) : dict V :=
  flat_map (fun k => match G k with Some v => [(k, v)] | None => [] end) l.

Lemma keys_entries {V} (G : pystr -> option V) l :
  keys (entries G l) = filter (fun k => match G k with Some _ => true | None => false end) l.
Proof.
  induction l as [|k l IH]; [reflexivity|]. unfold entries in *. simpl.
  destruct (G k); simpl; now rewrite IH.
Qed.

Lemma in_entries {V} (G : pystr -> option V) l k v :
  In (k, v) (entries G l) <-> In k l /\ G k = Some v.
Proof.
  unfold entries. rewrite in_flat_map. split.
  - intros (k' & Hk' & Hin). destruct (G k') eqn:E; [|destruct Hin].
    destruct Hin as [[= <- <-]|[]]. auto.
  - intros [Hk E]. exists k. rewrite E. split; [exact Hk|now left].
Qed.

Lemma entries_nodup {V} (G : pystr -> option V) l :
  NoDup l -> NoDup (keys (entries G l)).
Proof. intros H. rewrite keys_entries. now apply NoDup_filter. Qed.

Section Extract.
Context `{U : UnicodeDB}.
Variables (spk_pat bnd : pystr).

(** Lines 48-54 for one line. *)
Definition add_line (speakers : dict (list pystr)) (line : pystr) : res (dict (list pystr)) :=
  m <- re_match spk_pat line ;;
  match m with
  | None => Ok speakers
  | Some mo =>
      g1 <- match_group line mo 1 ;;
      g2 <- match_group line mo 2 ;;
      match g1, g2 with
      | Some speaker, Some t => Ok (dict_append speaker (py_lower t) speakers)
      | _, None => Raise (Exc AttributeError (py "'NoneType' object has no attribute 'lower'"))
      | None, Some _ => Raise (Exc Unmodelled (py "None as a speaker key"))
      end
  end.

(** Line 47: the loop over [transcript.strip().splitlines()]. *)
Fixpoint collect (speakers : dict (list pystr)) (lines : list pystr) : res (dict (list pystr)) :=
  match lines with
  | [] => Ok speakers
  | l :: ls => sp <- add_line speakers l ;; collect sp ls
  end.

(** Line 61. *)
Definition filler_pattern (word : pystr) : pystr := bnd ++ re_escape word ++ bnd.

(** Lines 60-64: the loop over the filler words. *)
Fixpoint count_words (words : list pystr) (combined : pystr) (counter : dict nat)
  : res (dict nat) :=
  match words with
  | [] => Ok counter
  | w :: ws =>
      ms <- re_findall (filler_pattern w) combined ;;
      count_words ws combined
        (match ms with [] => counter | _ => counter_add w (length ms) counter end)
  end.

(** Lines 57-66: the loop over the speakers. *)
Fixpoint build_report (speakers : dict (list pystr)) (report : dict (dict nat))
  : res (dict (dict nat)) :=
  match speakers with
  | [] => Ok report
  | (speaker, lines) :: rest =>
      counter <- count_words filler_words (py_join (py " ") lines) [] ;;
      build_report rest
        (match counter with [] => report | _ => dict_set speaker counter report end)
  end.

Definition extract_with (transcript : pystr) : res (dict (dict nat)) :=
  speakers <- collect [] (py_splitlines (py_strip transcript)) ;;
  build_report speakers [].

End Extract.

Definition extract_speaker_filler_counts `{U : UnicodeDB} (transcript : pystr)
  : res (dict (dict nat)) :=
  extract_with speaker_pattern boundary_src transcript.

(** ** What the speaker pattern of line 48 is

    [sre_parse] reads the doubled backslash as one literal backslash and
    the following [d] and [s] as plain letters: group 1 is [SPEAKER_],
    a backslash and one or more [d]; then come a colon, a backslash, any
    number of [s], and group 2, the rest of the line.  It has no digit
    class and no white-space class. *)
Definition speaker_regex : regex :=
  RSeq (RGroup 1 (seq_lits (py "SPEAKER_\") (RSeq (RPlus (RChar 100)) REmpty)))
    (RSeq (RChar 58) (RSeq (RChar 92) (RSeq (RStar (RChar 115))
      (RSeq (RGroup 2 (RSeq (RStar RAny) REmpty)) REmpty)))).

Lemma speaker_pattern_compiles : re_compile speaker_pattern = Ok (speaker_regex, 2).
Proof. vm_compute. reflexivity. Qed.

(** Every line the pattern accepts begins with this text. *)
Definition speaker_prefix : pystr := py "SPEAKER_\d".

Ltac inv_matches :=
  repeat match goal with
  | H : matches _ (RSeq _ _) _ _ _ _ |- _ => inv H
  | H : matches _ (RChar _) _ _ _ _ |- _ => inv H
  | H : matches _ REmpty _ _ _ _ |- _ => inv H
  | H : matches _ (RGroup _ _) _ _ _ _ |- _ => inv H
  | H : matches _ (RStar _) _ _ _ _ |- _ =>
      apply matches_no_groups in H; [subst | reflexivity]
  end.

(** Both groups take part in every match, and group 1 starts the line
    with [speaker_prefix]. *)
Lemma speaker_match_groups `{U : UnicodeDB} (line : pystr) (j : nat) (g : caps) :
  In (j, g) (mt line speaker_regex 0 []) ->
  exists k1 k2, group_span g 1 = Some (0, k1) /\ group_span g 2 = Some (k2, j) /\
                is_prefix speaker_prefix (substr line 0 k1) = true.
Proof.
  intros Hin. apply mt_sound in Hin. unfold speaker_regex in Hin.
  inv Hin. match goal with H : matches _ (RGroup 1 _) _ _ _ _ |- _ => inv H end.
  match goal with H : matches line _ 0 [] ?k _ |- _ =>
    exists k; pose proof (matches_must_prefix_substr _ _ _ _ _ _ H) as Hp; clear H end.
  inv_matches. eexists. split; [reflexivity|]. split; [reflexivity|]. exact Hp.
Qed.

Section Lines.
Context `{U : UnicodeDB}.

(** Lines 48-51: the speaker and the (not yet lower-cased) text of a
    line, when the pattern matches it. *)
Definition speaker_line (line : pystr) : option (pystr * pystr) :=
  match mt line speaker_regex 0 [] with
  | (j, g) :: _ =>
      match group_span g 1, group_span g 2 with
      | Some (a1, b1), Some (a2, b2) => Some (substr line a1 b1, substr line a2 b2)
      | _, _ => None
      end
  | [] => None
  end.

Lemma speaker_line_prefix (line sp t : pystr) :
  speaker_line line = Some (sp, t) -> is_prefix speaker_prefix sp = true.
Proof.
  unfold speaker_line. destruct (mt line speaker_regex 0 []) as [|[j g] rest] eqn:E;
    [discriminate|].
  destruct (speaker_match_groups line j g) as (k1 & k2 & -> & -> & Hp);
    [rewrite E; now left|].
  intros [= <- _]. exact Hp.
Qed.

(** For the source's pattern, [add_line] never raises: it is the update
    [speaker_line] describes. *)
Lemma add_line_speaker (speakers : dict (list pystr)) (line : pystr) :
  add_line speaker_pattern speakers line =
  Ok (match speaker_line line with
      | Some (sp, t) => dict_append sp (py_lower t) speakers
      | None => speakers
      end).
Proof.
  unfold add_line, re_match. rewrite speaker_pattern_compiles. cbn [res_bind].
  unfold speaker_line.
  destruct (mt line speaker_regex 0 []) as [|[j g] rest] eqn:E; [reflexivity|].
  destruct (speaker_match_groups line j g) as (k1 & k2 & H1 & H2 & _); [rewrite E; now left|].
  unfold match_group. cbn [m_ngroups m_caps Nat.ltb Nat.leb]. rewrite H1, H2. reflexivity.
Qed.

End Lines.

(** ** The specification: grouping by speaker, counting with [str.count]

    [utterances] lists the (speaker, lower-cased text) of the accepted
    lines in order; [grouped] is the dict [speakers] of line 46 described
    by its content: the speakers in first-seen order, each with its texts
    in order. *)

Section Spec.
Context `{U : UnicodeDB}.

Definition utterances (lines : list pystr) : list (pystr * pystr) :=
  flat_map (fun l => match speaker_line l with
                     | Some (sp, t) => [(sp, py_lower t)]
                     | None => []
                     end) lines.

Definition add_key (acc : list pystr) (k : pystr) : list pystr :=
  if existsb (pystr_eqb k) acc then acc else acc ++ [k].

Definition speakers_of (us : list (pystr * pystr)) : list pystr :=
  fold_left (fun acc u => add_key acc (fst u)) us [].

Definition texts_of (sp : pystr) (us : list (pystr * pystr)) : list pystr :=
  map snd (filter (fun u => pystr_eqb (fst u) sp) us).

Definition grouped (us : list (pystr * pystr)) : dict (list pystr) :=
  tabulate (speakers_of us) (fun sp => texts_of sp us).

Lemma existsb_pystr_eqb (k : pystr) (l : list pystr) :
  existsb (pystr_eqb k) l = true <-> In k l.
Proof.
  rewrite existsb_exists. split.
  - intros (x & Hx & E). destruct (pystr_eqb_spec k x); [subst; auto|discriminate].
  - intros H. exists k. now rewrite pystr_eqb_refl.
Qed.

Lemma in_add_key (acc : list pystr) (k x : pystr) :
  In x (add_key acc k) <-> In x acc \/ x = k.
Proof.
  unfold add_key. destruct (existsb (pystr_eqb k) acc) eqn:E.
  - apply existsb_pystr_eqb in E. split; [auto|]. intros [H| ->]; auto.
  - rewrite in_app_iff. simpl. intuition.
Qed.

Lemma nodup_add_key (acc : list pystr) (k : pystr) : NoDup acc -> NoDup (add_key acc k).
Proof.
  unfold add_key. destruct (existsb (pystr_eqb k) acc) eqn:E; [auto|]. intros H.
  apply NoDup_app; [exact H | constructor; [intros []|constructor] |].
  intros x Hx [<-|[]]. apply (proj2 (existsb_pystr_eqb k acc)) in Hx. congruence.
Qed.

Lemma speakers_of_spec (us : list (pystr * pystr)) (k : pystr) :
  In k (speakers_of us) <-> exists t, In (k, t) us.
Proof.
  unfold speakers_of.
  assert (forall acc, In k (fold_left (fun acc u => add_key acc (fst u)) us acc) <->
                      In k acc \/ exists t, In (k, t) us) as Hgen.
  { induction us as [|[k' t'] us IH]; intros acc; simpl.
    - split; [auto|]. intros [H|[t []]]. exact H.
    - rewrite IH, in_add_key. split.
      + intros [[H| ->]|[t Ht]]; eauto.
      + intros [H|[t [[= -> ->]|Ht]]]; eauto. }
  rewrite Hgen. simpl. intuition.
Qed.

Lemma speakers_of_nodup (us : list (pystr * pystr)) : NoDup (speakers_of us).
Proof.
  unfold speakers_of. generalize (@NoDup_nil pystr). generalize (@nil pystr).
  induction us as [|u us IH]; intros acc H; simpl; auto using nodup_add_key.
Qed.

Lemma speakers_of_snoc (us : list (pystr * pystr)) (sp t : pystr) :
  speakers_of (us ++ [(sp, t)]) = add_key (speakers_of us) sp.
Proof. unfold speakers_of. now rewrite fold_left_app. Qed.

Lemma texts_of_snoc (k : pystr) (us : list (pystr * pystr)) (sp t : pystr) :
  texts_of k (us ++ [(sp, t)]) = texts_of k us ++ (if pystr_eqb sp k then [t] else []).
Proof.
  unfold texts_of. rewrite filter_app, map_app. simpl.
  destruct (pystr_eqb sp k); reflexivity.
Qed.

Lemma texts_of_absent (k : pystr) (us : list (pystr * pystr)) :
  ~ In k (speakers_of us) -> texts_of k us = [].
Proof.
  rewrite speakers_of_spec. intros H. unfold texts_of.
  destruct (filter (fun u => pystr_eqb (fst u) k) us) as [|[k' t] l] eqn:E; [reflexivity|].
  exfalso. assert (In (k', t) (filter (fun u => pystr_eqb (fst u) k) us)) as Hin
    by (rewrite E; now left).
  apply filter_In in Hin as [Hin Hk]. simpl in Hk.
  destruct (pystr_eqb_spec k' k); [subst; eauto|discriminate].
Qed.

(** Lines 52-54 on the dict described by [grouped] append one utterance. *)
Lemma grouped_snoc (us : list (pystr * pystr)) (sp t : pystr) :
  dict_append sp t (grouped us) = grouped (us ++ [(sp, t)]).
Proof.
  unfold dict_append, grouped. rewrite speakers_of_snoc. unfold add_key.
  destruct (existsb (pystr_eqb sp) (speakers_of us)) eqn:E.
  - apply existsb_pystr_eqb in E.
    rewrite dict_get_tabulate, dict_set_tabulate by auto using speakers_of_nodup.
    unfold tabulate. apply map_ext. intros k. rewrite texts_of_snoc.
    destruct (pystr_eqb_spec k sp) as [->|Hne].
    + now rewrite pystr_eqb_refl.
    + destruct (pystr_eqb_spec sp k); [congruence|]. now rewrite app_nil_r.
  - assert (~ In sp (speakers_of us)) as Hn
      by (rewrite <- existsb_pystr_eqb; congruence).
    rewrite dict_get_none, dict_set_new by (rewrite keys_tabulate; exact Hn).
    unfold tabulate. rewrite map_app. simpl. f_equal.
    + apply map_ext_in. intros k Hk. rewrite texts_of_snoc.
      destruct (pystr_eqb_spec sp k); [subst; contradiction|]. now rewrite app_nil_r.
    + rewrite texts_of_snoc, texts_of_absent, pystr_eqb_refl by exact Hn. reflexivity.
Qed.

Lemma grouped_nil : grouped [] = [].
Proof. reflexivity. Qed.

(** Line 47: with the source's pattern the loop never raises and builds
    the grouping of the utterances. *)
Lemma collect_grouped (us0 : list (pystr * pystr)) (lines : list pystr) :
  collect speaker_pattern (grouped us0) lines = Ok (grouped (us0 ++ utterances lines)).
Proof.
  revert us0; induction lines as [|l ls IH]; intros us0; simpl.
  - now rewrite app_nil_r.
  - rewrite add_line_speaker. cbn [res_bind].
    destruct (speaker_line l) as [[sp t]|].
    + rewrite grouped_snoc, IH, <- app_assoc. reflexivity.
    + apply IH.
Qed.

(** The text line 61's pattern matches for [word]: a backslash, [b], the
    word, a backslash, [b]. *)
Definition filler_text (word : pystr) : pystr := py "\b" ++ word ++ py "\b".

(** [r'\b'] is [re.escape] of backslash-[b], so line 61's pattern is
    [re.escape] of [filler_text]. *)
Lemma filler_pattern_escape (word : pystr) :
  filler_pattern boundary_src word = re_escape (filler_text word).
Proof.
  unfold filler_pattern, filler_text, re_escape.
  rewrite !flat_map_app_distr. reflexivity.
Qed.

(** The counts of one speaker's text: [str.count] of each filler text,
    the positive ones, in vocabulary order. *)
Definition word_count (text w : pystr) : option nat :=
  let n := py_count (filler_text w) text in if Nat.eqb n 0 then None else Some n.

Definition word_counts (text : pystr) : dict nat := entries (word_count text) filler_words.

Lemma count_words_spec (words : list pystr) (text : pystr) (counter : dict nat) :
  NoDup words -> (forall w, In w words -> ~ In w (keys counter)) ->
  count_words boundary_src words text counter = Ok (counter ++ entries (word_count text) words).
Proof.
  revert counter; induction words as [|w ws IH]; intros counter Hnd Hfresh;
    unfold entries in *; cbn [count_words flat_map].
  - now rewrite app_nil_r.
  - inv Hnd. rewrite filler_pattern_escape. unfold word_count at 1.
    destruct (findall_escape_count (filler_text w) text) as (items & -> & Hlen);
      [unfold filler_text; now destruct w|].
    cbn [res_bind]. rewrite <- Hlen. destruct items as [|it items]; cbn [length Nat.eqb app].
    + apply IH; auto. intros x Hx. apply Hfresh. now right.
    + unfold counter_add. rewrite dict_get_none, dict_set_new
        by (apply Hfresh; now left).
      rewrite IH, <- app_assoc; [reflexivity|assumption|].
      intros x Hx. rewrite keys_app, in_app_iff. intros [Hc|[<-|[]]];
        [exact (Hfresh x (or_intror Hx) Hc) | contradiction].
Qed.

Lemma filler_words_nodup : NoDup filler_words.
Proof.
  unfold filler_words. simpl.
  repeat constructor; simpl; intros H;
    repeat (destruct H as [H|H]; [discriminate H|]); exact H.
Qed.

(** The report: the speakers in first-seen order with a non-empty count. *)
Definition speaker_counts (us : list (pystr * pystr)) (sp : pystr) : option (dict nat) :=
  match word_counts (py_join (py " ") (texts_of sp us)) with
  | [] => None
  | c => Some c
  end.

Definition spec_report (us : list (pystr * pystr)) : dict (dict nat) :=
  entries (speaker_counts us) (speakers_of us).

Lemma build_report_spec (speakers : dict (list pystr)) (report : dict (dict nat)) :
  NoDup (keys speakers) -> (forall k, In k (keys speakers) -> ~ In k (keys report)) ->
  build_report boundary_src speakers report =
  Ok (report ++ flat_map (fun e => match word_counts (py_join (py " ") (snd e)) with
                                   | [] => []
                                   | c => [(fst e, c)]
                                   end) speakers).
Proof.
  revert report; induction speakers as [|[sp lines] rest IH]; intros report Hnd Hfresh.
  - simpl. now rewrite app_nil_r.
  - inv Hnd. cbn [build_report]. rewrite count_words_spec
      by (auto using filler_words_nodup; intros w _ []).
    cbn [res_bind app]. fold (word_counts (py_join (py " ") lines)).
    cbn [flat_map fst snd].
    destruct (word_counts (py_join (py " ") lines)) as [|c cs] eqn:E.
    + apply IH; auto. intros k Hk. apply Hfresh. now right.
    + rewrite dict_set_new by (apply Hfresh; now left).
      rewrite IH, <- app_assoc; [reflexivity|assumption|].
      intros k Hk. rewrite keys_app, in_app_iff. intros [Hc|[<-|[]]];
        [exact (Hfresh k (or_intror Hk) Hc) | contradiction].
Qed.

End Spec.

(** ** Functional correctness *)

(** [extract_speaker_filler_counts] never raises, and its result is the
    specification: for each speaker in first-seen order whose joined,
    lower-cased texts contain a filler text, the number of non-overlapping
    occurrences of each filler text ([str.count]), in vocabulary order,
    positive counts only. *)
Theorem extract_refines `{U : UnicodeDB} (t : pystr) :
  extract_speaker_filler_counts t =
  Ok (spec_report (utterances (py_splitlines (py_strip t)))).
Proof.
  unfold extract_speaker_filler_counts, extract_with.
  rewrite <- grouped_nil, collect_grouped. cbn [res_bind app].
  set (us := utterances _).
  rewrite build_report_spec.
  - unfold spec_report, entries, speaker_counts, grouped, tabulate.
    rewrite !flat_map_concat_map, map_map. simpl. f_equal. f_equal. apply map_ext. intros k.
    now destruct (word_counts _).
  - unfold grouped. rewrite keys_tabulate. apply speakers_of_nodup.
  - intros k _ [].
Qed.

(** ** Consequences *)

Lemma utterances_keys `{U : UnicodeDB} (lines : list pystr) (sp t : pystr) :
  In (sp, t) (utterances lines) -> is_prefix speaker_prefix sp = true.
Proof.
  unfold utterances. rewrite in_flat_map. intros (l & _ & Hin).
  destruct (speaker_line l) as [[sp' t']|] eqn:E; [|destruct Hin].
  destruct Hin as [[= <- _]|[]]. exact (speaker_line_prefix l sp' t' E).
Qed.

(** A line the pattern accepts starts with [speaker_prefix]. *)
Lemma speaker_line_starts `{U : UnicodeDB} (l : pystr) (st : pystr * pystr) :
  speaker_line l = Some st -> is_prefix speaker_prefix l = true.
Proof.
  unfold speaker_line. destruct (mt l speaker_regex 0 []) as [|[j g] rest] eqn:Em;
    [discriminate|]. intros _.
  assert (Hin : In (j, g) (mt l speaker_regex 0 [])) by (rewrite Em; now left).
  exact (matches_must_prefix l speaker_regex 0 [] j g (mt_sound l speaker_regex 0 [] j g Hin)).
Qed.

Lemma utterances_none `{U : UnicodeDB} (lines : list pystr) :
  forallb (fun l => negb (is_prefix speaker_prefix l)) lines = true ->
  utterances lines = [].
Proof.
  induction lines as [|l ls IH]; [reflexivity|]. unfold utterances; cbn [forallb flat_map].
  fold (utterances ls). intros H. apply andb_true_iff in H as [Hl Hls]. rewrite IH by exact Hls.
  destruct (speaker_line l) as [st|] eqn:E; [|reflexivity].
  apply speaker_line_starts in E. rewrite E in Hl. discriminate.
Qed.

(** The lines of Scenario A of the specification. *)
Definition scenario_a : pystr :=
  py "SPEAKER_00: Um, I think we should, like, circle back." ++ [10%N]
  ++ py "SPEAKER_01: Sure, sounds good.".

(** The speaker pattern of line 48 requires a literal backslash after
    [SPEAKER_]: a transcript none of whose lines starts with
    [SPEAKER_] backslash [d] (every transcript in the [SPEAKER_<digits>:]
    format of the specification) gets an empty report. *)
Theorem extract_empty_for_spec_format `{U : UnicodeDB} (t : pystr) :
  forallb (fun l => negb (is_prefix speaker_prefix l)) (py_splitlines (py_strip t)) = true ->
  extract_speaker_filler_counts t = Ok [].
Proof. intros H. rewrite extract_refines, utterances_none by exact H. reflexivity. Qed.

Lemma extract_empty_for_spec_format_witness :
  forallb (fun l => negb (is_prefix speaker_prefix l))
          (py_splitlines (py_strip scenario_a)) = true /\
  extract_speaker_filler_counts scenario_a = Ok [].
Proof.
  split; [vm_compute; reflexivity|].
  apply extract_empty_for_spec_format. vm_compute. reflexivity.
Defined.

(** C7.  Every speaker of the report starts with [SPEAKER_] backslash
    [d]: the label [SPEAKER_00] of the specification never occurs. *)
Theorem report_speakers_prefix `{U : UnicodeDB} (t : pystr) (rep : dict (dict nat))
    (sp : pystr) (c : dict nat) :
  extract_speaker_filler_counts t = Ok rep -> In (sp, c) rep ->
  is_prefix speaker_prefix sp = true.
Proof.
  rewrite extract_refines. intros [= <-]. unfold spec_report. rewrite in_entries.
  intros [Hk _]. apply speakers_of_spec in Hk as [t' Ht'].
  exact (utterances_keys _ _ _ Ht').
Qed.

(** A line in the format the pattern does accept. *)
Definition accepted_line : pystr := py "SPEAKER_\dd:\ \bso\b and \bum\b, \bso\b".

Definition accepted_report : dict (dict nat) :=
  [(py "SPEAKER_\dd", [(py "um", 1); (py "so", 2)])].

Lemma report_speakers_prefix_witness :
  extract_speaker_filler_counts accepted_line = Ok accepted_report /\
  is_prefix speaker_prefix (py "SPEAKER_\dd") = true.
Proof.
  assert (H : extract_speaker_filler_counts accepted_line = Ok accepted_report)
    by (vm_compute; reflexivity).
  split; [exact H|].
  exact (report_speakers_prefix _ _ _ _ H (or_introl eq_refl)).
Defined.

Lemma prefix_in (w l : pystr) (c : N) : is_prefix w l = true -> In c w -> In c l.
Proof.
  intros H Hc. apply is_prefix_spec in H as [r ->]. apply in_or_app. now left.
Qed.

(** Without a backslash in the transcript no line is a speaker line. *)
Lemma utterances_without_backslash `{U : UnicodeDB} (t : pystr) :
  existsb (N.eqb 92) t = false -> utterances (py_splitlines (py_strip t)) = [].
Proof.
  intros H. apply utterances_none.
  apply forallb_forall. intros l Hl. apply negb_true_iff, not_true_iff_false.
  intros Hp. assert (Hin : In 92%N l) by (apply (prefix_in speaker_prefix); [exact Hp | vm_compute; tauto]).
  apply py_splitlines_incl with (c := 92%N) in Hl; [|exact Hin].
  apply py_strip_incl in Hl. apply not_true_iff_false in H. apply H.
  apply existsb_exists. exists 92%N. split; [exact Hl|apply N.eqb_refl].
Qed.

(** C1.  A transcript that holds no backslash gets an empty report: the
    spec's Scenario A, and every transcript in its format, among them. *)
Theorem extract_empty_without_backslash `{U : UnicodeDB} (t : pystr) :
  existsb (N.eqb 92) t = false -> extract_speaker_filler_counts t = Ok [].
Proof. intros H. rewrite extract_refines, utterances_without_backslash by exact H. reflexivity. Qed.

Lemma extract_empty_without_backslash_witness :
  existsb (N.eqb 92) scenario_a = false /\ extract_speaker_filler_counts scenario_a = Ok [].
Proof.
  split; [vm_compute; reflexivity|]. apply extract_empty_without_backslash.
  vm_compute. reflexivity.
Defined.

Lemma dict_get_in {V} (k : pystr) (d : dict V) (v : V) :
  dict_get k d = Some v -> In (k, v) d.
Proof.
  induction d as [|[k' v'] d IH]; simpl; [discriminate|].
  destruct (pystr_eqb_spec k k') as [->|_]; [intros [= ->]; now left|]. intros H; right; auto.
Qed.

(** C19.  The report is well formed: no speaker twice; each speaker with a
    non-empty count dict; each count dict without a word twice, with
    words of the vocabulary and counts of at least 1. *)
Theorem report_well_formed `{U : UnicodeDB} (t : pystr) (rep : dict (dict nat)) :
  extract_speaker_filler_counts t = Ok rep ->
  NoDup (keys rep) /\
  forall sp c, In (sp, c) rep ->
    c <> [] /\ NoDup (keys c) /\
    forall w n, In (w, n) c -> In w filler_words /\ 1 <= n.
Proof.
  rewrite extract_refines. intros [= <-]. split.
  - apply entries_nodup, speakers_of_nodup.
  - intros sp c Hin. apply in_entries in Hin as [_ Hc]. unfold speaker_counts in Hc.
    destruct (word_counts _) as [|e es] eqn:E; [discriminate|]. injection Hc as <-.
    split; [discriminate|]. rewrite <- E. split; [apply entries_nodup, filler_words_nodup|].
    intros w n Hwn. apply in_entries in Hwn as [Hw Hn]. split; [exact Hw|].
    unfold word_count in Hn. match type of Hn with context [Nat.eqb ?x 0] =>
      destruct (Nat.eqb_spec x 0); [discriminate|]; assert (x = n) by congruence end. lia.
Qed.

Lemma report_well_formed_witness :
  extract_speaker_filler_counts accepted_line = Ok accepted_report /\
  NoDup (keys accepted_report).
Proof.
  assert (H : extract_speaker_filler_counts accepted_line = Ok accepted_report)
    by (vm_compute; reflexivity).
  split; [exact H|]. exact (proj1 (report_well_formed _ _ H)).
Defined.

(** C20.  Scenario D: the counts of a speaker come from that speaker's lines
    only, in the lower-cased text of its lines joined by spaces. *)
Theorem report_attribution `{U : UnicodeDB} (t : pystr) (rep : dict (dict nat))
    (sp : pystr) (c : dict nat) :
  extract_speaker_filler_counts t = Ok rep -> dict_get sp rep = Some c ->
  c = word_counts (py_join (py " ") (texts_of sp (utterances (py_splitlines (py_strip t))))).
Proof.
  rewrite extract_refines. intros [= <-] Hg. apply dict_get_in, in_entries in Hg as [_ Hc].
  unfold speaker_counts in Hc. destruct (word_counts _); [discriminate|]. congruence.
Qed.

Lemma report_attribution_witness :
  extract_speaker_filler_counts accepted_line = Ok accepted_report /\
  dict_get (py "SPEAKER_\dd") accepted_report = Some [(py "um", 1); (py "so", 2)] /\
  [(py "um", 1); (py "so", 2)] =
    word_counts (py_join (py " ") (texts_of (py "SPEAKER_\dd")
                                   (utterances (py_splitlines (py_strip accepted_line))))).
Proof.
  assert (H : extract_speaker_filler_counts accepted_line = Ok accepted_report)
    by (vm_compute; reflexivity).
  assert (H2 : dict_get (py "SPEAKER_\dd") accepted_report = Some [(py "um", 1); (py "so", 2)])
    by (vm_compute; reflexivity).
  split; [exact H|]. split; [exact H2|]. exact (report_attribution _ _ _ _ H H2).
Defined.

(** C21.  [re.match] of line 48 succeeds only on lines that start with
    [SPEAKER_], a backslash and [d]. *)
Theorem speaker_match_needs_backslash `{U : UnicodeDB} (line : pystr) (m : match_obj) :
  re_match speaker_pattern line = Ok (Some m) -> is_prefix speaker_prefix line = true.
Proof.
  unfold re_match. rewrite speaker_pattern_compiles. cbn [res_bind].
  destruct (mt line speaker_regex 0 []) as [|[j g] rest] eqn:E; [discriminate|]. intros _.
  assert (Hin : In (j, g) (mt line speaker_regex 0 [])) by (rewrite E; now left).
  exact (matches_must_prefix line speaker_regex 0 [] j g (mt_sound line speaker_regex 0 [] j g Hin)).
Qed.

Lemma speaker_match_needs_backslash_witness :
  re_match speaker_pattern accepted_line = Ok (Some (MatchObj 0 39 [(2, (13, 39)); (1, (0, 11))] 2)) /\
  is_prefix speaker_prefix accepted_line = true.
Proof.
  assert (H : re_match speaker_pattern accepted_line =
              Ok (Some (MatchObj 0 39 [(2, (13, 39)); (1, (0, 11))] 2)))
    by (vm_compute; reflexivity).
  split; [exact H|]. exact (speaker_match_needs_backslash _ _ H).
Defined.

(** C2.  The dict-and-[Counter] code of lines 46-67 computes the specification
    [spec_report]: it never raises, groups the lower-cased texts by
    speaker in first-seen order, and counts each filler text with
    [str.count] on the space-joined texts. *)
Theorem extract_speaker_filler_counts_spec `{U : UnicodeDB} (t : pystr) :
  extract_speaker_filler_counts t =
  Ok (spec_report (utterances (py_splitlines (py_strip t)))).
Proof. exact (extract_refines t). Qed.

(** ** Where the report's texts come from *)

Lemma speaker_line_incl `{U : UnicodeDB} (l sp t : pystr) (c : N) :
  speaker_line l = Some (sp, t) -> In c sp -> In c l.
Proof.
  unfold speaker_line. destruct (mt l speaker_regex 0 []) as [|[j g] rest]; [discriminate|].
  destruct (group_span g 1) as [[a1 b1]|], (group_span g 2) as [[a2 b2]|]; try discriminate.
  intros [= <- _]. apply substr_incl.
Qed.

(** Every code point of a speaker of the report occurs in one line of
    the transcript; every word of a count dict is in the vocabulary. *)
Lemma report_sources `{U : UnicodeDB} (t : pystr) (sp : pystr) (c : dict nat) :
  In (sp, c) (spec_report (utterances (py_splitlines (py_strip t)))) ->
  (exists l, In l (py_splitlines (py_strip t)) /\ forall ch, In ch sp -> In ch l) /\
  (forall w n, In (w, n) c -> In w filler_words).
Proof.
  unfold spec_report. rewrite in_entries. intros [Hk Hc]. split.
  - apply speakers_of_spec in Hk as [t' Ht']. unfold utterances in Ht'.
    apply in_flat_map in Ht' as (l & Hl & Hin).
    destruct (speaker_line l) as [[sp' t'']|] eqn:E; [|destruct Hin].
    destruct Hin as [[= <- _]|[]]. exists l. split; [exact Hl|].
    intros ch Hch. exact (speaker_line_incl _ _ _ _ E Hch).
  - unfold speaker_counts in Hc. destruct (word_counts _) eqn:E; [discriminate|].
    injection Hc as <-. rewrite <- E. intros w n Hwn. now apply in_entries in Hwn as [Hw _].
Qed.
