(* ===== verification/World.v ===== *)
(** * The program's world: files, standard output, and [io]

    [run_bullshit_meter] (src/bullshit_meter.py, lines 69-107) reads one
    file ([open(transcript_path, "r")], lines 70-71), truncates and writes
    another ([open(output_path, "w")], lines 102-103) and prints three
    lines (lines 105-107).  The [world] holds the files as bytes, the
    paths that cannot be opened for writing, and what has been printed;
    [io] is [stres world] of the prelude.  Text mode is modelled as on
    Linux with a UTF-8 locale: reading decodes strictly and translates
    universal newlines, writing encodes strictly with no newline
    translation. *)

From Stdlib Require Import Ascii String List NArith Lia Bool.
From S2P Require Import Prelude Utf8 PyStr.
Import ListNotations.
Local Open Scope py_scope.

Record world := World {
  w_files : dict bytes;       (** path to contents *)
  w_readonly : list pystr;    (** paths [open(p, "w")] refuses *)
  w_stdout : pystr;           (** everything printed so far *)
}.

Abbreviation io A := (stres world A).

Definition set_file (p : pystr) (b : bytes) (w : world) : world :=
  World (dict_set p b (w_files w)) (w_readonly w) (w_stdout w).

Section Io.
Context `{U : UnicodeDB}.

(** [str] of an [OSError] with a file name: [[Errno n] what: %R]. *)
Definition errno_msg (n : string) (what : string) (p : pystr) : pystr :=
  py "[Errno " ++ py n ++ py "] " ++ py what ++ py ": " ++ py_repr p.

(** Reading with [newline=None] turns [\r\n] and a lone [\r] into [\n]. *)
Fixpoint universal_newlines (s : pystr) : pystr :=
  match s with
  | [] => []
  | c :: s' =>
      if (c =? 13)%N then
        match s' with
        | d :: s'' => if (d =? 10)%N then 10%N :: universal_newlines s''
                      else 10%N :: universal_newlines s'
        | [] => [10%N]
        end
      else c :: universal_newlines s'
  end.

(** The message of [UnicodeEncodeError] from the strict [utf-8] codec:
    the first run of surrogates, one named by its [repr], several by
    their positions. *)
Fixpoint surrogate_run (s : pystr) : nat :=
  match s with
  | c :: s' => if is_scalar c then 0 else S (surrogate_run s')
  | [] => 0
  end.

Fixpoint first_surrogate (s : pystr) (i : nat) : option (N * nat * nat) :=
  match s with
  | [] => None
  | c :: s' => if is_scalar c then first_surrogate s' (S i) else Some (c, i, surrogate_run s)
  end.

Definition encode_error (s : pystr) : exn :=
  Exc UnicodeEncodeError
    match first_surrogate s 0 with
    | Some (c, i, 1%nat) =>
        py "'utf-8' codec can't encode character '\u" ++ hex4 c ++ py "' in position "
        ++ py_str_nat i ++ py ": surrogates not allowed"
    | Some (_, i, k) =>
        py "'utf-8' codec can't encode characters in position " ++ py_str_nat i ++ py "-"
        ++ py_str_nat (i + k - 1) ++ py ": surrogates not allowed"
    | None => []
    end.

(** The message of [UnicodeDecodeError] ([UnicodeDecodeError_str],
    [Objects/exceptions.c]): one byte is named by its value in
    hexadecimal, a longer range by its first and last positions. *)
Definition utf8_reason_text (r : utf8_reason) : pystr :=
  match r with
  | EndOfData => py "unexpected end of data"
  | InvalidStart => py "invalid start byte"
  | InvalidContinuation => py "invalid continuation byte"
  end.

Definition hex2 (x : N) : pystr := [hex_digit (x / 16); hex_digit (x mod 16)]%N.

Definition decode_error (b : bytes) (e : utf8_error) : exn :=
  Exc UnicodeDecodeError
    (if Nat.eqb (err_end e) (S (err_start e))
     then py "'utf-8' codec can't decode byte 0x" ++ hex2 (nth (err_start e) b 0%N)
          ++ py " in position " ++ py_str_nat (err_start e) ++ py ": " ++ utf8_reason_text (err_reason e)
     else py "'utf-8' codec can't decode bytes in position " ++ py_str_nat (err_start e) ++ py "-"
          ++ py_str_nat (err_end e - 1) ++ py ": " ++ utf8_reason_text (err_reason e)).

(** Lines 70-71: [with open(p, "r") as f: transcript = f.read()]: the
    whole file is decoded at once, so an error's positions are offsets
    in the file. *)
Definition read_text (p : pystr) : io pystr := fun w =>
  match dict_get p (w_files w) with
  | None => (Raise (Exc FileNotFoundError (errno_msg "2" "No such file or directory" p)), w)
  | Some b =>
      match decode_utf8 b 0 with
      | inl s => (Ok (universal_newlines s), w)
      | inr e => (Raise (decode_error b e), w)
      end
  end.

(** Line 102: [open(p, "w")] creates or truncates the file. *)
Definition open_write (p : pystr) : io unit := fun w =>
  if existsb (pystr_eqb p) (w_readonly w)
  then (Raise (Exc OSError (errno_msg "13" "Permission denied" p)), w)
  else (Ok tt, set_file p [] w).

(** Line 103: [out.write(s)] appends the encoding of [s] to the open
    file; a surrogate raises [UnicodeEncodeError] and writes nothing. *)
Definition write_text (p : pystr) (s : pystr) : io unit := fun w =>
  match utf8_encode s with
  | None => (Raise (encode_error s), w)
  | Some b =>
      let old := match dict_get p (w_files w) with Some o => o | None => [] end in
      (Ok tt, set_file p (old ++ b) w)
  end.

(** [print(s)]: [s] and a newline on standard output, encoded strictly. *)
Definition print (s : pystr) : io unit := fun w =>
  match utf8_encode (s ++ [10%N]) with
  | None => (Raise (encode_error (s ++ [10%N])), w)
  | Some _ => (Ok tt, World (w_files w) (w_readonly w) (w_stdout w ++ s ++ [10%N]))
  end.

(** ** Lemmas *)

Definition scalars (s : pystr) : Prop := Forall (fun c => is_scalar c = true) s.

Lemma universal_newlines_incl (P : N -> Prop) (n : nat) :
  P 10%N -> forall s, (length s <= n)%nat -> Forall P s -> Forall P (universal_newlines s).
Proof.
  intros H10. induction n as [|n IH]; intros [|c s'] Hn Hs; simpl in *; try constructor; try lia.
  inversion Hs as [|? ? Hc Hs']; subst.
  destruct (c =? 13)%N; [|constructor; [exact Hc | apply IH; [lia | exact Hs']]].
  destruct s' as [|d s'']; [repeat constructor; exact H10|].
  inversion Hs' as [|? ? Hd Hs'']; subst. simpl in Hn.
  destruct (d =? 10)%N; constructor; auto; apply IH; simpl; auto; lia.
Qed.

Lemma read_text_ok (p : pystr) (w : world) (b : bytes) (s : pystr) :
  dict_get p (w_files w) = Some b -> utf8_decode b = Some s ->
  read_text p w = (Ok (universal_newlines s), w).
Proof. intros Hp Hs. unfold read_text. now rewrite Hp, (decode_utf8_ok b 0 s Hs). Qed.

Lemma open_write_ok (p : pystr) (w : world) :
  ~ In p (w_readonly w) -> open_write p w = (Ok tt, set_file p [] w).
Proof.
  intros Hp. unfold open_write.
  destruct (existsb (pystr_eqb p) (w_readonly w)) eqn:E; [|reflexivity].
  apply existsb_exists in E as [x [Hx Ex]]. destruct (pystr_eqb_spec p x); [subst; contradiction|discriminate].
Qed.

Lemma write_text_fresh (p s : pystr) (w : world) (b : bytes) :
  utf8_encode s = Some b ->
  write_text p s (set_file p [] w) = (Ok tt, set_file p b (set_file p [] w)).
Proof. intros Hb. unfold write_text, set_file. cbn. now rewrite Hb, dict_get_set_same. Qed.

Lemma print_ok (s : pystr) (w : world) :
  scalars s ->
  print s w = (Ok tt, World (w_files w) (w_readonly w) (w_stdout w ++ s ++ [10%N])).
Proof.
  intros Hs. unfold print.
  destruct (proj1 (utf8_encode_scalars (s ++ [10%N]))) as [b ->]; [|reflexivity].
  apply Forall_app. split; [exact Hs | repeat constructor].
Qed.

End Io.

(** A path holding a quote is shown between double quotes, as [%R] does. *)
Example errno_msg_quote :
  @errno_msg latin1_db "2" "No such file or directory" (py "it's.txt")
  = py "[Errno 2] No such file or directory: " ++ [34%N] ++ py "it's.txt" ++ [34%N].
Proof. vm_compute. reflexivity. Qed.
