(* ===== verification/Float.v ===== *)
(** * Python's [float]: binary64, [float()] of a decimal literal, [repr]

    The reply [response.json()] decodes (src/bullshit_meter.py, line 87)
    may hold numbers with a fraction or an exponent, which
    [json.loads] turns into [float] by [float(text)]
    ([PyFloat_FromString], that is David Gay's [_Py_dg_strtod]: the
    binary64 value nearest to the decimal, ties to even); the error block
    of line 92 writes them back with [json.dumps], that is [float.__repr__]
    ([_Py_dg_dtoa] in mode 0, the shortest digit string that reads back
    to the same value, the nearest one among the shortest, and
    [format_float_short] of [pystrtod.c] with the [r] format code).

    A [float] is the Stdlib's [spec_float] (the specification of
    [PrimFloat]) at [prec = 53], [emax = 1024].  The rounding works in
    units of the smallest subnormal [2^-1074]: a positive double is
    [M * 2^s] such units with [1 <= M < 2^53], [0 <= s <= 2045] and
    [2^52 <= M] unless [s = 0] ([fin_ok]); [round_scaled T d] is the
    double nearest to [T/d] units.

    - [float_of_dec neg D k] is [float()] of [(-)D * 10^k]: values of at
      least [10^310] are [inf] and values below [10^-324] are [0.0]
      without computing the powers of ten ([float_of_dec_exact] shows the
      two cuts change nothing), so an exponent such as [1e999999999]
      costs nothing.
    - [shortest] is the digit search of mode 0: for [k = 1 .. 17] digits,
      the two [k]-digit decimals around the value ([pick_digits]), kept
      when they read back to it, the nearest of them; [17] digits always
      suffice ([pick_digits_17]).
    - [float_repr] and [json_float] are the texts [repr] and [json.dumps]
      write.

    The theorems: [float()] gives a valid binary64, within half a unit
    in the last place of the decimal ([float_of_dec_correct]); the digit
    search of [repr] always finds a decimal that reads back
    ([shortest_sound]); [float()] of [repr x] is [x] for every finite
    [x] or zero ([py_float_repr], used by [JsonRoundTrip]); the texts of
    [repr] and [json.dumps] are ASCII.  Not shown: that the digits found
    are the fewest possible (only that the search tries 1 to 17 digits
    in order). *)

From Stdlib Require Import Ascii String List Arith NArith ZArith Lia Bool.
From Stdlib Require Import SpecFloat DecimalString.
From Stdlib Require Decimal DecimalFacts DecimalPos.
From S2P Require Import Prelude Utf8 PyStr.
Import ListNotations.

Set Warnings "-register-all".

(** ** Decimal text *)

Definition is_digit (c : N) : bool := in_range 48 57 c.

(** [int(text)] of a decimal literal (sign, digits). *)
Fixpoint digits_value (acc : Z) (ds : pystr) : Z :=
  match ds with
  | [] => acc
  | d :: ds' => digits_value (acc * 10 + Z.of_N (d - 48))%Z ds'
  end.

(** [_match_number_unicode]: the digits of a number and where it ends. *)
Fixpoint take_digits (r : pystr) : pystr * pystr :=
  match r with
  | c :: r' => if is_digit c then let (ds, rest) := take_digits r' in (c :: ds, rest) else ([], r)
  | [] => ([], [])
  end.

(** The code points of a Stdlib decimal numeral. *)
Definition udig (u : Decimal.uint) : pystr := map N_of_ascii (list_ascii_of_string (NilEmpty.string_of_uint u)).

(** ** Binary64 *)

Abbreviation float := spec_float.

Definition valid (f : float) : bool := valid_binary 53 1024 f.

(** A positive double of [M * 2^s] units of [2^-1074]. *)
Definition fin_ok (M s : Z) : Prop :=
  (1 <= M < 2 ^ 53 /\ 0 <= s <= 2045 /\ (2 ^ 52 <= M \/ s = 0))%Z.

(** ** Rounding to nearest, ties to even *)

Local Open Scope Z_scope.

(** [a / b] rounded to the nearest integer, ties to even. *)
Definition div_ne (a b : Z) : Z :=
  let q := a / b in
  match Z.compare (2 * (a mod b)) b with
  | Lt => q
  | Gt => q + 1
  | Eq => if Z.even q then q else q + 1
  end.

(** [max (floor (log2 (T/d)) - 52) 0]: the exponent of the unit the
    mantissa of [T/d] counts. *)
Definition shift_of (T d : Z) : Z :=
  let l := Z.log2 T - Z.log2 d in
  if l <? 53 then 0 else if d * 2 ^ l <=? T then l - 52 else l - 53.

(** The double nearest to [T/d] units of [2^-1074], with the sign [neg]:
    a mantissa of [2^53] after rounding moves to the next binade, an
    exponent past the last binade is [inf]. *)
Definition round_scaled (neg : bool) (T d : Z) : float :=
  let s := shift_of T d in
  let M := div_ne T (d * 2 ^ s) in
  let '(M, s) := if M =? 2 ^ 53 then (2 ^ 52, s + 1) else (M, s) in
  if 2045 <? s then S754_infinity neg
  else match M with
       | Zpos p => S754_finite neg p (s - 1074)
       | _ => S754_zero neg
       end.

(** [n / d] itself, [n, d > 0]. *)
Definition round_q (neg : bool) (n d : Z) : float := round_scaled neg (n * 2 ^ 1074) d.

(** ** Decimals *)

(** The number of decimal digits of [n >= 1]. *)
Fixpoint ndigits_aux (fuel : nat) (n : Z) : Z :=
  match fuel with
  | O => 0
  | S f => if n <? 10 then 1 else 1 + ndigits_aux f (n / 10)
  end.

Definition ndigits (n : Z) : Z := ndigits_aux (S (Z.to_nat (Z.log2 n))) n.

(** [10^k] as the fraction [pow10_num k / pow10_den k]. *)
Definition pow10_num (k : Z) : Z := 10 ^ Z.max k 0.
Definition pow10_den (k : Z) : Z := 10 ^ Z.max (- k) 0.

(** [floor (log10 (n/d))] for [n, d > 0]. *)
Definition ilog10_q (n d : Z) : Z :=
  let l := ndigits n - ndigits d in
  if d * pow10_num l <=? n * pow10_den l then l else l - 1.

(** [float()] of [(-)D * 10^k], [D >= 0]: at least [10^310] overflows
    to [inf], below [10^-324] is [0.0]. *)
Definition float_of_dec (neg : bool) (D k : Z) : float :=
  if D =? 0 then S754_zero neg
  else if 310 <? ndigits D + k then S754_infinity neg
  else if ndigits D + k <? -324 then S754_zero neg
  else round_q neg (D * pow10_num k) (pow10_den k).

(** ** The shortest digits of a double ([_Py_dg_dtoa], mode 0) *)

(** [c * 10^j] read back. *)
Definition dec_float (c j : Z) : float := round_q false (c * pow10_num j) (pow10_den j).

Definition same_float (p : positive) (e : Z) (f : float) : bool :=
  match f with
  | S754_finite false p' e' => Pos.eqb p p' && Z.eqb e e'
  | _ => false
  end.

(** The decimals [c * 10^j] next to [p * 2^e]: [c = floor (x / 10^j)]
    and [c + 1]; the one that reads back to [x], the nearer one if both
    do (ties to an even [c]). *)
Definition pick_digits (p : positive) (e j : Z) : option Z :=
  let A := Zpos p * 2 ^ (e + 1074) * pow10_den j in
  let B := 2 ^ 1074 * pow10_num j in
  let c := A / B in
  if A mod B =? 0 then Some c
  else match same_float p e (dec_float c j), same_float p e (dec_float (c + 1) j) with
       | true, false => Some c
       | false, true => Some (c + 1)
       | false, false => None
       | true, true =>
           match Z.compare (2 * (A mod B)) B with
           | Lt => Some c
           | Gt => Some (c + 1)
           | Eq => Some (if Z.even c then c else c + 1)
           end
       end.

(** The first number of digits [k] in [ks] that has a decimal reading
    back; the nearest 17-digit decimal if none does. *)
Fixpoint digit_search (p : positive) (e E : Z) (ks : list Z) : Z * Z :=
  match ks with
  | [] => (div_ne (Zpos p * 2 ^ (e + 1074) * pow10_den (E - 16)) (2 ^ 1074 * pow10_num (E - 16)), E - 16)
  | k :: ks' =>
      match pick_digits p e (E + 1 - k) with
      | Some c => (c, E + 1 - k)
      | None => digit_search p e E ks'
      end
  end.

Definition digit_counts : list Z := map Z.of_nat (seq 1 17).

(** [(c, j)] with [c * 10^j] the shortest decimal reading back to [p * 2^e]. *)
Definition shortest (p : positive) (e : Z) : Z * Z :=
  digit_search p e (ilog10_q (Zpos p * 2 ^ (e + 1074)) (2 ^ 1074)) digit_counts.

(** ** The texts: [float(text)] and [repr] *)

(** [str(c)] of [c >= 0]. *)
Definition digit_text (c : Z) : pystr :=
  match c with Zpos q => udig (Pos.to_uint q) | _ => [48%N] end.

Definition sign_text (neg : bool) : pystr := if neg then [45%N] else [].

(** The trailing zeros of the digits moved into the exponent. *)
Fixpoint strip_zeros (fuel : nat) (c j : Z) : Z * Z :=
  match fuel with
  | O => (c, j)
  | S f => if (0 <? c) && (c mod 10 =? 0) then strip_zeros f (c / 10) (j + 1) else (c, j)
  end.

(** The exponent of the [r] format: [e], a sign, at least two digits
    ([%+.02d]). *)
Definition exp_text (x : Z) : pystr :=
  [101%N; if x <? 0 then 45%N else 43%N] ++ (if Z.abs x <? 10 then [48%N] else []) ++ digit_text (Z.abs x).

(** [format_float_short] of [pystrtod.c] for [repr] ([r], with
    [Py_DTSF_ADD_DOT_0]): the digits [ds] of the value [0.ds * 10^decpt],
    in exponent notation when [decpt <= -4] or [decpt > 16] (the point
    dropped after a single digit), else with zeros padded on either side
    and [.0] after an integer. *)
Definition format_short (ds : pystr) (decpt : Z) : pystr :=
  if (decpt <=? -4) || (16 <? decpt) then
    match ds with
    | d :: rest => d :: (match rest with [] => [] | _ => 46%N :: rest end) ++ exp_text (decpt - 1)
    | [] => []
    end
  else if decpt <=? 0 then [48%N; 46%N] ++ repeat 48%N (Z.to_nat (- decpt)) ++ ds
  else if decpt <? Z.of_nat (length ds) then
    firstn (Z.to_nat decpt) ds ++ [46%N] ++ skipn (Z.to_nat decpt) ds
  else ds ++ repeat 48%N (Z.to_nat decpt - length ds) ++ [46%N; 48%N].

(** [float.__repr__]. *)
Definition float_repr (f : float) : pystr :=
  match f with
  | S754_zero neg => sign_text neg ++ py "0.0"
  | S754_infinity neg => sign_text neg ++ py "inf"
  | S754_nan => py "nan"
  | S754_finite neg p e =>
      let '(c, j) := shortest p e in
      let '(c, j) := strip_zeros 18 c j in
      let ds := digit_text c in
      sign_text neg ++ format_short ds (j + Z.of_nat (length ds))
  end.

(** The text [json.dumps] writes for a float ([allow_nan=True]). *)
Definition json_float (f : float) : pystr :=
  match f with
  | S754_nan => py "NaN"
  | S754_infinity neg => if neg then py "-Infinity" else py "Infinity"
  | _ => float_repr f
  end.

(** [float(text)] ([PyFloat_FromString]) of the text of a JSON number
    with a fraction or an exponent, the only texts [json.loads] gives
    it: a sign, the integer digits, [.] and the fraction digits, [e] or
    [E], a sign and the exponent digits. *)
Definition split_sign (text : pystr) : bool * pystr :=
  match text with
  | c :: r => if (c =? 45)%N then (true, r) else (false, text)
  | [] => (false, [])
  end.

(** The exponent after [e] or [E]. *)
Definition exp_value (r : pystr) : Z :=
  match r with
  | _ :: c :: ds => if (c =? 45)%N then - digits_value 0 ds
                    else if (c =? 43)%N then digits_value 0 ds
                    else digits_value 0 (c :: ds)
  | _ => 0
  end.

(** The integer digits, the fraction digits and the exponent. *)
Definition dec_parts (r : pystr) : pystr * pystr * Z :=
  let (ip, r1) := take_digits r in
  let (fp, r2) := match r1 with
                  | c :: r' => if (c =? 46)%N then take_digits r' else ([], r1)
                  | [] => ([], [])
                  end in
  (ip, fp, exp_value r2).

Definition py_float (text : pystr) : float :=
  let '(neg, r) := split_sign text in
  let '(ip, fp, x) := dec_parts r in
  float_of_dec neg (digits_value 0 (ip ++ fp)) (x - Z.of_nat (length fp)).

(** A finite double or a zero: what [repr] writes digits for. *)
Definition is_finite_float (f : float) : bool :=
  match f with S754_zero _ | S754_finite _ _ _ => true | _ => false end.

(** The double nearest to [0.1]. *)
Definition tenth : float := S754_finite false 7205759403792794 (-56).

(** ** Lemmas: powers of two and the integer logarithm *)

Lemma pow2_pos (a : Z) : 0 <= a -> 0 < 2 ^ a.
Proof. intros; apply Z.pow_pos_nonneg; lia. Qed.

Lemma pow2_add (a b : Z) : 0 <= a -> 0 <= b -> 2 ^ (a + b) = 2 ^ a * 2 ^ b.
Proof. intros; apply Z.pow_add_r; lia. Qed.

Lemma pow2_lt_iff (a b : Z) : 0 <= a -> 0 <= b -> (2 ^ a < 2 ^ b <-> a < b).
Proof. intros. symmetry. apply Z.pow_lt_mono_r_iff; lia. Qed.

Lemma pow2_le_iff (a b : Z) : 0 <= a -> 0 <= b -> (2 ^ a <= 2 ^ b <-> a <= b).
Proof. intros. symmetry. apply Z.pow_le_mono_r_iff; lia. Qed.

Lemma log2_bounds (x : Z) : 0 < x -> 0 <= Z.log2 x /\ 2 ^ Z.log2 x <= x < 2 ^ (Z.log2 x + 1).
Proof. intros H. split; [apply Z.log2_nonneg|]. rewrite Z.add_1_r. now apply Z.log2_spec. Qed.

(** [2^a <= x < 2^(a+1)] and [2^b <= y < 2^(b+1)] bound [a - b] when
    [2^c * y <= x < 2^(c+1) * y]. *)
Lemma log2_diff (x y c : Z) :
  0 < y -> 0 <= c -> 2 ^ c * y <= x < 2 ^ (c + 1) * y ->
  c <= Z.log2 x - Z.log2 y <= c + 1.
Proof.
  intros Hy Hc [H1 H2].
  assert (Hx : 0 < x) by (pose proof (pow2_pos c Hc); nia).
  destruct (log2_bounds x Hx) as (Ha & Ha1 & Ha2). destruct (log2_bounds y Hy) as (Hb & Hb1 & Hb2).
  split.
  - destruct (Z.le_gt_cases c (Z.log2 x - Z.log2 y)) as [|Hlt]; [assumption|exfalso].
    assert (E : 2 ^ (Z.log2 x + 1) <= 2 ^ (c + Z.log2 y)) by (apply pow2_le_iff; lia).
    rewrite (pow2_add c) in E by lia.
    assert (2 ^ c * 2 ^ Z.log2 y <= 2 ^ c * y) by (apply Z.mul_le_mono_nonneg_l; [apply Z.lt_le_incl, pow2_pos|]; lia).
    nia.
  - destruct (Z.le_gt_cases (Z.log2 x - Z.log2 y) (c + 1)) as [|Hlt]; [assumption|exfalso].
    assert (E : 2 ^ (c + 1 + (Z.log2 y + 1)) <= 2 ^ Z.log2 x) by (apply pow2_le_iff; lia).
    rewrite (pow2_add (c + 1)) in E by lia.
    assert (2 ^ (c + 1) * y < 2 ^ (c + 1) * 2 ^ (Z.log2 y + 1)) by (apply Z.mul_lt_mono_pos_l; [apply pow2_pos|]; lia).
    nia.
Qed.

Lemma log2_diff_upper (x y c : Z) : 0 < y -> 0 <= c -> 0 <= x < 2 ^ c * y -> Z.log2 x - Z.log2 y <= c.
Proof.
  intros Hy Hc [H0 H1]. destruct (Z.eq_dec x 0) as [->|Hx].
  - cbn. pose proof (Z.log2_nonneg y). lia.
  - destruct (log2_bounds x ltac:(lia)) as (Ha & Ha1 & Ha2). destruct (log2_bounds y Hy) as (Hb & Hb1 & Hb2).
    destruct (Z.le_gt_cases (Z.log2 x - Z.log2 y) c) as [|Hlt]; [assumption|exfalso].
    assert (E : 2 ^ (c + (Z.log2 y + 1)) <= 2 ^ Z.log2 x) by (apply pow2_le_iff; lia).
    rewrite (pow2_add c) in E by lia.
    assert (2 ^ c * y < 2 ^ c * 2 ^ (Z.log2 y + 1)) by (apply Z.mul_lt_mono_pos_l; [apply pow2_pos|]; lia).
    nia.
Qed.

(** [shift_of] is the exponent of the binade of [T/d], or [0] below the
    normal range. *)
Lemma shift_of_spec (T d s : Z) :
  0 < d -> 0 <= s -> 0 <= T < 2 ^ (53 + s) * d -> (s = 0 \/ 2 ^ (52 + s) * d <= T) ->
  shift_of T d = s.
Proof.
  intros Hd Hs [HT0 HT] Hlow. unfold shift_of.
  destruct Hlow as [->|Hlow].
  - rewrite Z.add_0_r in HT. pose proof (log2_diff_upper T d 53 Hd ltac:(lia) ltac:(lia)).
    destruct (Z.ltb_spec (Z.log2 T - Z.log2 d) 53) as [|Hge]; [reflexivity|].
    replace (Z.log2 T - Z.log2 d) with 53 by lia.
    destruct (Z.leb_spec (d * 2 ^ 53) T); lia.
  - destruct (log2_diff T d (52 + s) Hd ltac:(lia)) as [L1 L2];
      [split; [exact Hlow | now replace (52 + s + 1) with (53 + s) by lia]|].
    destruct (Z.ltb_spec (Z.log2 T - Z.log2 d) 53); [lia|].
    destruct (Z.eq_dec (Z.log2 T - Z.log2 d) (52 + s)) as [E|E].
    + rewrite E, (proj2 (Z.leb_le _ _)) by nia. lia.
    + replace (Z.log2 T - Z.log2 d) with (53 + s) by lia.
      destruct (Z.leb_spec (d * 2 ^ (53 + s)) T); lia.
Qed.

(** ** Lemmas: rounding a quotient *)

Lemma div_ne_near (a b m : Z) : 0 < b -> 2 * Z.abs (a - m * b) < b -> div_ne a b = m.
Proof.
  intros Hb H. unfold div_ne.
  pose proof (Z.div_mod a b ltac:(lia)) as Ea. pose proof (Z.mod_pos_bound a b Hb) as Hr.
  set (q := a / b) in *. set (r := a mod b) in *.
  assert (Hq : q = m \/ q + 1 = m).
  { destruct (Z.lt_total q m) as [Hlt|[->|Hgt]]; [|now left|exfalso; nia].
    destruct (Z.eq_dec (q + 1) m) as [|Hne]; [now right|exfalso; nia]. }
  destruct (Z.compare_spec (2 * r) b) as [E|E|E]; destruct Hq as [Hq|Hq]; try lia; exfalso; nia.
Qed.

Lemma div_ne_err (a b : Z) : 0 < b -> 2 * Z.abs (a - div_ne a b * b) <= b.
Proof.
  intros Hb. unfold div_ne.
  pose proof (Z.div_mod a b ltac:(lia)) as Ea. pose proof (Z.mod_pos_bound a b Hb) as Hr.
  destruct (Z.compare_spec (2 * (a mod b)) b); [destruct (Z.even (a / b))|..]; nia.
Qed.

Lemma div_ne_nonneg (a b : Z) : 0 < b -> 0 <= a -> 0 <= div_ne a b.
Proof.
  intros Hb Ha. unfold div_ne. pose proof (Z.div_pos a b Ha Hb).
  destruct (Z.compare (2 * (a mod b)) b); [destruct (Z.even (a / b))|..]; lia.
Qed.

(** The exponent [shift_of] chooses: [T/d] is below [2^53] units of it,
    and at least [2^52] unless it is [0]. *)
Lemma shift_of_props (T d : Z) :
  0 < d -> 0 <= T ->
  let s := shift_of T d in 0 <= s /\ T < 2 ^ (53 + s) * d /\ (s = 0 \/ 2 ^ (52 + s) * d <= T).
Proof.
  intros Hd HT s. subst s. unfold shift_of.
  destruct (Z.eq_dec T 0) as [->|HT0].
  - cbn [Z.log2]. pose proof (Z.log2_nonneg d).
    destruct (Z.ltb_spec (0 - Z.log2 d) 53); [|lia]. split; [lia|]. split; [|now left].
    pose proof (pow2_pos 53). lia.
  - destruct (log2_bounds T ltac:(lia)) as (Ha & Ha1 & Ha2). destruct (log2_bounds d Hd) as (Hb & Hb1 & Hb2).
    set (l := Z.log2 T - Z.log2 d).
    assert (Up : forall c, 0 <= c -> l + 1 <= c -> T < 2 ^ c * d).
    { intros c Hc Hl. assert (E : 2 ^ (Z.log2 T + 1) <= 2 ^ (c + Z.log2 d)) by (apply pow2_le_iff; lia).
      rewrite (pow2_add c) in E by lia.
      assert (2 ^ c * 2 ^ Z.log2 d <= 2 ^ c * d) by (apply Z.mul_le_mono_nonneg_l; [apply Z.lt_le_incl, pow2_pos|]; lia).
      lia. }
    destruct (Z.ltb_spec l 53) as [Hl|Hl].
    + split; [lia|]. split; [apply Up; lia|now left].
    + destruct (Z.leb_spec (d * 2 ^ l) T) as [Hle|Hgt].
      * split; [lia|]. split; [apply Up; lia|right].
        replace (52 + (l - 52)) with l by lia. lia.
      * split; [lia|]. replace (53 + (l - 53)) with l by lia. split; [lia|].
        destruct (Z.eq_dec (l - 53) 0) as [|Hne]; [now left|right].
        replace (52 + (l - 53)) with (l - 1) by lia.
        assert (E : 2 ^ (l - 1 + (Z.log2 d + 1)) <= 2 ^ Z.log2 T) by (apply pow2_le_iff; lia).
        rewrite (pow2_add (l - 1)) in E by lia.
        assert (2 ^ (l - 1) * d < 2 ^ (l - 1) * 2 ^ (Z.log2 d + 1))
          by (apply Z.mul_lt_mono_pos_l; [apply pow2_pos|]; lia).
        lia.
Qed.

(** How [round_scaled] ends, given the exponent and the rounded mantissa. *)
Lemma round_scaled_at (neg : bool) (T d s : Z) (p : positive) :
  shift_of T d = s -> div_ne T (d * 2 ^ s) = Zpos p -> Zpos p <> 2 ^ 53 -> s <= 2045 ->
  round_scaled neg T d = S754_finite neg p (s - 1074).
Proof.
  intros Hs Hm Hne Hle. unfold round_scaled. rewrite Hs, Hm.
  rewrite (proj2 (Z.eqb_neq _ _) Hne), (proj2 (Z.ltb_ge _ _) Hle). reflexivity.
Qed.

Lemma round_scaled_carry (neg : bool) (T d s : Z) :
  shift_of T d = s -> div_ne T (d * 2 ^ s) = 2 ^ 53 -> s + 1 <= 2045 ->
  round_scaled neg T d = S754_finite neg (2 ^ 52) (s + 1 - 1074).
Proof.
  intros Hs Hm Hle. unfold round_scaled. rewrite Hs, Hm, Z.eqb_refl, (proj2 (Z.ltb_ge _ _) Hle).
  reflexivity.
Qed.

(** A value within half a gap of the double [p * 2^s] rounds to it; below
    a power of two the gap under it is half as wide. *)
Lemma round_scaled_near (neg : bool) (T d : Z) (p : positive) (s : Z) :
  0 < d -> 0 <= T -> fin_ok (Zpos p) s ->
  2 * Z.abs (T - Zpos p * 2 ^ s * d) < 2 ^ s * d ->
  (Zpos p = 2 ^ 52 -> 0 < s -> T < Zpos p * 2 ^ s * d -> 4 * (Zpos p * 2 ^ s * d - T) < 2 ^ s * d) ->
  round_scaled neg T d = S754_finite neg p (s - 1074).
Proof.
  intros Hd HT (HM & Hs & Hn) Hnear Hb. set (M := Zpos p) in *.
  assert (HP : 0 < 2 ^ s) by (apply pow2_pos; lia).
  destruct (Z.eq_dec M (2 ^ 52)) as [E52|N52];
    [destruct (Z.ltb_spec 0 s) as [Hs0|Hs0]; [destruct (Z.ltb_spec T (M * 2 ^ s * d)) as [Hlt|Hge]|]|].
  - (* below a power of two: the binade under it, then the carry *)
    specialize (Hb E52 Hs0 Hlt).
    assert (E : 2 ^ s = 2 * 2 ^ (s - 1)) by (rewrite <- Z.pow_succ_r by lia; f_equal; lia).
    assert (HP1 : 0 < 2 ^ (s - 1)) by (apply pow2_pos; lia).
    assert (Hsh : shift_of T d = s - 1).
    { apply shift_of_spec; [lia|lia| |right].
      - rewrite pow2_add by lia. rewrite E in Hlt. rewrite E52 in Hlt. lia.
      - rewrite pow2_add by lia. rewrite E, E52 in Hb. nia. }
    replace p with (2 ^ 52)%positive by (apply Pos2Z.inj; symmetry; exact E52).
    replace (s - 1074) with (s - 1 + 1 - 1074) by lia.
    apply round_scaled_carry; [exact Hsh| |lia].
    apply div_ne_near; [nia|]. rewrite E, E52 in Hb. rewrite Z.abs_neq by nia. nia.
  - apply round_scaled_at; [| |lia|lia].
    + apply shift_of_spec; [lia|lia| |right]; rewrite pow2_add by lia; [|nia].
      split; [lia|]. nia.
    + apply div_ne_near; [nia|]. replace (M * (d * 2 ^ s)) with (M * 2 ^ s * d) by ring. lia.
  - apply round_scaled_at; [| |lia|lia].
    + apply shift_of_spec; [lia|lia| |left; lia].
      split; [lia|]. rewrite pow2_add by lia. nia.
    + apply div_ne_near; [nia|]. replace (M * (d * 2 ^ s)) with (M * 2 ^ s * d) by ring. lia.
  - apply round_scaled_at; [| |lia|lia].
    + apply shift_of_spec; [lia|lia| |].
      * split; [lia|]. rewrite pow2_add by lia. nia.
      * destruct Hn as [Hn|Hn]; [right|now left]. rewrite pow2_add by lia.
        assert (2 ^ 52 + 1 <= M) by lia. nia.
    + apply div_ne_near; [nia|]. replace (M * (d * 2 ^ s)) with (M * 2 ^ s * d) by ring. lia.
Qed.

(** ** Lemmas: valid doubles *)

Lemma digits2_size (p : positive) : digits2_pos p = Pos.size p.
Proof. induction p; cbn; congruence. Qed.

Lemma size_bounds (p : positive) :
  1 <= Zpos (Pos.size p) /\ 2 ^ (Zpos (Pos.size p) - 1) <= Zpos p < 2 ^ Zpos (Pos.size p).
Proof.
  pose proof (Pos.size_gt p) as H1. pose proof (Pos.size_le p) as H2.
  assert (H1' : Zpos p < Zpos (2 ^ Pos.size p)) by exact H1.
  assert (H2' : Zpos (2 ^ Pos.size p) <= Zpos p~0) by exact H2. clear H1 H2. rename H1' into H1, H2' into H2.
  rewrite Pos2Z.inj_pow in H1, H2.
  split; [lia|]. split; [|exact H1].
  rewrite (Pos2Z.inj_xO p) in H2. replace (Zpos (Pos.size p)) with (Zpos (Pos.size p) - 1 + 1) in H2 by lia.
  rewrite Z.pow_add_r, Z.pow_1_r in H2 by lia. lia.
Qed.

(** A finite double is valid exactly when its mantissa and exponent are
    those of [fin_ok], the exponent counted from [-1074]. *)
Lemma valid_finite (b : bool) (p : positive) (e : Z) :
  valid (S754_finite b p e) = true <-> fin_ok (Zpos p) (e + 1074).
Proof.
  unfold valid, valid_binary, bounded, canonical_mantissa, fexp, emin, fin_ok.
  rewrite digits2_size. destruct (size_bounds p) as (Hz & Hlo & Hhi).
  set (z := Zpos (Pos.size p)) in *.
  rewrite andb_true_iff, Z.eqb_eq, Z.leb_le. split.
  - intros [Hc He]. destruct (Z.le_gt_cases (-1074) (z + e - 53)) as [Hge|Hlt].
    + rewrite Z.max_l in Hc by lia. assert (z = 53) by lia. subst z. rewrite H in Hlo, Hhi.
      cbn in Hlo. lia.
    + rewrite Z.max_r in Hc by lia. assert (Hz52 : z <= 52) by lia.
      assert (2 ^ z <= 2 ^ 52) by (apply pow2_le_iff; lia). lia.
  - intros (HM & Hs & Hn). split; [|lia].
    destruct Hn as [Hn|Hn].
    + assert (Hz53 : z = 53).
      { assert (52 < z) by (apply (pow2_lt_iff 52 z); lia).
        assert (z - 1 < 53) by (apply (pow2_lt_iff (z - 1) 53); lia). lia. }
      rewrite Hz53, Z.max_l; lia.
    + assert (z <= 53) by (assert (z - 1 < 53) by (apply (pow2_lt_iff (z - 1) 53); lia); lia).
      rewrite Z.max_r; lia.
Qed.

(** ** Lemmas: what [round_scaled] returns *)

(** The result is [p * 2^s] with [p] within half a unit of [T/d]'s
    mantissa, or the carry into the next binade. *)
Lemma round_scaled_cases (neg : bool) (T d : Z) :
  0 < d -> 0 <= T ->
  let s := shift_of T d in let M := div_ne T (d * 2 ^ s) in
  0 <= s /\ 0 <= M <= 2 ^ 53 /\ (s = 0 \/ 2 ^ 52 <= M) /\ 2 * Z.abs (T - M * (d * 2 ^ s)) <= d * 2 ^ s.
Proof.
  intros Hd HT s M. destruct (shift_of_props T d Hd HT) as (Hs & Hup & Hlow). fold s in Hs, Hup, Hlow.
  assert (HP : 0 < 2 ^ s) by (apply pow2_pos; lia).
  pose proof (div_ne_err T (d * 2 ^ s) ltac:(nia)) as Herr. fold M in Herr.
  rewrite pow2_add in Hup, Hlow by lia.
  split; [exact Hs|]. split; [split; [apply div_ne_nonneg; nia|]|]; [nia|split; [|exact Herr]].
  destruct Hlow as [|Hlow]; [now left|right]. nia.
Qed.

(** [float()] of any quotient is a valid double. *)
Lemma round_scaled_valid (neg : bool) (T d : Z) : 0 < d -> 0 <= T -> valid (round_scaled neg T d) = true.
Proof.
  intros Hd HT. destruct (round_scaled_cases neg T d Hd HT) as (Hs & HM & Hn & _).
  unfold round_scaled. set (s := shift_of T d) in *. set (M := div_ne T (d * 2 ^ s)) in *.
  destruct (Z.eqb_spec M (2 ^ 53)) as [E|E].
  - destruct (Z.ltb_spec 2045 (s + 1)); [reflexivity|].
    change (2 ^ 52) with (Zpos (2 ^ 52)). apply valid_finite. unfold fin_ok. lia.
  - destruct (Z.ltb_spec 2045 s); [reflexivity|].
    destruct M as [|p|p] eqn:EM; [reflexivity| |lia].
    apply valid_finite. unfold fin_ok. replace (s - 1074 + 1074) with s by lia. lia.
Qed.

(** [float()] is within half a unit in the last place of the quotient. *)
Lemma round_scaled_err (neg neg' : bool) (T d : Z) (p : positive) (e : Z) :
  0 < d -> 0 <= T -> round_scaled neg T d = S754_finite neg' p e ->
  2 * Z.abs (T - Zpos p * 2 ^ (e + 1074) * d) <= 2 ^ (e + 1074) * d.
Proof.
  intros Hd HT. destruct (round_scaled_cases neg T d Hd HT) as (Hs & HM & Hn & Herr).
  unfold round_scaled. set (s := shift_of T d) in *. set (M := div_ne T (d * 2 ^ s)) in *.
  assert (HP : 0 < 2 ^ s) by (apply pow2_pos; lia).
  destruct (Z.eqb_spec M (2 ^ 53)) as [E|E].
  - destruct (Z.ltb_spec 2045 (s + 1)); [discriminate|]. intros Heq. injection Heq as <- He. subst e.
    replace (s + 1 - 1074 + 1074) with (s + 1) by lia. rewrite (Z.pow_add_r 2 s 1), Z.pow_1_r by lia.
    change (Zpos (2 ^ 52)) with (2 ^ 52). rewrite E in Herr. nia.
  - destruct (Z.ltb_spec 2045 s); [discriminate|].
    destruct M as [|q|q] eqn:EM; [discriminate| |lia]. intros Heq. injection Heq as <- He. subst e.
    replace (s - 1074 + 1074) with s by lia. nia.
Qed.

(** ** Lemmas: powers with exponents that add up *)

Lemma pow_mul_eq (b x y x' y' : Z) :
  0 <= x -> 0 <= y -> 0 <= x' -> 0 <= y' -> x + y = x' + y' -> b ^ x * b ^ y = b ^ x' * b ^ y'.
Proof. intros. rewrite <- !Z.pow_add_r by lia. f_equal. lia. Qed.

Lemma pow10_num_pos (k : Z) : 0 < pow10_num k.
Proof. apply Z.pow_pos_nonneg; lia. Qed.

Lemma pow10_den_pos (k : Z) : 0 < pow10_den k.
Proof. apply Z.pow_pos_nonneg; lia. Qed.

(** [10^t * 10^a = 10^(a+t)] on the fractions. *)
Lemma pow10_add (a t : Z) :
  0 <= t -> 10 ^ t * pow10_num a * pow10_den (a + t) = pow10_num (a + t) * pow10_den a.
Proof.
  intros Ht. unfold pow10_num, pow10_den. rewrite <- Z.mul_assoc.
  rewrite <- (Z.pow_add_r 10 (Z.max a 0)) by lia. apply pow_mul_eq; lia.
Qed.

(** ** Lemmas: decimal digits and the decimal logarithm *)

Lemma ndigits_aux_spec (f : nat) (n : Z) :
  1 <= n < 10 ^ Z.of_nat f ->
  1 <= ndigits_aux f n /\ 10 ^ (ndigits_aux f n - 1) <= n < 10 ^ ndigits_aux f n.
Proof.
  revert n. induction f as [|f IH]; intros n [H1 H2]; [cbn in H2; lia|].
  cbn [ndigits_aux]. destruct (Z.ltb_spec n 10) as [Hn|Hn].
  - cbn. lia.
  - rewrite Nat2Z.inj_succ, Z.pow_succ_r in H2 by lia.
    pose proof (Z.div_mod n 10 ltac:(lia)). pose proof (Z.mod_pos_bound n 10 ltac:(lia)).
    destruct (IH (n / 10)) as (K1 & K2 & K3); [split; [apply Z.div_le_lower_bound|]; lia|].
    set (k := ndigits_aux f (n / 10)) in *.
    assert (P1 : 10 ^ (1 + k - 1) = 10 * 10 ^ (k - 1))
      by (replace (1 + k - 1) with (Z.succ (k - 1)) by lia; apply Z.pow_succ_r; lia).
    assert (P2 : 10 ^ (1 + k) = 10 * 10 ^ k)
      by (rewrite Z.add_comm; apply Z.pow_succ_r; lia).
    rewrite P1, P2. lia.
Qed.

Lemma ndigits_spec (n : Z) : 1 <= n -> 1 <= ndigits n /\ 10 ^ (ndigits n - 1) <= n < 10 ^ ndigits n.
Proof.
  intros Hn. apply ndigits_aux_spec. split; [exact Hn|].
  destruct (log2_bounds n ltac:(lia)) as (H0 & _ & H2).
  rewrite Nat2Z.inj_succ, Z2Nat.id by exact H0. rewrite <- Z.add_1_r.
  eapply Z.lt_le_trans; [exact H2|]. apply Z.pow_le_mono_l. lia.
Qed.

(** [ilog10_q n d] is [E] with [10^E <= n/d < 10^(E+1)]. *)
Lemma ilog10_q_spec (n d : Z) :
  0 < n -> 0 < d ->
  let E := ilog10_q n d in
  d * pow10_num E <= n * pow10_den E /\ n * pow10_den (E + 1) < d * pow10_num (E + 1).
Proof.
  intros Hn Hd E. subst E. unfold ilog10_q.
  destruct (ndigits_spec n ltac:(lia)) as (A1 & A2 & A3). destruct (ndigits_spec d ltac:(lia)) as (B1 & B2 & B3).
  set (a := ndigits n) in *. set (b := ndigits d) in *. set (l := a - b).
  pose proof (pow10_num_pos (l + 1)). pose proof (pow10_den_pos (l + 1)).
  pose proof (pow10_num_pos (l - 1)). pose proof (pow10_den_pos (l - 1)).
  destruct (Z.leb_spec (d * pow10_num l) (n * pow10_den l)) as [Hle|Hgt].
  - split; [exact Hle|].
    assert (E : 10 ^ a * pow10_den (l + 1) = 10 ^ (b - 1) * pow10_num (l + 1))
      by (unfold pow10_num, pow10_den; apply pow_mul_eq; lia).
    nia.
  - replace (l - 1 + 1) with l by lia. split; [|lia].
    assert (E : 10 ^ b * pow10_num (l - 1) = 10 ^ (a - 1) * pow10_den (l - 1))
      by (unfold pow10_num, pow10_den; apply pow_mul_eq; lia).
    nia.
Qed.

(** ** Lemmas: [round_scaled] depends on the quotient only *)

Lemma div_ne_mul (a b t : Z) : 0 <= a -> 0 < b -> 0 < t -> div_ne (a * t) (b * t) = div_ne a b.
Proof.
  intros Ha Hb Ht. unfold div_ne.
  rewrite Z.div_mul_cancel_r, Z.mul_mod_distr_r by lia.
  replace (2 * (a mod b * t)) with (2 * (a mod b) * t) by ring.
  destruct (Z.compare_spec (2 * (a mod b)) b) as [E|E|E];
    [rewrite E, Z.compare_refl | rewrite (proj2 (Z.compare_lt_iff _ _)) by nia
    | rewrite (proj2 (Z.compare_gt_iff _ _)) by nia]; reflexivity.
Qed.

Lemma div_ne_ratio (a b a' b' : Z) :
  0 <= a -> 0 < b -> 0 <= a' -> 0 < b' -> a * b' = a' * b -> div_ne a b = div_ne a' b'.
Proof.
  intros. rewrite <- (div_ne_mul a b b'), <- (div_ne_mul a' b' b) by lia.
  f_equal; [lia|ring].
Qed.

Lemma shift_of_ratio (T d T' d' : Z) :
  0 <= T -> 0 < d -> 0 <= T' -> 0 < d' -> T * d' = T' * d -> shift_of T' d' = shift_of T d.
Proof.
  intros HT Hd HT' Hd' E. destruct (shift_of_props T d Hd HT) as (Hs & Hup & Hlow).
  set (s := shift_of T d) in *. apply shift_of_spec; [lia|lia| |].
  - split; [lia|]. pose proof (pow2_pos (53 + s) ltac:(lia)). nia.
  - destruct Hlow as [|Hlow]; [now left|right]. pose proof (pow2_pos (52 + s) ltac:(lia)). nia.
Qed.

Lemma round_scaled_ratio (neg : bool) (T d T' d' : Z) :
  0 <= T -> 0 < d -> 0 <= T' -> 0 < d' -> T * d' = T' * d -> round_scaled neg T' d' = round_scaled neg T d.
Proof.
  intros HT Hd HT' Hd' E. unfold round_scaled.
  rewrite (shift_of_ratio T d T' d') by assumption.
  assert (HP : 0 < 2 ^ shift_of T d) by (apply pow2_pos; apply (shift_of_props T d Hd HT)).
  rewrite (div_ne_ratio T' (d' * 2 ^ shift_of T d) T (d * 2 ^ shift_of T d)) by nia.
  reflexivity.
Qed.

(** The sign only labels the result. *)
Lemma round_scaled_neg (neg : bool) (T d : Z) (p : positive) (e : Z) :
  round_scaled false T d = S754_finite false p e -> round_scaled neg T d = S754_finite neg p e.
Proof.
  unfold round_scaled. destruct (div_ne T (d * 2 ^ shift_of T d) =? 2 ^ 53).
  - destruct (2045 <? shift_of T d + 1); [discriminate|]. intros H. injection H. intros. subst. reflexivity.
  - destruct (2045 <? shift_of T d); [discriminate|].
    destruct (div_ne T (d * 2 ^ shift_of T d)); [discriminate| |discriminate].
    intros H. injection H. intros. subst. reflexivity.
Qed.

(** Half the smallest subnormal or less rounds to zero (a tie goes to
    the even [0]); [2^1024] or more is [inf]. *)
Lemma round_scaled_small (neg : bool) (T d : Z) : 0 < d -> 0 <= T -> 2 * T <= d -> round_scaled neg T d = S754_zero neg.
Proof.
  intros Hd HT H. unfold round_scaled.
  rewrite (shift_of_spec T d 0) by (try lia; cbn; lia). rewrite Z.mul_1_r.
  assert (E : div_ne T d = 0).
  { unfold div_ne. rewrite Z.div_small, Z.mod_small by lia.
    destruct (Z.compare_spec (2 * T) d); [reflexivity..|lia]. }
  rewrite E. reflexivity.
Qed.

Lemma round_scaled_big (neg : bool) (T d : Z) : 0 < d -> 2 ^ 2098 * d <= T -> round_scaled neg T d = S754_infinity neg.
Proof.
  intros Hd H. assert (HT : 0 <= T) by (pose proof (pow2_pos 2098); nia).
  destruct (shift_of_props T d Hd HT) as (Hs & Hup & _).
  set (s := shift_of T d) in *.
  assert (Hs' : 2045 < s).
  { destruct (Z.le_gt_cases s 2045) as [Hle|]; [exfalso|lia].
    assert (2 ^ (53 + s) <= 2 ^ 2098) by (apply pow2_le_iff; lia). nia. }
  unfold round_scaled. fold s.
  destruct (div_ne T (d * 2 ^ s) =? 2 ^ 53);
    [rewrite (proj2 (Z.ltb_lt 2045 (s + 1))) by lia | rewrite (proj2 (Z.ltb_lt 2045 s)) by lia]; reflexivity.
Qed.

(** The overflow threshold: half a unit above the largest double,
    [(2^53 - 1/2) * 2^971], in units of [2^-1074]. *)
Lemma round_scaled_overflow (neg : bool) (T d : Z) :
  0 < d -> (2 ^ 2098 - 2 ^ 2044) * d <= T -> round_scaled neg T d = S754_infinity neg.
Proof.
  intros Hd H. destruct (Z.le_gt_cases (2 ^ 2098 * d) T) as [Hb|Hb]; [apply round_scaled_big; lia|].
  assert (C : 2 ^ 2097 <= 2 ^ 2098 - 2 ^ 2044) by (apply Z.leb_le; vm_compute; reflexivity).
  assert (HT : 0 <= T) by (pose proof (pow2_pos 2097); nia).
  destruct (shift_of_props T d Hd HT) as (Hs & Hup & Hlow). set (s := shift_of T d) in *.
  assert (Es : s = 2045).
  { destruct (Z.le_gt_cases s 2044) as [Hle|Hgt].
    - assert (2 ^ (53 + s) <= 2 ^ 2097) by (apply pow2_le_iff; lia). nia.
    - destruct Hlow as [->|Hlow]; [lia|]. destruct (Z.le_gt_cases s 2045) as [|Hgt']; [lia|].
      assert (2 ^ 2098 <= 2 ^ (52 + s)) by (apply pow2_le_iff; lia). nia. }
  set (b := d * 2 ^ 2045).
  assert (P : 2 ^ 2098 = 2 ^ 53 * 2 ^ 2045) by (rewrite <- Z.pow_add_r by lia; reflexivity).
  assert (P' : 2 ^ 2045 = 2 * 2 ^ 2044) by (rewrite <- Z.pow_succ_r by lia; reflexivity).
  assert (Eb : 2 ^ 2098 * d = 2 ^ 53 * b) by (unfold b; rewrite P; ring).
  assert (Eh : 2 ^ 2044 * d * 2 = b) by (unfold b; rewrite P'; ring).
  assert (Hq : T / b = 2 ^ 53 - 1).
  { symmetry. apply Z.div_unique with (r := T - (2 ^ 53 - 1) * b); [left; lia|ring]. }
  assert (Hr : T mod b = T - (2 ^ 53 - 1) * b).
  { symmetry. apply Z.mod_unique with (q := 2 ^ 53 - 1); [left; lia|ring]. }
  unfold round_scaled. fold s. rewrite Es. fold b.
  assert (HM : div_ne T b = 2 ^ 53).
  { unfold div_ne. rewrite Hq, Hr.
    destruct (Z.compare_spec (2 * (T - (2 ^ 53 - 1) * b)) b); [reflexivity|lia|reflexivity]. }
  rewrite HM, Z.eqb_refl. reflexivity.
Qed.

(** Between half the smallest subnormal and the overflow threshold the
    result is a finite double. *)
Lemma round_scaled_finite (neg : bool) (T d : Z) :
  0 < d -> d < 2 * T -> T < (2 ^ 2098 - 2 ^ 2044) * d ->
  exists p e, round_scaled neg T d = S754_finite neg p e.
Proof.
  intros Hd H1 H2. assert (HT : 0 <= T) by lia.
  destruct (round_scaled_cases neg T d Hd HT) as (Hs & HM & Hn & Herr).
  destruct (shift_of_props T d Hd HT) as (_ & _ & Hlow).
  set (s := shift_of T d) in *. set (M := div_ne T (d * 2 ^ s)) in *.
  assert (C : 2 ^ 2098 - 2 ^ 2044 <= 2 ^ 2098) by (apply Z.leb_le; vm_compute; reflexivity).
  assert (Hs' : s <= 2045).
  { destruct Hlow as [->|Hlow]; [lia|]. destruct (Z.le_gt_cases s 2045) as [|Hgt]; [lia|].
    assert (2 ^ 2098 <= 2 ^ (52 + s)) by (apply pow2_le_iff; lia). nia. }
  unfold round_scaled. fold s. fold M.
  destruct (Z.eqb_spec M (2 ^ 53)) as [E|E].
  - assert (Hs2 : s <= 2044).
    { destruct (Z.eq_dec s 2045) as [Es|]; [exfalso|lia]. rewrite Es, E in Herr.
      assert (P0 : 2 ^ 2098 = 2 ^ 53 * 2 ^ 2045) by (rewrite <- Z.pow_add_r by lia; reflexivity).
      assert (P : 2 ^ 53 * (d * 2 ^ 2045) = 2 ^ 2098 * d) by (rewrite P0; ring).
      assert (Eh : 2 ^ 2045 = 2 * 2 ^ 2044) by (rewrite <- Z.pow_succ_r by lia; reflexivity).
      rewrite P in Herr. rewrite Eh in Herr. lia. }
    rewrite (proj2 (Z.ltb_ge 2045 (s + 1))) by lia. change (2 ^ 52) with (Zpos (2 ^ 52)). eauto.
  - rewrite (proj2 (Z.ltb_ge 2045 s)) by lia.
    destruct M as [|p|p] eqn:EM; [exfalso| eauto | lia].
    destruct Hn as [Hn|Hn]; [|lia]. rewrite Hn, Z.pow_0_r, Z.mul_1_r in Herr. lia.
Qed.

(** ** Lemmas: [float()] of a decimal *)

Lemma pow10_le (a b : Z) : 0 <= a <= b -> 10 ^ a <= 10 ^ b.
Proof. intros. apply Z.pow_le_mono_r; lia. Qed.

(** The two cuts of [float_of_dec] are where the exact quotient rounds
    to [inf] and to [0.0]. *)
Lemma float_of_dec_cuts (neg : bool) (D k : Z) : 1 <= D ->
  (310 < ndigits D + k -> round_q neg (D * pow10_num k) (pow10_den k) = S754_infinity neg) /\
  (ndigits D + k < -324 -> round_q neg (D * pow10_num k) (pow10_den k) = S754_zero neg).
Proof.
  intros HD. destruct (ndigits_spec D HD) as (N1 & N2 & N3). set (n := ndigits D) in *.
  pose proof (pow10_num_pos k). pose proof (pow10_den_pos k).
  assert (C1 : 2 ^ 1024 <= 10 ^ 310) by (apply Z.leb_le; vm_compute; reflexivity).
  assert (C2 : 2 ^ 1075 <= 10 ^ 325) by (apply Z.leb_le; vm_compute; reflexivity).
  assert (P1 : 2 ^ 2098 = 2 ^ 1074 * 2 ^ 1024) by (rewrite <- Z.pow_add_r by lia; reflexivity).
  assert (P2 : 2 ^ 1075 = 2 * 2 ^ 1074) by (rewrite <- Z.pow_succ_r by lia; reflexivity).
  split; intros Hk; unfold round_q.
  - apply round_scaled_big; [lia|].
    assert (E : 10 ^ 310 * pow10_den k <= 10 ^ (n - 1) * pow10_num k).
    { unfold pow10_num, pow10_den. rewrite <- !Z.pow_add_r by lia. apply pow10_le. lia. }
    rewrite P1. set (u := 2 ^ 1074). assert (0 < u) by (apply pow2_pos; lia). nia.
  - apply round_scaled_small; [lia|pose proof (pow2_pos 1074); nia|].
    assert (Hk0 : pow10_num k = 1) by (unfold pow10_num; rewrite Z.max_r by lia; reflexivity).
    assert (E : 10 ^ 325 * 10 ^ n <= pow10_den k).
    { unfold pow10_den. rewrite <- Z.pow_add_r by lia. apply pow10_le. lia. }
    rewrite Hk0. set (u := 2 ^ 1074) in *. nia.
Qed.

(** ** Lemmas: the digit search *)

Lemma same_float_eq (p : positive) (e : Z) (f : float) : same_float p e f = true -> f = S754_finite false p e.
Proof.
  destruct f as [s|s| |s p' e']; try discriminate. destruct s; [discriminate|].
  cbn. intros H. apply andb_true_iff in H as [H1 H2].
  apply Pos.eqb_eq in H1. apply Z.eqb_eq in H2. subst. reflexivity.
Qed.

Lemma same_float_refl (p : positive) (e : Z) : same_float p e (S754_finite false p e) = true.
Proof. cbn. now rewrite Pos.eqb_refl, Z.eqb_refl. Qed.

(** A decimal [c * 10^j] within half a decimal unit of [x], where the
    unit is at most [x / 10^16], reads back to [x]: the unit is below a
    binary unit of [x] since [2^53 < 10^16]. *)
Lemma dec_float_near (p : positive) (e c j : Z) :
  fin_ok (Zpos p) (e + 1074) -> 0 <= c ->
  10 ^ 16 * (2 ^ 1074 * pow10_num j) <= Zpos p * 2 ^ (e + 1074) * pow10_den j ->
  2 * Z.abs (c * (2 ^ 1074 * pow10_num j) - Zpos p * 2 ^ (e + 1074) * pow10_den j) <= 2 ^ 1074 * pow10_num j ->
  dec_float c j = S754_finite false p e.
Proof.
  intros Hok Hc H16 Hnear. unfold dec_float, round_q.
  replace (S754_finite false p e) with (S754_finite false p (e + 1074 - 1074)) by (f_equal; lia).
  destruct Hok as (HM & Hs & Hn).
  pose proof (pow10_num_pos j). pose proof (pow10_den_pos j).
  assert (HP : 0 < 2 ^ (e + 1074)) by (apply pow2_pos; lia).
  assert (HU : 0 < 2 ^ 1074) by (apply pow2_pos; lia).
  set (B := 2 ^ 1074 * pow10_num j) in *. set (X := 2 ^ (e + 1074) * pow10_den j).
  assert (HB : B < X).
  { assert (Zpos p * 2 ^ (e + 1074) * pow10_den j < 2 ^ 53 * X) by (unfold X; nia).
    change (2 ^ 53) with 9007199254740992 in *. change (10 ^ 16) with 10000000000000000 in *. lia. }
  apply round_scaled_near; [lia|nia|unfold fin_ok; lia| |].
  - replace (c * pow10_num j * 2 ^ 1074) with (c * B) by (unfold B; ring). fold X. lia.
  - intros E52 _ _. replace (c * pow10_num j * 2 ^ 1074) with (c * B) by (unfold B; ring).
    rewrite E52 in H16, Hnear |- *. fold X.
    assert (2 * B < X).
    { change (2 ^ 52) with 4503599627370496 in *. change (10 ^ 16) with 10000000000000000 in *.
      unfold X in *. nia. }
    lia.
Qed.

(** At [17] digits the unit is small enough: [10^(E-16) <= x / 10^16]. *)
Lemma unit_17 (p : positive) (e : Z) :
  fin_ok (Zpos p) (e + 1074) ->
  let j := ilog10_q (Zpos p * 2 ^ (e + 1074)) (2 ^ 1074) - 16 in
  10 ^ 16 * (2 ^ 1074 * pow10_num j) <= Zpos p * 2 ^ (e + 1074) * pow10_den j.
Proof.
  intros (HM & Hs & Hn) j.
  assert (HV : 0 < Zpos p * 2 ^ (e + 1074)) by (pose proof (pow2_pos (e + 1074) ltac:(lia)); lia).
  destruct (ilog10_q_spec _ _ HV (pow2_pos 1074 ltac:(lia))) as [Hlo _].
  pose proof (pow10_add j 16 ltac:(lia)) as E. replace (j + 16) with (ilog10_q (Zpos p * 2 ^ (e + 1074)) (2 ^ 1074)) in E by (unfold j; lia).
  set (Eq := ilog10_q _ _) in *. set (V := Zpos p * 2 ^ (e + 1074)) in *.
  pose proof (pow10_den_pos Eq). pose proof (pow10_den_pos j). pose proof (pow10_num_pos j).
  apply (Z.mul_le_mono_pos_r _ _ (pow10_den Eq)); [lia|].
  replace (10 ^ 16 * (2 ^ 1074 * pow10_num j) * pow10_den Eq)
    with (2 ^ 1074 * (10 ^ 16 * pow10_num j * pow10_den Eq)) by ring.
  rewrite E. nia.
Qed.

(** A candidate [pick_digits] returns reads back to the double. *)
Lemma pick_digits_sound (p : positive) (e j c : Z) :
  fin_ok (Zpos p) (e + 1074) -> pick_digits p e j = Some c -> dec_float c j = S754_finite false p e.
Proof.
  intros Hok. unfold pick_digits.
  set (A := Zpos p * 2 ^ (e + 1074) * pow10_den j). set (B := 2 ^ 1074 * pow10_num j).
  destruct (Z.eqb_spec (A mod B) 0) as [Hr|Hr].
  - intros [= <-]. destruct Hok as (HM & Hs & Hn).
    assert (HB : 0 < B) by (unfold B; pose proof (pow10_num_pos j); pose proof (pow2_pos 1074); nia).
    assert (HA : 0 <= A) by (unfold A; pose proof (pow10_den_pos j); pose proof (pow2_pos (e + 1074)); nia).
    pose proof (Z.div_mod A B ltac:(lia)) as EA. pose proof (Z.div_pos A B HA HB).
    unfold dec_float, round_q.
    replace (S754_finite false p e) with (S754_finite false p (e + 1074 - 1074)) by (f_equal; lia).
    apply round_scaled_near; [apply pow10_den_pos|nia|unfold fin_ok; lia| |].
    + replace (A / B * pow10_num j * 2 ^ 1074) with (B * (A / B)) by (unfold B; ring).
      replace (Zpos p * 2 ^ (e + 1074) * pow10_den j) with A by reflexivity. rewrite Hr, Z.add_0_r in EA.
      rewrite <- EA, Z.sub_diag. cbn. pose proof (pow10_den_pos j). pose proof (pow2_pos (e + 1074)). nia.
    + intros _ _ Hlt. exfalso. replace (A / B * pow10_num j * 2 ^ 1074) with (B * (A / B)) in Hlt by (unfold B; ring).
      rewrite Hr, Z.add_0_r in EA. fold A in Hlt. lia.
  - destruct (same_float p e (dec_float (A / B) j)) eqn:E1, (same_float p e (dec_float (A / B + 1) j)) eqn:E2;
      [destruct (Z.compare (2 * (A mod B)) B); [destruct (Z.even (A / B))|..]| | |];
      intros H; try discriminate H; injection H as <-; apply same_float_eq; assumption.
Qed.

(** At [17] digits one of the two candidates reads back. *)
Lemma pick_digits_17 (p : positive) (e : Z) :
  fin_ok (Zpos p) (e + 1074) ->
  pick_digits p e (ilog10_q (Zpos p * 2 ^ (e + 1074)) (2 ^ 1074) - 16) <> None.
Proof.
  intros Hok. pose proof (unit_17 p e Hok) as H16. cbv zeta in H16.
  set (j := ilog10_q _ _ - 16) in *. unfold pick_digits.
  set (A := Zpos p * 2 ^ (e + 1074) * pow10_den j) in *. set (B := 2 ^ 1074 * pow10_num j) in *.
  destruct (Z.eqb (A mod B) 0); [discriminate|].
  assert (HB : 0 < B) by (unfold B; pose proof (pow10_num_pos j); pose proof (pow2_pos 1074); nia).
  assert (HA : 0 <= A) by (destruct Hok; unfold A; pose proof (pow10_den_pos j); pose proof (pow2_pos (e + 1074)); nia).
  pose proof (Z.div_mod A B ltac:(lia)) as EA. pose proof (Z.mod_pos_bound A B HB). pose proof (Z.div_pos A B HA HB).
  assert (Hone : same_float p e (dec_float (A / B) j) = true \/ same_float p e (dec_float (A / B + 1) j) = true).
  { destruct (Z.le_gt_cases (2 * (A mod B)) B); [left|right];
      rewrite (dec_float_near p e _ j Hok) by (try exact H16; nia); apply same_float_refl. }
  destruct (same_float p e (dec_float (A / B) j)), (same_float p e (dec_float (A / B + 1) j));
    [destruct (Z.compare (2 * (A mod B)) B)| | |]; try discriminate. destruct Hone; discriminate.
Qed.

(** The search returns the first count of digits with a candidate. *)
Lemma search_some (p : positive) (e E : Z) (ks : list Z) :
  (exists k, In k ks /\ pick_digits p e (E + 1 - k) <> None) ->
  pick_digits p e (snd (digit_search p e E ks)) = Some (fst (digit_search p e E ks)).
Proof.
  induction ks as [|k ks IH]; intros (k0 & Hin & Hk0); [destruct Hin|].
  cbn [digit_search]. destruct (pick_digits p e (E + 1 - k)) as [c|] eqn:Ek; [exact Ek|].
  apply IH. destruct Hin as [->|Hin]; [congruence|eauto].
Qed.

Lemma shortest_sound (p : positive) (e : Z) :
  fin_ok (Zpos p) (e + 1074) ->
  pick_digits p e (snd (shortest p e)) = Some (fst (shortest p e)) /\
  dec_float (fst (shortest p e)) (snd (shortest p e)) = S754_finite false p e.
Proof.
  intros Hok. assert (H : pick_digits p e (snd (shortest p e)) = Some (fst (shortest p e))).
  { apply search_some. exists 17. split; [cbn; tauto|].
    replace (ilog10_q (Zpos p * 2 ^ (e + 1074)) (2 ^ 1074) + 1 - 17)
      with (ilog10_q (Zpos p * 2 ^ (e + 1074)) (2 ^ 1074) - 16) by lia.
    exact (pick_digits_17 p e Hok). }
  split; [exact H|exact (pick_digits_sound p e _ _ Hok H)].
Qed.

(** ** Lemmas: the decimal text of a positive number *)

Section DecimalText.
Local Open Scope N_scope.

(** Replace the code of an ASCII literal by its value. *)
Ltac ascii_codes :=
  repeat match goal with
  | |- context [N_of_ascii ?a] =>
      let x := eval cbv in (N_of_ascii a) in change (N_of_ascii a) with x
  end.

Lemma udig_ascii (u : Decimal.uint) :
  forallb (fun a => N_of_ascii a <? 128) (list_ascii_of_string (NilEmpty.string_of_uint u)) = true.
Proof. induction u; simpl; auto. Qed.

Lemma py_udig (u : Decimal.uint) : py (NilEmpty.string_of_uint u) = udig u.
Proof. apply py_ascii, udig_ascii. Qed.

Lemma udig_digits (u : Decimal.uint) : forallb is_digit (udig u) = true.
Proof. induction u; simpl; auto. Qed.

Lemma digits_value_acc (u : Decimal.uint) (acc : positive) :
  digits_value (Z.pos acc) (udig u) = Z.pos (Pos.of_uint_acc u acc).
Proof.
  revert acc; induction u as [|u IH|u IH|u IH|u IH|u IH|u IH|u IH|u IH|u IH|u IH]; intros acc;
    cbn [udig NilEmpty.string_of_uint list_ascii_of_string map digits_value Pos.of_uint_acc];
    [reflexivity|..]; rewrite <- IH; f_equal; ascii_codes; lia.
Qed.

Lemma digits_value_uint (u : Decimal.uint) : digits_value 0 (udig u) = Z.of_N (Pos.of_uint u).
Proof.
  induction u as [|u IH|u IH|u IH|u IH|u IH|u IH|u IH|u IH|u IH|u IH];
    cbn [udig NilEmpty.string_of_uint list_ascii_of_string map digits_value Pos.of_uint];
    [reflexivity|exact IH|..]; exact (digits_value_acc u _).
Qed.

(** [Pos.to_uint] has no leading zero. *)
Lemma to_uint_head (p : positive) :
  exists d u, udig (Pos.to_uint p) = d :: udig u /\ in_range 49 57 d = true.
Proof.
  assert (Hn : Decimal.unorm (Pos.to_uint p) = Pos.to_uint p).
  { rewrite <- DecimalPos.Unsigned.to_of, DecimalPos.Unsigned.of_to. reflexivity. }
  pose proof (DecimalPos.Unsigned.to_uint_nonzero p) as Hz.
  destruct (Pos.to_uint p) as [|u|u|u|u|u|u|u|u|u|u] eqn:E;
    try (eexists _, u; split; reflexivity).
  - exfalso. exact (DecimalPos.Unsigned.to_uint_nonnil p E).
  - exfalso. unfold Decimal.unorm in Hn. destruct (Decimal.nzhead (Decimal.D0 u)) eqn:Eh;
      [injection Hn as <-; exact (Hz eq_refl) | exact (DecimalFacts.nzhead_nonzero _ _ Eh) | congruence ..].
Qed.

End DecimalText.

(** ** Lemmas: [float()] of a decimal is the exact quotient rounded *)

Lemma float_of_dec_exact (neg : bool) (D k : Z) :
  0 <= D -> float_of_dec neg D k = round_q neg (D * pow10_num k) (pow10_den k).
Proof.
  intros HD. unfold float_of_dec. destruct (Z.eqb_spec D 0) as [->|H0].
  - unfold round_q. rewrite !Z.mul_0_l.
    rewrite round_scaled_small; [reflexivity|apply pow10_den_pos|lia|pose proof (pow10_den_pos k); lia].
  - destruct (float_of_dec_cuts neg D k ltac:(lia)) as [C1 C2].
    destruct (Z.ltb_spec 310 (ndigits D + k)); [symmetry; auto|].
    destruct (Z.ltb_spec (ndigits D + k) (-324)); [symmetry; auto|reflexivity].
Qed.

Lemma round_q_ratio (neg : bool) (n d n' d' : Z) :
  0 <= n -> 0 < d -> 0 <= n' -> 0 < d' -> n * d' = n' * d -> round_q neg n' d' = round_q neg n d.
Proof.
  intros. unfold round_q. pose proof (pow2_pos 1074 ltac:(lia)). apply round_scaled_ratio; nia.
Qed.

(** Two decimals of the same value read back alike. *)
Lemma float_of_dec_value (neg : bool) (D k c j : Z) :
  0 <= D -> 0 <= c -> D * pow10_num k * pow10_den j = c * pow10_num j * pow10_den k ->
  float_of_dec neg D k = round_q neg (c * pow10_num j) (pow10_den j).
Proof.
  intros HD Hc E. rewrite float_of_dec_exact by exact HD.
  pose proof (pow10_num_pos k). pose proof (pow10_den_pos k).
  pose proof (pow10_num_pos j). pose proof (pow10_den_pos j).
  apply round_q_ratio; nia.
Qed.

(** ** Lemmas: reading the digits back *)

Definition no_digit_head (r : pystr) : bool :=
  match r with c :: _ => negb (is_digit c) | [] => true end.

Lemma take_digits_prefix (ds r : pystr) :
  forallb is_digit ds = true -> no_digit_head r = true -> take_digits (ds ++ r) = (ds, r).
Proof.
  intros Hd Hr. induction ds as [|d ds IH]; cbn [app take_digits].
  - destruct r as [|c r]; [reflexivity|]. unfold no_digit_head in Hr. apply negb_true_iff in Hr. cbn [take_digits]. now rewrite Hr.
  - cbn [forallb] in Hd. apply andb_true_iff in Hd as [H1 H2]. now rewrite H1, IH by exact H2.
Qed.

Lemma digits_value_app (acc : Z) (l1 l2 : pystr) :
  digits_value acc (l1 ++ l2) = digits_value (digits_value acc l1) l2.
Proof. revert acc; induction l1; intros; cbn; auto. Qed.

Lemma digits_value_zeros (acc : Z) (n : nat) : digits_value acc (repeat 48%N n) = acc * 10 ^ Z.of_nat n.
Proof.
  revert acc; induction n as [|n IH]; intros acc; cbn [repeat digits_value]; [lia|].
  rewrite IH, Nat2Z.inj_succ, Z.pow_succ_r by lia. change (Z.of_N (48 - 48)) with 0. ring.
Qed.

Lemma zeros_digits (n : nat) : forallb is_digit (repeat 48%N n) = true.
Proof. induction n; cbn; auto. Qed.

Lemma digit_text_spec (c : Z) :
  0 <= c -> forallb is_digit (digit_text c) = true /\ digits_value 0 (digit_text c) = c.
Proof.
  destruct c as [|q|q]; intros H; [split; reflexivity| |lia].
  cbn [digit_text]. split; [apply udig_digits|].
  rewrite digits_value_uint, DecimalPos.Unsigned.of_to. reflexivity.
Qed.

Lemma digit_text_head (c : Z) : 0 < c -> exists d r, digit_text c = d :: r /\ in_range 49 57 d = true.
Proof.
  destruct c as [|q|q]; intros H; try lia.
  destruct (to_uint_head q) as (d & u & E & Hd). now exists d, (udig u).
Qed.

(** The exponent [e+XX] or [e-XX] reads back as [x]. *)
Lemma exp_value_text (x : Z) : exp_value (exp_text x) = x.
Proof.
  destruct (digit_text_spec (Z.abs x) ltac:(lia)) as [_ Hv].
  assert (Hz : digits_value 0 ((if Z.abs x <? 10 then [48%N] else []) ++ digit_text (Z.abs x)) = Z.abs x)
    by (rewrite digits_value_app; destruct (Z.abs x <? 10); exact Hv).
  unfold exp_value, exp_text. cbn [app].
  destruct (Z.ltb_spec x 0); cbn [N.eqb Pos.eqb]; rewrite Hz; lia.
Qed.

Lemma dec_parts_exp (ip fp : pystr) (x : Z) :
  forallb is_digit ip = true -> forallb is_digit fp = true ->
  dec_parts (ip ++ (match fp with [] => [] | _ => 46%N :: fp end) ++ exp_text x) = (ip, fp, x).
Proof.
  intros Hi Hf. unfold dec_parts.
  destruct fp as [|f fp'].
  - rewrite take_digits_prefix by (try exact Hi; reflexivity). cbn [app].
    unfold exp_text at 1. cbn [app N.eqb Pos.eqb]. f_equal. apply exp_value_text.
  - rewrite take_digits_prefix by (try exact Hi; reflexivity).
    replace ((46%N :: f :: fp') ++ exp_text x) with (46%N :: ((f :: fp') ++ exp_text x)) by reflexivity.
    cbn [N.eqb Pos.eqb].
    rewrite take_digits_prefix by (try exact Hf; reflexivity). f_equal. apply exp_value_text.
Qed.

Lemma dec_parts_fixed (ip fp : pystr) :
  forallb is_digit ip = true -> forallb is_digit fp = true -> dec_parts (ip ++ 46%N :: fp) = (ip, fp, 0).
Proof.
  intros Hi Hf. unfold dec_parts. rewrite take_digits_prefix by (try exact Hi; reflexivity).
  cbn [N.eqb Pos.eqb]. rewrite <- (app_nil_r fp) at 1.
  rewrite take_digits_prefix by (try exact Hf; reflexivity). reflexivity.
Qed.

Lemma split_sign_text (neg : bool) (t : pystr) (c : N) (r : pystr) :
  t = c :: r -> (46 <= c)%N -> split_sign (sign_text neg ++ t) = (neg, t).
Proof.
  intros -> Hc. destruct neg; [reflexivity|]. cbn [sign_text app split_sign].
  rewrite (proj2 (N.eqb_neq c 45)) by lia. reflexivity.
Qed.

Lemma in_range_ge (lo hi c : N) : in_range lo hi c = true -> (lo <= c)%N.
Proof. unfold in_range. intros H. apply andb_true_iff in H as [H _]. now apply N.leb_le. Qed.

Lemma forallb_firstn_skipn {A} (f : A -> bool) (n : nat) (l : list A) :
  forallb f l = true -> forallb f (firstn n l) = true /\ forallb f (skipn n l) = true.
Proof. intros H. rewrite <- (firstn_skipn n l), forallb_app in H. now apply andb_true_iff. Qed.

(** [float()] of the text [format_short] writes for the digits of [c]
    and the exponent [j] is [c * 10^j] rounded. *)
Lemma py_float_format (neg : bool) (c j : Z) :
  0 < c ->
  py_float (sign_text neg ++ format_short (digit_text c) (j + Z.of_nat (length (digit_text c))))
  = round_q neg (c * pow10_num j) (pow10_den j).
Proof.
  intros Hc. destruct (digit_text_spec c ltac:(lia)) as [Hd Hv].
  destruct (digit_text_head c Hc) as (d & r & Eds & Hd0).
  set (ds := digit_text c) in *. set (n := length ds).
  assert (Hn : n = S (length r)) by (unfold n; rewrite Eds; reflexivity).
  set (decpt := j + Z.of_nat n).
  assert (Hex : float_of_dec neg c j = round_q neg (c * pow10_num j) (pow10_den j))
    by (apply float_of_dec_exact; lia).
  assert (Hz : forall m, digits_value 0 ([48%N] ++ repeat 48%N m ++ ds) = c)
    by (intros m; rewrite !digits_value_app, digits_value_zeros; exact Hv).
  unfold py_float, format_short. fold decpt.
  destruct ((decpt <=? -4) || (16 <? decpt)) eqn:Ex; [|destruct (Z.leb_spec decpt 0) as [H0|H0];
    [|destruct (Z.ltb_spec decpt (Z.of_nat (length ds))) as [H1|H1]]].
  - rewrite Eds.
    rewrite (split_sign_text neg _ d ((match r with [] => [] | _ => 46%N :: r end) ++ exp_text (decpt - 1)))
      by (try reflexivity; apply in_range_ge in Hd0; lia).
    replace (d :: (match r with [] => [] | _ => 46%N :: r end) ++ exp_text (decpt - 1))
      with ([d] ++ (match r with [] => [] | _ => 46%N :: r end) ++ exp_text (decpt - 1)) by reflexivity.
    rewrite Eds in Hd. cbn [forallb] in Hd. apply andb_true_iff in Hd as [Hd1 Hdr].
    rewrite dec_parts_exp by (try exact Hdr; cbn [forallb]; now rewrite Hd1).
    replace (digits_value 0 ([d] ++ r)) with c by (cbn [app]; rewrite <- Eds; symmetry; exact Hv).
    replace (decpt - 1 - Z.of_nat (length r)) with j by (unfold decpt; lia). exact Hex.
  - rewrite (split_sign_text neg _ 48%N (46%N :: repeat 48%N (Z.to_nat (- decpt)) ++ ds)) by (try reflexivity; lia).
    change ([48%N; 46%N] ++ repeat 48%N (Z.to_nat (- decpt)) ++ ds)
      with ([48%N] ++ 46%N :: (repeat 48%N (Z.to_nat (- decpt)) ++ ds)).
    rewrite dec_parts_fixed by (try reflexivity; now rewrite forallb_app, zeros_digits, Hd).
    rewrite Hz, length_app, repeat_length.
    replace (0 - Z.of_nat (Z.to_nat (- decpt) + length ds)) with j by (fold n; unfold decpt in *; lia).
    exact Hex.
  - destruct (forallb_firstn_skipn is_digit (Z.to_nat decpt) ds Hd) as [Hf Hs].
    assert (Hfh : exists c0 r0, firstn (Z.to_nat decpt) ds = c0 :: r0 /\ (46 <= c0)%N).
    { rewrite Eds. destruct (Z.to_nat decpt) as [|t] eqn:Et; [lia|]. cbn [firstn]. exists d, (firstn t r).
      split; [reflexivity|]. apply in_range_ge in Hd0. lia. }
    destruct Hfh as (c0 & r0 & Ef & Hc0).
    rewrite (split_sign_text neg _ c0 (r0 ++ [46%N] ++ skipn (Z.to_nat decpt) ds))
      by (try exact Hc0; rewrite Ef; reflexivity).
    change ([46%N] ++ skipn (Z.to_nat decpt) ds) with (46%N :: skipn (Z.to_nat decpt) ds).
    rewrite dec_parts_fixed by assumption. rewrite firstn_skipn, Hv, length_skipn.
    replace (0 - Z.of_nat (length ds - Z.to_nat decpt)) with j by (fold n; unfold decpt in *; lia).
    exact Hex.
  - rewrite (split_sign_text neg _ d (r ++ repeat 48%N (Z.to_nat decpt - length ds) ++ [46%N; 48%N]))
      by (try (rewrite Eds; reflexivity); apply in_range_ge in Hd0; lia).
    replace (ds ++ repeat 48%N (Z.to_nat decpt - length ds) ++ [46%N; 48%N])
      with ((ds ++ repeat 48%N (Z.to_nat decpt - length ds)) ++ 46%N :: [48%N]) by (rewrite <- app_assoc; reflexivity).
    rewrite dec_parts_fixed by (try reflexivity; now rewrite forallb_app, zeros_digits, Hd).
    rewrite !digits_value_app, Hv, digits_value_zeros. cbn [digits_value length].
    change (Z.of_N (48 - 48)) with 0. fold n.
    apply float_of_dec_value; [pose proof (Z.pow_nonneg 10 (Z.of_nat (Z.to_nat decpt - n))); nia|lia|].
    unfold pow10_num, pow10_den.
    change (Z.of_nat 1) with 1.
    replace (Z.max (0 - 1) 0) with 0 by lia. replace (Z.max (- (0 - 1)) 0) with 1 by lia.
    replace (Z.max (- j) 0) with 0 by (unfold decpt in *; lia). replace (Z.max j 0) with j by (unfold decpt in *; lia).
    replace (Z.of_nat (Z.to_nat decpt - n)) with j by (unfold decpt in *; lia).
    rewrite Z.pow_0_r, Z.pow_1_r. ring.
Qed.

(** ** Lemmas: the digits [repr] writes *)

Lemma strip_zeros_value (f : nat) (c j : Z) :
  0 < c ->
  0 < fst (strip_zeros f c j) /\
  forall neg, round_q neg (fst (strip_zeros f c j) * pow10_num (snd (strip_zeros f c j)))
                          (pow10_den (snd (strip_zeros f c j)))
              = round_q neg (c * pow10_num j) (pow10_den j).
Proof.
  revert c j. induction f as [|f IH]; intros c j Hc; [split; [exact Hc|reflexivity]|].
  cbn [strip_zeros]. destruct ((0 <? c) && (c mod 10 =? 0)) eqn:E; [|split; [exact Hc|reflexivity]].
  apply andb_true_iff in E as [_ E]. apply Z.eqb_eq in E.
  pose proof (Z.div_mod c 10 ltac:(lia)) as Ec. rewrite E, Z.add_0_r in Ec.
  destruct (IH (c / 10) (j + 1) ltac:(lia)) as [H1 H2]. split; [exact H1|].
  intros neg. rewrite H2. pose proof (pow10_add j 1 ltac:(lia)) as P.
  pose proof (pow10_num_pos j). pose proof (pow10_den_pos j).
  pose proof (pow10_num_pos (j + 1)). pose proof (pow10_den_pos (j + 1)).
  rewrite Z.pow_1_r in P. apply round_q_ratio; nia.
Qed.

Lemma pick_digits_nonneg (p : positive) (e j c : Z) :
  fin_ok (Zpos p) (e + 1074) -> pick_digits p e j = Some c -> 0 <= c.
Proof.
  intros (HM & Hs & _). unfold pick_digits.
  set (A := Zpos p * 2 ^ (e + 1074) * pow10_den j). set (B := 2 ^ 1074 * pow10_num j).
  assert (HB : 0 < B) by (unfold B; pose proof (pow10_num_pos j); pose proof (pow2_pos 1074); nia).
  assert (HA : 0 <= A) by (unfold A; pose proof (pow10_den_pos j); pose proof (pow2_pos (e + 1074)); nia).
  pose proof (Z.div_pos A B HA HB).
  destruct (A mod B =? 0); [intros [= <-]; lia|].
  destruct (same_float p e (dec_float (A / B) j)), (same_float p e (dec_float (A / B + 1) j));
    [destruct (Z.compare (2 * (A mod B)) B); [destruct (Z.even (A / B))|..]| | |];
    intros H'; try discriminate H'; injection H' as <-; lia.
Qed.

Lemma shortest_pos (p : positive) (e : Z) : fin_ok (Zpos p) (e + 1074) -> 0 < fst (shortest p e).
Proof.
  intros Hok. destruct (shortest_sound p e Hok) as [Hp Hd].
  pose proof (pick_digits_nonneg p e _ _ Hok Hp).
  destruct (Z.eq_dec (fst (shortest p e)) 0) as [E|]; [|lia]. exfalso.
  rewrite E in Hd. unfold dec_float, round_q in Hd. rewrite !Z.mul_0_l in Hd.
  rewrite round_scaled_small in Hd; [discriminate|apply pow10_den_pos|lia|pose proof (pow10_den_pos (snd (shortest p e))); lia].
Qed.

(** ** Lemmas: what the JSON module needs *)

Lemma digits_value_nonneg (acc : Z) (l : pystr) : 0 <= acc -> 0 <= digits_value acc l.
Proof. revert acc; induction l; intros acc H; cbn; [exact H|]. apply IHl. lia. Qed.

Lemma float_of_dec_valid (neg : bool) (D k : Z) : 0 <= D -> valid (float_of_dec neg D k) = true.
Proof.
  intros HD. rewrite float_of_dec_exact by exact HD. unfold round_q.
  pose proof (pow10_num_pos k). pose proof (pow10_den_pos k). pose proof (pow2_pos 1074 ltac:(lia)).
  apply round_scaled_valid; nia.
Qed.

(** [float()] of any text gives a valid double. *)
Lemma py_float_valid (t : pystr) : valid (py_float t) = true.
Proof.
  unfold py_float. destruct (split_sign t) as [neg r]. destruct (dec_parts r) as [[ip fp] x].
  apply float_of_dec_valid, digits_value_nonneg. lia.
Qed.

Lemma digits_ascii (l : pystr) : forallb is_digit l = true -> forallb is_ascii l = true.
Proof.
  induction l as [|c l IH]; [reflexivity|]. cbn [forallb]. intros H. apply andb_true_iff in H as [H1 H2].
  rewrite IH by exact H2. unfold is_digit, in_range in H1. apply andb_true_iff in H1 as [_ H1].
  apply N.leb_le in H1. unfold is_ascii. rewrite (proj2 (N.ltb_lt c 128)) by lia. reflexivity.
Qed.

Lemma format_short_ascii (ds : pystr) (decpt : Z) :
  forallb is_digit ds = true -> forallb is_ascii (format_short ds decpt) = true.
Proof.
  intros Hd. pose proof (digits_ascii ds Hd) as Ha.
  assert (Hz : forall n, forallb is_ascii (repeat 48%N n) = true) by (intros; apply digits_ascii, zeros_digits).
  assert (He : forall x, forallb is_ascii (exp_text x) = true).
  { intros x. unfold exp_text. rewrite !forallb_app.
    rewrite (digits_ascii _ (proj1 (digit_text_spec (Z.abs x) ltac:(lia)))).
    destruct (x <? 0), (Z.abs x <? 10); reflexivity. }
  unfold format_short. destruct ((decpt <=? -4) || (16 <? decpt)).
  - destruct ds as [|d rest]; [reflexivity|]. cbn [forallb] in Ha |- *. apply andb_true_iff in Ha as [H1 H2].
    rewrite H1, forallb_app, He. destruct rest; [reflexivity|]. cbn [forallb] in H2 |- *. now rewrite H2.
  - destruct (decpt <=? 0); [rewrite !forallb_app, Hz, Ha; reflexivity|].
    destruct (forallb_firstn_skipn is_ascii (Z.to_nat decpt) ds Ha) as [F S].
    destruct (decpt <? Z.of_nat (length ds)); rewrite !forallb_app; [now rewrite F, S|now rewrite Ha, Hz].
Qed.

(** [json.dumps] of a float writes ASCII. *)
Lemma json_float_ascii (f : float) : forallb is_ascii (json_float f) = true.
Proof.
  destruct f as [neg|neg| |neg p e]; [destruct neg; reflexivity|destruct neg; reflexivity|reflexivity|].
  cbn [json_float float_repr]. destruct (shortest p e) as [c j]. destruct (strip_zeros 18 c j) as [c' j'].
  rewrite forallb_app. destruct neg; cbn [sign_text forallb andb];
    apply format_short_ascii; destruct (Z.le_gt_cases 0 c');
    [apply (digit_text_spec c' ltac:(lia))|destruct c'; [lia..|reflexivity]
    |apply (digit_text_spec c' ltac:(lia))|destruct c'; [lia..|reflexivity]].
Qed.

(** [float(repr(x)) == x] for every finite double, the sign and the zero
    [-0.0] included: [repr] writes the shortest decimal that reads back,
    and [float()] reads the text it writes as that decimal. *)
Lemma py_float_repr (f : float) :
  valid f = true -> is_finite_float f = true -> py_float (float_repr f) = f.
Proof.
  intros Hv Hf. destruct f as [neg|neg| |neg p e]; try discriminate.
  - destruct neg; reflexivity.
  - apply valid_finite in Hv. cbn [float_repr].
    destruct (shortest_sound p e Hv) as [_ Hd]. pose proof (shortest_pos p e Hv) as Hc.
    destruct (shortest p e) as [c j]. cbn [fst snd] in Hd, Hc.
    destruct (strip_zeros_value 18 c j Hc) as [Hc' Hs].
    destruct (strip_zeros 18 c j) as [c' j']. cbn [fst snd] in Hc', Hs.
    rewrite py_float_format by exact Hc'. rewrite Hs.
    unfold dec_float, round_q in Hd |- *. exact (round_scaled_neg neg _ _ p e Hd).
Qed.

(** ** Theorems *)

(** C10.  [float()] of a decimal [(-)D * 10^k], that is of [n / d] with
    [n = D * pow10_num k] and [d = pow10_den k], is correctly rounded: a
    valid binary64 with the sign of the literal; [0.0] up to half the
    smallest subnormal ([2^-1075], ties to even); [inf] from half a unit
    above the largest double on ([2^1024 - 2^970]); and in between a
    finite double within half a unit in its last place of [n / d].
    [_Py_dg_strtod] behaves so, its shortcuts for huge and tiny
    exponents included. *)
Theorem float_of_dec_correct (neg : bool) (D k : Z) :
  0 <= D ->
  valid (float_of_dec neg D k) = true /\
  (2 ^ 1075 * (D * pow10_num k) <= pow10_den k -> float_of_dec neg D k = S754_zero neg) /\
  ((2 ^ 1024 - 2 ^ 970) * pow10_den k <= D * pow10_num k -> float_of_dec neg D k = S754_infinity neg) /\
  (pow10_den k < 2 ^ 1075 * (D * pow10_num k) -> D * pow10_num k < (2 ^ 1024 - 2 ^ 970) * pow10_den k ->
   exists p e, float_of_dec neg D k = S754_finite neg p e /\
     2 * Z.abs (D * pow10_num k * 2 ^ 1074 - Zpos p * 2 ^ (e + 1074) * pow10_den k)
       <= 2 ^ (e + 1074) * pow10_den k).
Proof.
  intros HD. rewrite float_of_dec_exact by exact HD. unfold round_q.
  pose proof (pow10_num_pos k). pose proof (pow10_den_pos k).
  set (n := D * pow10_num k). set (d := pow10_den k). set (u := 2 ^ 1074).
  assert (Hn : 0 <= n) by (unfold n; nia). assert (Hu : 0 < u) by (apply pow2_pos; lia).
  assert (P : 2 ^ 1075 = 2 * u) by (unfold u; rewrite <- Z.pow_succ_r by lia; reflexivity).
  assert (Q : 2 ^ 2098 - 2 ^ 2044 = (2 ^ 1024 - 2 ^ 970) * u) by (unfold u; vm_compute; reflexivity).
  set (L := 2 ^ 1024 - 2 ^ 970) in *.
  split; [apply round_scaled_valid; [lia|nia]|].
  split; [intros Hz; apply round_scaled_small; nia|].
  split; [intros Hi; apply round_scaled_overflow; [lia|rewrite Q; nia]|].
  intros H1 H2. destruct (round_scaled_finite neg (n * u) d) as (p & e & E); [lia|nia|rewrite Q; nia|].
  exists p, e. split; [exact E|]. eapply round_scaled_err; [lia|nia|exact E].
Qed.

Lemma float_of_dec_correct_witness :
  (0 <= 1)%Z /\ float_of_dec false 1 (-1) = tenth /\
  exists p e, float_of_dec false 1 (-1) = S754_finite false p e /\
    2 * Z.abs (1 * pow10_num (-1) * 2 ^ 1074 - Zpos p * 2 ^ (e + 1074) * pow10_den (-1))
      <= 2 ^ (e + 1074) * pow10_den (-1).
Proof.
  split; [lia|]. split; [vm_compute; reflexivity|].
  destruct (float_of_dec_correct false 1 (-1) ltac:(lia)) as (_ & _ & _ & H).
  apply H; vm_compute; reflexivity.
Defined.
