(* ===== verification/Json.v ===== *)
(** * JSON values as the program handles them

    [run_bullshit_meter] (src/bullshit_meter.py) builds the request body
    with [json.dumps(payload)] (line 86), reads the reply with
    [response.json()] (line 87), digs out the narrative with
    [data["candidates"][0]["content"]["parts"][0]["text"]] (line 90), and
    on failure renders the reply with [json.dumps(data, indent=2)]
    (line 92).  This file models the Python objects [json] produces
    ([json]), Python subscripting on them with its exceptions
    ([getitem]; a missing key raises [KeyError] with the [repr] of the
    key, [PyStr.py_repr]), and [json.dumps] with [ensure_ascii] ([dumps]), with
    an induction principle over nested values ([json_ind']); a float is
    written as its [repr] ([Float.json_float]).  The lemmas
    show that [json.dumps] writes ASCII and that the exceptions of the
    lookup of line 90 carry ASCII messages: the error block of line 92
    can always be written. *)

From Stdlib Require Import Ascii String List Arith NArith ZArith Lia Bool.
From Stdlib Require Import DecimalString.
From S2P Require Import Prelude Utf8 PyStr Float.
Import ListNotations.
Local Open Scope py_scope.

Set Warnings "-register-all".

(** ** Values: the objects [json.loads] returns *)

Inductive json :=
| JNull                              (** [None] *)
| JBool (b : bool)
| JInt (z : Z)
| JFloat (f : float)                 (** a [float]: a binary64 ([Float]) *)
| JStr (s : pystr)
| JArr (l : list json)               (** a [list] *)
| JObj (kvs : list (pystr * json)).  (** a [dict], keys in insertion order *)

(** The name of a value's type, as Python's messages print it. *)
Definition type_name (v : json) : pystr :=
  match v with
  | JNull => py "NoneType"
  | JBool _ => py "bool"
  | JInt _ => py "int"
  | JFloat _ => py "float"
  | JStr _ => py "str"
  | JArr _ => py "list"
  | JObj _ => py "dict"
  end.

(** [str(n)] of a Python [int]. *)
Definition py_str_int (z : Z) : pystr := py (NilEmpty.string_of_int (Z.to_int z)).

(** ** Subscripting: [v[k]] *)

Inductive key := KStr (s : pystr) | KInt (z : Z).

Fixpoint assoc_get (k : pystr) (kvs : list (pystr * json)) : option json :=
  match kvs with
  | [] => None
  | (k', v) :: r => if pystr_eqb k k' then Some v else assoc_get k r
  end.

(** Python's index [z] into a sequence of length [n] ([z < 0] counts from
    the end). *)
Definition seq_index (n : nat) (z : Z) : option nat :=
  let z' := if (z <? 0)%Z then (z + Z.of_nat n)%Z else z in
  if ((0 <=? z') && (z' <? Z.of_nat n))%Z then Some (Z.to_nat z') else None.

Definition type_error (m : pystr) : exn := Exc TypeError m.

Definition getitem `{UnicodeDB} (v : json) (k : key) : res json :=
  match v, k with
  | JObj kvs, KStr s =>
      match assoc_get s kvs with
      | Some x => Ok x
      | None => Raise (Exc KeyError (py_repr s))
      end
  | JObj _, KInt z => Raise (Exc KeyError (py_str_int z))
  | JArr l, KInt z =>
      match seq_index (length l) z with
      | Some i => match nth_error l i with
                  | Some x => Ok x
                  | None => Raise (Exc IndexError (py "list index out of range"))
                  end
      | None => Raise (Exc IndexError (py "list index out of range"))
      end
  | JArr _, KStr _ => Raise (type_error (py "list indices must be integers or slices, not str"))
  | JStr s, KInt z =>
      match seq_index (length s) z with
      | Some i => match nth_error s i with
                  | Some c => Ok (JStr [c])
                  | None => Raise (Exc IndexError (py "string index out of range"))
                  end
      | None => Raise (Exc IndexError (py "string index out of range"))
      end
  | JStr _, KStr _ => Raise (type_error (py "string indices must be integers, not 'str'"))
  | _, _ => Raise (type_error ([quote_char] ++ type_name v ++ py "' object is not subscriptable"))
  end.

(** Line 90: [data["candidates"][0]["content"]["parts"][0]["text"]]. *)
Definition extract_text `{UnicodeDB} (data : json) : res json :=
  c <- getitem data (KStr (py "candidates")) ;;
  c0 <- getitem c (KInt 0) ;;
  ct <- getitem c0 (KStr (py "content")) ;;
  ps <- getitem ct (KStr (py "parts")) ;;
  p0 <- getitem ps (KInt 0) ;;
  getitem p0 (KStr (py "text")).

(** ** [json.dumps]

    [ensure_ascii] (the default) writes every code point outside
    [' '..'~'] as [\uXXXX] (lower-case hex; a surrogate pair beyond the
    BMP), except the short escapes of [\b \f \n \r \t], the quote and the
    backslash. *)

Definition u_escape (n : N) : pystr := [92%N; 117%N] ++ hex4 n.

Definition json_escape_char (c : N) : pystr :=
  if (c =? 34)%N then [92; 34]%N
  else if (c =? 92)%N then [92; 92]%N
  else if (c =? 8)%N then [92; 98]%N
  else if (c =? 12)%N then [92; 102]%N
  else if (c =? 10)%N then [92; 110]%N
  else if (c =? 13)%N then [92; 114]%N
  else if (c =? 9)%N then [92; 116]%N
  else if in_range 32 126 c then [c]
  else if (c <? 65536)%N then u_escape c
  else let n := (c - 65536)%N in
       u_escape (N.lor 55296 (N.land (N.shiftr n 10) 1023))
       ++ u_escape (N.lor 56320 (N.land n 1023)).

Definition json_quote (s : pystr) : pystr :=
  [dquote_char] ++ flat_map json_escape_char s ++ [dquote_char].

Definition spaces (n : nat) : pystr := repeat 32%N n.

(** [indent = None]: separators [", "] and [": "], one line;
    [indent = Some n]: items on their own lines, [n] spaces per level. *)
Definition open_sep (ind : option nat) (lvl : nat) : pystr :=
  match ind with None => [] | Some n => [10%N] ++ spaces (n * S lvl) end.
Definition item_sep (ind : option nat) (lvl : nat) : pystr :=
  match ind with None => py ", " | Some n => [44%N; 10%N] ++ spaces (n * S lvl) end.
Definition close_sep (ind : option nat) (lvl : nat) : pystr :=
  match ind with None => [] | Some n => [10%N] ++ spaces (n * lvl) end.

Fixpoint dumps_aux (ind : option nat) (lvl : nat) (v : json) : pystr :=
  match v with
  | JNull => py "null"
  | JBool true => py "true"
  | JBool false => py "false"
  | JInt z => py_str_int z
  | JFloat f => json_float f
  | JStr s => json_quote s
  | JArr [] => py "[]"
  | JArr l =>
      py "[" ++ open_sep ind lvl
      ++ py_join (item_sep ind lvl) (map (dumps_aux ind (S lvl)) l)
      ++ close_sep ind lvl ++ py "]"
  | JObj [] => py "{}"
  | JObj kvs =>
      py "{" ++ open_sep ind lvl
      ++ py_join (item_sep ind lvl)
           (map (fun kv => json_quote (fst kv) ++ py ": " ++ dumps_aux ind (S lvl) (snd kv)) kvs)
      ++ close_sep ind lvl ++ py "}"
  end.

(** [json.dumps(v)] and [json.dumps(v, indent=n)]. *)
Definition dumps (ind : option nat) (v : json) : pystr := dumps_aux ind 0 v.

(** ** [json.dumps] writes ASCII

    With [ensure_ascii] every string is escaped to ASCII, and a float is
    written as its [repr] ([json_float]), which is ASCII.  [floats_valid]
    says that every float of a value is a valid binary64, as every float
    [json.loads] returns is. *)

Fixpoint floats_valid (v : json) : bool :=
  match v with
  | JFloat f => valid f
  | JArr l => forallb floats_valid l
  | JObj kvs => forallb (fun kv => floats_valid (snd kv)) kvs
  | _ => true
  end.

Section JsonInd.
Variable P : json -> Prop.
Hypothesis HNull : P JNull.
Hypothesis HBool : forall b, P (JBool b).
Hypothesis HInt : forall z, P (JInt z).
Hypothesis HFloat : forall r, P (JFloat r).
Hypothesis HStr : forall s, P (JStr s).
Hypothesis HArr : forall l, Forall P l -> P (JArr l).
Hypothesis HObj : forall kvs, Forall (fun kv => P (snd kv)) kvs -> P (JObj kvs).

(** Induction on values, with the hypothesis for every element. *)
Fixpoint json_ind' (v : json) : P v :=
  match v with
  | JNull => HNull
  | JBool b => HBool b
  | JInt z => HInt z
  | JFloat r => HFloat r
  | JStr s => HStr s
  | JArr l => HArr l ((fix go (l : list json) : Forall P l :=
                         match l with
                         | [] => Forall_nil _
                         | x :: r => Forall_cons _ (json_ind' x) (go r)
                         end) l)
  | JObj kvs => HObj kvs ((fix go (kvs : list (pystr * json)) : Forall (fun kv => P (snd kv)) kvs :=
                             match kvs with
                             | [] => Forall_nil _
                             | (k, x) :: r => Forall_cons (P := fun kv => P (snd kv)) (k, x) (json_ind' x) (go r)
                             end) kvs)
  end.
End JsonInd.

Lemma int_ascii (z : Z) : forallb is_ascii (py_str_int z) = true.
Proof.
  unfold py_str_int.
  assert (H : forallb (fun a => N_of_ascii a <? 128)%N
                (list_ascii_of_string (NilEmpty.string_of_int (Z.to_int z))) = true).
  { destruct (Z.to_int z) as [d|d]; simpl;
      (eapply forallb_imp; [|apply uint_digits]); intros a Ha; unfold in_range in Ha;
      apply andb_true_iff in Ha as [_ Ha]; apply N.leb_le in Ha; apply N.ltb_lt; lia. }
  rewrite py_ascii by exact H. rewrite forallb_map. exact H.
Qed.

Lemma hex4_ascii (n : N) : forallb is_ascii (hex4 n) = true.
Proof.
  assert (D : forall m, (m < 16)%N -> is_ascii (hex_digit m) = true).
  { intros m Hm. unfold is_ascii, hex_digit. apply N.ltb_lt.
    destruct (N.ltb_spec m 10); lia. }
  unfold hex4. cbn [forallb]. rewrite !D by (apply N.mod_lt; lia). reflexivity.
Qed.

Lemma json_escape_char_ascii (c : N) : forallb is_ascii (json_escape_char c) = true.
Proof.
  unfold json_escape_char, u_escape.
  repeat match goal with |- context [if ?b then _ else _] => destruct b eqn:? end;
    rewrite ?forallb_app, ?hex4_ascii; try reflexivity.
  match goal with H : in_range 32 126 c = true |- _ =>
    unfold in_range in H; apply andb_true_iff in H as [_ H]; apply N.leb_le in H end.
  simpl. unfold is_ascii. rewrite andb_true_r. apply N.ltb_lt. lia.
Qed.

Lemma json_quote_ascii (s : pystr) : forallb is_ascii (json_quote s) = true.
Proof.
  unfold json_quote. rewrite !forallb_app. simpl.
  induction s as [|c s IH]; simpl; [reflexivity|].
  rewrite forallb_app, json_escape_char_ascii. exact IH.
Qed.

Lemma seps_ascii ind lvl :
  forallb is_ascii (open_sep ind lvl) = true /\ forallb is_ascii (item_sep ind lvl) = true /\
  forallb is_ascii (close_sep ind lvl) = true.
Proof.
  unfold open_sep, item_sep, close_sep, spaces.
  assert (R : forall k, forallb is_ascii (repeat 32%N k) = true) by (induction k; simpl; auto).
  destruct ind; simpl; rewrite ?R; auto.
Qed.

Lemma dumps_aux_ascii (ind : option nat) (v : json) :
  forall lvl, forallb is_ascii (dumps_aux ind lvl v) = true.
Proof.
  induction v as [| b | z | r | s | l IH | kvs IH] using json_ind'; intros lvl;
    cbn [dumps_aux] in *.
  - reflexivity.
  - now destruct b.
  - apply int_ascii.
  - apply json_float_ascii.
  - apply json_quote_ascii.
  - destruct l as [|x l]; [reflexivity|].
    destruct (seps_ascii ind lvl) as (H1 & H2 & H3).
    assert (J : forallb is_ascii (py_join (item_sep ind lvl)
                                          (map (dumps_aux ind (S lvl)) (x :: l))) = true).
    { apply forallb_py_join; [exact H2|]. apply Forall_map.
      rewrite Forall_forall in IH |- *. intros y Hy. apply IH; exact Hy. }
    rewrite !forallb_app, H1, H3, J. reflexivity.
  - destruct kvs as [|kv kvs]; [reflexivity|].
    destruct (seps_ascii ind lvl) as (H1 & H2 & H3).
    match goal with |- context [py_join (item_sep ind lvl) ?ps] =>
      assert (J : forallb is_ascii (py_join (item_sep ind lvl) ps) = true) end.
    { apply forallb_py_join; [exact H2|]. apply Forall_map.
      rewrite Forall_forall in IH |- *. intros y Hy.
      rewrite !forallb_app, json_quote_ascii, IH; [reflexivity|exact Hy]. }
    rewrite !forallb_app, H1, H3, J. reflexivity.
Qed.

(** ** The exceptions of the lookup of line 90 carry ASCII messages *)

Lemma getitem_error_ascii `{U : UnicodeDB} (v : json) (k : key) (e : exn) :
  match k with KStr s => forallb is_ascii s = true | KInt _ => True end ->
  getitem v k = Raise e -> forallb is_ascii (exc_msg e) = true.
Proof.
  intros Hk H. destruct v, k; cbn [getitem] in H;
    repeat match type of H with
    | context [match ?x with _ => _ end] => destruct x
    end; try discriminate; injection H as <-; cbn [exc_msg type_error];
    rewrite ?int_ascii; try reflexivity.
  exact (py_repr_ascii _ Hk).
Qed.

Lemma extract_text_error_ascii `{U : UnicodeDB} (data : json) (e : exn) :
  extract_text data = Raise e -> forallb is_ascii (exc_msg e) = true.
Proof.
  unfold extract_text. intros H.
  repeat match type of H with
  | res_bind ?c _ = _ => destruct c eqn:?; cbn [res_bind] in H; [|injection H as <-]
  end;
  (eapply getitem_error_ascii; [|eassumption]; exact I || reflexivity).
Qed.

(** A missing key holding a quote is named between double quotes, as
    [str(KeyError("it's"))] prints it. *)
Example getitem_missing_quote :
  @getitem latin1_db (JObj []) (KStr (py "it's")) = Raise (Exc KeyError ([34%N] ++ py "it's" ++ [34%N])).
Proof. vm_compute. reflexivity. Qed.
