(* ===== verification/JsonParse.v ===== *)
(** * [json.loads]: the decoding of the reply

    [response.json()] (src/bullshit_meter.py, line 87) is [json.loads] of
    the reply's text.  This file follows CPython's C scanner
    ([Modules/_json.c]: [scan_once_unicode], [scanstring_unicode],
    [_parse_object_unicode], [_parse_array_unicode],
    [_match_number_unicode]) and [json/decoder.py] ([JSONDecoder.decode],
    [raw_decode], [JSONDecodeError]).  The document [doc] is a section
    variable, as the C code keeps the whole string and an index: each
    function takes the index [i] of its first code point together with
    the rest [r] of the document from there.

    Errors are [JSONDecodeError] with CPython's text
    [msg: line L column C (char P)], and [ValueError] for an integer of
    more than 4300 digits ([sys.get_int_max_str_digits()]).  A number
    with a fraction or an exponent is [float(text)] ([Float.py_float]),
    a binary64; [NaN], [Infinity] and [-Infinity] are the special
    values.  The recursion limit of deep nesting is not modelled.  The calls are
    bounded by fuel; [json_loads] gives twice the length of the document
    plus two, which the theorems show is enough. *)

From Stdlib Require Import Ascii String List Arith NArith ZArith Lia Bool.
From Stdlib Require Import SpecFloat.
From S2P Require Import Prelude Utf8 PyStr Float Json.
Import ListNotations.
Local Open Scope py_scope.
Local Open Scope N_scope.

(** ** Character classes of the scanner *)

Definition is_json_ws (c : N) : bool := (c =? 32) || (c =? 9) || (c =? 10) || (c =? 13).

(** [str[idx] == c] with [idx] in range: the head of the rest is [c]. *)
Definition head_is (c : N) (r : pystr) : bool :=
  match r with d :: _ => d =? c | [] => false end.

(** A hexadecimal digit of a [\uXXXX] escape, either case. *)
Definition hex_val (c : N) : option N :=
  if in_range 48 57 c then Some (c - 48)
  else if in_range 97 102 c then Some (c - 87)
  else if in_range 65 70 c then Some (c - 55)
  else None.

Definition hex4_val (a b c d : N) : option N :=
  match hex_val a, hex_val b, hex_val c, hex_val d with
  | Some x, Some y, Some z, Some u => Some (N.lor (N.shiftl x 12) (N.lor (N.shiftl y 8) (N.lor (N.shiftl z 4) u)))
  | _, _, _, _ => None
  end.

Definition is_high_surrogate (c : N) : bool := in_range 55296 56319 c.
Definition is_low_surrogate (c : N) : bool := in_range 56320 57343 c.

(** [Py_UNICODE_JOIN_SURROGATES]. *)
Definition join_surrogates (hi lo : N) : N :=
  65536 + N.lor (N.shiftl (N.land hi 1023) 10) (N.land lo 1023).

(** The one-character escapes: a backslash before the double quote, the
    backslash, the slash, [b], [f], [n], [r] or [t]. *)
Definition simple_escape (c : N) : option N :=
  if c =? 34 then Some 34 else if c =? 92 then Some 92 else if c =? 47 then Some 47
  else if c =? 98 then Some 8 else if c =? 102 then Some 12 else if c =? 110 then Some 10
  else if c =? 114 then Some 13 else if c =? 116 then Some 9 else None.

Definition max_str_digits : nat := 4300.

(** The exception of a call that runs out of fuel; the theorems show it
    never escapes [json_loads]. *)
Definition fuel_exn : exn := Exc Unmodelled (py "nesting beyond the fuel").

Section Scanner.
Variable doc : pystr.

(** [JSONDecodeError(msg, doc, pos)]: the line is one more than the
    newlines before [pos], the column counts from the last of them. *)
Fixpoint rfind_nl (l : pystr) (i : nat) (last : option nat) : option nat :=
  match l with
  | [] => last
  | c :: l' => rfind_nl l' (S i) (if c =? 10 then Some i else last)
  end.

Definition dec_err (msg : string) (pos : nat) : exn :=
  let pre := firstn pos doc in
  let lineno := S (length (filter (N.eqb 10) pre)) in
  let colno := match rfind_nl pre 0 None with Some j => (pos - j)%nat | None => S pos end in
  Exc JSONDecodeError (py msg ++ py ": line " ++ py_str_nat lineno ++ py " column "
                       ++ py_str_nat colno ++ py " (char " ++ py_str_nat pos ++ py ")").

(** Skip [ \t\n\r]. *)
Fixpoint skip_ws (i : nat) (r : pystr) : nat * pystr :=
  match r with
  | c :: r' => if is_json_ws c then skip_ws (S i) r' else (i, r)
  | [] => (i, r)
  end.

(** [scanstring_unicode]: [begin] is the index of the opening quote, [i]
    that of [r]'s head; [acc] holds the decoded text reversed. *)
Fixpoint scanstring (begin i : nat) (r acc : pystr) : res (pystr * nat * pystr) :=
  match r with
  | [] => Raise (dec_err "Unterminated string starting at" begin)
  | c :: r' =>
      if c =? 34 then Ok (rev acc, S i, r')
      else if c =? 92 then
        match r' with
        | [] => Raise (dec_err "Unterminated string starting at" begin)
        | e :: ru =>
            if e =? 117 then
              (* [\u] at index [S i]: four digits and one more code point needed *)
              match ru with
              | h1 :: h2 :: h3 :: h4 :: ((_ :: _) as ru') =>
                  match hex4_val h1 h2 h3 h4 with
                  | None => Raise (dec_err "Invalid \uXXXX escape" (S i))
                  | Some u =>
                      if is_high_surrogate u && (7 <=? N.of_nat (length ru')) then
                        match ru' with
                        | b1 :: b2 :: g1 :: g2 :: g3 :: g4 :: ru'' =>
                            if (b1 =? 92) && (b2 =? 117) then
                              match hex4_val g1 g2 g3 g4 with
                              | None => Raise (dec_err "Invalid \uXXXX escape" ((i + 7)%nat))
                              | Some u2 =>
                                  if is_low_surrogate u2
                                  then scanstring begin (i + 12)%nat ru'' (join_surrogates u u2 :: acc)
                                  else scanstring begin (i + 6)%nat ru' (u :: acc)
                              end
                            else scanstring begin (i + 6)%nat ru' (u :: acc)
                        | _ => scanstring begin (i + 6)%nat ru' (u :: acc)
                        end
                      else scanstring begin (i + 6)%nat ru' (u :: acc)
                  end
              | _ => Raise (dec_err "Invalid \uXXXX escape" (S i))
              end
            else
              match simple_escape e with
              | Some x => scanstring begin (S (S i)) ru (x :: acc)
              | None => Raise (dec_err "Invalid \escape" i)
              end
        end
      else if c <=? 31 then Raise (dec_err "Invalid control character at" i)
      else scanstring begin (S i) r' (c :: acc)
  end.

(** The fraction [.d+], taken only when a digit follows the point. *)
Definition take_frac (r : pystr) : pystr * pystr :=
  match r with
  | p :: d :: r' => if (p =? 46) && is_digit d then let (ds, rest) := take_digits r' in (p :: d :: ds, rest)
                    else ([], r)
  | _ => ([], r)
  end.

(** The sign of an exponent, taken only when a code point follows it. *)
Definition take_exp_sign (r : pystr) : pystr * pystr :=
  match r with
  | s :: ((_ :: _) as r2) => if (s =? 45) || (s =? 43) then ([s], r2) else ([], r)
  | _ => ([], r)
  end.

(** The exponent [[eE][-+]?d*], kept only if it ends in a digit; [e]
    needs a code point after it. *)
Definition take_exp (r : pystr) : pystr * pystr :=
  match r with
  | e :: ((_ :: _) as r1) =>
      if (e =? 101) || (e =? 69) then
        let (sg, r2) := take_exp_sign r1 in
        let (ds, r3) := take_digits r2 in
        match ds with
        | [] => ([], r)
        | _ => (e :: sg ++ ds, r3)
        end
      else ([], r)
  | _ => ([], r)
  end.

Definition match_number (i : nat) (r : pystr) : res (json * nat * pystr) :=
  let '(sign, r1) := if head_is 45 r then ([45], tl r) else ([], r) in
  let int_part :=
    match r1 with
    | d :: r2 => if d =? 48 then Some ([d], r2)
                 else if in_range 49 57 d then Some (take_digits r1) else None
    | [] => None
    end in
  match int_part with
  | None => Raise (dec_err "Expecting value" i)
  | Some (ds, r2) =>
      let (fr, r3) := take_frac r2 in
      let (ex, r4) := take_exp r3 in
      let text := sign ++ ds ++ fr ++ ex in
      let j := (i + length text)%nat in
      match fr, ex with
      | [], [] =>
          if (max_str_digits <? length ds)%nat
          then Raise (Exc ValueError (py "Exceeds the limit (4300 digits) for integer string conversion: value has "
                                      ++ py_str_nat (length ds)
                                      ++ py " digits; use sys.set_int_max_str_digits() to increase the limit"))
          else let z := digits_value 0 ds in
               Ok (JInt (match sign with [] => z | _ => Z.opp z end), j, r4)
      | _, _ => Ok (JFloat (py_float text), j, r4)
      end
  end.

(** [scan_once_unicode], with the loops of [_parse_object_unicode] and
    [_parse_array_unicode]; each call spends one unit of fuel. *)
Fixpoint scan_once (fuel : nat) (i : nat) (r : pystr) {struct fuel} : res (json * nat * pystr) :=
  match fuel with
  | O => Raise fuel_exn
  | S f =>
      match r with
      | [] => Raise (dec_err "Expecting value" i)
      | c :: r' =>
          if c =? 34 then
            ' (s, j, r'') <- scanstring i (S i) r' [] ;; Ok (JStr s, j, r'')
          else if c =? 123 then
            let (i1, r1) := skip_ws (S i) r' in
            if head_is 125 r1 then Ok (JObj [], S i1, tl r1) else parse_object f i1 r1 []
          else if c =? 91 then
            let (i1, r1) := skip_ws (S i) r' in
            if head_is 93 r1 then Ok (JArr [], S i1, tl r1) else parse_array f i1 r1 []
          else if is_prefix (py "null") r then Ok (JNull, (i + 4)%nat, skipn 4 r)
          else if is_prefix (py "true") r then Ok (JBool true, (i + 4)%nat, skipn 4 r)
          else if is_prefix (py "false") r then Ok (JBool false, (i + 5)%nat, skipn 5 r)
          else if is_prefix (py "NaN") r then Ok (JFloat S754_nan, (i + 3)%nat, skipn 3 r)
          else if is_prefix (py "Infinity") r then Ok (JFloat (S754_infinity false), (i + 8)%nat, skipn 8 r)
          else if is_prefix (py "-Infinity") r then Ok (JFloat (S754_infinity true), (i + 9)%nat, skipn 9 r)
          else match_number i r
      end
  end
(** The members of an object from a key on; [acc] is the dict so far
    (a repeated key keeps its place and takes the new value). *)
with parse_object (fuel : nat) (i : nat) (r : pystr) (acc : list (pystr * json)) {struct fuel}
  : res (json * nat * pystr) :=
  match fuel with
  | O => Raise fuel_exn
  | S f =>
      if head_is 34 r then
        ' (k, i2, r2) <- scanstring i (S i) (tl r) [] ;;
        let (i3, r3) := skip_ws i2 r2 in
        if head_is 58 r3 then
          let (i5, r5) := skip_ws (S i3) (tl r3) in
          ' (v, i6, r6) <- scan_once f i5 r5 ;;
          let acc' := dict_set k v acc in
          let (i7, r7) := skip_ws i6 r6 in
          if head_is 125 r7 then Ok (JObj acc', S i7, tl r7)
          else if head_is 44 r7 then
            let (i9, r9) := skip_ws (S i7) (tl r7) in parse_object f i9 r9 acc'
          else Raise (dec_err "Expecting ',' delimiter" i7)
        else Raise (dec_err "Expecting ':' delimiter" i3)
      else Raise (dec_err "Expecting property name enclosed in double quotes" i)
  end
(** The elements of an array from an element on; [acc] reversed. *)
with parse_array (fuel : nat) (i : nat) (r : pystr) (acc : list json) {struct fuel}
  : res (json * nat * pystr) :=
  match fuel with
  | O => Raise fuel_exn
  | S f =>
      ' (v, i1, r1) <- scan_once f i r ;;
      let (i2, r2) := skip_ws i1 r1 in
      if head_is 93 r2 then Ok (JArr (rev (v :: acc)), S i2, tl r2)
      else if head_is 44 r2 then
        let (i4, r4) := skip_ws (S i2) (tl r2) in parse_array f i4 r4 (v :: acc)
      else Raise (dec_err "Expecting ',' delimiter" i2)
  end.

End Scanner.

(** [json.loads(s)] for a [str]: the BOM check, leading white space,
    one value, trailing white space, nothing else. *)
Definition json_loads (s : pystr) : res json :=
  if head_is 65279 s then Raise (dec_err s "Unexpected UTF-8 BOM (decode using utf-8-sig)" 0)
  else
    let (i0, r0) := skip_ws 0 s in
    ' (v, i1, r1) <- scan_once s (2 * length s + 2)%nat i0 r0 ;;
    let (i2, r2) := skip_ws i1 r1 in
    match r2 with
    | [] => Ok v
    | _ => Raise (dec_err s "Extra data" i2)
    end.

(** ** Lemmas: what the scanner returns *)

Lemma skip_ws_len i r : (length (snd (skip_ws i r)) <= length r)%nat.
Proof. revert i; induction r as [|c r IH]; intros i; simpl; [lia|]. destruct (is_json_ws c); simpl; auto. Qed.

Ltac ws_len E :=
  match type of E with
  | skip_ws ?i ?r = (?i1, ?r1) => let L := fresh "L" in
      pose proof (skip_ws_len i r) as L; rewrite E in L; simpl in L
  end.

Section ScannerLemmas.
Variable doc : pystr.

(** A scan result: on success the rest is shorter and every float
    is a valid binary64; the only exceptions are the decoder's. *)
Definition str_ok (r : pystr) (x : res (pystr * nat * pystr)) : Prop :=
  match x with
  | Ok (_, _, r') => length r' < length r
  | Raise e => exc_cls e = JSONDecodeError
  end%nat.

Definition scan_ok (r : pystr) (x : res (json * nat * pystr)) : Prop :=
  match x with
  | Ok (v, _, r') => (length r' < length r)%nat /\ floats_valid v = true
  | Raise e => exc_cls e = JSONDecodeError \/ exc_cls e = ValueError \/ e = fuel_exn
  end.

Lemma dec_err_cls msg pos : exc_cls (dec_err doc msg pos) = JSONDecodeError.
Proof. reflexivity. Qed.

Lemma str_ok_weaken (r1 r : pystr) x :
  (length r1 <= length r)%nat -> str_ok r1 x -> str_ok r x.
Proof. destruct x as [[[? ?] ?]|]; simpl; auto; lia. Qed.


Lemma scanstring_ok (n : nat) :
  forall b i r acc, (length r <= n)%nat -> str_ok r (scanstring doc b i r acc).
Proof.
  induction n as [|n IH]; intros b i [|c r] acc Hn; cbn [scanstring]; try reflexivity;
    simpl in Hn; try lia.
  destruct (c =? 34); [simpl; lia|].
  destruct (c =? 92).
  - destruct r as [|e ru]; [reflexivity|].
    destruct (e =? 117).
    + destruct ru as [|h1 [|h2 [|h3 [|h4 [|h5 ru']]]]]; try reflexivity.
      destruct (hex4_val h1 h2 h3 h4) as [u|]; [|reflexivity].
      destruct (is_high_surrogate u && _).
      * destruct ru' as [|x1 [|g1 [|g2 [|g3 [|g4 ru'']]]]];
          try (eapply str_ok_weaken; [|apply IH]; simpl in *; lia).
        destruct ((h5 =? 92) && (x1 =? 117)); [|eapply str_ok_weaken; [|apply IH]; simpl in *; lia].
        destruct (hex4_val g1 g2 g3 g4); [|reflexivity].
        destruct (is_low_surrogate _); (eapply str_ok_weaken; [|apply IH]; simpl in *; lia).
      * eapply str_ok_weaken; [|apply IH]; simpl in *; lia.
    + destruct (simple_escape e); [|reflexivity].
      eapply str_ok_weaken; [|apply IH]; simpl in *; lia.
  - destruct (c <=? 31); [reflexivity|]. eapply str_ok_weaken; [|apply IH]; simpl in *; lia.
Qed.
Lemma scan_ok_weaken (r1 r : pystr) x :
  (length r1 <= length r)%nat -> scan_ok r1 x -> scan_ok r x.
Proof. destruct x as [[[? ?] ?]|]; simpl; auto. intros ? [? ?]; split; [lia|auto]. Qed.

Lemma take_digits_spec (r : pystr) :
  r = fst (take_digits r) ++ snd (take_digits r) /\ forallb is_digit (fst (take_digits r)) = true.
Proof.
  induction r as [|c r [IH1 IH2]]; simpl; [auto|].
  destruct (is_digit c) eqn:E; [|auto]. destruct (take_digits r) as [ds rest]; simpl in *.
  rewrite E. split; [now f_equal | exact IH2].
Qed.

Lemma digit_ascii (c : N) : is_digit c = true -> is_ascii c = true.
Proof.
  unfold is_digit, in_range, is_ascii. intros H. apply andb_true_iff in H as [_ H].
  apply N.leb_le in H. apply N.ltb_lt. lia.
Qed.

Lemma take_frac_spec (r : pystr) :
  r = fst (take_frac r) ++ snd (take_frac r) /\ forallb is_ascii (fst (take_frac r)) = true.
Proof.
  unfold take_frac. destruct r as [|p [|d r']]; simpl; auto.
  destruct ((p =? 46) && is_digit d) eqn:E; simpl; [|auto].
  apply andb_true_iff in E as [Ep Ed]. apply N.eqb_eq in Ep. subst p.
  destruct (take_digits_spec r') as [H1 H2]. destruct (take_digits r') as [ds rest]; simpl in *.
  split; [now rewrite H1 | rewrite digit_ascii, digits_ascii by assumption; reflexivity].
Qed.

Lemma take_exp_sign_spec (r : pystr) :
  r = fst (take_exp_sign r) ++ snd (take_exp_sign r) /\ forallb is_ascii (fst (take_exp_sign r)) = true.
Proof.
  unfold take_exp_sign. destruct r as [|x [|y r]]; simpl; auto.
  destruct ((x =? 45) || (x =? 43)) eqn:Ex; simpl; [|auto]. split; [reflexivity|].
  apply orb_true_iff in Ex as [Ex|Ex]; apply N.eqb_eq in Ex; subst x; reflexivity.
Qed.

Lemma take_exp_spec (r : pystr) :
  r = fst (take_exp r) ++ snd (take_exp r) /\ forallb is_ascii (fst (take_exp r)) = true.
Proof.
  unfold take_exp. destruct r as [|e [|x r1]]; [simpl; auto | simpl; auto |].
  cbn -[take_exp_sign take_digits].
  destruct ((e =? 101) || (e =? 69)) eqn:E; [|auto].
  assert (He : is_ascii e = true).
  { apply orb_true_iff in E as [E|E]; apply N.eqb_eq in E; subst e; reflexivity. }
  destruct (take_exp_sign_spec (x :: r1)) as [S1 S2].
  destruct (take_exp_sign (x :: r1)) as [sg r2]; simpl in S1, S2.
  destruct (take_digits_spec r2) as [H1 H2]. destruct (take_digits r2) as [ds r3]; simpl in H1, H2.
  destruct ds as [|d ds]; cbn [fst snd]; [auto|]. split.
  - cbn [app]. f_equal. rewrite S1, H1. rewrite <- ?app_assoc. reflexivity.
  - change (forallb is_ascii ([e] ++ sg ++ d :: ds) = true).
    rewrite !forallb_app, S2, (digits_ascii (d :: ds) H2). simpl. now rewrite He.
Qed.

(** A number never needs fuel: its errors are the decoder's and [int]'s. *)
Definition num_ok (r : pystr) (x : res (json * nat * pystr)) : Prop :=
  match x with
  | Ok (v, _, r') => (length r' < length r)%nat /\ floats_valid v = true
  | Raise e => exc_cls e = JSONDecodeError \/ exc_cls e = ValueError
  end.

Lemma num_ok_scan_ok r x : num_ok r x -> scan_ok r x.
Proof. destruct x as [[[? ?] ?]|e]; simpl; tauto. Qed.

Lemma match_number_ok (i : nat) (r : pystr) : num_ok r (match_number doc i r).
Proof.
  unfold match_number.
  destruct (if head_is 45 r then ([45], tl r) else ([], r)) as [sign r1] eqn:Es.
  assert (Hr : r = sign ++ r1 /\ forallb is_ascii sign = true).
  { destruct r as [|c r]; simpl in Es; [injection Es as <- <-; auto|].
    destruct (c =? 45) eqn:Ec; injection Es as <- <-; [|auto].
    apply N.eqb_eq in Ec. subst c. auto. }
  destruct Hr as [Hr Hsa].
  destruct r1 as [|d r2]; [simpl; left; reflexivity|].
  assert (Hint : forall ds r3, (if d =? 48 then Some ([d], r2)
                 else if in_range 49 57 d then Some (take_digits (d :: r2)) else None) = Some (ds, r3) ->
                 d :: r2 = ds ++ r3 /\ ds <> [] /\ forallb is_digit ds = true).
  { intros ds r3 H. destruct (N.eqb_spec d 48).
    - injection H as <- <-. subst d. split; [reflexivity | split; [discriminate | reflexivity]].
    - destruct (in_range 49 57 d) eqn:Ed; [|discriminate]. apply some_inj in H.
      destruct (take_digits_spec (d :: r2)) as [H1 H2]. rewrite H in H1, H2. simpl in H1, H2.
      split; [exact H1|]. split; [|exact H2].
      assert (Hd : is_digit d = true).
      { unfold is_digit, in_range in *. apply andb_true_iff in Ed as [Ed1 Ed2].
        apply N.leb_le in Ed1, Ed2. apply andb_true_iff; split; apply N.leb_le; lia. }
      cbn [take_digits] in H. rewrite Hd in H. destruct (take_digits r2).
      injection H as <- _. discriminate. }
  destruct (if d =? 48 then Some ([d], r2)
            else if in_range 49 57 d then Some (take_digits (d :: r2)) else None)
    as [[ds r3]|]; [|left; reflexivity].
  destruct (Hint ds r3 eq_refl) as (Hd & Hne & Hdig).
  destruct (take_frac_spec r3) as [F1 F2]. destruct (take_frac r3) as [fr r4]; simpl in F1, F2.
  destruct (take_exp_spec r4) as [E1 E2]. destruct (take_exp r4) as [ex r5]; simpl in E1, E2.
  assert (Hlen : (length r5 < length r)%nat).
  { rewrite Hr, Hd, F1, E1, !length_app. destruct ds; [congruence|simpl; lia]. }
  destruct fr as [|f0 fr], ex as [|x0 ex];
    try (split; [exact Hlen|]; cbn [floats_valid]; apply py_float_valid).
  destruct (max_str_digits <? length ds)%nat; [right; reflexivity|].
  split; [exact Hlen | reflexivity].
Qed.

Lemma head_is_tl (c : N) (r : pystr) : head_is c r = true -> (length (tl r) < length r)%nat.
Proof. destruct r; simpl; [discriminate|lia]. Qed.

Lemma is_prefix_skipn (w r : pystr) :
  w <> [] -> is_prefix w r = true -> (length (skipn (length w) r) < length r)%nat.
Proof.
  intros Hw H. apply is_prefix_spec in H as [x ->]. rewrite skipn_app, PeanoNat.Nat.sub_diag, skipn_all.
  simpl. rewrite length_app. destruct w; [congruence|simpl; lia].
Qed.

Lemma dict_set_floats (k : pystr) (v : json) (acc : list (pystr * json)) :
  floats_valid v = true -> forallb (fun kv => floats_valid (snd kv)) acc = true ->
  forallb (fun kv => floats_valid (snd kv)) (dict_set k v acc) = true.
Proof.
  intros Hv. induction acc as [|[k' v'] acc IH]; simpl; [now rewrite Hv|].
  rewrite andb_true_iff. intros [H1 H2]. destruct (pystr_eqb k k'); simpl; rewrite ?Hv, ?H1, ?H2, ?IH; auto.
Qed.

(** Every call returns a shorter rest, valid floats, and no
    exception but the decoder's. *)
Lemma scan_once_ok (f : nat) :
  (forall i r, scan_ok r (scan_once doc f i r)) /\
  (forall i r acc, forallb (fun kv => floats_valid (snd kv)) acc = true ->
                   scan_ok r (parse_object doc f i r acc)) /\
  (forall i r acc, forallb floats_valid acc = true -> scan_ok r (parse_array doc f i r acc)).
Proof.
  induction f as [|f [IH1 [IH2 IH3]]];
    [split; [|split]; intros; simpl; right; right; reflexivity|].
  split; [|split].
  - intros i [|c r]; cbn [scan_once]; [left; reflexivity|].
    destruct (c =? 34).
    { pose proof (scanstring_ok (length r) i (S i) r [] (le_n _)) as Hs.
      destruct (scanstring doc i (S i) r []) as [[[s0 j] r']|e]; simpl in *; [split; [lia|reflexivity] | left; exact Hs]. }
    destruct (c =? 123).
    { destruct (skip_ws (S i) r) as [i1 r1] eqn:E. ws_len E.
      destruct (head_is 125 r1) eqn:Eh; [split; [apply head_is_tl in Eh; simpl; lia | reflexivity]|].
      eapply scan_ok_weaken; [|apply IH2; reflexivity]. simpl; lia. }
    destruct (c =? 91).
    { destruct (skip_ws (S i) r) as [i1 r1] eqn:E. ws_len E.
      destruct (head_is 93 r1) eqn:Eh; [split; [apply head_is_tl in Eh; simpl; lia | reflexivity]|].
      eapply scan_ok_weaken; [|apply IH3; reflexivity]. simpl; lia. }
    repeat match goal with
    | |- context [if is_prefix ?w (c :: r) then _ else _] =>
        destruct (is_prefix w (c :: r)) eqn:?;
        [split; [apply (is_prefix_skipn w); [discriminate | assumption] | reflexivity]|]
    end.
    apply num_ok_scan_ok, match_number_ok.
  - intros i r acc Hacc. cbn [parse_object].
    destruct (head_is 34 r) eqn:Eq; [|left; reflexivity]. apply head_is_tl in Eq.
    pose proof (scanstring_ok (length (tl r)) i (S i) (tl r) [] (le_n _)) as Hs.
    destruct (scanstring doc i (S i) (tl r) []) as [[[k i2] r2]|e]; simpl in Hs; [|left; exact Hs].
    cbn [res_bind].
    destruct (skip_ws i2 r2) as [i3 r3] eqn:E3. ws_len E3.
    destruct (head_is 58 r3) eqn:Ec; [|left; reflexivity]. apply head_is_tl in Ec.
    destruct (skip_ws (S i3) (tl r3)) as [i5 r5] eqn:E5. ws_len E5.
    pose proof (IH1 i5 r5) as Hv.
    destruct (scan_once doc f i5 r5) as [[[v i6] r6]|e]; [|exact Hv]. destruct Hv as [Hl6 Hf6].
    cbn [res_bind].
    destruct (skip_ws i6 r6) as [i7 r7] eqn:E7. ws_len E7.
    assert (Hacc' := dict_set_floats k v acc Hf6 Hacc).
    destruct (head_is 125 r7) eqn:Eb; [split; [apply head_is_tl in Eb; lia | exact Hacc']|].
    destruct (head_is 44 r7) eqn:Ecm; [|left; reflexivity]. apply head_is_tl in Ecm.
    destruct (skip_ws (S i7) (tl r7)) as [i9 r9] eqn:E9. ws_len E9.
    eapply scan_ok_weaken; [|apply IH2; exact Hacc']. lia.
  - intros i r acc Hacc. cbn [parse_array].
    pose proof (IH1 i r) as Hv.
    destruct (scan_once doc f i r) as [[[v i1] r1]|e]; [|exact Hv]. destruct Hv as [Hl1 Hf1].
    cbn [res_bind].
    destruct (skip_ws i1 r1) as [i2 r2] eqn:E2. ws_len E2.
    destruct (head_is 93 r2) eqn:Eb.
    { split; [apply head_is_tl in Eb; lia|]. simpl. rewrite forallb_app. simpl.
      rewrite Hf1. rewrite andb_true_r. apply forallb_forall. intros x Hx.
      apply in_rev in Hx. exact (proj1 (forallb_forall _ _) Hacc x Hx). }
    destruct (head_is 44 r2) eqn:Ecm; [|left; reflexivity]. apply head_is_tl in Ecm.
    destruct (skip_ws (S i2) (tl r2)) as [i4 r4] eqn:E4. ws_len E4.
    eapply scan_ok_weaken; [|apply IH3; simpl; rewrite Hf1; exact Hacc]. lia.
Qed.
Lemma raise_not_fuel {A} (e : exn) : exc_cls e <> Unmodelled -> @Raise A e <> Raise fuel_exn.
Proof. intros H Heq. apply H. inversion Heq. reflexivity. Qed.

Lemma ok_not_fuel {A} (a : A) : Ok a <> Raise fuel_exn.
Proof. discriminate. Qed.

#[local] Hint Resolve ok_not_fuel : core.

Ltac not_fuel := first [ apply ok_not_fuel | apply raise_not_fuel; discriminate ].

(** [2 * length + 2] units of fuel are enough for a value, and
    [2 * length + 3] for the rest of an object or an array: each pair of
    nested calls reads at least one code point. *)
Lemma scan_once_fuel (f : nat) :
  (forall i r, (2 * length r + 2 <= f)%nat -> scan_once doc f i r <> Raise fuel_exn) /\
  (forall i r acc, (2 * length r + 3 <= f)%nat -> parse_object doc f i r acc <> Raise fuel_exn) /\
  (forall i r acc, (2 * length r + 3 <= f)%nat -> parse_array doc f i r acc <> Raise fuel_exn).
Proof.
  induction f as [|f [IH1 [IH2 IH3]]]; [split; [|split]; intros; lia|].
  split; [|split].
  - intros i [|c r] Hf; cbn [scan_once]; [not_fuel|]. simpl in Hf.
    destruct (c =? 34).
    { destruct (scanstring doc i (S i) r []) as [[[s0 j] r']|e] eqn:E; cbn [res_bind]; [not_fuel|].
      pose proof (scanstring_ok (length r) i (S i) r [] (le_n _)) as Hs. rewrite E in Hs.
      apply raise_not_fuel. simpl in Hs. rewrite Hs. discriminate. }
    destruct (c =? 123).
    { destruct (skip_ws (S i) r) as [i1 r1] eqn:E. ws_len E.
      destruct (head_is 125 r1); [not_fuel|]. apply IH2. lia. }
    destruct (c =? 91).
    { destruct (skip_ws (S i) r) as [i1 r1] eqn:E. ws_len E.
      destruct (head_is 93 r1); [not_fuel|]. apply IH3. lia. }
    repeat match goal with
    | |- context [if ?b then _ else _] => destruct b; [not_fuel|]
    end.
    pose proof (match_number_ok i (c :: r)) as Hm.
    destruct (match_number doc i (c :: r)) as [x|e]; [not_fuel|].
    apply raise_not_fuel. destruct Hm as [Hm|Hm]; rewrite Hm; discriminate.
  - intros i r acc Hf. cbn [parse_object].
    destruct (head_is 34 r) eqn:Eq34; [|not_fuel]. apply head_is_tl in Eq34.
    pose proof (scanstring_ok (length (tl r)) i (S i) (tl r) [] (le_n _)) as Hs.
    destruct (scanstring doc i (S i) (tl r) []) as [[[k i2] r2]|e]; simpl in Hs;
      [|apply raise_not_fuel; rewrite Hs; discriminate].
    cbn [res_bind].
    destruct (skip_ws i2 r2) as [i3 r3] eqn:E3. ws_len E3.
    destruct (head_is 58 r3) eqn:Ec; [|not_fuel]. apply head_is_tl in Ec.
    destruct (skip_ws (S i3) (tl r3)) as [i5 r5] eqn:E5. ws_len E5.
    pose proof (proj1 (scan_once_ok f) i5 r5) as Hv.
    pose proof (IH1 i5 r5 ltac:(lia)) as Hn.
    destruct (scan_once doc f i5 r5) as [[[v i6] r6]|e]; [|exact Hn]. destruct Hv as [Hl6 _].
    cbn [res_bind].
    destruct (skip_ws i6 r6) as [i7 r7] eqn:E7. ws_len E7.
    destruct (head_is 125 r7) eqn:Eb; [not_fuel|].
    destruct (head_is 44 r7) eqn:Ecm; [|not_fuel]. apply head_is_tl in Ecm.
    destruct (skip_ws (S i7) (tl r7)) as [i9 r9] eqn:E9. ws_len E9.
    apply IH2. lia.
  - intros i r acc Hf. cbn [parse_array].
    pose proof (proj1 (scan_once_ok f) i r) as Hv.
    pose proof (IH1 i r ltac:(lia)) as Hn.
    destruct (scan_once doc f i r) as [[[v i1] r1]|e]; [|exact Hn]. destruct Hv as [Hl1 _].
    cbn [res_bind].
    destruct (skip_ws i1 r1) as [i2 r2] eqn:E2. ws_len E2.
    destruct (head_is 93 r2) eqn:Eb; [not_fuel|].
    destruct (head_is 44 r2) eqn:Ecm; [|not_fuel]. apply head_is_tl in Ecm.
    destruct (skip_ws (S i2) (tl r2)) as [i4 r4] eqn:E4. ws_len E4.
    apply IH3. lia.
Qed.
End ScannerLemmas.

(** ** [json.loads] is total *)

(** The result of [json.loads] as the theorems see it: a value whose
    floats are valid binary64 values, or the decoder's or [int]'s error. *)
Definition loads_ok (x : res json) : Prop :=
  match x with
  | Ok v => floats_valid v = true
  | Raise e => exc_cls e = JSONDecodeError \/ exc_cls e = ValueError
  end.

Lemma json_loads_ok (s : pystr) : loads_ok (json_loads s).
Proof.
  unfold json_loads. destruct (head_is 65279 s); [left; reflexivity|].
  destruct (skip_ws 0 s) as [i0 r0] eqn:E0. ws_len E0.
  pose proof (proj1 (scan_once_ok s (2 * length s + 2)) i0 r0) as Hv.
  pose proof (proj1 (scan_once_fuel s (2 * length s + 2)) i0 r0 ltac:(lia)) as Hn.
  destruct (scan_once s (2 * length s + 2) i0 r0) as [[[v i1] r1]|e]; cbn [res_bind loads_ok].
  - destruct (skip_ws i1 r1) as [i2 [|c r2]]; [apply Hv | left; reflexivity].
  - destruct Hv as [Hv|[Hv|Hv]]; [left; exact Hv | right; exact Hv | congruence].
Qed.

Lemma json_loads_valid (s : pystr) (v : json) : json_loads s = Ok v -> floats_valid v = true.
Proof. intros H. pose proof (json_loads_ok s) as Hs. rewrite H in Hs. exact Hs. Qed.

(** C9.  [json.loads] terminates on every document within the fuel it
    gives: it never reports that the fuel ran out, and it returns a value
    (whose floats are valid binary64 values) or raises [JSONDecodeError] or,
    for an integer of more than 4300 digits, [ValueError]. *)
Theorem json_loads_total (s : pystr) :
  (exists v, json_loads s = Ok v /\ floats_valid v = true) \/
  (exists e, json_loads s = Raise e /\ (exc_cls e = JSONDecodeError \/ exc_cls e = ValueError)).
Proof.
  pose proof (json_loads_ok s) as H.
  destruct (json_loads s) as [v|e]; [left | right]; eauto.
Qed.
