(* ===== verification/JsonRoundTrip.v ===== *)
(** * [json.loads] undoes [json.dumps]

    The program writes JSON with [json.dumps] (src/bullshit_meter.py,
    lines 86 and 92) and reads it with [response.json()] (line 87).
    This file shows that the decoder of [JsonParse] reads back every
    value the encoder of [Json] writes, with or without [indent], when
    the value is one [json.dumps] can write faithfully: keys of an
    object pairwise distinct (a [dict]), code points below U+110000, no
    high surrogate directly followed by a low one (their escapes would
    be joined into one code point), and integers of at most 4300 digits.
    Every binary64 float is read back: [NaN] and the infinities by their
    names, a finite value or a zero by [_match_number_unicode] and
    [float()] of its [repr] ([Float.py_float_repr]), the text of [repr]
    having the shape of a JSON number ([json_float_shape]).  The pieces
    are the decimal text of [int] (Stdlib's [DecimalString]), the text
    of a float, the [\uXXXX]
    escapes and surrogate pairs (bit arithmetic on [N]), strings, and
    then arrays and objects by induction on the value, with the fuel
    bounded by the size of the value. *)

From Stdlib Require Import Ascii String List Arith NArith ZArith Lia Bool.
From Stdlib Require Import DecimalString.
From Stdlib Require Decimal DecimalFacts DecimalPos.
From S2P Require Import Prelude Utf8 PyStr Float Json JsonParse.
Import ListNotations.
Local Open Scope py_scope.
Local Open Scope N_scope.

Set Warnings "-register-all".

(** ** The decimal text of an [int] *)

(** The text [json.dumps] writes for an [int]: an optional minus sign,
    then [0] or digits without a leading zero, worth [|z|]. *)
Lemma int_text (z : Z) :
  exists ds, py_str_int z = (if (z <? 0)%Z then [45] else []) ++ ds /\
    py_str_int (Z.abs z) = ds /\ forallb is_digit ds = true /\
    digits_value 0 ds = Z.abs z /\
    (ds = [48] \/ exists d ds', ds = d :: ds' /\ in_range 49 57 d = true).
Proof.
  assert (Hp : forall p, py_str_int (Z.pos p) = udig (Pos.to_uint p)) by (intros p; apply py_udig).
  assert (Hv : forall p, digits_value 0 (udig (Pos.to_uint p)) = Z.pos p).
  { intros p. rewrite digits_value_uint, DecimalPos.Unsigned.of_to. reflexivity. }
  destruct z as [|p|p]; cbn [Z.ltb Z.compare Z.abs].
  - exists [48]. repeat split; [reflexivity..|]. now left.
  - exists (udig (Pos.to_uint p)). rewrite Hp. repeat split; [apply udig_digits | apply Hv |].
    right. destruct (to_uint_head p) as (d & u & -> & Hd). eauto.
  - exists (udig (Pos.to_uint p)). rewrite Hp. split.
    + unfold py_str_int. cbn [Z.to_int NilEmpty.string_of_int]. rewrite py_ascii by apply udig_ascii.
      reflexivity.
    + repeat split; [apply udig_digits | apply Hv |].
      right. destruct (to_uint_head p) as (d & u & -> & Hd). eauto.
Qed.

(** [stop r]: what follows a number cannot extend it. *)
Definition stop (r : pystr) : bool :=
  match r with
  | [] => true
  | c :: _ => negb (is_digit c || (c =? 46) || (c =? 101) || (c =? 69))
  end.

Lemma take_digits_app (ds r : pystr) :
  forallb is_digit ds = true -> stop r = true -> take_digits (ds ++ r) = (ds, r).
Proof.
  intros Hd Hs. induction ds as [|d ds IH]; cbn [app take_digits].
  - destruct r as [|c r]; [reflexivity|]. cbn [stop] in Hs. cbn [app take_digits].
    destruct (is_digit c); [discriminate | reflexivity].
  - cbn [forallb] in Hd. apply andb_true_iff in Hd as [Hd1 Hd]. cbn [app take_digits].
    rewrite Hd1, IH by exact Hd. reflexivity.
Qed.

Lemma take_frac_stop (r : pystr) : stop r = true -> take_frac r = ([], r).
Proof.
  destruct r as [|c [|d r]]; cbn [stop take_frac]; try reflexivity.
  destruct (c =? 46); [rewrite orb_true_r; discriminate | reflexivity].
Qed.

Lemma take_exp_stop (r : pystr) : stop r = true -> take_exp r = ([], r).
Proof.
  destruct r as [|c [|d r]]; cbn [stop take_exp]; try reflexivity.
  destruct (c =? 101), (c =? 69); rewrite ?orb_true_r; try discriminate. reflexivity.
Qed.

Lemma match_number_int (doc : pystr) (i : nat) (z : Z) (r : pystr) :
  stop r = true -> (length (py_str_int (Z.abs z)) <= max_str_digits)%nat ->
  exists j, match_number doc i (py_str_int z ++ r) = Ok (JInt z, j, r).
Proof.
  intros Hs Hl. destruct (int_text z) as (ds & -> & Hds & Hdig & Hval & Hhead). rewrite Hds in Hl.
  assert (Hsign : forall A (x y : A), (if head_is 45 (ds ++ r) then x else y) = y).
  { intros A x y. destruct Hhead as [->|(d & ds' & -> & Hd)]; [reflexivity|].
    cbn [app head_is]. unfold in_range in Hd. destruct (N.eqb_spec d 45); [subst; discriminate|reflexivity]. }
  assert (Hint : (match ds ++ r with
                  | d :: r2 => if d =? 48 then Some ([d], r2)
                               else if in_range 49 57 d then Some (take_digits (ds ++ r)) else None
                  | [] => None end) = Some (ds, r)).
  { destruct Hhead as [->|(d & ds' & -> & Hd)]; [reflexivity|]. cbn [app].
    rewrite Hd. unfold in_range in Hd. destruct (N.eqb_spec d 48); [subst; discriminate|].
    change (d :: ds' ++ r) with ((d :: ds') ++ r). rewrite take_digits_app by assumption. reflexivity. }
  unfold match_number. rewrite <- app_assoc.
  destruct (Z.ltb_spec z 0) as [Hz|Hz]; cbn [app head_is tl].
  - rewrite N.eqb_refl. cbn [fst snd]. rewrite Hint, take_frac_stop, take_exp_stop by exact Hs.
    destruct (Nat.ltb_spec max_str_digits (length ds)) as [H|_]; [exact (False_ind _ (proj1 (Nat.le_ngt _ _) Hl H))|].
    rewrite Hval. replace (- Z.abs z)%Z with z by lia. eexists. reflexivity.
  - rewrite Hsign, Hint, take_frac_stop, take_exp_stop by exact Hs.
    destruct (Nat.ltb_spec max_str_digits (length ds)) as [H|_]; [exact (False_ind _ (proj1 (Nat.le_ngt _ _) Hl H))|].
    rewrite Hval. replace (Z.abs z) with z by lia. eexists. reflexivity.
Qed.

(** ** The text of a float *)

(** The parts of a JSON number with a fraction or an exponent: the
    integer part [0] or a digit string without a leading zero, [.] and
    digits, [e], a sign and digits. *)
Definition int_part_ok (ip : pystr) : Prop :=
  ip = [48] \/ exists d ds, ip = d :: ds /\ in_range 49 57 d = true /\ forallb is_digit ds = true.

Definition frac_ok (fr : pystr) : Prop :=
  fr = [] \/ exists d ds, fr = 46 :: d :: ds /\ forallb is_digit (d :: ds) = true.

Definition exp_ok (ex : pystr) : Prop :=
  ex = [] \/ exists sg d ds, ex = 101 :: sg ++ d :: ds /\ (sg = [] \/ sg = [43] \/ sg = [45]) /\
                             forallb is_digit (d :: ds) = true.

Lemma stop_no_digit (r : pystr) : stop r = true -> no_digit_head r = true.
Proof.
  destruct r as [|c r]; [reflexivity|]. cbn [stop no_digit_head].
  destruct (is_digit c); [discriminate|reflexivity].
Qed.

Lemma take_exp_text (ex r : pystr) : exp_ok ex -> stop r = true -> take_exp (ex ++ r) = (ex, r).
Proof.
  intros [->|(sg & d & ds & -> & Hsg & Hd)] Hs; [exact (take_exp_stop r Hs)|].
  cbn [forallb] in Hd. apply andb_true_iff in Hd as [Hd1 Hd2].
  assert (Hsign : take_exp_sign ((sg ++ d :: ds) ++ r) = (sg, (d :: ds) ++ r)).
  { unfold is_digit, in_range in Hd1. bool_facts.
    destruct Hsg as [->|[->| ->]]; cbn [app take_exp_sign]; [|reflexivity|reflexivity].
    destruct (ds ++ r); [reflexivity|].
    rewrite (proj2 (N.eqb_neq d 45)), (proj2 (N.eqb_neq d 43)) by lia. reflexivity. }
  assert (Hne : (sg ++ d :: ds) ++ r <> []) by (destruct sg; discriminate).
  cbn [app]. destruct ((sg ++ d :: ds) ++ r) as [|y ys] eqn:E; [contradiction|]. rewrite <- E.
  unfold take_exp. rewrite E. cbn [N.eqb Pos.eqb orb]. rewrite Hsign.
  rewrite take_digits_app by (try exact Hs; cbn [forallb]; now rewrite Hd1, Hd2).
  reflexivity.
Qed.

Lemma take_frac_text (fr ex r : pystr) :
  frac_ok fr -> exp_ok ex -> stop r = true -> take_frac (fr ++ ex ++ r) = (fr, ex ++ r).
Proof.
  intros Hf He Hs.
  assert (Hh : no_digit_head (ex ++ r) = true /\ forall c t, ex ++ r = c :: t -> c <> 46).
  { destruct He as [->|(sg & d & ds & -> & _)]; cbn [app].
    - split; [apply stop_no_digit, Hs|]. intros c t ->. cbn [stop] in Hs. intros ->. discriminate.
    - split; [reflexivity|]. intros c t [= <- _]. discriminate. }
  destruct Hf as [->|(d & ds & -> & Hd)].
  - cbn [app]. destruct (ex ++ r) as [|c [|d t]] eqn:E; [reflexivity|reflexivity|].
    unfold take_frac. rewrite (proj2 (N.eqb_neq c 46)) by (exact (proj2 Hh c _ eq_refl)). reflexivity.
  - cbn [forallb] in Hd. apply andb_true_iff in Hd as [Hd1 Hd2]. cbn [app take_frac].
    rewrite N.eqb_refl, Hd1. cbn [andb]. rewrite take_digits_prefix by (try exact Hd2; exact (proj1 Hh)).
    reflexivity.
Qed.

(** [_match_number_unicode] reads a float's text to its end and gives
    [float()] of it. *)
Lemma match_number_float (doc : pystr) (i : nat) (sg ip fr ex r : pystr) :
  (sg = [] \/ sg = [45]) -> int_part_ok ip -> frac_ok fr -> exp_ok ex -> (fr <> [] \/ ex <> []) ->
  stop r = true ->
  exists j, match_number doc i ((sg ++ ip ++ fr ++ ex) ++ r) =
            Ok (JFloat (py_float (sg ++ ip ++ fr ++ ex)), j, r).
Proof.
  intros Hsg Hip Hf He Hne Hs. rewrite <- !app_assoc.
  assert (Hnd : no_digit_head (fr ++ ex ++ r) = true).
  { destruct Hf as [->|(d & ds & -> & _)]; [|reflexivity].
    destruct Hne as [|Hne]; [contradiction|]. destruct He as [->|(sg' & d & ds & -> & _)]; [contradiction|reflexivity]. }
  assert (Hint : (match ip ++ fr ++ ex ++ r with
                  | d :: r2 => if d =? 48 then Some ([d], r2)
                               else if in_range 49 57 d then Some (take_digits (ip ++ fr ++ ex ++ r)) else None
                  | [] => None end) = Some (ip, fr ++ ex ++ r)).
  { destruct Hip as [->|(d & ds & -> & Hd & Hds)]; [reflexivity|]. cbn [app].
    rewrite Hd. unfold in_range in Hd. destruct (N.eqb_spec d 48); [subst; discriminate|].
    change (d :: ds ++ fr ++ ex ++ r) with ((d :: ds) ++ fr ++ ex ++ r).
    rewrite take_digits_prefix; [reflexivity| |exact Hnd]. cbn [forallb].
    apply andb_true_iff. split; [unfold is_digit, in_range in *; bool_facts; apply andb_true_iff; split; apply N.leb_le; lia|exact Hds]. }
  assert (Hhead : head_is 45 (ip ++ fr ++ ex ++ r) = false).
  { destruct Hip as [->|(d & ds & -> & Hd & _)]; [reflexivity|]. cbn [app head_is].
    unfold in_range in Hd. bool_facts. apply N.eqb_neq. lia. }
  unfold match_number.
  destruct Hsg as [->| ->]; cbn [app head_is tl N.eqb Pos.eqb]; [rewrite Hhead|]; cbn [fst snd];
    rewrite Hint, (take_frac_text fr ex r Hf He Hs), (take_exp_text ex r He Hs);
    (destruct fr, ex; [destruct Hne; contradiction|..]); eexists; reflexivity.
Qed.

Lemma digit_text_cons (c : Z) : (0 <= c)%Z -> exists d ds, digit_text c = d :: ds.
Proof.
  intros Hc. destruct c as [|q|q]; [now exists 48, []| |lia].
  destruct (digit_text_head (Zpos q) ltac:(lia)) as (d & ds & E & _). eauto.
Qed.

Lemma exp_text_ok (x : Z) : exp_ok (exp_text x).
Proof.
  right. destruct (digit_text_cons (Z.abs x) ltac:(lia)) as (d & ds & E).
  pose proof (proj1 (digit_text_spec (Z.abs x) ltac:(lia))) as Hd. rewrite E in Hd.
  unfold exp_text. cbn [app].
  destruct (Z.abs x <? 10)%Z.
  - exists [if (x <? 0)%Z then 45 else 43], 48, (d :: ds). split; [rewrite E; reflexivity|].
    split; [destruct (x <? 0)%Z; tauto|]. cbn [forallb]. exact Hd.
  - exists [if (x <? 0)%Z then 45 else 43], d, ds. split; [rewrite E; reflexivity|].
    split; [destruct (x <? 0)%Z; tauto|exact Hd].
Qed.

Lemma sign_text_ok (neg : bool) : sign_text neg = [] \/ sign_text neg = [45].
Proof. destruct neg; [right|left]; reflexivity. Qed.

(** The text [json.dumps] writes for a finite float has the parts of a
    JSON number with a fraction or an exponent. *)
Lemma json_float_shape (f : float) :
  valid f = true -> is_finite_float f = true ->
  exists sg ip fr ex, json_float f = sg ++ ip ++ fr ++ ex /\ (sg = [] \/ sg = [45]) /\
    int_part_ok ip /\ frac_ok fr /\ exp_ok ex /\ (fr <> [] \/ ex <> []).
Proof.
  intros Hv Hf. destruct f as [neg|neg| |neg p e]; try discriminate.
  - exists (sign_text neg), [48], [46; 48], []. cbn [json_float float_repr].
    change (py "0.0") with [48; 46; 48]. rewrite app_nil_r.
    split; [reflexivity|]. split; [apply sign_text_ok|]. split; [now left|].
    split; [right; exists 48, []; split; reflexivity|]. split; [now left|left; discriminate].
  - apply valid_finite in Hv. cbn [json_float float_repr].
    pose proof (shortest_pos p e Hv) as Hc. destruct (shortest p e) as [c j]. cbn [fst] in Hc.
    destruct (strip_zeros_value 18 c j Hc) as [Hc' _]. destruct (strip_zeros 18 c j) as [c' j'].
    cbn [fst] in Hc'.
    destruct (digit_text_spec c' ltac:(lia)) as [Hd _]. destruct (digit_text_head c' Hc') as (d & r & Eds & Hd0).
    set (ds := digit_text c') in *. set (decpt := (j' + Z.of_nat (length ds))%Z).
    assert (Hdr : forallb is_digit r = true) by (rewrite Eds in Hd; cbn [forallb] in Hd; now apply andb_true_iff in Hd).
    unfold format_short. fold decpt.
    destruct ((decpt <=? -4)%Z || (16 <? decpt)%Z); [|destruct (decpt <=? 0)%Z eqn:Hle0;
      [|destruct (decpt <? Z.of_nat (length ds))%Z eqn:Hlt]].
    + rewrite Eds. exists (sign_text neg), [d], (match r with [] => [] | _ => 46 :: r end), (exp_text (decpt - 1)).
      split; [reflexivity|]. split; [apply sign_text_ok|]. split; [right; exists d, []; now split|].
      split; [destruct r as [|x r']; [now left|right; exists x, r'; now split]|].
      split; [apply exp_text_ok|right; unfold exp_text; discriminate].
    + destruct (repeat 48 (Z.to_nat (- decpt)) ++ ds) as [|x t] eqn:Ez.
      { apply app_eq_nil in Ez as [_ Ez]. rewrite Ez in Eds. discriminate. }
      exists (sign_text neg), [48], (46 :: x :: t), []. rewrite app_nil_r.
      split; [reflexivity|]. split; [apply sign_text_ok|]. split; [now left|].
      split; [right; exists x, t; split; [reflexivity|rewrite <- Ez, forallb_app, zeros_digits; exact Hd]|].
      split; [now left|left; discriminate].
    + apply Z.ltb_lt in Hlt. apply Z.leb_gt in Hle0.
      destruct (forallb_firstn_skipn is_digit (Z.to_nat decpt) ds Hd) as [Hf1 Hs1].
      destruct (skipn (Z.to_nat decpt) ds) as [|x t] eqn:Es.
      { pose proof (f_equal (@length N) Es) as L. rewrite length_skipn in L. cbn in L. lia. }
      assert (Hfh : exists r0, firstn (Z.to_nat decpt) ds = d :: r0 /\ forallb is_digit r0 = true).
      { rewrite Eds in Hf1 |- *. destruct (Z.to_nat decpt) as [|k] eqn:Ek; [lia|]. cbn [firstn] in Hf1 |- *.
        exists (firstn k r). split; [reflexivity|]. now apply andb_true_iff in Hf1. }
      destruct Hfh as (r0 & Ef & Hr0).
      exists (sign_text neg), (firstn (Z.to_nat decpt) ds), (46 :: x :: t), []. rewrite app_nil_r.
      split; [reflexivity|]. split; [apply sign_text_ok|]. split; [right; exists d, r0; now split|].
      split; [right; exists x, t; now split|]. split; [now left|left; discriminate].
    + exists (sign_text neg), (ds ++ repeat 48 (Z.to_nat decpt - length ds)), [46; 48], [].
      rewrite app_nil_r, <- app_assoc. split; [reflexivity|]. split; [apply sign_text_ok|].
      split; [right; exists d, (r ++ repeat 48 (Z.to_nat decpt - length ds)); rewrite Eds;
              split; [reflexivity|split; [exact Hd0|rewrite forallb_app, Hdr; apply zeros_digits]]|].
      split; [right; exists 48, []; now split|]. split; [now left|left; discriminate].
Qed.

(** ** The [\uXXXX] escapes *)

(** [a << k | b] is [a * 2^k + b] when [b] fits in [k] bits. *)
Lemma lor_mul_pow2 (a b k : N) : b < 2 ^ k -> N.lor (a * 2 ^ k) b = a * 2 ^ k + b.
Proof.
  intros Hb.
  assert (H0 : N.land (a * 2 ^ k) b = 0).
  { apply N.bits_inj_0. intros m. rewrite N.land_spec. destruct (N.lt_ge_cases m k).
    - rewrite N.mul_pow2_bits_low by assumption. reflexivity.
    - replace b with (b mod 2 ^ k) by (apply N.mod_small; exact Hb).
      rewrite N.mod_pow2_bits_high by assumption. apply andb_false_r. }
  rewrite N.add_nocarry_lxor, N.lxor_lor by exact H0. reflexivity.
Qed.

Lemma hex_val_digit (x : N) : x < 16 -> hex_val (hex_digit x) = Some x.
Proof.
  intros Hx. unfold hex_digit, hex_val, in_range.
  destruct (N.ltb_spec x 10); byte_cases; f_equal; lia.
Qed.

(** The four hexadecimal digits of [n], as [lia] can use them. *)
Ltac hex_digits n :=
  pose proof (N.div_mod n 16 ltac:(lia)); pose proof (N.mod_lt n 16 ltac:(lia));
  pose proof (N.div_mod (n / 16) 16 ltac:(lia)); pose proof (N.mod_lt (n / 16) 16 ltac:(lia));
  pose proof (N.div_mod (n / 16 / 16) 16 ltac:(lia)); pose proof (N.mod_lt (n / 16 / 16) 16 ltac:(lia));
  pose proof (N.div_mod (n / 16 / 16 / 16) 16 ltac:(lia));
  pose proof (N.mod_lt (n / 16 / 16 / 16) 16 ltac:(lia));
  replace (n / 256) with (n / 16 / 16) in * by (rewrite N.Div0.div_div; reflexivity);
  replace (n / 4096) with (n / 16 / 16 / 16) in * by (rewrite !N.Div0.div_div; reflexivity);
  remember (n / 16 / 16 / 16 / 16) as q4; remember (n / 16 / 16 / 16 mod 16) as m4;
  remember (n / 16 / 16 / 16) as q3; remember (n / 16 / 16 mod 16) as m3;
  remember (n / 16 / 16) as q2; remember (n / 16 mod 16) as m2;
  remember (n / 16) as q1; remember (n mod 16) as m1;
  repeat match goal with H : _ = _ / _ |- _ => clear H | H : _ = _ mod _ |- _ => clear H end.

(** [lia] after the powers of two in sight are numerals. *)
Ltac pow_lia :=
  change (2 ^ 12) with 4096 in *; change (2 ^ 10) with 1024 in *; change (2 ^ 8) with 256 in *;
  change (2 ^ 4) with 16 in *; lia.

(** [hex4] and [hex4_val] are inverse below [0x10000]. *)
Lemma hex4_val_hex4 (n : N) : n < 65536 ->
  hex4_val (hex_digit (N.shiftr n 12 mod 16)) (hex_digit (N.shiftr n 8 mod 16))
           (hex_digit (N.shiftr n 4 mod 16)) (hex_digit (n mod 16)) = Some n.
Proof.
  intros Hn. unfold hex4_val. rewrite !hex_val_digit by (apply N.mod_lt; discriminate).
  f_equal. rewrite !N.shiftl_mul_pow2, !N.shiftr_div_pow2.
  pose proof (N.mod_lt (n / 2 ^ 12) 16 ltac:(discriminate)) as Ha.
  pose proof (N.mod_lt (n / 2 ^ 8) 16 ltac:(discriminate)) as Hb.
  pose proof (N.mod_lt (n / 2 ^ 4) 16 ltac:(discriminate)) as Hc.
  pose proof (N.mod_lt n 16 ltac:(discriminate)) as Hd.
  rewrite (lor_mul_pow2 (n / 2 ^ 4 mod 16) (n mod 16) 4) by pow_lia.
  rewrite (lor_mul_pow2 (n / 2 ^ 8 mod 16) _ 8) by pow_lia.
  rewrite (lor_mul_pow2 (n / 2 ^ 12 mod 16) _ 12) by pow_lia.
  change (2 ^ 12) with 4096 in *. change (2 ^ 8) with 256 in *. change (2 ^ 4) with 16 in *.
  clear Ha Hb Hc Hd. hex_digits n. lia.
Qed.

(** The surrogate pair [json.dumps] writes for a code point beyond the
    BMP: a high and a low surrogate that [Py_UNICODE_JOIN_SURROGATES]
    joins back. *)
Lemma surrogate_pair (c : N) : 65536 <= c < 1114112 ->
  let hi := N.lor 55296 (N.land (N.shiftr (c - 65536) 10) 1023) in
  let lo := N.lor 56320 (N.land (c - 65536) 1023) in
  hi < 65536 /\ is_high_surrogate hi = true /\ lo < 65536 /\ is_low_surrogate lo = true /\
  join_surrogates hi lo = c.
Proof.
  intros Hc hi lo.
  assert (Hl : forall x, N.land x 1023 = x mod 1024)
    by (intros x; change 1023 with (N.ones 10); rewrite N.land_ones; reflexivity).
  remember (c - 65536) as n. pose proof (N.div_mod n 1024 ltac:(lia)). pose proof (N.mod_lt n 1024 ltac:(lia)).
  assert (Hq : n / 1024 < 1024) by (apply N.Div0.div_lt_upper_bound; lia).
  assert (Hhi : hi = 54 * 1024 + n / 1024).
  { unfold hi. rewrite Hl, N.shiftr_div_pow2, N.mod_small by pow_lia.
    change 55296 with (54 * 2 ^ 10). rewrite lor_mul_pow2 by pow_lia. reflexivity. }
  assert (Hlo : lo = 55 * 1024 + n mod 1024).
  { unfold lo. rewrite Hl. change 56320 with (55 * 2 ^ 10). rewrite lor_mul_pow2 by pow_lia.
    reflexivity. }
  unfold is_high_surrogate, is_low_surrogate, in_range, join_surrogates.
  rewrite Hhi, Hlo, !Hl.
  destruct (div_mod_eq (54 * 1024 + n / 1024) 1024 54 (n / 1024)) as [_ ->]; [lia|lia|].
  destruct (div_mod_eq (55 * 1024 + n mod 1024) 1024 55 (n mod 1024)) as [_ ->]; [lia|lia|].
  rewrite N.shiftl_mul_pow2, lor_mul_pow2 by pow_lia.
  remember (n / 1024) as q. remember (n mod 1024) as m.
  repeat split; try (apply andb_true_iff; split; apply N.leb_le); pow_lia.
Qed.

(** ** Strings *)

(** The texts [json.dumps] writes faithfully: code points below
    U+110000, and no high surrogate directly followed by a low one. *)
Fixpoint str_rt (s : pystr) : bool :=
  match s with
  | [] => true
  | c :: r =>
      (c <? 1114112)
      && match r with d :: _ => negb (is_high_surrogate c && is_low_surrogate d) | [] => true end
      && str_rt r
  end.

(** What [scanstring] finds after a high surrogate's escape: no escape of
    a low surrogate. *)
Definition no_low_next (r : pystr) : Prop :=
  match r with
  | b1 :: b2 :: g1 :: g2 :: g3 :: g4 :: _ =>
      (b1 =? 92) && (b2 =? 117) = false \/
      exists u2, hex4_val g1 g2 g3 g4 = Some u2 /\ is_low_surrogate u2 = false
  | _ => True
  end.

Lemma no_low_next_cons (x y : N) (t : pystr) :
  (x =? 92) && (y =? 117) = false -> no_low_next (x :: y :: t).
Proof. intros H. destruct t as [|? [|? [|? [|? ?]]]]; simpl; auto. Qed.

Lemma no_low_next_head (x : N) (t : pystr) : x <> 92 -> no_low_next (x :: t).
Proof.
  intros H. destruct t as [|y t]; [exact I|]. apply no_low_next_cons.
  destruct (N.eqb_spec x 92); [contradiction | reflexivity].
Qed.

Lemma high_not_low (u : N) : is_high_surrogate u = true -> is_low_surrogate u = false.
Proof.
  unfold is_high_surrogate, is_low_surrogate, in_range. intros H. bool_facts.
  destruct (N.leb_spec 56320 u); [lia | reflexivity].
Qed.

Lemma u_escape_hex (n : N) (t : pystr) : u_escape n ++ t =
  92 :: 117 :: hex_digit (N.shiftr n 12 mod 16) :: hex_digit (N.shiftr n 8 mod 16)
     :: hex_digit (N.shiftr n 4 mod 16) :: hex_digit (n mod 16) :: t.
Proof. reflexivity. Qed.

(** The cases of [json_escape_char] for a code point that is neither
    printable ASCII nor one of the short escapes. *)
Lemma escape_char_cases (c : N) :
  (c = 34 /\ json_escape_char c = [92; 34]) \/ (c = 92 /\ json_escape_char c = [92; 92]) \/
  (c = 8 /\ json_escape_char c = [92; 98]) \/ (c = 12 /\ json_escape_char c = [92; 102]) \/
  (c = 10 /\ json_escape_char c = [92; 110]) \/ (c = 13 /\ json_escape_char c = [92; 114]) \/
  (c = 9 /\ json_escape_char c = [92; 116]) \/
  (31 < c /\ c <> 34 /\ c <> 92 /\ json_escape_char c = [c]) \/
  (c < 65536 /\ json_escape_char c = u_escape c) \/
  (65536 <= c /\ json_escape_char c =
     u_escape (N.lor 55296 (N.land (N.shiftr (c - 65536) 10) 1023))
     ++ u_escape (N.lor 56320 (N.land (c - 65536) 1023))).
Proof.
  unfold json_escape_char.
  destruct (N.eqb_spec c 34); [left; auto|]. destruct (N.eqb_spec c 92); [right; left; auto|].
  destruct (N.eqb_spec c 8); [do 2 right; left; auto|].
  destruct (N.eqb_spec c 12); [do 3 right; left; auto|].
  destruct (N.eqb_spec c 10); [do 4 right; left; auto|].
  destruct (N.eqb_spec c 13); [do 5 right; left; auto|].
  destruct (N.eqb_spec c 9); [do 6 right; left; auto|].
  destruct (in_range 32 126 c) eqn:Ep.
  { do 7 right; left. unfold in_range in Ep. bool_facts. repeat split; auto; lia. }
  destruct (N.ltb_spec c 65536); [do 8 right; left; auto | do 9 right; split; auto; lia].
Qed.

(** After a high surrogate, the escape of a code point that is not a
    low surrogate. *)
Lemma no_low_next_escaped (d : N) (s r : pystr) :
  d < 1114112 -> is_low_surrogate d = false ->
  no_low_next (flat_map json_escape_char (d :: s) ++ r).
Proof.
  intros Hd Hl. cbn [flat_map]. rewrite <- app_assoc.
  destruct (escape_char_cases d) as
    [[_ ->]|[[_ ->]|[[_ ->]|[[_ ->]|[[_ ->]|[[_ ->]|[[_ ->]|[(_ & _ & H & ->)|[(H & ->)|(H & ->)]]]]]]]]];
    try (apply no_low_next_cons; reflexivity).
  - apply no_low_next_head. exact H.
  - rewrite u_escape_hex. right. exists d. rewrite hex4_val_hex4 by exact H. auto.
  - rewrite <- app_assoc, u_escape_hex. right.
    destruct (surrogate_pair d ltac:(lia)) as (H1 & H2 & _). eexists.
    rewrite hex4_val_hex4 by exact H1. split; [reflexivity | apply high_not_low, H2].
Qed.

Section Strings.
Variable doc : pystr.

Lemma scan_plain (b i : nat) (c : N) (r acc : pystr) :
  31 < c -> c <> 34 -> c <> 92 ->
  scanstring doc b i (c :: r) acc = scanstring doc b (S i) r (c :: acc).
Proof.
  intros H1 H2 H3. cbn [scanstring].
  destruct (N.eqb_spec c 34), (N.eqb_spec c 92), (N.leb_spec c 31); solve [reflexivity | lia].
Qed.

Lemma scan_simple (b i : nat) (e x : N) (r acc : pystr) :
  e <> 117 -> simple_escape e = Some x ->
  scanstring doc b i (92 :: e :: r) acc = scanstring doc b (S (S i)) r (x :: acc).
Proof.
  intros He Hx. cbn [scanstring]. destruct (N.eqb_spec e 117); [contradiction|]. now rewrite Hx.
Qed.

(** A [\uXXXX] escape that is not the first half of a pair. *)
Lemma scan_u (b i : nat) (c : N) (r acc : pystr) :
  c < 65536 -> r <> [] -> (is_high_surrogate c = true -> no_low_next r) ->
  scanstring doc b i (u_escape c ++ r) acc = scanstring doc b (i + 6) r (c :: acc).
Proof.
  intros Hc Hr Hn. rewrite u_escape_hex. destruct r as [|x0 r]; [contradiction|].
  cbn [scanstring]. rewrite hex4_val_hex4 by exact Hc. cbn [N.eqb Pos.eqb andb].
  destruct (is_high_surrogate c); [|reflexivity]. specialize (Hn eq_refl).
  destruct (7 <=? _); [|reflexivity].
  destruct r as [|b2 [|g1 [|g2 [|g3 [|g4 r]]]]]; try reflexivity.
  destruct Hn as [Hn|(u2 & Hu & Hl)]; [rewrite Hn; reflexivity|].
  destruct ((x0 =? 92) && (b2 =? 117)); [|reflexivity]. rewrite Hu, Hl. reflexivity.
Qed.

(** A surrogate pair: the two escapes give one code point beyond the BMP. *)
Lemma scan_pair (b i : nat) (c : N) (r acc : pystr) :
  65536 <= c < 1114112 -> r <> [] ->
  scanstring doc b i (u_escape (N.lor 55296 (N.land (N.shiftr (c - 65536) 10) 1023))
                      ++ u_escape (N.lor 56320 (N.land (c - 65536) 1023)) ++ r) acc
  = scanstring doc b (i + 12) r (c :: acc).
Proof.
  intros Hc Hr. destruct (surrogate_pair c Hc) as (H1 & H2 & H3 & H4 & H5).
  rewrite !u_escape_hex. cbn [scanstring]. rewrite hex4_val_hex4 by exact H1.
  cbn [N.eqb Pos.eqb andb]. rewrite H2.
  replace (7 <=? _) with true
    by (symmetry; apply N.leb_le; cbn [length]; destruct r; [contradiction | cbn [length]; lia]).
  cbn [andb]. rewrite hex4_val_hex4 by exact H3. rewrite H4, H5. reflexivity.
Qed.

Lemma rev_cons_app {A} (x : A) (acc s : list A) : rev (x :: acc) ++ s = rev acc ++ x :: s.
Proof. cbn [rev]. rewrite <- app_assoc. reflexivity. Qed.

(** [scanstring] reads back the escaped text up to the closing quote. *)
Lemma scanstring_escaped (bg : nat) (s : pystr) :
  str_rt s = true -> forall i acc r,
  exists j, scanstring doc bg i (flat_map json_escape_char s ++ 34 :: r) acc = Ok (rev acc ++ s, j, r).
Proof.
  induction s as [|c s IH]; intros Hs i acc r.
  - cbn [flat_map app scanstring N.eqb Pos.eqb]. rewrite app_nil_r. eauto.
  - cbn [str_rt] in Hs. apply andb_true_iff in Hs as [Hs Hrt]. apply andb_true_iff in Hs as [Hc Hnx].
    apply N.ltb_lt in Hc. specialize (IH Hrt).
    assert (Hne : flat_map json_escape_char s ++ 34 :: r <> []) by (destruct (flat_map _ _); discriminate).
    cbn [flat_map]. rewrite <- app_assoc.
    destruct (escape_char_cases c) as
      [[-> ->]|[[-> ->]|[[-> ->]|[[-> ->]|[[-> ->]|[[-> ->]|[[-> ->]|[(H1 & H2 & H3 & ->)|[(H & ->)|(H & ->)]]]]]]]]];
      cbn [app]; try (erewrite scan_simple by (discriminate || reflexivity); rewrite <- rev_cons_app; apply IH).
    + rewrite scan_plain by assumption. rewrite <- rev_cons_app. apply IH.
    + rewrite scan_u by (assumption || (intros Hh; destruct s as [|d s];
        [apply no_low_next_head; discriminate
        | apply no_low_next_escaped;
          [cbn [str_rt] in Hrt; bool_facts; assumption
          | rewrite Hh in Hnx; destruct (is_low_surrogate d); [discriminate|reflexivity]]])).
      rewrite <- rev_cons_app. apply IH.
    + rewrite <- app_assoc, scan_pair by (assumption || lia). rewrite <- rev_cons_app. apply IH.
Qed.

End Strings.

(** ** White space and separators *)

Lemma skip_ws_app (i : nat) (w r : pystr) :
  forallb is_json_ws w = true -> skip_ws i (w ++ r) = skip_ws (i + length w) r.
Proof.
  revert i; induction w as [|c w IH]; intros i Hw; cbn [app length]; [now rewrite Nat.add_0_r|].
  cbn [forallb] in Hw. apply andb_true_iff in Hw as [Hc Hw]. cbn [skip_ws]. rewrite Hc, IH by exact Hw.
  f_equal. lia.
Qed.

Lemma skip_ws_stop (i : nat) (c : N) (r : pystr) :
  is_json_ws c = false -> skip_ws i (c :: r) = (i, c :: r).
Proof. intros H. cbn [skip_ws]. now rewrite H. Qed.

Lemma spaces_ws (n : nat) : forallb is_json_ws (spaces n) = true.
Proof. induction n; simpl; auto. Qed.

Lemma open_sep_ws ind lvl : forallb is_json_ws (open_sep ind lvl) = true.
Proof. destruct ind; [apply spaces_ws | reflexivity]. Qed.

Lemma close_sep_ws ind lvl : forallb is_json_ws (close_sep ind lvl) = true.
Proof. destruct ind; [apply spaces_ws | reflexivity]. Qed.

Lemma item_sep_ws ind lvl : exists w, item_sep ind lvl = 44 :: w /\ forallb is_json_ws w = true.
Proof. destruct ind; [eexists; split; [reflexivity | apply spaces_ws] | exists [32]; auto]. Qed.

(** After white space [w], [skip_ws] stops at a code point that is not. *)
Lemma skip_ws_to (i : nat) (w : pystr) (c : N) (r : pystr) :
  forallb is_json_ws w = true -> is_json_ws c = false ->
  skip_ws i (w ++ c :: r) = ((i + length w)%nat, c :: r).
Proof. intros Hw Hc. rewrite skip_ws_app by exact Hw. now apply skip_ws_stop. Qed.

Lemma skip_ws_before (i : nat) (w x r : pystr) (c : N) (t : pystr) :
  forallb is_json_ws w = true -> x = c :: t -> is_json_ws c = false ->
  skip_ws i (w ++ x ++ r) = ((i + length w)%nat, x ++ r).
Proof. intros Hw -> Hc. apply skip_ws_to; assumption. Qed.

Lemma skip_ws_all (i : nat) (w : pystr) :
  forallb is_json_ws w = true -> skip_ws i w = ((i + length w)%nat, []).
Proof. intros H. rewrite <- (app_nil_r w) at 1. rewrite skip_ws_app by exact H. reflexivity. Qed.

Lemma close_head ind lvl (c : N) (r : pystr) :
  is_json_ws c = false -> exists j, skip_ws 0 (close_sep ind lvl ++ c :: r) = (j, c :: r).
Proof. intros Hc. rewrite skip_ws_to by (apply close_sep_ws || exact Hc). eauto. Qed.

(** ** The values [json.dumps] writes faithfully *)

Fixpoint nodup_keys {V} (kvs : list (pystr * V)) : bool :=
  match kvs with
  | [] => true
  | (k, _) :: r => negb (existsb (fun kv => pystr_eqb k (fst kv)) r) && nodup_keys r
  end.

Fixpoint json_rt (v : json) : bool :=
  match v with
  | JNull | JBool _ => true
  | JInt z => (length (py_str_int (Z.abs z)) <=? max_str_digits)%nat
  | JFloat f => valid f
  | JStr s => str_rt s
  | JArr l => forallb json_rt l
  | JObj kvs => nodup_keys kvs && forallb (fun kv => str_rt (fst kv) && json_rt (snd kv)) kvs
  end.

(** The fuel a value needs: one unit per value and one more per array
    or object. *)
Fixpoint json_size (v : json) : nat :=
  match v with
  | JArr l => 2 + list_sum (map json_size l)
  | JObj kvs => 2 + list_sum (map (fun kv => json_size (snd kv)) kvs)
  | _ => 1
  end.

Lemma json_size_pos (v : json) : (1 <= json_size v)%nat.
Proof. destruct v; simpl; lia. Qed.

Lemma nodup_keys_app {V} (acc : dict V) (k : pystr) (v : V) (r : dict V) :
  nodup_keys (acc ++ (k, v) :: r) = true -> ~ In k (keys acc).
Proof.
  unfold keys. induction acc as [|[k' v'] acc IH]; cbn [app nodup_keys map fst]; [tauto|].
  intros H. apply andb_true_iff in H as [H1 H2]. intros [->|Hin]; [|exact (IH H2 Hin)].
  apply negb_true_iff in H1. rewrite existsb_app in H1. apply orb_false_iff in H1 as [_ H1].
  cbn [existsb fst] in H1. rewrite pystr_eqb_refl in H1. discriminate.
Qed.

(** The head of a JSON number with a fraction or an exponent sends
    [scan_once] to [_match_number_unicode]. *)
Lemma number_head (sg ip t : pystr) : (sg = [] \/ sg = [45]) -> int_part_ok ip ->
  exists c t', sg ++ ip ++ t = c :: t' /\
    (is_digit c = true \/ (c = 45 /\ exists d t'', t' = d :: t'' /\ is_digit d = true)).
Proof.
  intros Hsg Hip.
  assert (Hd : exists d ip', ip = d :: ip' /\ is_digit d = true).
  { destruct Hip as [->|(d & ds & -> & Hd & _)]; [eauto|]. exists d, ds. split; [reflexivity|].
    unfold is_digit, in_range in *. bool_facts. apply andb_true_iff; split; apply N.leb_le; lia. }
  destruct Hd as (d & ip' & -> & Hd). destruct Hsg as [->| ->]; cbn [app]; eexists _, _;
    (split; [reflexivity|]); [left; exact Hd | right; split; [reflexivity | eauto]].
Qed.

(** The first code point of a float's text. *)
Lemma json_float_head (x : float) : valid x = true ->
  exists c t, json_float x = c :: t /\ (c = 45 \/ c = 73 \/ c = 78 \/ is_digit c = true).
Proof.
  intros Hv. destruct (is_finite_float x) eqn:Hfin.
  - destruct (json_float_shape x Hv Hfin) as (sg & ip & fr & ex & E & Hsg & Hip & _).
    destruct (number_head sg ip (fr ++ ex) Hsg Hip) as (c & t & Ec & Hc).
    rewrite E. exists c, t. split; [exact Ec|]. destruct Hc as [Hc|[-> _]]; tauto.
  - destruct x as [|[|]| |]; try discriminate Hfin; (eexists _, _; split; [reflexivity | tauto]).
Qed.

(** The first code point of a value's text: not white space, not a
    closing bracket. *)
Lemma dumps_head (ind : option nat) (lvl : nat) (v : json) :
  json_rt v = true ->
  exists c t, dumps_aux ind lvl v = c :: t /\ is_json_ws c = false /\ c <> 93 /\ c <> 125 /\ c < 128.
Proof.
  intros Hv. destruct v as [| [|] | z | x | s | [|x l] | [|kv kvs]]; try discriminate;
    try (eexists _, _; split; [reflexivity | split; [reflexivity | repeat split; (discriminate || lia)]]);
    [|destruct (json_float_head x Hv) as (c & t & E & Hc); cbn [dumps_aux]; rewrite E; exists c, t;
      unfold is_digit, in_range, is_json_ws in *;
      destruct Hc as [->|[->|[->|Hc]]]; [repeat split; (reflexivity || lia)..|bool_facts];
      destruct (N.eqb_spec c 32), (N.eqb_spec c 9), (N.eqb_spec c 10), (N.eqb_spec c 13);
      repeat split; (reflexivity || lia)].
  destruct (int_text z) as (ds & Hz & _ & Hd & _ & Hh). cbn [dumps_aux]. rewrite Hz.
  destruct (z <? 0)%Z.
  - eexists _, _; split; [reflexivity | split; [reflexivity | repeat split; (discriminate || lia)]].
  - destruct Hh as [->|(d & ds' & -> & Hd')].
    { eexists _, _; split; [reflexivity | split; [reflexivity | repeat split; (discriminate || lia)]]. }
    exists d, ds'. unfold in_range in Hd'. bool_facts. unfold is_json_ws.
    repeat split; [|lia|lia|lia].
    destruct (N.eqb_spec d 32), (N.eqb_spec d 9), (N.eqb_spec d 10), (N.eqb_spec d 13);
      solve [lia | reflexivity].
Qed.

Lemma is_prefix_cons_neq (x c : N) (w t : pystr) : x <> c -> is_prefix (x :: w) (c :: t) = false.
Proof. intros H. cbn [is_prefix]. destruct (N.eqb_spec x c); [contradiction | reflexivity]. Qed.

Lemma head_is_app (b : N) (x y : pystr) (c : N) (t : pystr) :
  x = c :: t -> head_is b (x ++ y) = (c =? b).
Proof. intros ->. reflexivity. Qed.

Lemma is_prefix_cons_eq (x : N) (w t : pystr) : is_prefix (x :: w) (x :: t) = is_prefix w t.
Proof. cbn [is_prefix]. now rewrite N.eqb_refl. Qed.

Section Values.
Variable doc : pystr.

(** A number: [scan_once] falls through to [_match_number_unicode]. *)
Lemma scan_once_number (f i : nat) (c : N) (t : pystr) :
  is_digit c = true \/ (c = 45 /\ exists d t', t = d :: t' /\ is_digit d = true) ->
  scan_once doc (S f) i (c :: t) = match_number doc i (c :: t).
Proof.
  intros H. cbn [scan_once].
  assert (Hc : c <> 34 /\ c <> 123 /\ c <> 91 /\ c <> 110 /\ c <> 116 /\ c <> 102 /\ c <> 78 /\ c <> 73)
    by (destruct H as [H|[-> _]]; [unfold is_digit, in_range in H; bool_facts|]; repeat split; lia).
  destruct Hc as (H1 & H2 & H3 & H4 & H5 & H6 & H7 & H8).
  rewrite (proj2 (N.eqb_neq _ _) H1), (proj2 (N.eqb_neq _ _) H2), (proj2 (N.eqb_neq _ _) H3).
  change (py "null") with [110; 117; 108; 108]. change (py "true") with [116; 114; 117; 101].
  change (py "false") with [102; 97; 108; 115; 101]. change (py "NaN") with [78; 97; 78].
  change (py "Infinity") with [73; 110; 102; 105; 110; 105; 116; 121].
  change (py "-Infinity") with [45; 73; 110; 102; 105; 110; 105; 116; 121].
  rewrite !is_prefix_cons_neq by (apply not_eq_sym; assumption).
  destruct H as [H|[-> (d & t' & -> & Hd)]].
  - rewrite is_prefix_cons_neq; [reflexivity|]. intros Heq. subst c. discriminate H.
  - rewrite is_prefix_cons_eq, is_prefix_cons_neq; [reflexivity|].
    intros Heq. subst d. discriminate Hd.
Qed.

Lemma scan_once_int (f i : nat) (z : Z) (r : pystr) :
  (length (py_str_int (Z.abs z)) <= max_str_digits)%nat -> stop r = true ->
  exists j, scan_once doc (S f) i (py_str_int z ++ r) = Ok (JInt z, j, r).
Proof.
  intros Hl Hs. destruct (match_number_int doc i z r Hs Hl) as [j Hj]. exists j. rewrite <- Hj.
  destruct (int_text z) as (ds & -> & _ & Hd & _ & Hh).
  assert (Hds : exists d ds', ds = d :: ds' /\ is_digit d = true).
  { destruct Hh as [->|(d & ds' & -> & Hd')]; [eauto|]. exists d, ds'. split; [reflexivity|].
    unfold is_digit, in_range in *. bool_facts. apply andb_true_iff; split; apply N.leb_le; lia. }
  destruct Hds as (d & ds' & -> & Hd'). rewrite <- app_assoc.
  destruct (z <? 0)%Z; cbn [app]; apply scan_once_number; [right; eauto | left; exact Hd'].
Qed.

Lemma scan_once_str (f i : nat) (s r : pystr) :
  str_rt s = true -> exists j, scan_once doc (S f) i (json_quote s ++ r) = Ok (JStr s, j, r).
Proof.
  intros Hs. unfold json_quote, dquote_char. rewrite <- !app_assoc. cbn [app scan_once N.eqb Pos.eqb].
  destruct (scanstring_escaped doc i s Hs (S i) [] r) as [j Hj]. cbn [app] in Hj.
  rewrite Hj. cbn [res_bind]. eauto.
Qed.

(** A float: [NaN], [Infinity], [-Infinity], or the text of [repr]
    read by [_match_number_unicode] and [float()]. *)
Lemma scan_once_float (f i : nat) (x : float) (r : pystr) :
  valid x = true -> stop r = true ->
  exists j, scan_once doc (S f) i (json_float x ++ r) = Ok (JFloat x, j, r).
Proof.
  intros Hv Hs. destruct (is_finite_float x) eqn:Hfin.
  - destruct (json_float_shape x Hv Hfin) as (sg & ip & fr & ex & E & Hsg & Hip & Hfr & Hex & Hne).
    assert (Hx : py_float (sg ++ ip ++ fr ++ ex) = x).
    { rewrite <- E. transitivity (py_float (float_repr x)); [|exact (py_float_repr x Hv Hfin)].
      destruct x; try discriminate; reflexivity. }
    destruct (match_number_float doc i sg ip fr ex r Hsg Hip Hfr Hex Hne Hs) as [j Hj].
    rewrite Hx in Hj. exists j. rewrite E, <- Hj.
    destruct (number_head sg ip (fr ++ ex ++ r) Hsg Hip) as (c & t & Ec & Hc).
    rewrite <- !app_assoc, Ec. apply scan_once_number, Hc.
  - destruct x as [|[|]| |]; try discriminate Hfin; cbn [json_float];
      [change (py "-Infinity") with [45; 73; 110; 102; 105; 110; 105; 116; 121]
      |change (py "Infinity") with [73; 110; 102; 105; 110; 105; 116; 121]
      |change (py "NaN") with [78; 97; 78]]; simpl; eauto.
Qed.

(** The text after a value in an array or object cannot extend it. *)
Lemma stop_close ind lvl (c : N) (r : pystr) : is_json_ws c = false -> c = 93 \/ c = 125 ->
  stop (close_sep ind lvl ++ c :: r) = true.
Proof. intros _ H. destruct ind; [reflexivity|]. destruct H as [->| ->]; reflexivity. Qed.

Lemma stop_ws (w : pystr) : forallb is_json_ws w = true -> stop w = true.
Proof.
  destruct w as [|c w]; [reflexivity|]. cbn [forallb stop]. intros H.
  apply andb_true_iff in H as [H _]. unfold is_json_ws, is_digit, in_range in *.
  destruct (N.eqb_spec c 32), (N.eqb_spec c 9), (N.eqb_spec c 10), (N.eqb_spec c 13); try discriminate;
    subst; reflexivity.
Qed.

Lemma stop_item ind lvl (r : pystr) : stop (item_sep ind lvl ++ r) = true.
Proof. destruct (item_sep_ws ind lvl) as (w & -> & _). reflexivity. Qed.

(** A value's text, read back by [scan_once]. *)
Definition scans_back (v : json) : Prop :=
  json_rt v = true -> forall ind lvl f i r, (json_size v <= f)%nat -> stop r = true ->
  exists j, scan_once doc f i (dumps_aux ind lvl v ++ r) = Ok (v, j, r).

(** The rest of the elements: a text that starts with a value. *)
Lemma join_head ind lvl (w : json) (l : list json) :
  json_rt w = true ->
  exists c t, py_join (item_sep ind lvl) (map (dumps_aux ind (S lvl)) (w :: l)) = c :: t /\
              is_json_ws c = false /\ c <> 93.
Proof.
  intros Hw. destruct (dumps_head ind (S lvl) w Hw) as (c & t & Hc & Hcw & Hc93 & _).
  destruct l; cbn [map py_join]; rewrite Hc; cbn [app]; eauto.
Qed.

(** After a value inside brackets: a separator and the next value, or
    the closing bracket [b]. *)
Lemma after_value ind lvl (b : N) (J r : pystr) (c : N) (t : pystr) (j : nat) :
  J = c :: t -> is_json_ws c = false -> b <> 44 ->
  exists j', skip_ws j (item_sep ind lvl ++ J ++ r) = (j, item_sep ind lvl ++ J ++ r) /\
    head_is b (item_sep ind lvl ++ J ++ r) = false /\ head_is 44 (item_sep ind lvl ++ J ++ r) = true /\
    skip_ws (S j) (tl (item_sep ind lvl ++ J ++ r)) = (j', J ++ r).
Proof.
  intros HJ Hc Hb. destruct (item_sep_ws ind lvl) as (ws & -> & Hws). cbn [app tl head_is].
  rewrite skip_ws_stop by reflexivity. subst J. cbn [app]. rewrite skip_ws_to by assumption.
  destruct (N.eqb_spec 44 b); [congruence|]. eauto.
Qed.

Lemma parse_array_back ind lvl (l : list json) :
  Forall scans_back l -> forallb json_rt l = true -> l <> [] ->
  forall f i r acc, (1 + list_sum (map json_size l) <= f)%nat ->
  exists j, parse_array doc f i (py_join (item_sep ind lvl) (map (dumps_aux ind (S lvl)) l)
                                 ++ close_sep ind lvl ++ [93] ++ r) acc
            = Ok (JArr (rev acc ++ l), j, r).
Proof.
  induction l as [|v l IH]; intros HF Hrt Hne f i r acc Hf; [contradiction|].
  apply Forall_cons_iff in HF as [Hv HF]. cbn [forallb] in Hrt. apply andb_true_iff in Hrt as [Hrv Hrt].
  destruct f as [|f]; [lia|]. cbn [map list_sum fold_right] in Hf. pose proof (json_size_pos v).
  destruct l as [|w l].
  - cbn [map py_join]. cbn [parse_array].
    destruct (Hv Hrv ind (S lvl) f i (close_sep ind lvl ++ [93] ++ r) ltac:(lia)
                (stop_close ind lvl 93 r eq_refl (or_introl eq_refl))) as [j1 ->].
    cbn [res_bind]. change ([93] ++ r) with (93 :: r).
    rewrite skip_ws_to by (apply close_sep_ws || reflexivity).
    cbn [head_is N.eqb Pos.eqb tl]. eexists. reflexivity.
  - change (py_join (item_sep ind lvl) (map (dumps_aux ind (S lvl)) (v :: w :: l)))
      with (dumps_aux ind (S lvl) v ++ item_sep ind lvl
            ++ py_join (item_sep ind lvl) (map (dumps_aux ind (S lvl)) (w :: l))).
    cbn [forallb] in Hrt. apply andb_true_iff in Hrt as [Hrw Hrt'].
    destruct (join_head ind lvl w l Hrw) as (c & t & HJ & Hcw & _).
    remember (py_join (item_sep ind lvl) (map (dumps_aux ind (S lvl)) (w :: l))) as J eqn:EJ.
    rewrite <- !app_assoc. cbn [parse_array].
    destruct (Hv Hrv ind (S lvl) f i (item_sep ind lvl ++ J ++ close_sep ind lvl ++ [93] ++ r)
                ltac:(lia) (stop_item ind lvl _)) as [j1 ->]. cbn [res_bind].
    destruct (after_value ind lvl 93 J (close_sep ind lvl ++ [93] ++ r) c t j1 HJ Hcw ltac:(discriminate))
      as (j2 & -> & -> & -> & ->).
    subst J. destruct (IH HF (andb_true_intro (conj Hrw Hrt')) ltac:(discriminate) f j2 r (v :: acc))
      as [j3 Hj3]; [cbn [map list_sum fold_right] in *; lia|].
    rewrite Hj3, rev_cons_app. eauto.
Qed.

(** One member [key: value] of an object, read up to what follows the
    value. *)
Lemma member_back ind lvl (k : pystr) (v : json) (R : pystr) (f i : nat) (acc : list (pystr * json)) :
  str_rt k = true -> scans_back v -> json_rt v = true -> (json_size v <= f)%nat -> stop R = true ->
  exists j,
  parse_object doc (S f) i (json_quote k ++ py ": " ++ dumps_aux ind (S lvl) v ++ R) acc =
  (let acc' := dict_set k v acc in
   let (i7, r7) := skip_ws j R in
   if head_is 125 r7 then Ok (JObj acc', S i7, tl r7)
   else if head_is 44 r7 then
     let (i9, r9) := skip_ws (S i7) (tl r7) in parse_object doc f i9 r9 acc'
   else Raise (dec_err doc "Expecting ',' delimiter" i7)).
Proof.
  intros Hk Hv Hrv Hf Hs. unfold json_quote, dquote_char. rewrite <- !app_assoc.
  cbn [parse_object app head_is tl N.eqb Pos.eqb].
  destruct (scanstring_escaped doc i k Hk (S i) [] (py ": " ++ dumps_aux ind (S lvl) v ++ R)) as [j2 Hj2].
  rewrite Hj2. cbn [res_bind rev app].
  change (py ": ") with [58; 32]. cbn [app].
  rewrite skip_ws_stop by reflexivity. cbn [head_is tl N.eqb Pos.eqb].
  destruct (dumps_head ind (S lvl) v Hrv) as (c & t & Hc & Hcw & _).
  change (skip_ws ?i (32 :: ?x)) with (skip_ws i ([32] ++ x)).
  rewrite (skip_ws_before _ [32] _ R c t eq_refl Hc Hcw).
  lazymatch goal with
  | |- context [scan_once doc f ?k (dumps_aux ind (S lvl) v ++ R)] =>
      destruct (Hv Hrv ind (S lvl) f k R Hf Hs) as [j Hj]; rewrite Hj
  end.
  cbn [res_bind]. eauto.
Qed.

Lemma parse_object_back ind lvl (kvs : list (pystr * json)) :
  Forall (fun kv => scans_back (snd kv)) kvs ->
  forallb (fun kv => str_rt (fst kv) && json_rt (snd kv)) kvs = true -> kvs <> [] ->
  forall f i r acc, nodup_keys (acc ++ kvs) = true ->
  (1 + list_sum (map (fun kv => json_size (snd kv)) kvs) <= f)%nat ->
  exists j, parse_object doc f i
    (py_join (item_sep ind lvl)
       (map (fun kv => json_quote (fst kv) ++ py ": " ++ dumps_aux ind (S lvl) (snd kv)) kvs)
     ++ close_sep ind lvl ++ [125] ++ r) acc
    = Ok (JObj (acc ++ kvs), j, r).
Proof.
  induction kvs as [|[k v] kvs IH]; intros HF Hrt Hne f i r acc Hnd Hf; [contradiction|].
  apply Forall_cons_iff in HF as [Hv HF]. cbn [forallb fst snd] in Hrt.
  apply andb_true_iff in Hrt as [Hkv Hrt]. apply andb_true_iff in Hkv as [Hk Hrv].
  destruct f as [|f]; [lia|]. cbn [map list_sum fold_right snd] in Hf. pose proof (json_size_pos v).
  destruct kvs as [|kv2 kvs].
  - cbn [map py_join fst snd]. rewrite <- !app_assoc.
    destruct (member_back ind lvl k v (close_sep ind lvl ++ [125] ++ r) f i acc Hk Hv Hrv ltac:(lia)
                (stop_close ind lvl 125 r eq_refl (or_intror eq_refl))) as [j ->].
    cbv zeta. rewrite (dict_set_new k v acc (nodup_keys_app acc k v [] Hnd)).
    change ([125] ++ r) with (125 :: r). rewrite skip_ws_to by (apply close_sep_ws || reflexivity).
    cbn [head_is N.eqb Pos.eqb tl]. eexists. reflexivity.
  - set (item := fun kv : pystr * json => json_quote (fst kv) ++ py ": " ++ dumps_aux ind (S lvl) (snd kv)).
    change (py_join (item_sep ind lvl) (map item ((k, v) :: kv2 :: kvs)))
      with (item (k, v) ++ item_sep ind lvl ++ py_join (item_sep ind lvl) (map item (kv2 :: kvs))).
    assert (HJ : exists c t, py_join (item_sep ind lvl) (map item (kv2 :: kvs)) = c :: t /\
                             is_json_ws c = false).
    { destruct kvs; cbn [map py_join]; unfold item, json_quote, dquote_char; cbn [app]; eauto. }
    destruct HJ as (c & t & HJ & Hcw).
    remember (py_join (item_sep ind lvl) (map item (kv2 :: kvs))) as J eqn:EJ.
    unfold item at 1. cbn [fst snd]. rewrite <- !app_assoc.
    destruct (member_back ind lvl k v (item_sep ind lvl ++ J ++ close_sep ind lvl ++ [125] ++ r) f i acc
                Hk Hv Hrv ltac:(lia) (stop_item ind lvl _)) as [j1 ->].
    cbv zeta. rewrite (dict_set_new k v acc (nodup_keys_app acc k v _ Hnd)).
    destruct (after_value ind lvl 125 J (close_sep ind lvl ++ [125] ++ r) c t j1 HJ Hcw ltac:(discriminate))
      as (j2 & -> & -> & -> & ->).
    subst J. replace (acc ++ (k, v) :: kv2 :: kvs) with ((acc ++ [(k, v)]) ++ kv2 :: kvs) in Hnd
      by (rewrite <- app_assoc; reflexivity).
    destruct (IH HF Hrt ltac:(discriminate) f j2 r (acc ++ [(k, v)]) Hnd) as [j3 Hj3];
      [cbn [map list_sum fold_right] in *; lia|].
    subst item. rewrite Hj3, <- app_assoc. eauto.
Qed.

(** Every value [json.dumps] writes faithfully is read back. *)
Lemma all_scans_back (v : json) : scans_back v.
Proof.
  induction v as [| b | z | x | s | l HF | kvs HF] using json_ind';
    intros Hv ind lvl f i r Hf Hs;
    (destruct f as [|f]; [match type of Hf with (json_size ?x <= 0)%nat =>
                            pose proof (json_size_pos x); lia end|]);
    cbn [json_rt] in Hv.
  - cbn [dumps_aux]. change (py "null") with [110; 117; 108; 108]. simpl. eauto.
  - destruct b; cbn [dumps_aux]; [change (py "true") with [116; 114; 117; 101]
                                  | change (py "false") with [102; 97; 108; 115; 101]]; simpl; eauto.
  - apply scan_once_int; [apply Nat.leb_le, Hv | exact Hs].
  - apply scan_once_float; [exact Hv | exact Hs].
  - apply scan_once_str, Hv.
  - destruct l as [|w l].
    + cbn [dumps_aux]. change (py "[]") with [91; 93]. simpl. eauto.
    + cbn [dumps_aux]. change (py "[") with [91]. change (py "]") with [93]. rewrite <- !app_assoc.
      cbn [app scan_once N.eqb Pos.eqb].
      assert (Hw : json_rt w = true) by (cbn [forallb] in Hv; apply andb_true_iff in Hv; tauto).
      destruct (join_head ind lvl w l Hw) as (c & t & HJ & Hcw & H93).
      rewrite (skip_ws_before _ _ _ _ c t (open_sep_ws ind lvl) HJ Hcw), (head_is_app 93 _ _ c t HJ).
      destruct (N.eqb_spec c 93); [contradiction|]. change (93 :: r) with ([93] ++ r).
      lazymatch goal with
      | |- context [parse_array doc f ?k _ []] =>
          destruct (parse_array_back ind lvl (w :: l) HF Hv ltac:(discriminate) f k r [])
            as [j Hj]; [cbn [json_size] in Hf; lia|]
      end.
      rewrite Hj. eauto.
  - apply andb_true_iff in Hv as [Hnd Hv]. destruct kvs as [|[k w] kvs].
    + cbn [dumps_aux]. change (py "{}") with [123; 125]. simpl. eauto.
    + cbn [dumps_aux]. change (py "{") with [123]. change (py "}") with [125]. rewrite <- !app_assoc.
      cbn [app scan_once N.eqb Pos.eqb].
      set (item := fun kv : pystr * json => json_quote (fst kv) ++ py ": " ++ dumps_aux ind (S lvl) (snd kv)).
      assert (HJ : exists t, py_join (item_sep ind lvl) (map item ((k, w) :: kvs)) = 34 :: t).
      { destruct kvs; cbn [map py_join]; unfold item, json_quote, dquote_char; cbn [app]; eauto. }
      destruct HJ as [t HJ].
      rewrite (skip_ws_before _ _ _ _ 34 t (open_sep_ws ind lvl) HJ eq_refl), (head_is_app 125 _ _ 34 t HJ).
      cbn [N.eqb Pos.eqb]. change (125 :: r) with ([125] ++ r). subst item.
      lazymatch goal with
      | |- context [parse_object doc f ?idx _ []] =>
          destruct (parse_object_back ind lvl ((k, w) :: kvs) HF Hv ltac:(discriminate) f idx r [] Hnd)
            as [j Hj]; [cbn [json_size] in Hf; lia|]
      end.
      rewrite Hj. eauto.
Qed.

End Values.

(** ** The fuel [json_loads] gives is enough *)

Lemma py_join_length (sep : pystr) (parts : list pystr) :
  (list_sum (map (@length N) parts) <= length (py_join sep parts))%nat.
Proof.
  induction parts as [|p [|q ps] IH]; cbn [map list_sum fold_right py_join]; [lia | lia |].
  rewrite !length_app. cbn [map list_sum fold_right py_join] in IH. lia.
Qed.

Lemma list_sum_le {A} (f g : A -> nat) (l : list A) :
  Forall (fun x => f x <= g x)%nat l -> (list_sum (map f l) <= list_sum (map g l))%nat.
Proof. induction 1; unfold list_sum in *; cbn [map fold_right] in *; lia. Qed.

Lemma json_size_le (v : json) : forall ind lvl,
  json_rt v = true -> (json_size v <= length (dumps_aux ind lvl v))%nat.
Proof.
  induction v as [| b | z | x | s | l HF | kvs HF] using json_ind'; intros ind lvl Hv;
    cbn [json_rt] in Hv; try discriminate.
  - simpl; lia.
  - destruct b; simpl; lia.
  - cbn [json_size dumps_aux]. destruct (int_text z) as (ds & -> & _ & _ & _ & Hh).
    rewrite length_app. destruct Hh as [->|(d & ds' & -> & _)]; cbn [length]; lia.
  - cbn [json_size dumps_aux]. destruct (json_float_head x Hv) as (c & t & -> & _). cbn [length]. lia.
  - cbn [json_size dumps_aux]. unfold json_quote. rewrite !length_app. cbn [length]. lia.
  - destruct l as [|w l]; [simpl; lia|]. cbn [json_size dumps_aux].
    change (py "[") with [91]. change (py "]") with [93]. rewrite !length_app. cbn [length].
    pose proof (py_join_length (item_sep ind lvl) (map (dumps_aux ind (S lvl)) (w :: l))) as Hj.
    rewrite map_map in Hj.
    assert (Hs : (list_sum (map json_size (w :: l))
                  <= list_sum (map (fun x => length (dumps_aux ind (S lvl) x)) (w :: l)))%nat).
    { apply list_sum_le. apply Forall_forall. intros x Hx.
      apply (proj1 (Forall_forall _ _) HF x Hx).
      exact (proj1 (forallb_forall _ _) Hv x Hx). }
    lia.
  - apply andb_true_iff in Hv as [_ Hv].
    destruct kvs as [|kv kvs]; [simpl; lia|]. cbn [json_size dumps_aux].
    change (py "{") with [123]. change (py "}") with [125]. rewrite !length_app. cbn [length].
    set (item := fun kv : pystr * json => json_quote (fst kv) ++ py ": " ++ dumps_aux ind (S lvl) (snd kv)).
    pose proof (py_join_length (item_sep ind lvl) (map item (kv :: kvs))) as Hj.
    rewrite map_map in Hj.
    assert (Hs : (list_sum (map (fun kv => json_size (snd kv)) (kv :: kvs))
                  <= list_sum (map (fun kv => length (item kv)) (kv :: kvs)))%nat).
    { apply list_sum_le. apply Forall_forall. intros x Hx.
      pose proof (proj1 (forallb_forall _ _) Hv x Hx) as Hx'. apply andb_true_iff in Hx' as [_ Hx'].
      pose proof (proj1 (Forall_forall _ _) HF x Hx ind (S lvl) Hx').
      unfold item. rewrite !length_app. lia. }
    lia.
Qed.

(** The round trip with white space around the text, as a server may
    send it. *)
Lemma loads_dumps_ws (ind : option nat) (v : json) (w1 w2 : pystr) :
  json_rt v = true -> forallb is_json_ws w1 = true -> forallb is_json_ws w2 = true ->
  json_loads (w1 ++ dumps ind v ++ w2) = Ok v.
Proof.
  intros Hv H1 H2. unfold json_loads, dumps.
  destruct (dumps_head ind 0 v Hv) as (c & t & Hc & Hcw & _ & _ & Ha).
  pose proof (json_size_le v ind 0 Hv) as Hl.
  assert (Hb : head_is 65279 (w1 ++ dumps_aux ind 0 v ++ w2) = false).
  { destruct w1 as [|x w1]; cbn [app head_is].
    - rewrite Hc. cbn [app head_is]. destruct (N.eqb_spec c 65279); [lia | reflexivity].
    - cbn [forallb] in H1. apply andb_true_iff in H1 as [Hx _]. unfold is_json_ws in Hx.
      destruct (N.eqb_spec x 65279); [subst; discriminate | reflexivity]. }
  rewrite Hb, (skip_ws_before 0 w1 (dumps_aux ind 0 v) w2 c t H1 Hc Hcw).
  remember (w1 ++ dumps_aux ind 0 v ++ w2) as doc eqn:Ed.
  assert (Hlen : (length (dumps_aux ind 0 v) <= length doc)%nat) by (subst doc; rewrite !length_app; lia).
  destruct (all_scans_back doc v Hv ind 0%nat (2 * length doc + 2)%nat (0 + length w1)%nat w2
              ltac:(lia) (stop_ws w2 H2)) as [j ->].
  cbn [res_bind]. rewrite (skip_ws_all j w2 H2). reflexivity.
Qed.

(** C8.  [json.loads] reads back what [json.dumps] writes, with or
    without [indent]: for every value with pairwise distinct keys, with
    code points below U+110000 and no high surrogate directly before a
    low one, with integers of at most 4300 digits and with binary64
    floats (finite, signed zeros, infinities and NaN, which is read back
    as the same NaN), [json.loads(json.dumps(v, indent=ind))] is [v]. *)
Theorem json_loads_dumps (ind : option nat) (v : json) :
  json_rt v = true -> json_loads (dumps ind v) = Ok v.
Proof.
  intros Hv. pose proof (loads_dumps_ws ind v [] [] Hv eq_refl eq_refl) as H.
  rewrite app_nil_r in H. exact H.
Qed.

Lemma json_loads_dumps_witness :
  json_rt (JObj [(py "a", JArr [JInt (-12); JFloat tenth; JStr [233; 128512; 10; 34]]); (py "b", JNull)]) = true /\
  json_loads (dumps (Some 2%nat) (JObj [(py "a", JArr [JInt (-12); JFloat tenth; JStr [233; 128512; 10; 34]]);
                                    (py "b", JNull)]))
  = Ok (JObj [(py "a", JArr [JInt (-12); JFloat tenth; JStr [233; 128512; 10; 34]]); (py "b", JNull)]).
Proof.
  assert (H : json_rt (JObj [(py "a", JArr [JInt (-12); JFloat tenth; JStr [233; 128512; 10; 34]]); (py "b", JNull)])
              = true) by (vm_compute; reflexivity).
  split; [exact H | exact (json_loads_dumps (Some 2%nat) _ H)].
Defined.

