(* ===== verification/Report.v ===== *)
(** * The report assembler: [run_bullshit_meter] and the script's entry

    The module-level configuration (src/bullshit_meter.py, lines 9-15),
    the prompt template (lines 17-42), [run_bullshit_meter] (lines 69-107)
    and the [__main__] block (lines 110-115).  The language-model service
    is the collaborator [GeminiService]: [requests.post(...)] (lines
    85-86), a function of the URL and the request body that answers the
    text of the reply or raises [RequestException]; [response.json()]
    (line 87) is [json_loads] of that text ([JsonParse]), which raises
    [JSONDecodeError] for a body that is not JSON.  Files and standard
    output are the [world] of [World].

    The lemmas compute the run step by step ([run_after_reply] for a run
    that reaches the write, [loads_dumps_ws] of [JsonRoundTrip] for a
    reply the service writes with [json.dumps]); the theorems of section [Claims] state the
    outcome of [main] on every path the code can take, each applied to a
    concrete world and reply at the end of the file. *)

From Stdlib Require Import Ascii String List Arith NArith ZArith Lia Bool.
From S2P Require Import Prelude Utf8 PyStr Regex Filler World Json JsonParse JsonRoundTrip.
Import ListNotations.
Local Open Scope py_scope.

(** ** The collaborator *)

Class GeminiService := {
  gemini_post : pystr -> pystr -> res pystr   (** URL, body: the reply's text *)
}.

(** ** Configuration (lines 9-15) *)

Definition MODEL : pystr := py "gemini-2.0-flash".

(** Line 11: the f-string renders a missing key as [None]. *)
Definition GEMINI_URL (key : option pystr) : pystr :=
  py "https://generativelanguage.googleapis.com/v1beta/models/" ++ MODEL
  ++ py ":generateContent?key=" ++ match key with Some k => k | None => py "None" end.

Definition key_missing_msg : pystr :=
  py "GEMINI_API_KEY environment variable is not set. Please add it to your .env file or export it in your shell.".

(** Lines 14-15: [if not GEMINI_API_KEY: raise ValueError(...)]; an unset
    and an empty variable are both refused. *)
Definition check_config (key : option pystr) : res pystr :=
  match key with
  | Some (_ :: _ as k) => Ok k
  | _ => Raise (Exc ValueError key_missing_msg)
  end.

(** ** The prompt template (lines 17-42) *)

Definition nl : pystr := [10%N].
Definition q : pystr := [dquote_char].

(** The template up to its one field, and after it. *)
Definition prompt_head : pystr :=
  []
  ++ nl ++ py "You are a professional communication analyst evaluating a meeting transcript for clarity and effectiveness."
  ++ nl ++ []
  ++ nl ++ py "Instructions:"
  ++ nl ++ py "1. Identify vague, overused, or meaningless business jargon (e.g., " ++ q ++ py "circle back" ++ q ++ py ", " ++ q ++ py "synergy" ++ q ++ py ", " ++ q ++ py "touch base" ++ q ++ py ")."
  ++ nl ++ py "2. Rate the **overall meeting clarity** from 1 (vague) to 10 (clear and productive)."
  ++ nl ++ py "3. For **each speaker** (e.g., SPEAKER_00), do the following:"
  ++ nl ++ py "   - Quote 1–2 examples of vague, repetitive, or filler language they used."
  ++ nl ++ py "   - **List the filler words they used and estimate counts** (e.g., " ++ q ++ py "um" ++ q ++ py ", " ++ q ++ py "like" ++ q ++ py ", " ++ q ++ py "you know" ++ q ++ py ")."
  ++ nl ++ py "   - Rate their individual clarity from 1–10."
  ++ nl ++ py "   - Note any patterns of repetition or tangents."
  ++ nl ++ py "   - Provide constructive suggestions to improve future communication."
  ++ nl ++ py "4. Comment on **meeting dynamics**:"
  ++ nl ++ py "   - Were there **interruptions** or overlapping dialogue? If yes, by whom?"
  ++ nl ++ py "   - Was one speaker **dominant**, or was talk-time balanced?"
  ++ nl ++ []
  ++ nl ++ py "5. Conclude with a brief improvement report:"
  ++ nl ++ py "   - Overall meeting clarity score"
  ++ nl ++ py "   - Top 3 jargon phrases to avoid"
  ++ nl ++ py "   - 3 specific suggestions to improve meeting effectiveness"
  ++ nl ++ []
  ++ nl ++ py "Format the entire output in clean, well-structured **Markdown**."
  ++ nl ++ []
  ++ nl ++ py "Transcript:" ++ nl.

Definition prompt_tail : pystr := nl.

Definition BULLSHIT_PROMPT : pystr := prompt_head ++ py "{transcript}" ++ prompt_tail.

(** ** The request (lines 75-86) *)

Definition payload (transcript : pystr) : res json :=
  prompt <- py_format BULLSHIT_PROMPT [(py "transcript", transcript)] ;;
  Ok (JObj [(py "contents",
             JArr [JObj [(py "parts", JArr [JObj [(py "text", JStr prompt)]])]])]).

(** [json.dumps(payload)], the request body. *)
Definition request_body (transcript : pystr) : res pystr :=
  res_map (dumps None) (payload transcript).

(** ** The narrative (lines 89-92)

    Python's [\\n] in a non-raw f-string is a backslash and an [n]: the
    Rocq string ["\n"] below holds exactly those two code points. *)
Definition error_text (e : exn) (data : json) : pystr :=
  py "[Error parsing Gemini response]\n" ++ exc_msg e ++ py "\n\nFull response:\n"
  ++ dumps (Some 2) data.

(** The value bound to [text]: whatever the reply holds at the path, or
    the error block when a lookup raises. *)
Definition response_text `{UnicodeDB} (data : json) : json :=
  match extract_text data with
  | Ok t => t
  | Raise e => JStr (error_text e data)
  end.

(** The reply the lookup of line 90 expects: an envelope whose one
    candidate's one part has the text [v]. *)
Definition reply_with (v : json) : json :=
  JObj [(py "candidates", JArr [JObj [(py "content",
    JObj [(py "parts", JArr [JObj [(py "text", v)]])])]])].

(** ** The filler section (lines 94-100) *)

(** [text += s]: [str] concatenates, [list] extends by the characters
    of [s], any other type raises [TypeError]. *)
Definition iadd_str (v : json) (s : pystr) : res json :=
  match v with
  | JStr t => Ok (JStr (t ++ s))
  | JArr l => Ok (JArr (l ++ map (fun c => JStr [c]) s))
  | _ => Raise (Exc TypeError (py "unsupported operand type(s) for +=: '" ++ type_name v
                               ++ py "' and 'str'"))
  end.

Definition section_header : pystr := py "\n\n---\n\n## Filler Word Analysis\n".
Definition speaker_heading (speaker : pystr) : pystr := py "\n**" ++ speaker ++ py "**\n".
Definition count_line (word : pystr) (count : nat) : pystr :=
  py "- " ++ word ++ py ": " ++ py_str_nat count ++ py "\n".

Fixpoint append_counts (text : json) (counts : dict nat) : res json :=
  match counts with
  | [] => Ok text
  | (word, count) :: r =>
      t <- iadd_str text (count_line word count) ;;
      append_counts t r
  end.

Fixpoint append_speakers (text : json) (report : dict (dict nat)) : res json :=
  match report with
  | [] => Ok text
  | (speaker, counts) :: r =>
      t <- iadd_str text (speaker_heading speaker) ;;
      t' <- append_counts t counts ;;
      append_speakers t' r
  end.

Definition append_filler (text : json) (filler_counts : dict (dict nat)) : res json :=
  match filler_counts with
  | [] => Ok text
  | _ => t <- iadd_str text section_header ;; append_speakers t filler_counts
  end.

(** The text the section adds to a [str]. *)
Definition render_counts (counts : dict nat) : pystr :=
  flat_map (fun wc => count_line (fst wc) (snd wc)) counts.

Definition render_report (report : dict (dict nat)) : pystr :=
  match report with
  | [] => []
  | _ => section_header
         ++ flat_map (fun e => speaker_heading (fst e) ++ render_counts (snd e)) report
  end.

(** ** Output (lines 102-107) *)

Definition bs_n : pystr := py "\n".

(** Line 103: [out.write(text)] needs a [str]. *)
Definition write_value (p : pystr) (v : json) : io pystr :=
  match v with
  | JStr s => _ <-- write_text p s ;;; st_ret s
  | _ => st_raise (Exc TypeError (py "write() argument must be str, not " ++ type_name v))
  end.

(** Line 107: the first six pieces of [text.strip()] cut at the
    two-character sequence backslash, [n], joined back. *)
Definition preview `{UnicodeDB} (text : pystr) : res pystr :=
  parts <- py_split bs_n (py_strip text) ;;
  Ok (py_join bs_n (firstn 6 parts)).

Section Run.
Context `{U : UnicodeDB} `{G : GeminiService}.

Definition run_bullshit_meter (url transcript_path output_path : pystr) : io unit :=
  transcript <-- read_text transcript_path ;;;
  filler_counts <-- st_lift (extract_speaker_filler_counts transcript) ;;;
  body <-- st_lift (request_body transcript) ;;;
  reply <-- st_lift (gemini_post url body) ;;;
  data <-- st_lift (json_loads reply) ;;;
  text <-- st_lift (append_filler (response_text data) filler_counts) ;;;
  _ <-- open_write output_path ;;;
  s <-- write_value output_path text ;;;
  _ <-- print (py "Bullshit report saved to: " ++ output_path ++ bs_n) ;;;
  _ <-- print (py "--- Quick Preview ---") ;;;
  pv <-- st_lift (preview s) ;;;
  print pv.

Definition usage : pystr :=
  py "Usage: python bullshit_meter.py path/to/transcript.txt path/to/output.md".

(** The script: the module-level check, then the [__main__] block with
    [sys.argv] (the script's name first). *)
Definition main (key : option pystr) (argv : list pystr) : io unit :=
  _ <-- st_lift (check_config key) ;;;
  match argv with
  | [_; transcript_path; output_path] =>
      run_bullshit_meter (GEMINI_URL key) transcript_path output_path
  | _ => print usage
  end.

End Run.

(** The process's exit status: an exception that escapes is status 1. *)
Definition exit_code {A} (r : res A) : nat :=
  match r with Ok _ => 0 | Raise _ => 1 end.

(** ** The specification side

    The request the code sends, the report of a transcript as
    [Filler.spec_report] describes it. *)

Definition payload_json (t : pystr) : json :=
  JObj [(py "contents",
         JArr [JObj [(py "parts", JArr [JObj [(py "text",
           JStr (prompt_head ++ t ++ prompt_tail))]])]])].

Definition transcript_report `{UnicodeDB} (t : pystr) : dict (dict nat) :=
  spec_report (utterances (py_splitlines (py_strip t))).

(** ** Lemmas: the request *)

Lemma prompt_head_brace_free : brace_free prompt_head = true.
Proof. vm_compute. reflexivity. Qed.

Lemma prompt_format (t : pystr) :
  py_format BULLSHIT_PROMPT [(py "transcript", t)] = Ok (prompt_head ++ t ++ prompt_tail).
Proof.
  unfold py_format, BULLSHIT_PROMPT. rewrite fmt_brace_free by exact prompt_head_brace_free.
  reflexivity.
Qed.

Lemma payload_ok (t : pystr) : payload t = Ok (payload_json t).
Proof. unfold payload. now rewrite prompt_format. Qed.

Lemma request_body_ok (t : pystr) : request_body t = Ok (dumps None (payload_json t)).
Proof. unfold request_body, res_map. now rewrite payload_ok. Qed.

Lemma request_body_ascii (t : pystr) : forallb is_ascii (dumps None (payload_json t)) = true.
Proof. apply dumps_aux_ascii. Qed.

(** ** Lemmas: the filler section *)

Lemma append_counts_str (s : pystr) (cs : dict nat) :
  append_counts (JStr s) cs = Ok (JStr (s ++ render_counts cs)).
Proof.
  revert s; induction cs as [|[w n] cs IH]; intros s; cbn [append_counts render_counts flat_map].
  - now rewrite app_nil_r.
  - cbn [iadd_str res_bind]. rewrite IH, app_assoc. reflexivity.
Qed.

Lemma append_speakers_str (s : pystr) (fc : dict (dict nat)) :
  append_speakers (JStr s) fc =
  Ok (JStr (s ++ flat_map (fun e => speaker_heading (fst e) ++ render_counts (snd e)) fc)).
Proof.
  revert s; induction fc as [|[sp cs] fc IH]; intros s; cbn [append_speakers flat_map fst snd].
  - now rewrite app_nil_r.
  - cbn [iadd_str res_bind]. rewrite append_counts_str. cbn [res_bind].
    rewrite IH, !app_assoc. reflexivity.
Qed.

(** On a [str], lines 95-100 append [render_report]. *)
Lemma append_filler_str (s : pystr) (fc : dict (dict nat)) :
  append_filler (JStr s) fc = Ok (JStr (s ++ render_report fc)).
Proof.
  destruct fc as [|e fc]; cbn [append_filler render_report]; [now rewrite app_nil_r|].
  cbn [iadd_str res_bind]. rewrite append_speakers_str. now rewrite !app_assoc.
Qed.

(** The values [+=] with a [str] accepts: a [str] or a [list]. *)
Definition iadd_target (v : json) : Prop :=
  match v with JStr _ | JArr _ => True | _ => False end.

Lemma iadd_str_target (v : json) (s : pystr) :
  iadd_target v -> exists t, iadd_str v s = Ok t /\ iadd_target t /\ type_name t = type_name v.
Proof.
  destruct v; simpl; intros []; (eexists; split; [reflexivity | split; [exact I | reflexivity]]).
Qed.

Lemma append_counts_target (v : json) (cs : dict nat) :
  iadd_target v -> exists t, append_counts v cs = Ok t /\ iadd_target t /\ type_name t = type_name v.
Proof.
  revert v; induction cs as [|[w n] cs IH]; intros v Hv; cbn [append_counts]; [eauto|].
  destruct (iadd_str_target v (count_line w n) Hv) as (t1 & -> & H1 & T1). cbn [res_bind].
  destruct (IH t1 H1) as (t2 & -> & H2 & T2). exists t2. split; [reflexivity|]. split; congruence.
Qed.

Lemma append_speakers_target (v : json) (fc : dict (dict nat)) :
  iadd_target v -> exists t, append_speakers v fc = Ok t /\ iadd_target t /\ type_name t = type_name v.
Proof.
  revert v; induction fc as [|[sp cs] fc IH]; intros v Hv; cbn [append_speakers]; [eauto|].
  destruct (iadd_str_target v (speaker_heading sp) Hv) as (t1 & -> & H1 & T1). cbn [res_bind].
  destruct (append_counts_target t1 cs H1) as (t2 & -> & H2 & T2). cbn [res_bind].
  destruct (IH t2 H2) as (t3 & -> & H3 & T3). exists t3. split; [reflexivity|]. split; congruence.
Qed.

(** C11.  [text += ...] in lines 95-100 keeps the Python type of [text]:
    a result has the type [text] had; the only exception is the
    [TypeError] of the first [+=], naming that type, when there is a
    section to add; and it is raised whenever [text] is neither a [str]
    nor a [list] and there is a section. *)
Theorem append_filler_type (text : json) (fc : dict (dict nat)) :
  (forall t, append_filler text fc = Ok t -> type_name t = type_name text) /\
  (forall e, append_filler text fc = Raise e ->
     fc <> [] /\ e = Exc TypeError (py "unsupported operand type(s) for +=: '" ++ type_name text
                                    ++ py "' and 'str'")) /\
  (fc <> [] -> type_name text <> py "str" -> type_name text <> py "list" ->
     exists e, append_filler text fc = Raise e).
Proof.
  destruct fc as [|f fc]; cbn [append_filler].
  { split; [congruence|]. split; [discriminate|]. intros H; now contradiction H. }
  assert (Hne : f :: fc <> []) by discriminate.
  destruct (match text with JStr _ | JArr _ => true | _ => false end) eqn:Et.
  - assert (Hv : iadd_target text) by (destruct text; simpl; try discriminate; exact I).
    destruct (iadd_str_target text section_header Hv) as (t1 & -> & H1 & T1). cbn [res_bind].
    destruct (append_speakers_target t1 (f :: fc) H1) as (t2 & -> & _ & T2).
    split; [intros t Ht; apply ok_inj in Ht; congruence|]. split; [discriminate|].
    intros _ Hs Hl. destruct text; try discriminate; [now contradiction Hs | now contradiction Hl].
  - destruct text; try discriminate; cbn [iadd_str res_bind];
      (split; [discriminate|]; split; [intros e He; split; [exact Hne | congruence] | eauto]).
Qed.

Section Chars.
Variable P : N -> Prop.
Hypothesis P_print : forall c, in_range 32 126 c = true -> P c.

Lemma print_forall (s : pystr) : forallb (in_range 32 126) s = true -> Forall P s.
Proof.
  intros H. apply Forall_forall. intros c Hc. apply P_print.
  exact (proj1 (forallb_forall _ _) H c Hc).
Qed.

Lemma py_str_nat_forall (n : nat) : Forall P (py_str_nat n).
Proof.
  apply print_forall. eapply forallb_imp; [|apply py_str_nat_digits].
  intros c Hc. unfold in_range in *. apply andb_true_iff in Hc as [Hc1 Hc2].
  apply N.leb_le in Hc1, Hc2. apply andb_true_iff. split; apply N.leb_le; lia.
Qed.

(** The section is printable ASCII apart from the speakers and words it
    names. *)
Lemma render_report_forall (fc : dict (dict nat)) :
  (forall sp cs, In (sp, cs) fc ->
     Forall P sp /\ forall w n, In (w, n) cs -> Forall P w) ->
  Forall P (render_report fc).
Proof.
  intros H. destruct fc as [|e0 fc0]; [constructor|]. cbn [render_report].
  rewrite Forall_app. split; [apply print_forall; reflexivity|].
  apply Forall_flat_map, Forall_forall. intros [sp cs] Hin. destruct (H sp cs Hin) as [Hsp Hw].
  cbn [fst snd]. rewrite Forall_app. split.
  - unfold speaker_heading. rewrite !Forall_app.
    split; [|split]; try (apply print_forall; reflexivity). exact Hsp.
  - apply Forall_flat_map, Forall_forall. intros [w n] Hwn. unfold count_line. cbn [fst snd].
    rewrite !Forall_app. split; [|split; [|split; [|split]]];
      try (apply print_forall; reflexivity).
    + exact (Hw w n Hwn).
    + apply py_str_nat_forall.
Qed.

Lemma filler_words_print : forallb (forallb (in_range 32 126)) filler_words = true.
Proof. vm_compute. reflexivity. Qed.

Lemma transcript_report_forall `{UnicodeDB} (t : pystr) :
  (forall l, In l (py_splitlines (py_strip t)) -> Forall P l) ->
  Forall P (render_report (transcript_report t)).
Proof.
  intros Hl. apply render_report_forall. intros sp cs Hin.
  destruct (report_sources t sp cs Hin) as [[l [Hl1 Hsp]] Hw]. split.
  - apply Forall_forall. intros c Hc. exact (proj1 (Forall_forall _ _) (Hl l Hl1) c (Hsp c Hc)).
  - intros w n Hwn. apply print_forall.
    exact (proj1 (forallb_forall _ _) filler_words_print w (Hw w n Hwn)).
Qed.
End Chars.

(** ** Lemmas: the preview *)

(** Line 107 prints a prefix of the stripped text. *)
Lemma preview_prefix `{UnicodeDB} (s : pystr) :
  exists pv, preview s = Ok pv /\ is_prefix pv (py_strip s) = true.
Proof.
  unfold preview, py_split. cbn [res_bind].
  eexists; split; [reflexivity|].
  destruct (split_fuel_spec bs_n (S (length (py_strip s))) ltac:(vm_compute; discriminate)
              (py_strip s) ltac:(lia)) as [J _].
  pose proof (py_join_firstn_prefix bs_n
                (split_fuel (S (length (py_strip s))) bs_n (py_strip s)) 6) as Hp.
  rewrite J in Hp. exact Hp.
Qed.

(** ** Lemmas: a run that reaches the write *)

Lemma ascii_scalars (s : pystr) : forallb is_ascii s = true -> scalars s.
Proof.
  intros H. apply Forall_forall. intros c Hc. apply is_scalar_range.
  pose proof (proj1 (forallb_forall _ _) H c Hc) as Hc'. unfold is_ascii in Hc'.
  apply N.ltb_lt in Hc'. lia.
Qed.

Lemma error_text_ascii `{U : UnicodeDB} (e : exn) (data : json) :
  extract_text data = Raise e -> forallb is_ascii (error_text e data) = true.
Proof.
  intros He. unfold error_text. rewrite !forallb_app, (extract_text_error_ascii data e He).
  exact (dumps_aux_ascii (Some 2) data 0).
Qed.

Lemma decoded_scalars (b : bytes) (t : pystr) :
  utf8_decode b = Some t -> scalars (universal_newlines t).
Proof.
  intros Ht. apply (universal_newlines_incl _ (length t)); [reflexivity | lia |].
  exact (utf8_decode_scalars _ _ t (le_n _) Ht).
Qed.

Lemma existsb_false_forall {A} (f : A -> bool) (l : list A) :
  existsb f l = false <-> Forall (fun x => f x = false) l.
Proof.
  induction l as [|x l IH]; simpl; [split; auto|].
  rewrite orb_false_iff, IH, Forall_cons_iff. reflexivity.
Qed.

Lemma newlines_no_backslash (t : pystr) :
  existsb (N.eqb 92) t = false -> existsb (N.eqb 92) (universal_newlines t) = false.
Proof.
  rewrite !existsb_false_forall. intros H.
  exact (universal_newlines_incl _ (length t) eq_refl t (le_n _) H).
Qed.

Section RunLemmas.
Context `{U : UnicodeDB} `{G : GeminiService}.

Lemma open_write_refused (p : pystr) (w : world) :
  In p (w_readonly w) ->
  open_write p w = (Raise (Exc OSError (errno_msg "13" "Permission denied" p)), w).
Proof.
  intros Hp. unfold open_write.
  replace (existsb (pystr_eqb p) (w_readonly w)) with true; [reflexivity|].
  symmetry. apply existsb_exists. exists p. split; [exact Hp | apply pystr_eqb_refl].
Qed.

Lemma main_run (key : pystr) (a0 tp op : pystr) :
  key <> [] -> main (Some key) [a0; tp; op] = run_bullshit_meter (GEMINI_URL (Some key)) tp op.
Proof. destruct key; [congruence|reflexivity]. Qed.

(** The run up to the decoded reply: what remains is lines 89-107. *)
Lemma run_decoded (url tp op : pystr) (w : world) (b : bytes) (t reply : pystr) (data : json) :
  dict_get tp (w_files w) = Some b -> utf8_decode b = Some t ->
  gemini_post url (dumps None (payload_json (universal_newlines t))) = Ok reply ->
  json_loads reply = Ok data ->
  run_bullshit_meter url tp op w =
  (text <-- st_lift (append_filler (response_text data) (transcript_report (universal_newlines t))) ;;;
   _ <-- open_write op ;;;
   s <-- write_value op text ;;;
   _ <-- print (py "Bullshit report saved to: " ++ op ++ bs_n) ;;;
   _ <-- print (py "--- Quick Preview ---") ;;;
   pv <-- st_lift (preview s) ;;;
   print pv) w.
Proof.
  intros Hb Ht Hg Hj. unfold run_bullshit_meter.
  erewrite st_bind_ok by (eapply read_text_ok; eassumption).
  rewrite st_lift_bind, extract_refines, st_lift_bind, request_body_ok, st_lift_bind, Hg,
    st_lift_bind, Hj. reflexivity.
Qed.

(** Everything after the reply, when [text] is a [str] [s]. *)
Lemma run_after_reply (url tp op : pystr) (w : world) (b : bytes) (t s reply : pystr) (data : json) :
  dict_get tp (w_files w) = Some b -> utf8_decode b = Some t ->
  gemini_post url (dumps None (payload_json (universal_newlines t))) = Ok reply ->
  json_loads reply = Ok data ->
  response_text data = JStr s -> scalars s -> ~ In op (w_readonly w) -> scalars op ->
  exists w' bs, run_bullshit_meter url tp op w = (Ok tt, w') /\
    dict_get op (w_files w') = Some bs /\
    utf8_decode bs = Some (s ++ render_report (transcript_report (universal_newlines t))).
Proof.
  intros Hb Ht Hg Hj Hs Hss Hop Hops.
  pose proof (decoded_scalars b t Ht) as Ht'.
  assert (Hdoc : scalars (s ++ render_report (transcript_report (universal_newlines t)))).
  { apply Forall_app. split; [exact Hss|]. apply transcript_report_forall.
    - intros c Hc. apply is_scalar_range. unfold in_range in Hc.
      apply andb_true_iff in Hc as [_ Hc]. apply N.leb_le in Hc. lia.
    - intros l Hl. apply Forall_forall. intros c Hc.
      apply (proj1 (Forall_forall _ _) Ht'), py_strip_incl, (py_splitlines_incl _ l); assumption. }
  destruct (proj1 (utf8_encode_scalars _) Hdoc) as [bs Hbs].
  destruct (preview_prefix (s ++ render_report (transcript_report (universal_newlines t))))
    as [pv [Hpv Hpre]].
  assert (Hpvs : scalars pv).
  { apply Forall_forall. intros c Hc. apply (proj1 (Forall_forall _ _) Hdoc).
    apply py_strip_incl. exact (prefix_in _ _ _ Hpre Hc). }
  rewrite (run_decoded _ tp op w b t reply data Hb Ht Hg Hj), st_lift_bind, Hs, append_filler_str.
  erewrite st_bind_ok by (apply open_write_ok; exact Hop).
  erewrite st_bind_ok by (cbn [write_value]; erewrite st_bind_ok by (apply write_text_fresh; exact Hbs);
                          reflexivity).
  erewrite st_bind_ok by (apply print_ok; unfold scalars; rewrite !Forall_app;
                          split; [|split]; try exact Hops; apply ascii_scalars; reflexivity).
  erewrite st_bind_ok by (apply print_ok, ascii_scalars; reflexivity).
  rewrite st_lift_bind, Hpv, print_ok by exact Hpvs.
  eexists; exists bs; split; [reflexivity|]. split.
  - unfold set_file. cbn [w_files]. apply dict_get_set_same.
  - exact (utf8_decode_encode _ _ Hbs).
Qed.

(** With no backslash in the transcript the report is empty: lines
    95-100 leave [text] as the reply made it. *)
Lemma run_reply_text_no_backslash (url tp op : pystr) (w : world) (b : bytes) (t reply : pystr)
    (data : json) :
  dict_get tp (w_files w) = Some b -> utf8_decode b = Some t -> existsb (N.eqb 92) t = false ->
  gemini_post url (dumps None (payload_json (universal_newlines t))) = Ok reply ->
  json_loads reply = Ok data ->
  run_bullshit_meter url tp op w =
  (_ <-- open_write op ;;;
   s <-- write_value op (response_text data) ;;;
   _ <-- print (py "Bullshit report saved to: " ++ op ++ bs_n) ;;;
   _ <-- print (py "--- Quick Preview ---") ;;;
   pv <-- st_lift (preview s) ;;;
   print pv) w.
Proof.
  intros Hb Ht Hn Hg Hj. rewrite (run_decoded _ tp op w b t reply data Hb Ht Hg Hj).
  unfold transcript_report. rewrite utterances_without_backslash by exact (newlines_no_backslash t Hn).
  reflexivity.
Qed.

End RunLemmas.

(** ** Theorems: the runs of the script

    A collaborator that answers every request with one reply, for the
    concrete runs below. *)
Definition reply_service (r : res pystr) : GeminiService := {| gemini_post _ _ := r |}.

Lemma scalars_str_rt (s : pystr) : scalars s -> str_rt s = true.
Proof.
  induction 1 as [|c r Hc Hr IH]; [reflexivity|]. cbn [str_rt]. rewrite IH, andb_true_r.
  unfold is_scalar in Hc. apply andb_true_iff in Hc as [Hc1 Hc2]. rewrite Hc1.
  destruct r as [|d r]; [reflexivity|]. unfold is_high_surrogate, in_range.
  apply negb_true_iff in Hc2. apply andb_false_iff in Hc2.
  destruct Hc2 as [H|H]; apply N.leb_gt in H;
    [rewrite (proj2 (N.leb_gt 55296 c)) by lia | rewrite (proj2 (N.leb_gt c 56319)) by lia];
    rewrite ?andb_false_r; reflexivity.
Qed.

Lemma reply_with_str `{U : UnicodeDB} (s : pystr) :
  str_rt s = true -> json_rt (reply_with (JStr s)) = true /\ extract_text (reply_with (JStr s)) = Ok (JStr s).
Proof. intros H. split; [cbn; rewrite H; reflexivity | reflexivity]. Qed.

Section Claims.
Context `{U : UnicodeDB} `{G : GeminiService}.

(** C3.  Scenario C: when the reply has no text at the expected path,
    the run still completes (exit status 0) and the output file holds
    the error block (the exception's text and the reply as indented
    JSON) followed by the filler section. *)
Theorem reply_without_text_still_written (key a0 tp op : pystr) (w : world) (b : bytes)
    (t reply : pystr) (data : json) (e : exn) :
  key <> [] -> dict_get tp (w_files w) = Some b -> utf8_decode b = Some t ->
  gemini_post (GEMINI_URL (Some key)) (dumps None (payload_json (universal_newlines t))) = Ok reply ->
  json_loads reply = Ok data ->
  extract_text data = Raise e ->
  ~ In op (w_readonly w) -> scalars op ->
  exists w' bs, main (Some key) [a0; tp; op] w = (Ok tt, w') /\
    dict_get op (w_files w') = Some bs /\
    utf8_decode bs = Some (error_text e data ++ render_report (transcript_report (universal_newlines t))).
Proof.
  intros Hk Hb Ht Hg Hj He Hop Hops. rewrite main_run by exact Hk.
  apply (run_after_reply _ tp op w b t _ reply data Hb Ht Hg Hj); [| |exact Hop|exact Hops].
  - unfold response_text. now rewrite He.
  - apply ascii_scalars, (error_text_ascii e data He).
Qed.

(** C4.  Scenario B, for every transcript without a backslash (every
    transcript in the specification's format): the document written is
    the reply's text and nothing else. *)
Theorem narrative_is_document (key a0 tp op : pystr) (w : world) (b : bytes) (t s reply : pystr)
    (data : json) :
  key <> [] -> dict_get tp (w_files w) = Some b -> utf8_decode b = Some t ->
  existsb (N.eqb 92) t = false ->
  gemini_post (GEMINI_URL (Some key)) (dumps None (payload_json (universal_newlines t))) = Ok reply ->
  json_loads reply = Ok data ->
  extract_text data = Ok (JStr s) -> scalars s ->
  ~ In op (w_readonly w) -> scalars op ->
  exists w' bs, main (Some key) [a0; tp; op] w = (Ok tt, w') /\
    dict_get op (w_files w') = Some bs /\ utf8_decode bs = Some s.
Proof.
  intros Hk Hb Ht Hn Hg Hj He Hs Hop Hops. rewrite main_run by exact Hk.
  destruct (run_after_reply _ tp op w b t s reply data Hb Ht Hg Hj) as (w' & bs & H1 & H2 & H3);
    try assumption; [unfold response_text; now rewrite He|].
  exists w', bs. split; [exact H1|]. split; [exact H2|]. rewrite H3.
  unfold transcript_report. rewrite utterances_without_backslash by exact (newlines_no_backslash t Hn).
  now rewrite app_nil_r.
Qed.

(** C17.  Scenario B end to end: when the service answers with the JSON text
    [json.dumps] writes (with or without [indent], with white space
    around it) of an envelope whose text is [s], and the transcript has
    no backslash, the document written is [s]: the decoder of line 87
    reads back the encoder's text and the lookup of line 90 finds [s]. *)
Theorem envelope_reply_is_document (key a0 tp op : pystr) (w : world) (b : bytes) (t s w1 w2 : pystr)
    (ind : option nat) :
  key <> [] -> dict_get tp (w_files w) = Some b -> utf8_decode b = Some t ->
  existsb (N.eqb 92) t = false -> forallb is_json_ws w1 = true -> forallb is_json_ws w2 = true ->
  gemini_post (GEMINI_URL (Some key)) (dumps None (payload_json (universal_newlines t)))
    = Ok (w1 ++ dumps ind (reply_with (JStr s)) ++ w2) ->
  scalars s -> ~ In op (w_readonly w) -> scalars op ->
  exists w' bs, main (Some key) [a0; tp; op] w = (Ok tt, w') /\
    dict_get op (w_files w') = Some bs /\ utf8_decode bs = Some s.
Proof.
  intros Hk Hb Ht Hn H1 H2 Hg Hs Hop Hops. rewrite main_run by exact Hk.
  destruct (reply_with_str s (scalars_str_rt s Hs)) as [Hrt He].
  pose proof (loads_dumps_ws ind _ w1 w2 Hrt H1 H2) as Hj.
  destruct (run_after_reply _ tp op w b t s _ _ Hb Ht Hg Hj) as (w' & bs & R1 & R2 & R3);
    try assumption; [unfold response_text; now rewrite He|].
  exists w', bs. split; [exact R1|]. split; [exact R2|]. rewrite R3.
  unfold transcript_report. rewrite utterances_without_backslash by exact (newlines_no_backslash t Hn).
  now rewrite app_nil_r.
Qed.

(** C5.  A failure of the request (line 86) or of decoding the reply as
    JSON (line 87) escapes the run: the script ends with the exception,
    before the output file is opened. *)
Theorem network_error_propagates (key a0 tp op : pystr) (w : world) (b : bytes) (t : pystr)
    (e : exn) :
  key <> [] -> dict_get tp (w_files w) = Some b -> utf8_decode b = Some t ->
  (gemini_post (GEMINI_URL (Some key)) (dumps None (payload_json (universal_newlines t))) = Raise e \/
   exists reply, gemini_post (GEMINI_URL (Some key)) (dumps None (payload_json (universal_newlines t)))
                 = Ok reply /\ json_loads reply = Raise e) ->
  main (Some key) [a0; tp; op] w = (Raise e, w).
Proof.
  intros Hk Hb Ht Hg. rewrite main_run by exact Hk. unfold run_bullshit_meter.
  erewrite st_bind_ok by (eapply read_text_ok; eassumption).
  rewrite st_lift_bind, extract_refines, st_lift_bind, request_body_ok, st_lift_bind.
  destruct Hg as [Hg | (reply & Hg & Hj)]; rewrite Hg; [reflexivity|].
  rewrite st_lift_bind, Hj. reflexivity.
Qed.

(** C6.  A reply whose text field is not a string (a number, an object,
    [null], a list) makes [out.write] raise [TypeError] after [open]
    has truncated the output file: the run fails and leaves an empty
    file. *)
Theorem non_str_text_truncates (key a0 tp op : pystr) (w : world) (b : bytes) (t reply : pystr)
    (data v : json) :
  key <> [] -> dict_get tp (w_files w) = Some b -> utf8_decode b = Some t ->
  existsb (N.eqb 92) t = false ->
  gemini_post (GEMINI_URL (Some key)) (dumps None (payload_json (universal_newlines t))) = Ok reply ->
  json_loads reply = Ok data ->
  extract_text data = Ok v -> (forall s, v <> JStr s) -> ~ In op (w_readonly w) ->
  main (Some key) [a0; tp; op] w =
  (Raise (Exc TypeError (py "write() argument must be str, not " ++ type_name v)), set_file op [] w).
Proof.
  intros Hk Hb Ht Hn Hg Hj He Hv Hop. rewrite main_run by exact Hk.
  rewrite (run_reply_text_no_backslash _ tp op w b t reply data Hb Ht Hn Hg Hj).
  unfold response_text. rewrite He.
  erewrite st_bind_ok by (apply open_write_ok; exact Hop).
  destruct v; try (exfalso; eapply Hv; reflexivity); reflexivity.
Qed.

(** C26.  A reply whose text holds a lone surrogate (JSON can carry
    [\ud800]) cannot be encoded: [out.write] raises [UnicodeEncodeError]
    and the output file is left empty. *)
Theorem surrogate_text_truncates (key a0 tp op : pystr) (w : world) (b : bytes) (t s reply : pystr)
    (data : json) :
  key <> [] -> dict_get tp (w_files w) = Some b -> utf8_decode b = Some t ->
  existsb (N.eqb 92) t = false ->
  gemini_post (GEMINI_URL (Some key)) (dumps None (payload_json (universal_newlines t))) = Ok reply ->
  json_loads reply = Ok data ->
  extract_text data = Ok (JStr s) -> ~ scalars s -> ~ In op (w_readonly w) ->
  main (Some key) [a0; tp; op] w =
  (Raise (encode_error s), set_file op [] w).
Proof.
  intros Hk Hb Ht Hn Hg Hj He Hs Hop. rewrite main_run by exact Hk.
  rewrite (run_reply_text_no_backslash _ tp op w b t reply data Hb Ht Hn Hg Hj).
  unfold response_text. rewrite He.
  erewrite st_bind_ok by (apply open_write_ok; exact Hop).
  cbn [write_value]. unfold st_bind at 1, write_text.
  destruct (utf8_encode s) eqn:E; [|reflexivity].
  exfalso. apply Hs, utf8_encode_scalars. eauto.
Qed.

(** C22.  Without a key (unset or empty) the script raises [ValueError]
    naming [GEMINI_API_KEY] before it reads or writes anything. *)
Theorem missing_key_refused (key : option pystr) (argv : list pystr) (w : world) :
  key = None \/ key = Some [] ->
  main key argv w = (Raise (Exc ValueError key_missing_msg), w) /\
  is_prefix (py "GEMINI_API_KEY") key_missing_msg = true.
Proof. intros [-> | ->]; split; reflexivity. Qed.

(** C23.  With a number of arguments other than two the script prints the
    usage line and ends normally: its exit status is 0. *)
Theorem usage_exits_zero (key : pystr) (argv : list pystr) (w : world) :
  key <> [] -> length argv <> 3%nat ->
  main (Some key) argv w = (Ok tt, World (w_files w) (w_readonly w) (w_stdout w ++ usage ++ [10%N])) /\
  exit_code (fst (main (Some key) argv w)) = 0%nat.
Proof.
  intros Hk Hl.
  assert (H : main (Some key) argv w = print usage w).
  { destruct key; [congruence|]. destruct argv as [|x0 [|x1 [|x2 [|x3 r]]]]; try reflexivity.
    simpl in Hl. lia. }
  rewrite H, print_ok by (apply ascii_scalars; reflexivity). split; reflexivity.
Qed.

(** C24.  A transcript path that does not exist aborts the run with
    [FileNotFoundError] before anything is written. *)
Theorem missing_transcript_aborts (key a0 tp op : pystr) (w : world) :
  key <> [] -> dict_get tp (w_files w) = None ->
  main (Some key) [a0; tp; op] w =
  (Raise (Exc FileNotFoundError (errno_msg "2" "No such file or directory" tp)), w).
Proof.
  intros Hk Hp. rewrite main_run by exact Hk. unfold run_bullshit_meter, st_bind at 1, read_text.
  now rewrite Hp.
Qed.

(** C16.  A transcript that is not valid UTF-8 (saved in Latin-1, say) aborts
    the run with [UnicodeDecodeError] whose message names the first byte
    that cannot be decoded and its offset in the file, before the
    service is called or anything is written. *)
Theorem undecodable_transcript_aborts (key a0 tp op : pystr) (w : world) (b : bytes) (e : utf8_error) :
  key <> [] -> dict_get tp (w_files w) = Some b -> decode_utf8 b 0 = inr e ->
  main (Some key) [a0; tp; op] w = (Raise (decode_error b e), w).
Proof.
  intros Hk Hp He. rewrite main_run by exact Hk. unfold run_bullshit_meter, st_bind at 1, read_text.
  now rewrite Hp, He.
Qed.

(** C25.  An output path that cannot be opened for writing aborts the
    run with [OSError] after the request, with no file changed and
    nothing printed. *)
Theorem unwritable_output_aborts (key a0 tp op : pystr) (w : world) (b : bytes) (t s reply : pystr)
    (data : json) :
  key <> [] -> dict_get tp (w_files w) = Some b -> utf8_decode b = Some t ->
  gemini_post (GEMINI_URL (Some key)) (dumps None (payload_json (universal_newlines t))) = Ok reply ->
  json_loads reply = Ok data ->
  response_text data = JStr s -> In op (w_readonly w) ->
  main (Some key) [a0; tp; op] w = (Raise (Exc OSError (errno_msg "13" "Permission denied" op)), w).
Proof.
  intros Hk Hb Ht Hg Hj Hs Hop. rewrite main_run by exact Hk.
  rewrite (run_decoded _ tp op w b t reply data Hb Ht Hg Hj), st_lift_bind, Hs, append_filler_str.
  erewrite st_bind_raise by (apply open_write_refused; exact Hop). reflexivity.
Qed.

(** C27.  The quick preview of line 107, meant to show the first six
    lines, cuts the document at the two-character sequence backslash,
    [n] (code points 92 and 110), not at line breaks: a document without
    that sequence is printed whole, stripped, however many lines it
    has. *)
Theorem preview_whole_document (s : pystr) :
  find_sub [92; 110]%N (py_strip s) = None -> preview s = Ok (py_strip s).
Proof.
  intros H. unfold preview, py_split. change bs_n with [92; 110]%N.
  cbn [res_bind split_fuel]. rewrite H. reflexivity.
Qed.

(** C28.  The request body is [json.dumps] of the payload whose one text
    part is the template with the transcript inserted unaltered at
    [{transcript}]; the body is ASCII, so [requests] sends it (it encodes a
    [str] body as Latin-1) whatever the transcript holds. *)
Theorem request_body_spec (t : pystr) :
  request_body t = Ok (dumps None (payload_json t)) /\
  py_format BULLSHIT_PROMPT [(py "transcript", t)] = Ok (prompt_head ++ t ++ prompt_tail) /\
  forallb is_ascii (dumps None (payload_json t)) = true.
Proof. split; [|split]; [apply request_body_ok | apply prompt_format | apply request_body_ascii]. Qed.

(** C29.  The filler section (lines 96-100) holds no line break: its
    [\\n] are the two characters backslash and [n], so the Markdown section
    is one line. *)
Theorem filler_section_one_line {HU : UnicodeDB_ok U} (t : pystr) :
  ~ In 10%N (render_report (transcript_report t)).
Proof.
  intros Hin.
  assert (H : Forall (fun c => c <> 10%N) (render_report (transcript_report t))).
  { apply transcript_report_forall.
    - intros c Hc E. subst c. discriminate.
    - intros l Hl. apply py_splitlines_nolb in Hl. eapply Forall_impl; [|exact Hl].
      intros c Hc E. subst c. rewrite u_linebreak_ascii in Hc by lia. discriminate. }
  exact (proj1 (Forall_forall _ _) H 10%N Hin eq_refl).
Qed.

End Claims.

(** ** Witnesses: concrete runs *)

Definition transcript_bytes : bytes := py "SPEAKER_00: Um, so.".
Definition w_in : world := World [(py "in.txt", transcript_bytes)] [] [].
Definition argv_run : list pystr := [py "bullshit_meter.py"; py "in.txt"; py "out.md"].

(** A reply with no [candidates]. *)
Definition reply_no_text : json := JObj [(py "error", JObj [(py "code", JInt 400)])].

(** A service that answers with the JSON text of [v]. *)
Definition json_service (v : json) : GeminiService := reply_service (Ok (dumps None v)).

Lemma reply_without_text_still_written_witness :
  exists w' bs,
    @main latin1_db (json_service reply_no_text) (Some (py "k")) argv_run w_in = (Ok tt, w') /\
    dict_get (py "out.md") (w_files w') = Some bs /\
    utf8_decode bs = Some (error_text (Exc KeyError (py "'candidates'")) reply_no_text
                           ++ render_report (transcript_report (universal_newlines transcript_bytes))).
Proof.
  apply (@reply_without_text_still_written latin1_db (json_service reply_no_text)
           (py "k") (py "bullshit_meter.py") (py "in.txt") (py "out.md") w_in transcript_bytes
           transcript_bytes (dumps None reply_no_text) reply_no_text (Exc KeyError (py "'candidates'")));
    [discriminate | reflexivity | vm_compute; reflexivity | reflexivity | vm_compute; reflexivity
    | vm_compute; reflexivity | simpl; tauto | apply ascii_scalars; reflexivity].
Defined.

Lemma narrative_is_document_witness :
  exists w' bs,
    @main latin1_db (json_service (reply_with (JStr (py "Clear."))))
      (Some (py "k")) argv_run w_in = (Ok tt, w') /\
    dict_get (py "out.md") (w_files w') = Some bs /\ utf8_decode bs = Some (py "Clear.").
Proof.
  apply (@narrative_is_document latin1_db (json_service (reply_with (JStr (py "Clear."))))
           (py "k") (py "bullshit_meter.py") (py "in.txt") (py "out.md") w_in transcript_bytes
           transcript_bytes (py "Clear.") (dumps None (reply_with (JStr (py "Clear."))))
           (reply_with (JStr (py "Clear."))));
    [discriminate | reflexivity | vm_compute; reflexivity | vm_compute; reflexivity | reflexivity
    | vm_compute; reflexivity | vm_compute; reflexivity | apply ascii_scalars; reflexivity
    | simpl; tauto | apply ascii_scalars; reflexivity].
Defined.

(** A reply that is not JSON: [json.loads] fails at its first code point. *)
Lemma network_error_propagates_witness :
  @main latin1_db (reply_service (Ok (py "<html>"))) (Some (py "k")) argv_run w_in =
  (Raise (Exc JSONDecodeError (py "Expecting value: line 1 column 1 (char 0)")), w_in).
Proof.
  apply (@network_error_propagates latin1_db (reply_service (Ok (py "<html>")))
           (py "k") (py "bullshit_meter.py") (py "in.txt") (py "out.md") w_in transcript_bytes
           transcript_bytes); [discriminate | reflexivity | vm_compute; reflexivity |].
  right. exists (py "<html>"). split; [reflexivity | vm_compute; reflexivity].
Defined.

Lemma non_str_text_truncates_witness :
  @main latin1_db (json_service (reply_with (JInt 5))) (Some (py "k")) argv_run w_in =
  (Raise (Exc TypeError (py "write() argument must be str, not int")), set_file (py "out.md") [] w_in).
Proof.
  apply (@non_str_text_truncates latin1_db (json_service (reply_with (JInt 5)))
           (py "k") (py "bullshit_meter.py") (py "in.txt") (py "out.md") w_in transcript_bytes
           transcript_bytes (dumps None (reply_with (JInt 5))) (reply_with (JInt 5)) (JInt 5));
    [discriminate | reflexivity | vm_compute; reflexivity | vm_compute; reflexivity | reflexivity
    | vm_compute; reflexivity | vm_compute; reflexivity | discriminate | simpl; tauto].
Defined.

Lemma surrogate_text_truncates_witness :
  @main latin1_db (json_service (reply_with (JStr [97; 55296]%N))) (Some (py "k")) argv_run w_in =
  (Raise (encode_error [97; 55296]%N), set_file (py "out.md") [] w_in) /\
  encode_error [97; 55296]%N =
  Exc UnicodeEncodeError (py "'utf-8' codec can't encode character '\ud800' in position 1: surrogates not allowed").
Proof.
  split; [|vm_compute; reflexivity].
  apply (@surrogate_text_truncates latin1_db (json_service (reply_with (JStr [97; 55296]%N)))
           (py "k") (py "bullshit_meter.py") (py "in.txt") (py "out.md") w_in transcript_bytes
           transcript_bytes [97; 55296]%N (dumps None (reply_with (JStr [97; 55296]%N)))
           (reply_with (JStr [97; 55296]%N)));
    [discriminate | reflexivity | vm_compute; reflexivity | vm_compute; reflexivity | reflexivity
    | vm_compute; reflexivity | vm_compute; reflexivity | | simpl; tauto].
  intros H. inversion H as [|? ? _ H']. inversion H' as [|? ? H'' _]. discriminate.
Defined.

Lemma missing_key_refused_witness :
  @main latin1_db (json_service reply_no_text) None argv_run w_in =
  (Raise (Exc ValueError key_missing_msg), w_in).
Proof.
  exact (proj1 (@missing_key_refused latin1_db (json_service reply_no_text) None argv_run w_in
                  (or_introl eq_refl))).
Defined.

Lemma usage_exits_zero_witness :
  exit_code (fst (@main latin1_db (json_service reply_no_text) (Some (py "k"))
                    [py "bullshit_meter.py"] w_in)) = 0%nat.
Proof.
  exact (proj2 (@usage_exits_zero latin1_db (json_service reply_no_text) (py "k")
                  [py "bullshit_meter.py"] w_in ltac:(discriminate) ltac:(simpl; lia))).
Defined.

Lemma envelope_reply_is_document_witness :
  exists w' bs,
    @main latin1_db (reply_service (Ok (dumps (Some 2%nat) (reply_with (JStr (py "Clear."))) ++ [10%N])))
      (Some (py "k")) argv_run w_in = (Ok tt, w') /\
    dict_get (py "out.md") (w_files w') = Some bs /\ utf8_decode bs = Some (py "Clear.").
Proof.
  apply (@envelope_reply_is_document latin1_db
           (reply_service (Ok (dumps (Some 2%nat) (reply_with (JStr (py "Clear."))) ++ [10%N])))
           (py "k") (py "bullshit_meter.py") (py "in.txt") (py "out.md") w_in transcript_bytes
           transcript_bytes (py "Clear.") [] [10%N] (Some 2%nat));
    [discriminate | reflexivity | vm_compute; reflexivity | vm_compute; reflexivity | reflexivity
    | reflexivity | reflexivity | apply ascii_scalars; reflexivity | simpl; tauto
    | apply ascii_scalars; reflexivity].
Defined.

Lemma missing_transcript_aborts_witness :
  @main latin1_db (json_service reply_no_text) (Some (py "k"))
    [py "bullshit_meter.py"; py "nope.txt"; py "out.md"] w_in =
  (Raise (Exc FileNotFoundError (py "[Errno 2] No such file or directory: 'nope.txt'")), w_in).
Proof.
  apply (@missing_transcript_aborts latin1_db (json_service reply_no_text) (py "k")
           (py "bullshit_meter.py") (py "nope.txt") (py "out.md") w_in);
    [discriminate | reflexivity].
Defined.

(** [SPEAKER_00: caf\xe9] and a newline: the transcript in Latin-1. *)
Definition latin1_transcript : bytes :=
  [83; 80; 69; 65; 75; 69; 82; 95; 48; 48; 58; 32; 99; 97; 102; 233; 10]%N.

Lemma undecodable_transcript_aborts_witness :
  @main latin1_db (json_service reply_no_text) (Some (py "k")) argv_run
    (World [(py "in.txt", latin1_transcript)] [] []) =
  (Raise (Exc UnicodeDecodeError
            (py "'utf-8' codec can't decode byte 0xe9 in position 15: invalid continuation byte")),
   World [(py "in.txt", latin1_transcript)] [] []).
Proof.
  apply (@undecodable_transcript_aborts latin1_db (json_service reply_no_text) (py "k")
           (py "bullshit_meter.py") (py "in.txt") (py "out.md") (World [(py "in.txt", latin1_transcript)] [] [])
           latin1_transcript (Utf8Error 15 16 InvalidContinuation));
    [discriminate | reflexivity | reflexivity].
Defined.

Lemma unwritable_output_aborts_witness :
  @main latin1_db (json_service (reply_with (JStr (py "Clear.")))) (Some (py "k")) argv_run
    (World (w_files w_in) [py "out.md"] []) =
  (Raise (Exc OSError (py "[Errno 13] Permission denied: 'out.md'")), World (w_files w_in) [py "out.md"] []).
Proof.
  apply (@unwritable_output_aborts latin1_db (json_service (reply_with (JStr (py "Clear."))))
           (py "k") (py "bullshit_meter.py") (py "in.txt") (py "out.md")
           (World (w_files w_in) [py "out.md"] []) transcript_bytes transcript_bytes (py "Clear.")
           (dumps None (reply_with (JStr (py "Clear.")))) (reply_with (JStr (py "Clear."))));
    [discriminate | reflexivity | vm_compute; reflexivity | reflexivity | vm_compute; reflexivity
    | vm_compute; reflexivity | simpl; tauto].
Defined.

(** Seven lines, all printed. *)
Definition seven_lines : pystr :=
  py "# Report" ++ flat_map (fun l => [10%N] ++ py l) ["a"; "b"; "c"; "d"; "e"; "f"]%string.

Lemma preview_whole_document_witness :
  find_sub [92%N; 110%N] (@py_strip latin1_db seven_lines) = None /\
  @preview latin1_db seven_lines = Ok seven_lines.
Proof.
  assert (H : find_sub [92%N; 110%N] (@py_strip latin1_db seven_lines) = None) by (vm_compute; reflexivity).
  split; [exact H|].
  rewrite (@preview_whole_document latin1_db seven_lines H). vm_compute. reflexivity.
Defined.

Lemma filler_section_one_line_witness :
  ~ In 10%N (@render_report (transcript_report (py "SPEAKER_\12: \bum\b"))).
Proof. exact (@filler_section_one_line latin1_db latin1_db_ok _). Defined.
