(* ===== verification/Network.v ===== *)
(** * The request as an interaction: waiting for the service

    [requests.post(GEMINI_URL, headers=headers, data=json.dumps(payload))]
    (src/bullshit_meter.py, line 86) is given no [timeout=]: the call
    returns when the service answers (a reply, or a connection error
    raised as [RequestException]) and blocks as long as it does not.
    [Report] models the service as a function that always answers; this
    file models the run as a program that stops at the request
    ([Posting], with the continuation of lines 87-107) and a network that
    answers or not at each instant ([sched]).

    - [before_post] is lines 70-86 up to the call, [after_reply] lines
      87-107 from the reply on, [start] the script up to the request;
      [answer_with] answers the request with a [GeminiService], and
      [answer_start] shows that this is [Report.main].
    - [step] is the transition relation on configurations (the program
      and the time), [star] and [infseq] its finite and infinite runs
      (after Leroy's [Sequences]), [step_fn] the same step as a function.
    - The theorem: with a network that never answers, the run goes on
      forever and never halts, with the output file untouched (the
      specification, section 4.2, says the run always completes and always
      produces a file).  [sched_late_run] computes a run that is answered
      at instant 3 and writes the document. *)

From Stdlib Require Import Ascii String List Arith NArith ZArith Lia Bool.
From S2P Require Import Prelude Utf8 PyStr Regex Filler World Json JsonParse Report.
Import ListNotations.
Local Open Scope py_scope.

(** ** Runs of a transition relation (after Leroy's [Sequences]) *)

Section Sequences.
Variable A : Type.
Variable R : A -> A -> Prop.

Inductive star : A -> A -> Prop :=
| star_refl a : star a a
| star_step a b c : R a b -> star b c -> star a c.

Definition irred (a : A) : Prop := forall b, ~ R a b.

(** An infinite run: a set of states containing [a] from each of which a
    step leads back into the set. *)
Definition infseq (a : A) : Prop :=
  exists X : A -> Prop, X a /\ (forall a1, X a1 -> exists a2, R a1 a2 /\ X a2).

Lemma star_one a b : R a b -> star a b.
Proof. eauto using star. Qed.

Lemma star_trans a b : star a b -> forall c, star b c -> star a c.
Proof. induction 1; eauto using star. Qed.

(** A set closed under steps that contains [a] contains every state
    [a] reaches. *)
Lemma star_closed (X : A -> Prop) :
  (forall a1 a2, X a1 -> R a1 a2 -> X a2) -> forall a b, star a b -> X a -> X b.
Proof. intros HX a b H. induction H; eauto. Qed.

End Sequences.

Arguments star {A} R _ _.
Arguments star_refl {A R} a.
Arguments star_step {A R} a b c.
Arguments irred {A} R a.
Arguments infseq {A} R a.
Arguments star_one {A R} a b.
Arguments star_trans {A R} a b.
Arguments star_closed {A R} X.

#[export] Hint Resolve star_refl star_one : core.

(** ** The program stopped at the request *)

Section Interaction.
Context `{U : UnicodeDB}.

(** The run either halted (its outcome and the world), or waits at line
    86 for the answer to the request [body] sent to [url], with the world
    and the rest of the run. *)
Inductive proc :=
| Halted (r : res unit) (w : world)
| Posting (url body : pystr) (w : world) (k : res pystr -> io unit).

(** Lines 70-86, up to the call: the transcript, the filler report and
    the request body. *)
Definition before_post (transcript_path : pystr) : io (dict (dict nat) * pystr) :=
  transcript <-- read_text transcript_path ;;;
  filler_counts <-- st_lift (extract_speaker_filler_counts transcript) ;;;
  body <-- st_lift (request_body transcript) ;;;
  st_ret (filler_counts, body).

(** Lines 86-107 from the answer on: [requests.post] returns the reply's
    text or raises. *)
Definition after_reply (output_path : pystr) (filler_counts : dict (dict nat))
    (answer : res pystr) : io unit :=
  reply <-- st_lift answer ;;;
  data <-- st_lift (json_loads reply) ;;;
  text <-- st_lift (append_filler (response_text data) filler_counts) ;;;
  _ <-- open_write output_path ;;;
  s <-- write_value output_path text ;;;
  _ <-- print (py "Bullshit report saved to: " ++ output_path ++ bs_n) ;;;
  _ <-- print (py "--- Quick Preview ---") ;;;
  pv <-- st_lift (preview s) ;;;
  print pv.

Definition halt_with (c : res unit * world) : proc := Halted (fst c) (snd c).

(** The script up to the request: the module-level check (line 14), the
    argument check (line 112), then [run_bullshit_meter] to line 86. *)
Definition start (key : option pystr) (argv : list pystr) (w : world) : proc :=
  match check_config key with
  | Raise e => Halted (Raise e) w
  | Ok _ =>
      match argv with
      | [_; transcript_path; output_path] =>
          match before_post transcript_path w with
          | (Ok (fc, body), w1) => Posting (GEMINI_URL key) body w1 (after_reply output_path fc)
          | (Raise e, w1) => Halted (Raise e) w1
          end
      | _ => halt_with (print usage w)
      end
  end.

(** Answering the request as a [GeminiService] does. *)
Definition answer_with (G : GeminiService) (p : proc) : res unit * world :=
  match p with
  | Halted r w => (r, w)
  | Posting url body w k => k (gemini_post url body) w
  end.

(** ** The network and the transitions *)

Section Network.
(** [sched t] is what the network delivers at instant [t]: nothing yet,
    or the answer to the request. *)
Variable sched : nat -> option (res pystr).

Record cfg := Cfg { cfg_proc : proc; cfg_time : nat }.

Inductive step : cfg -> cfg -> Prop :=
| step_wait url body w k t :
    sched t = None ->
    step (Cfg (Posting url body w k) t) (Cfg (Posting url body w k) (S t))
| step_answer url body w k t r :
    sched t = Some r ->
    step (Cfg (Posting url body w k) t) (Cfg (halt_with (k r w)) (S t)).

Definition step_fn (c : cfg) : option cfg :=
  match cfg_proc c with
  | Halted _ _ => None
  | Posting url body w k =>
      match sched (cfg_time c) with
      | None => Some (Cfg (Posting url body w k) (S (cfg_time c)))
      | Some r => Some (Cfg (halt_with (k r w)) (S (cfg_time c)))
      end
  end.

Fixpoint run_for (n : nat) (c : cfg) : cfg :=
  match n with
  | 0 => c
  | S n' => match step_fn c with Some c' => run_for n' c' | None => c end
  end.

Definition halted (c : cfg) : bool :=
  match cfg_proc c with Halted _ _ => true | Posting _ _ _ _ => false end.

End Network.
End Interaction.

(** ** Lemmas *)

Section Lemmas.
Context `{U : UnicodeDB}.

(** [answer_with] of the stopped program is [main]: the run split at
    line 86 is the run. *)
Lemma answer_start (G : GeminiService) (key : option pystr) (argv : list pystr) (w : world) :
  answer_with G (start key argv w) = main key argv w.
Proof.
  unfold start, main. cbn [st_bind st_lift]. destruct (check_config key); [|reflexivity].
  destruct argv as [|a0 [|tp [|op [|? ?]]]];
    try (unfold halt_with; destruct (print usage w); reflexivity).
  unfold run_bullshit_meter, before_post, st_bind, st_lift, st_ret.
  destruct (read_text tp w) as [[t|e] w1]; [|reflexivity].
  destruct (extract_speaker_filler_counts t); [|reflexivity].
  destruct (request_body t); reflexivity.
Qed.

(** With a readable transcript the script reaches the request, with the
    world unchanged and the body of [Report.payload_json]. *)
Lemma start_posting (key a0 tp op : pystr) (w : world) (b : bytes) (t : pystr) :
  key <> [] -> dict_get tp (w_files w) = Some b -> utf8_decode b = Some t ->
  start (Some key) [a0; tp; op] w =
  Posting (GEMINI_URL (Some key)) (dumps None (payload_json (universal_newlines t))) w
    (after_reply op (transcript_report (universal_newlines t))).
Proof.
  intros Hk Hb Ht. unfold start. destruct key as [|c key]; [congruence|]. cbn [check_config].
  unfold before_post. erewrite st_bind_ok by (eapply read_text_ok; eassumption).
  rewrite st_lift_bind, extract_refines, st_lift_bind, request_body_ok. reflexivity.
Qed.

Section Steps.
Variable sched : nat -> option (res pystr).

Lemma step_fn_spec (c c' : cfg) : step sched c c' <-> step_fn sched c = Some c'.
Proof.
  split.
  - destruct 1 as [url body w k t H|url body w k t r H]; unfold step_fn; cbn; now rewrite H.
  - destruct c as [[r w|url body w k] t]; unfold step_fn; cbn; [discriminate|].
    destruct (sched t) eqn:E; intros [= <-]; constructor; exact E.
Qed.

Lemma halted_irred (c : cfg) : halted c = true -> irred (step sched) c.
Proof. intros H c' Hs. apply step_fn_spec in Hs. destruct c as [[] ?]; discriminate. Qed.

(** While nothing arrives, every configuration reached is the same
    request, later. *)
Lemma silent_reach url body w k (t : nat) :
  (forall t', t <= t' -> sched t' = None) ->
  forall c, star (step sched) (Cfg (Posting url body w k) t) c ->
  exists t', t <= t' /\ c = Cfg (Posting url body w k) t'.
Proof.
  intros Hn c Hs.
  refine (star_closed (fun c => exists t', t <= t' /\ c = Cfg (Posting url body w k) t')
            _ _ c Hs _); [|exists t; split; [lia|reflexivity]].
  intros c1 c2 (t' & Ht' & ->) H12. inversion H12 as [| ? ? ? ? ? r Hr]; subst.
  - exists (S t'). split; [lia|reflexivity].
  - rewrite Hn in Hr by lia. discriminate.
Qed.

(** ... and that is an infinite run. *)
Lemma silent_infseq url body w k (t : nat) :
  (forall t', t <= t' -> sched t' = None) -> infseq (step sched) (Cfg (Posting url body w k) t).
Proof.
  intros Hn. exists (fun c => exists t', t <= t' /\ c = Cfg (Posting url body w k) t').
  split; [exists t; split; [lia|reflexivity]|].
  intros c (t' & Ht' & ->). eexists. split; [apply step_wait; apply Hn; lia|].
  exists (S t'). split; [lia|reflexivity].
Qed.

End Steps.
End Lemmas.

(** ** Theorems *)

Section Claims.
Context `{U : UnicodeDB}.
Variable sched : nat -> option (res pystr).

(** C18.  No timeout: once a readable transcript has been sent, a network that
    delivers nothing from [t0] on keeps the run waiting forever; no
    configuration it reaches has halted, and its world is the world
    before the run: the output file is neither created nor truncated. *)
Theorem silent_service_blocks (key a0 tp op : pystr) (w : world) (b : bytes) (t : pystr) (t0 : nat) :
  key <> [] -> dict_get tp (w_files w) = Some b -> utf8_decode b = Some t ->
  (forall t', t0 <= t' -> sched t' = None) ->
  infseq (step sched) (Cfg (start (Some key) [a0; tp; op] w) t0) /\
  forall c, star (step sched) (Cfg (start (Some key) [a0; tp; op] w) t0) c ->
    halted c = false /\ exists url body k, cfg_proc c = Posting url body w k.
Proof.
  intros Hk Hb Ht Hn. rewrite (start_posting key a0 tp op w b t Hk Hb Ht). split.
  - exact (silent_infseq sched _ _ _ _ t0 Hn).
  - intros c Hc. destruct (silent_reach sched _ _ _ _ t0 Hn c Hc) as (t' & _ & ->).
    split; [reflexivity|]. do 3 eexists. reflexivity.
Qed.

End Claims.

(** ** The theorems on concrete runs *)

(** A network that answers at instant 3 with the reply of Scenario B. *)
Definition sched_late : nat -> option (res pystr) :=
  fun t => if t <? 3 then None else Some (Ok (dumps None (reply_with (JStr (py "Clear."))))).

Lemma silent_service_blocks_witness :
  infseq (step (fun _ => None)) (Cfg (@start latin1_db (Some (py "k")) argv_run w_in) 0) /\
  forall c, star (step (fun _ => None)) (Cfg (@start latin1_db (Some (py "k")) argv_run w_in) 0) c ->
    halted c = false /\ exists url body k, cfg_proc c = Posting url body w_in k.
Proof.
  apply (@silent_service_blocks latin1_db (fun _ => None) (py "k") (py "bullshit_meter.py") (py "in.txt")
           (py "out.md") w_in transcript_bytes transcript_bytes 0);
    [discriminate | reflexivity | vm_compute; reflexivity | reflexivity].
Defined.

(** The run of [sched_late] computed: three instants of waiting, then the
    answer, and the document of Scenario B is written. *)
Example sched_late_run :
  exists w', run_for sched_late 5 (Cfg (@start latin1_db (Some (py "k")) argv_run w_in) 0)
             = Cfg (Halted (Ok tt) w') 4 /\ dict_get (py "out.md") (w_files w') = Some (py "Clear.").
Proof. eexists. split; [vm_compute; reflexivity | vm_compute; reflexivity]. Qed.
