(* ===== verification/Dotenv.v ===== *)
(** * [load_dotenv()] and [os.getenv] (src/bullshit_meter.py, lines 7 and 9)

    At import the script calls python-dotenv's [load_dotenv()] (line 7)
    and then reads [os.getenv("GEMINI_API_KEY")] (line 9).  With no
    arguments [load_dotenv] looks for a file [.env] in the directory of
    the script and then in each parent directory up to [/]
    ([find_dotenv], [_walk_to_root]); it reads the first one it finds as
    UTF-8 text ([open(path, encoding="utf-8")], universal newlines, as
    [World.read_text]), parses it into bindings ([parser.py]:
    [parse_stream], [parse_binding]), expands [${NAME}] and
    [${NAME:-default}] in the values ([resolve_variables],
    [parse_variables]) and copies the bindings into [os.environ] with
    [override=False]: a variable that is already set keeps its value
    ([set_as_environment_variables]).  Setting a variable goes through
    [os.putenv], which refuses a name holding [=] and a name or value
    holding a NUL code point with [ValueError].

    The model follows python-dotenv 1.0.  Each regular expression of
    [parser.py] is written as the function that computes its match, in
    the order [_sre] tries the alternatives: [quoted] for the quoted
    values (an escaped quote or any other code point, repeated, then the
    closing quote), [cut_comment] for the removal of a trailing comment
    from an unquoted value.
    [os.environ] is an insertion-ordered dict ([environ]); the run is
    [run_script]: [load_dotenv], [os.getenv], then [Report.main].  The
    warning python-dotenv logs for a line it cannot parse goes to
    standard error, which is not modelled; the line is skipped. *)

From Stdlib Require Import Ascii String List Arith NArith Lia Bool.
From S2P Require Import Prelude Utf8 PyStr World Json Report.
Import ListNotations.
Local Open Scope py_scope.
Local Open Scope N_scope.

Set Warnings "-register-all".

(** [os.environ]: names to values, in insertion order. *)
Abbreviation environ := (dict pystr).

Section Parser.
Context `{U : UnicodeDB}.

(** ** The character classes of [parser.py] *)

(** [[^\S\r\n]]: white space other than CR and LF. *)
Definition is_hspace (c : N) : bool := u_isspace c && negb (c =? 13) && negb (c =? 10).

(** [[^\r\n]]. *)
Definition not_eol (c : N) : bool := negb (c =? 13) && negb (c =? 10).

(** The longest prefix whose code points satisfy [p], and the rest: a
    greedy [[...]*]. *)
Fixpoint span (p : N -> bool) (s : pystr) : pystr * pystr :=
  match s with
  | c :: t => if p c then let (a, r) := span p t in (c :: a, r) else ([], s)
  | [] => ([], [])
  end.

Definition skip (p : N -> bool) (s : pystr) : pystr := snd (span p s).

(** ** The regular expressions of [parser.py], as the text after a match *)

(** [_export]: [(?:export[^\S\r\n]+)?]. *)
Definition read_export (s : pystr) : pystr :=
  match s with
  | 101 :: 120 :: 112 :: 111 :: 114 :: 116 :: (c :: _) as t =>
      if is_hspace c then skip is_hspace t else s
  | _ => s
  end.

(** [_single_quoted_key]: ['([^']+)'] after the quote. *)
Definition quoted_key (t : pystr) : option (pystr * pystr) :=
  match span (fun c => negb (c =? 39)) t with
  | ((_ :: _) as k, 39 :: r) => Some (k, r)
  | _ => None
  end.

(** [_unquoted_key]: [([^=\#\s]+)]. *)
Definition unquoted_key (s : pystr) : option (pystr * pystr) :=
  match span (fun c => negb (c =? 61) && negb (c =? 35) && negb (u_isspace c)) s with
  | ((_ :: _) as k, r) => Some (k, r)
  | _ => None
  end.

(** The body and closing quote [q] of [_single_quoted_value] ([q = ']) and
    [_double_quoted_value] ([q] the double quote): the repetition of an
    escaped quote or a code point other than [q], then [q], trying at each
    step the escaped quote first, then any other code point, then the
    closing quote, and backtracking on failure as [_sre] does. *)
Fixpoint quoted (q : N) (s : pystr) : option (pystr * pystr) :=
  match s with
  | [] => None
  | c :: t =>
      if c =? q then Some ([], t)
      else
        let other := match quoted q t with Some (v, r) => Some (c :: v, r) | None => None end in
        if c =? 92 then
          match t with
          | d :: t' =>
              if d =? q then
                match quoted q t' with
                | Some (v, r) => Some (92 :: d :: v, r)
                | None => other
                end
              else other
          | [] => None
          end
        else other
  end.

(** [decode_escapes]: [regex.sub] of each escape by its
    [unicode-escape] decoding, scanning left to right. *)
Fixpoint decode_escapes (esc : N -> option N) (s : pystr) : pystr :=
  match s with
  | 92 :: (d :: t) as t0 =>
      match esc d with
      | Some x => x :: decode_escapes esc t
      | None => 92 :: decode_escapes esc t0
      end
  | c :: t => c :: decode_escapes esc t
  | [] => []
  end.

(** [_single_quote_escapes]: [\\[\\']]. *)
Definition single_quote_escape (d : N) : option N :=
  if (d =? 92) || (d =? 39) then Some d else None.

(** [_double_quote_escapes]: a backslash, then a backslash, a quote, a
    double quote or one of [abfnrtv]. *)
Definition double_quote_escape (d : N) : option N :=
  if (d =? 92) || (d =? 39) || (d =? 34) then Some d
  else if d =? 97 then Some 7 else if d =? 98 then Some 8
  else if d =? 102 then Some 12 else if d =? 110 then Some 10
  else if d =? 114 then Some 13 else if d =? 116 then Some 9
  else if d =? 118 then Some 11 else None.

(** The substitution of [\s+#.*] by the empty string in [part]
    ([parse_unquoted_value]): everything from the first run of
    white space followed by [#] is dropped ([part] holds no line break,
    and the match at the leftmost start runs to the end). *)
Fixpoint cut_comment (s : pystr) : pystr :=
  match s with
  | [] => []
  | c :: t =>
      if u_isspace c && match skip u_isspace s with 35 :: _ => true | _ => false end then []
      else c :: cut_comment t
  end.

(** [str.rstrip()]. *)
Definition rstrip (s : pystr) : pystr := rev (lstrip (rev s)).

(** [parse_unquoted_value]. *)
Definition unquoted_value (s : pystr) : pystr * pystr :=
  let (part, r) := span not_eol s in (rstrip (cut_comment part), r).

(** A failed [read_regex] raises [Error] at the text where the match was
    tried; [inl r] is that text. *)
Abbreviation scan A := (sum pystr A).

(** [parse_value]. *)
Definition parse_value (s : pystr) : scan (pystr * pystr) :=
  match s with
  | 39 :: t =>
      match quoted 39 t with
      | Some (v, r) => inr (decode_escapes single_quote_escape v, r)
      | None => inl s
      end
  | 34 :: t =>
      match quoted 34 t with
      | Some (v, r) => inr (decode_escapes double_quote_escape v, r)
      | None => inl s
      end
  | [] => inr ([], [])
  | c :: _ => if (c =? 10) || (c =? 13) then inr ([], s) else inr (unquoted_value s)
  end.

(** [parse_key]: [None] for a comment line. *)
Definition parse_key (s : pystr) : scan (option pystr * pystr) :=
  match s with
  | 35 :: _ => inr (None, s)
  | 39 :: t => match quoted_key t with Some (k, r) => inr (Some k, r) | None => inl s end
  | _ => match unquoted_key s with Some (k, r) => inr (Some k, r) | None => inl s end
  end.

(** [_comment]: optional horizontal white space, [#] and the rest of
    the line, or nothing. *)
Definition read_comment (s : pystr) : pystr :=
  match skip is_hspace s with
  | 35 :: t => skip not_eol t
  | _ => s
  end.

(** [_end_of_line]: [[^\S\r\n]*(?:\r\n|\n|\r|$)]. *)
Definition end_of_line (s : pystr) : option pystr :=
  match skip is_hspace s with
  | [] => Some []
  | 13 :: 10 :: t => Some t
  | 13 :: t => Some t
  | 10 :: t => Some t
  | _ => None
  end.

(** [_rest_of_line]: [[^\r\n]*(?:\r|\n|\r\n)?], [\r] tried first. *)
Definition rest_of_line (s : pystr) : pystr :=
  match skip not_eol s with
  | 13 :: t => t
  | 10 :: t => t
  | r => r
  end.

(** The test of [reader.peek(1)] against [=] in [parse_binding]: [=], white
    space and the value, or no value. *)
Definition read_value (s : pystr) : scan (option pystr * pystr) :=
  match s with
  | 61 :: t => match parse_value (skip is_hspace t) with
               | inl r => inl r
               | inr (v, r) => inr (Some v, r)
               end
  | _ => inr (None, s)
  end.

(** ** Bindings *)

Record binding := Binding {
  b_key : option pystr;
  b_value : option pystr;
  b_error : bool;
}.

(** The body of [parse_binding] after the leading white space: the
    export prefix, the key, [=] and the value, a comment, the end of the
    line. *)
Definition binding_body (s : pystr) : scan (option pystr * option pystr * pystr) :=
  match parse_key (read_export s) with
  | inl r => inl r
  | inr (k, s3) =>
      match read_value (skip is_hspace s3) with
      | inl r => inl r
      | inr (v, s5) =>
          match end_of_line (read_comment s5) with
          | Some s6 => inr (k, v, s6)
          | None => inl (read_comment s5)
          end
      end
  end.

(** [parse_binding]: on [Error] the rest of the line is skipped from
    where the match failed. *)
Definition parse_binding (s : pystr) : binding * pystr :=
  match skip u_isspace s with
  | [] => (Binding None None false, [])
  | s1 =>
      match binding_body s1 with
      | inr (k, v, r) => (Binding k v false, r)
      | inl r => (Binding None None true, rest_of_line r)
      end
  end.

(** [parse_stream]: [while reader.has_next(): yield parse_binding(reader)];
    every binding consumes a code point ([parse_binding_progress]), so
    the fuel [S (length s)] is enough ([parse_stream_fuel]). *)
Fixpoint parse_stream_fuel (fuel : nat) (s : pystr) : list binding :=
  match fuel with
  | O => []
  | S f =>
      match s with
      | [] => []
      | _ => let (b, r) := parse_binding s in b :: parse_stream_fuel f r
      end
  end.

Definition parse_stream (s : pystr) : list binding := parse_stream_fuel (S (length s)) s.

(** [DotEnv.parse]: the bindings with a key, in order; a key without
    [=] has the value [None]. *)
Definition dotenv_values (s : pystr) : list (pystr * option pystr) :=
  flat_map (fun b => match b_key b with Some k => [(k, b_value b)] | None => [] end) (parse_stream s).

End Parser.

(** ** Variable expansion ([variables.py]) *)

Inductive atom :=
| Literal (value : pystr)
| Var (name : pystr) (default : option pystr).   (** [Variable] *)

(** [_posix_variable] at the start of [s]: [${], the name (no [}] or
    [:]), optionally [:-] and the default (no [}]), then [}]; the name,
    the default and the number of code points matched. *)
Definition posix_variable (s : pystr) : option (pystr * option pystr * nat) :=
  match s with
  | 36 :: 123 :: t =>
      let (name, r) := span (fun c => negb (c =? 125) && negb (c =? 58)) t in
      match r with
      | 125 :: _ => Some (name, None, (3 + length name)%nat)
      | 58 :: 45 :: u =>
          let (d, r2) := span (fun c => negb (c =? 125)) u in
          match r2 with
          | 125 :: _ => Some (name, Some d, (5 + length name + length d)%nat)
          | _ => None
          end
      | _ => None
      end
  | _ => None
  end.

Definition flush (lit : pystr) (rest : list atom) : list atom :=
  match lit with [] => rest | _ => Literal (rev lit) :: rest end.

(** [parse_variables]: [finditer] from left to right; [lit] is the
    literal text since the cursor (reversed) and [skip_n] the code points
    of the last match still to pass over. *)
Fixpoint parse_variables_aux (s lit : pystr) (skip_n : nat) : list atom :=
  match s with
  | [] => flush lit []
  | c :: t =>
      match skip_n with
      | S k => parse_variables_aux t lit k
      | O =>
          match posix_variable s with
          | Some (name, default, n) => flush lit (Var name default :: parse_variables_aux t [] (n - 1))
          | None => parse_variables_aux t (c :: lit) O
          end
      end
  end.

Definition parse_variables (value : pystr) : list atom := parse_variables_aux value [] O.

(** [Atom.resolve]: [env] gives [Some v] for a name bound to [v] and
    [None] for an unknown name; a binding without value ([None] in the
    [.env]) resolves to the empty string. *)
Definition resolve_atom (env : pystr -> option (option pystr)) (a : atom) : pystr :=
  match a with
  | Literal v => v
  | Var name default =>
      match env name with
      | Some (Some v) => v
      | Some None => []
      | None => match default with Some d => d | None => [] end
      end
  end.

(** The lookup of [resolve_variables] with [override=False]:
    [os.environ] first, then the values resolved so far. *)
Definition lookup_env (environ_ : environ) (new_values : dict (option pystr)) (name : pystr)
  : option (option pystr) :=
  match dict_get name environ_ with
  | Some v => Some (Some v)
  | None => dict_get name new_values
  end.

(** [resolve_variables(values, override=False)]. *)
Fixpoint resolve_variables_aux (env : environ) (values : list (pystr * option pystr))
    (new_values : dict (option pystr)) : dict (option pystr) :=
  match values with
  | [] => new_values
  | (name, value) :: rest =>
      let result := match value with
                    | None => None
                    | Some v => Some (flat_map (resolve_atom (lookup_env env new_values)) (parse_variables v))
                    end in
      resolve_variables_aux env rest (dict_set name result new_values)
  end.

Definition resolve_variables (env : environ) (values : list (pystr * option pystr)) : dict (option pystr) :=
  resolve_variables_aux env values [].

(** ** [os.environ] *)

(** [os.environ[k] = v]: [os.putenv] converts name and value with
    [PyUnicode_FSConverter], which refuses a NUL, then refuses a name
    holding [=]. *)
Definition putenv_error (k v : pystr) : option exn :=
  if existsb (N.eqb 0) k || existsb (N.eqb 0) v then Some (Exc ValueError (py "embedded null byte"))
  else if existsb (N.eqb 61) k then Some (Exc ValueError (py "illegal environment variable name"))
  else None.

Definition environ_set (k v : pystr) : stres environ unit := fun env =>
  match putenv_error k v with
  | Some e => (Raise e, env)
  | None => (Ok tt, dict_set k v env)
  end.

(** The loop of [set_as_environment_variables] with [override=False]. *)
Fixpoint set_all (d : dict (option pystr)) : stres environ unit :=
  match d with
  | [] => st_ret tt
  | (k, v) :: rest => fun env =>
      match dict_get k env, v with
      | None, Some x => (_ <-- environ_set k x ;;; set_all rest) env
      | _, _ => set_all rest env
      end
  end.

(** [set_as_environment_variables]: [False] for an empty dict. *)
Definition set_as_environment_variables (d : dict (option pystr)) : stres environ bool :=
  match d with
  | [] => st_ret false
  | _ => _ <-- set_all d ;;; st_ret true
  end.

(** ** Finding and reading [.env] *)

(** [os.path.join(dir, ".env")] for the directory [/c1/.../cn]. *)
Definition env_path (dir : list pystr) : pystr := flat_map (fun c => 47 :: c) dir ++ py "/.env".

(** [_walk_to_root] from the directory [rev rdir] up to [/]. *)
Fixpoint walk_to_root (rdir : list pystr) : list pystr :=
  env_path (rev rdir) :: match rdir with [] => [] | _ :: up => walk_to_root up end.

Definition is_file (w : world) (p : pystr) : bool :=
  match dict_get p (w_files w) with Some _ => true | None => false end.

(** [find_dotenv()]: the first [.env] from the script's directory up;
    [None] for the empty path [find_dotenv] returns when there is none. *)
Definition find_dotenv (w : world) (script_dir : list pystr) : option pystr :=
  find (is_file w) (walk_to_root (rev script_dir)).

Section Load.
Context `{U : UnicodeDB}.

(** [DotEnv._get_stream]: the file's text, or [StringIO('')]. *)
Definition dotenv_text (w : world) (script_dir : list pystr) : res pystr :=
  match find_dotenv w script_dir with
  | Some p => fst (read_text p w)
  | None => Ok []
  end.

(** ** What [load_dotenv] promises

    The environment after [load_dotenv], name by name: a variable that
    was set keeps its value, any other takes the value of the [.env]
    binding, if it has one.  [dotenv_refused] says that a binding to be
    copied is one [os.putenv] refuses. *)
Definition dotenv_merge (env : environ) (d : dict (option pystr)) (k : pystr) : option pystr :=
  match dict_get k env with
  | Some v => Some v
  | None => match dict_get k d with Some (Some v) => Some v | _ => None end
  end.

(** [bool(d)] of a dict. *)
Definition nonempty {A} (l : list A) : bool := match l with [] => false | _ => true end.

Definition refused_binding (env : environ) (kv : pystr * option pystr) : bool :=
  match dict_get (fst kv) env, snd kv with
  | None, Some x => match putenv_error (fst kv) x with Some _ => true | None => false end
  | _, _ => false
  end.

Definition dotenv_refused (env : environ) (d : dict (option pystr)) : bool :=
  existsb (refused_binding env) d.

(** [DotEnv.dict()]: the bindings, expanded against [os.environ]. *)
Definition dotenv_dict (env : environ) (text : pystr) : dict (option pystr) :=
  resolve_variables env (dotenv_values text).

(** [load_dotenv()] (line 7): the world is only read. *)
Definition load_dotenv (w : world) (script_dir : list pystr) : stres environ bool :=
  text <-- st_lift (dotenv_text w script_dir) ;;;
  fun env => set_as_environment_variables (dotenv_dict env text) env.

(** [os.getenv(name)]. *)
Definition os_getenv (name : pystr) (env : environ) : option pystr := dict_get name env.

Context `{G : GeminiService}.

(** The whole script: line 7, line 9, then the configuration check and
    [__main__] ([Report.main]). *)
Definition run_script (script_dir : list pystr) (argv : list pystr) (env : environ) (w : world)
  : res unit * environ * world :=
  match load_dotenv w script_dir env with
  | (Raise e, env') => (Raise e, env', w)
  | (Ok _, env') =>
      let (r, w') := main (os_getenv (py "GEMINI_API_KEY") env') argv w in (r, env', w')
  end.

End Load.

(** ** Lemmas: the environment *)

Lemma dict_set_keys_nodup {V} (k : pystr) (v : V) (d : dict V) :
  NoDup (keys d) -> NoDup (keys (dict_set k v d)).
Proof.
  induction d as [|[k' v'] d IH]; cbn [dict_set keys map]; intros H; [constructor; [intros []|constructor]|].
  inversion H as [|? ? Hn Hd]; subst. destruct (pystr_eqb_spec k k'); cbn [keys map fst]; [exact H|].
  constructor; [|exact (IH Hd)]. intros Hin. apply Hn.
  assert (Hk : forall x, In x (keys (dict_set k v d)) -> x = k \/ In x (keys d)).
  { clear. induction d as [|[k2 v2] d IH]; cbn [dict_set keys map fst]; [simpl; intros x [<-|[]]; now left|].
    destruct (pystr_eqb_spec k k2); cbn [map fst In]; [subst; tauto|]. intros x [->|Hx]; [tauto|].
    destruct (IH x Hx); tauto. }
  destruct (Hk k' Hin); [congruence|assumption].
Qed.

Lemma resolve_variables_nodup (env : environ) (vals : list (pystr * option pystr)) :
  NoDup (keys (resolve_variables env vals)).
Proof.
  unfold resolve_variables.
  assert (H : forall nv, NoDup (keys nv) -> NoDup (keys (resolve_variables_aux env vals nv))).
  { induction vals as [|[k v] vals IH]; intros nv Hnv; cbn [resolve_variables_aux]; [exact Hnv|].
    apply IH, dict_set_keys_nodup, Hnv. }
  apply H, NoDup_nil.
Qed.

(** Setting a variable never changes another one, and [set_all] never
    changes a variable that is set. *)
Lemma environ_set_other (k v k2 : pystr) (env env' : environ) (r : res unit) :
  environ_set k v env = (r, env') -> k2 <> k -> dict_get k2 env' = dict_get k2 env.
Proof.
  unfold environ_set. destruct (putenv_error k v); intros [= <- <-] Hne; [reflexivity|].
  apply dict_get_set_other, Hne.
Qed.

Lemma set_all_keeps (d : dict (option pystr)) (env env' : environ) (r : res unit) (k v : pystr) :
  set_all d env = (r, env') -> dict_get k env = Some v -> dict_get k env' = Some v.
Proof.
  revert env. induction d as [|[k1 v1] d IH]; intros env; cbn [set_all].
  - unfold st_ret. intros [= _ <-]. tauto.
  - intros Hs Hk. destruct (dict_get k1 env) eqn:E1; [exact (IH env Hs Hk)|].
    destruct v1 as [x|]; [|exact (IH env Hs Hk)].
    unfold st_bind in Hs. destruct (environ_set k1 x env) as [[[]|e] env1] eqn:Es.
    + apply (IH env1 Hs). destruct (pystr_eqb_spec k k1); [subst; congruence|].
      rewrite (environ_set_other k1 x k env env1 _ Es n). exact Hk.
    + injection Hs as _ <-. destruct (pystr_eqb_spec k k1); [subst; congruence|].
      rewrite (environ_set_other k1 x k env env1 _ Es n). exact Hk.
Qed.

Lemma refused_binding_other (env : environ) (k x : pystr) (kv : pystr * option pystr) :
  fst kv <> k -> refused_binding (dict_set k x env) kv = refused_binding env kv.
Proof. intros H. unfold refused_binding. now rewrite dict_get_set_other. Qed.

Lemma refused_rest (env : environ) (k x : pystr) (d : dict (option pystr)) :
  ~ In k (keys d) -> dotenv_refused (dict_set k x env) d = dotenv_refused env d.
Proof.
  intros H. unfold dotenv_refused. apply existsb_ext_in. intros kv Hin.
  apply refused_binding_other. intros <-. apply H, in_map, Hin.
Qed.

Lemma merge_cons_other (env : environ) (k k2 : pystr) (v : option pystr) (x : pystr) (d : dict (option pystr)) :
  k2 <> k -> dotenv_merge (dict_set k x env) d k2 = dotenv_merge env ((k, v) :: d) k2.
Proof.
  intros Hne. unfold dotenv_merge. rewrite dict_get_set_other by exact Hne. cbn [dict_get].
  destruct (pystr_eqb_spec k2 k); [contradiction|reflexivity].
Qed.

(** [set_all] against the abstract merge: it succeeds exactly when no
    binding to be copied is refused, and then leaves the merge. *)
Lemma set_all_spec (d : dict (option pystr)) : NoDup (keys d) -> forall env,
  (dotenv_refused env d = false ->
     exists env', set_all d env = (Ok tt, env') /\ forall k, dict_get k env' = dotenv_merge env d k) /\
  (dotenv_refused env d = true ->
     exists e env', set_all d env = (Raise e, env') /\ exc_cls e = ValueError).
Proof.
  induction d as [|[k v] d IH]; intros Hnd env.
  - split; [|discriminate]. intros _. exists env. split; [reflexivity|]. intros k.
    unfold dotenv_merge. destruct (dict_get k env); reflexivity.
  - inversion Hnd as [|? ? Hk Hd]; subst. specialize (IH Hd).
    unfold dotenv_refused. cbn [existsb set_all]. fold (dotenv_refused env d).
    unfold refused_binding. cbn [fst snd]. destruct (dict_get k env) as [x0|] eqn:E0.
    + cbn [orb]. destruct (IH env) as [IH1 IH2]. split; [|exact IH2].
      intros Hr. destruct (IH1 Hr) as (env' & Hs & Hg). exists env'. split; [exact Hs|]. intros k2.
      rewrite Hg. unfold dotenv_merge. cbn [dict_get].
      destruct (pystr_eqb_spec k2 k); [subst; now rewrite E0|reflexivity].
    + destruct v as [x|]; cbn [orb].
      2: { destruct (IH env) as [IH1 IH2]. split; [|exact IH2].
           intros Hr. destruct (IH1 Hr) as (env' & Hs & Hg). exists env'. split; [exact Hs|]. intros k2.
           rewrite Hg. unfold dotenv_merge. cbn [dict_get].
           destruct (pystr_eqb_spec k2 k); [|reflexivity].
           subst. now rewrite E0, (dict_get_none _ _ Hk). }
      unfold st_bind, environ_set. destruct (putenv_error k x) as [e|] eqn:Ep.
      * split; [discriminate|]. intros _. exists e, env. split; [reflexivity|].
        unfold putenv_error in Ep. destruct (_ || _); [|destruct (existsb _ k)]; now inversion Ep.
      * rewrite <- (refused_rest env k x d Hk). destruct (IH (dict_set k x env)) as [IH1 IH2].
        split; [|exact IH2]. intros Hr. destruct (IH1 Hr) as (env' & Hs & Hg).
        exists env'. split; [exact Hs|]. intros k2. rewrite Hg.
        destruct (pystr_eqb_spec k2 k); [|apply merge_cons_other; assumption].
        subst k2. unfold dotenv_merge. rewrite dict_get_set_same, E0. cbn [dict_get].
        now rewrite pystr_eqb_refl.
Qed.

(** ** Lemmas: every binding consumes the text *)

(** Case on every [match] of the goal (the literal patterns of the
    scanners unfold to matches on the bits of a code point) and close
    the length goal. *)
Ltac len_cases :=
  repeat match goal with
  | |- context [match ?x with _ => _ end] => destruct x
  end; cbn [length] in *; lia.

Section Progress.
Context `{U : UnicodeDB}.

Lemma span_app (p : N -> bool) (s : pystr) : fst (span p s) ++ snd (span p s) = s.
Proof.
  induction s as [|c t IH]; [reflexivity|]. cbn [span].
  destruct (p c); [|reflexivity]. destruct (span p t) as [a r]. cbn [fst snd app] in *. now rewrite IH.
Qed.

Lemma skip_le (p : N -> bool) (s : pystr) : (length (skip p s) <= length s)%nat.
Proof.
  unfold skip. rewrite <- (span_app p s) at 2. rewrite length_app. lia.
Qed.

(** The code point [skip] stops at fails the test. *)
Lemma skip_head (p : N -> bool) (s : pystr) (c : N) (t : pystr) : skip p s = c :: t -> p c = false.
Proof.
  unfold skip. induction s as [|d s IH]; cbn [span]; [discriminate|].
  destruct (p d) eqn:E; [destruct (span p s) as [a r]; exact IH|cbn [snd]; now intros [= <- _]].
Qed.

Lemma quoted_lt (q : N) (s v r : pystr) : quoted q s = Some (v, r) -> (length r < length s)%nat.
Proof.
  revert v r. induction s as [s IH] using (induction_ltof1 _ (@length N)); unfold ltof in IH.
  intros v r. destruct s as [|c t]; cbn [quoted]; [discriminate|].
  assert (Ho : match quoted q t with Some (v0, r0) => Some (c :: v0, r0) | None => None end = Some (v, r) ->
               (length r < length (c :: t))%nat).
  { destruct (quoted q t) as [[v0 r0]|] eqn:E; [|discriminate]. intros [= _ <-].
    pose proof (IH t ltac:(cbn; lia) v0 r0 E). cbn. lia. }
  destruct (c =? q); [intros [= _ <-]; cbn; lia|].
  destruct (c =? 92); [|exact Ho]. destruct t as [|d t']; [discriminate|].
  destruct (d =? q); [|exact Ho]. destruct (quoted q t') as [[v0 r0]|] eqn:E; [|exact Ho].
  intros [= _ <-]. pose proof (IH t' ltac:(cbn; lia) v0 r0 E). cbn. lia.
Qed.

Lemma rest_of_line_lt (c : N) (t : pystr) : (length (rest_of_line (c :: t)) < length (c :: t))%nat.
Proof.
  unfold rest_of_line, skip. cbn [span]. destruct (not_eol c) eqn:E.
  - pose proof (skip_le not_eol t) as H. unfold skip in H.
    destruct (span not_eol t) as [a r]. cbn [snd] in *. len_cases.
  - cbn [snd]. unfold not_eol in E.
    destruct (N.eqb_spec c 13); [subst; cbn; lia|]. destruct (N.eqb_spec c 10); [subst; cbn; lia|].
    discriminate.
Qed.

Lemma read_export_le (s : pystr) : (length (read_export s) <= length s)%nat.
Proof.
  unfold read_export.
  repeat match goal with
  | |- context [match ?x with _ => _ end] => destruct x
  | |- context [if ?b then _ else _] => destruct b
  end; try lia.
  all: match goal with |- context [skip ?p ?l] => pose proof (skip_le p l) end; cbn [length] in *; lia.
Qed.

Lemma read_comment_le (s : pystr) : (length (read_comment s) <= length s)%nat.
Proof.
  unfold read_comment. pose proof (skip_le is_hspace s) as H.
  destruct (skip is_hspace s) as [|c t]; [lia|].
  pose proof (skip_le not_eol t). len_cases.
Qed.

Lemma end_of_line_le (s r : pystr) : end_of_line s = Some r -> (length r <= length s)%nat.
Proof.
  unfold end_of_line. pose proof (skip_le is_hspace s) as H.
  destruct (skip is_hspace s) as [|c t]; [intros [= <-]; cbn; lia|].
  repeat match goal with |- context [match ?x with _ => _ end] => destruct x end;
    intros Hr; try discriminate Hr; injection Hr as <-; cbn [length] in *; lia.
Qed.

Lemma quoted_key_lt (t k r : pystr) : quoted_key t = Some (k, r) -> (length r < length t)%nat.
Proof.
  unfold quoted_key. rewrite <- (span_app (fun c => negb (c =? 39)) t) at 2.
  destruct (span _ t) as [a b]. cbn [fst snd]. rewrite length_app.
  repeat match goal with |- context [match ?x with _ => _ end] => destruct x end;
    intros Hr; try discriminate Hr; injection Hr as <- <-; cbn [length]; lia.
Qed.

Lemma unquoted_key_lt (s k r : pystr) : unquoted_key s = Some (k, r) -> (length r < length s)%nat.
Proof.
  unfold unquoted_key. rewrite <- (span_app (fun c => negb (c =? 61) && negb (c =? 35) && negb (u_isspace c)) s) at 2.
  destruct (span _ s) as [a b]. cbn [fst snd]. rewrite length_app.
  destruct a; intros Hr; [discriminate Hr|]. injection Hr as <- <-. cbn [length]. lia.
Qed.

Lemma unquoted_value_le (s v r : pystr) : unquoted_value s = (v, r) -> (length r <= length s)%nat.
Proof.
  unfold unquoted_value. pose proof (skip_le not_eol s) as H. unfold skip in H.
  destruct (span not_eol s) as [a b]. intros [= _ <-]. exact H.
Qed.

(** The lengths the scanners guarantee, from their equations. *)
Ltac len_facts :=
  repeat match goal with
  | H : quoted ?q ?l = Some (?v, ?r) |- _ => pose proof (quoted_lt q l v r H); clear H
  | H : quoted_key ?l = Some (?k, ?r) |- _ => pose proof (quoted_key_lt l k r H); clear H
  | H : unquoted_key ?l = Some (?k, ?r) |- _ => pose proof (unquoted_key_lt l k r H); clear H
  | H : unquoted_value ?l = (?v, ?r) |- _ => pose proof (unquoted_value_le l v r H); clear H
  end.

(** Case on every stuck [match] of the goal, keeping the equations. *)
Ltac match_cases :=
  repeat match goal with |- context [match ?x with _ => _ end] => destruct x eqn:? end.

Lemma parse_value_le (s v r : pystr) : parse_value s = inr (v, r) -> (length r <= length s)%nat.
Proof.
  unfold parse_value. match_cases; intros Hr; try discriminate Hr; injection Hr; intros; subst;
    len_facts; cbn [length] in *; lia.
Qed.

Lemma read_value_le (s r : pystr) (v : option pystr) :
  read_value s = inr (v, r) -> (length r <= length s)%nat.
Proof.
  unfold read_value.
  match_cases; intros Hr; try discriminate Hr; injection Hr; intros; subst; try (cbn; lia).
  all: match goal with H : parse_value (skip ?p ?l) = inr (?v, ?r) |- _ =>
         pose proof (parse_value_le _ v r H); pose proof (skip_le p l) end.
  all: cbn [length] in *; lia.
Qed.

Lemma parse_value_inl (s r : pystr) : parse_value s = inl r -> r = s.
Proof. unfold parse_value. match_cases; intros Hr; try discriminate Hr; now injection Hr. Qed.

Lemma read_value_inl (s r : pystr) : read_value s = inl r -> (length r <= length s)%nat.
Proof.
  unfold read_value. match_cases; intros Hr; try discriminate Hr; injection Hr as <-.
  match goal with H : parse_value (skip ?p ?l) = inl _ |- _ =>
    rewrite (parse_value_inl _ _ H); pose proof (skip_le p l) end.
  cbn [length] in *. lia.
Qed.

Lemma parse_key_inl (s r : pystr) : parse_key s = inl r -> r = s.
Proof. unfold parse_key. match_cases; intros Hr; try discriminate Hr; now injection Hr. Qed.

(** A key is read, or the line is a comment and nothing is read. *)
Lemma parse_key_inr (s r : pystr) (k : option pystr) :
  parse_key s = inr (k, r) -> (length r < length s)%nat \/ (exists t, s = 35 :: t /\ r = s).
Proof.
  unfold parse_key. match_cases; intros Hr; try discriminate Hr; injection Hr; intros; subst;
    len_facts; try (left; cbn [length] in *; lia). right. eauto.
Qed.

Lemma read_export_cases (s : pystr) : read_export s = s \/ (length (read_export s) < length s)%nat.
Proof.
  unfold read_export. match_cases; auto.
  right. match goal with |- context [skip ?p ?l] => pose proof (skip_le p l) end. cbn [length] in *. lia.
Qed.

Lemma hspace_not_space (c : N) : u_isspace c = false -> is_hspace c = false.
Proof. unfold is_hspace. now intros ->. Qed.

(** After the white space, a binding reads at least one code point,
    and a failed one fails no further than where it started. *)
Lemma binding_body_progress (c : N) (t : pystr) : u_isspace c = false ->
  (forall k v r, binding_body (c :: t) = inr (k, v, r) -> (length r < length (c :: t))%nat) /\
  (forall r, binding_body (c :: t) = inl r -> (length r <= length (c :: t))%nat).
Proof.
  intros Hc. unfold binding_body.
  pose proof (read_export_le (c :: t)) as Hx.
  destruct (parse_key (read_export (c :: t))) as [r0|[k s3]] eqn:Ek.
  - apply parse_key_inl in Ek. subst r0. split; [discriminate|]. now intros r [= <-].
  - pose proof (skip_le is_hspace s3) as H4.
    assert (Hs3 : (length s3 < length (c :: t))%nat \/
                  (exists t', s3 = 35 :: t' /\ (length s3 <= length (c :: t))%nat /\
                               skip is_hspace s3 = s3 /\ read_value s3 = inr (None, s3))).
    { destruct (parse_key_inr _ _ _ Ek) as [H|(t' & E & ->)]; [left; lia|].
      destruct (read_export_cases (c :: t)) as [E'|H]; [|left; exact H].
      rewrite E' in *. injection E as E1 E2. subst. right. eexists. split; [reflexivity|].
      split; [apply le_n|].
      unfold skip. cbn [span]. now rewrite (hspace_not_space 35 Hc). }
    destruct (read_value (skip is_hspace s3)) as [r1|[v s5]] eqn:Ev.
    + split; [discriminate|]. intros r [= <-]. apply read_value_inl in Ev.
      destruct Hs3 as [Hs3|(t' & -> & Hl & _)]; cbn [length] in *; lia.
    + pose proof (read_value_le _ _ _ Ev) as H5. pose proof (read_comment_le s5) as H6.
      destruct (end_of_line (read_comment s5)) as [s6|] eqn:Ee.
      * split; [|discriminate]. intros k' v' r [= _ _ <-]. apply end_of_line_le in Ee.
        destruct Hs3 as [Hs3|(t' & -> & Hl & Eskip & Erv)]; [lia|].
        rewrite Eskip, Erv in Ev. injection Ev as _ <-. unfold read_comment in Ee.
        rewrite Eskip in Ee. pose proof (skip_le not_eol t'). cbn [length] in *. lia.
      * split; [discriminate|]. intros r [= <-].
        destruct Hs3 as [Hs3|(t' & -> & Hl & _)]; cbn [length] in *; lia.
Qed.

(** [parse_stream]'s loop ends: each binding consumes a code point. *)
Lemma parse_binding_progress (s : pystr) :
  s <> [] -> (length (snd (parse_binding s)) < length s)%nat.
Proof.
  intros Hs. unfold parse_binding. pose proof (skip_le u_isspace s) as H.
  destruct (skip u_isspace s) as [|c t] eqn:E; [destruct s; [congruence|cbn; lia]|].
  destruct (binding_body_progress c t (skip_head _ _ _ _ E)) as [H1 H2].
  destruct (binding_body (c :: t)) as [r|[[k v] r]] eqn:Eb; cbn [snd].
  - pose proof (H2 r eq_refl). destruct r as [|x r]; [destruct s; [congruence|cbn; lia]|].
    pose proof (rest_of_line_lt x r). lia.
  - pose proof (H1 k v r eq_refl). lia.
Qed.

Lemma parse_stream_fuel_enough (f1 f2 : nat) (s : pystr) :
  (length s < f1)%nat -> (length s < f2)%nat -> parse_stream_fuel f1 s = parse_stream_fuel f2 s.
Proof.
  revert f2 s. induction f1 as [|f1 IH]; intros f2 s H1 H2; [lia|].
  destruct f2 as [|f2]; [lia|]. cbn [parse_stream_fuel]. destruct s as [|c t]; [reflexivity|].
  pose proof (parse_binding_progress (c :: t) ltac:(discriminate)) as Hp.
  destruct (parse_binding (c :: t)) as [b r]. cbn [snd] in Hp. f_equal. apply IH; lia.
Qed.

End Progress.

(** ** Theorems *)

Section Claims.
Context `{U : UnicodeDB}.

(** [set_as_environment_variables] on a dict of distinct names. *)
Lemma set_as_environment_variables_spec (d : dict (option pystr)) (env : environ) :
  NoDup (keys d) ->
  (dotenv_refused env d = false ->
     exists env', set_as_environment_variables d env = (Ok (nonempty d), env') /\
                  forall k, os_getenv k env' = dotenv_merge env d k) /\
  (dotenv_refused env d = true ->
     exists e env', set_as_environment_variables d env = (Raise e, env') /\ exc_cls e = ValueError /\
                    forall k v, os_getenv k env = Some v -> os_getenv k env' = Some v).
Proof.
  intros Hnd. destruct d as [|kv d].
  - split; [|discriminate]. intros _. exists env. split; [reflexivity|].
    intros k. unfold os_getenv, dotenv_merge. now destruct (dict_get k env).
  - destruct (set_all_spec (kv :: d) Hnd env) as [H1 H2]. unfold set_as_environment_variables, st_bind.
    split.
    + intros Hr. destruct (H1 Hr) as (env' & -> & Hg). now exists env'.
    + intros Hr. destruct (H2 Hr) as (e & env' & Hs & He). rewrite Hs.
      exists e, env'. split; [reflexivity|]. split; [exact He|].
      intros k v Hk. exact (set_all_keeps _ _ _ _ _ _ Hs Hk).
Qed.

Lemma load_dotenv_text (w : world) (dir : list pystr) (env : environ) (text : pystr) :
  dotenv_text w dir = Ok text ->
  load_dotenv w dir env = set_as_environment_variables (dotenv_dict env text) env.
Proof. intros H. unfold load_dotenv. now rewrite st_lift_bind, H. Qed.

(** C37.  [load_dotenv()] with [override=False] refines the merge of the
    environment with the [.env] file: when no binding to be copied is
    refused by [os.putenv], it returns whether the file had bindings and
    afterwards every variable that was set keeps its value and every
    other one has the value of its [.env] binding, if any; otherwise it
    raises [ValueError], still without changing a variable that was set. *)
Theorem load_dotenv_spec (w : world) (dir : list pystr) (env : environ) (text : pystr) :
  dotenv_text w dir = Ok text ->
  (dotenv_refused env (dotenv_dict env text) = false ->
     exists env', load_dotenv w dir env = (Ok (nonempty (dotenv_dict env text)), env') /\
                  forall k, os_getenv k env' = dotenv_merge env (dotenv_dict env text) k) /\
  (dotenv_refused env (dotenv_dict env text) = true ->
     exists e env', load_dotenv w dir env = (Raise e, env') /\ exc_cls e = ValueError /\
                    forall k v, os_getenv k env = Some v -> os_getenv k env' = Some v).
Proof.
  intros H. rewrite (load_dotenv_text w dir env text H).
  apply set_as_environment_variables_spec, resolve_variables_nodup.
Qed.

Context `{G : GeminiService}.

(** C38.  The script's key is the environment's [GEMINI_API_KEY] if it
    is set, else the one of the [.env] file: when [load_dotenv] refuses
    no binding, the whole run ([load_dotenv], [os.getenv], then the
    configuration check and [__main__]) is [main] with that key, on the
    same world. *)
Theorem run_script_key (dir argv : list pystr) (env : environ) (w : world) (text : pystr) :
  dotenv_text w dir = Ok text -> dotenv_refused env (dotenv_dict env text) = false ->
  exists env', run_script dir argv env w =
    (fst (main (dotenv_merge env (dotenv_dict env text) (py "GEMINI_API_KEY")) argv w), env',
     snd (main (dotenv_merge env (dotenv_dict env text) (py "GEMINI_API_KEY")) argv w)).
Proof.
  intros H Hr. unfold run_script. rewrite (load_dotenv_text w dir env text H).
  destruct (proj1 (set_as_environment_variables_spec (dotenv_dict env text) env
                     (resolve_variables_nodup env _)) Hr) as (env' & E & Hg).
  rewrite E. exists env'. rewrite Hg. now destruct (main _ argv w).
Qed.

(** An undecodable [.env] aborts the script at line 7, before anything. *)
Lemma run_script_dotenv_error (dir argv : list pystr) (env : environ) (w : world) (e : exn) :
  dotenv_text w dir = Raise e -> run_script dir argv env w = (Raise e, env, w).
Proof. intros H. unfold run_script, load_dotenv. now rewrite st_lift_bind, H. Qed.

End Claims.

(** ** Concrete runs *)

Definition app_dir : list pystr := [py "app"].
Definition dotenv_sample : pystr :=
  py "GEMINI_API_KEY=from-file # the key" ++ [10] ++ py "export MODEL=${GEMINI_API_KEY}-x" ++ [10].
Definition w_dotenv (b : bytes) : world := World [(py "/app/.env", b)] [] [].
Definition env_sample : environ := [(py "GEMINI_API_KEY", py "from-env")].

Lemma load_dotenv_spec_witness :
  dotenv_text (w_dotenv dotenv_sample) app_dir = Ok dotenv_sample /\
  @dotenv_refused env_sample (@dotenv_dict latin1_db env_sample dotenv_sample) = false /\
  exists env', @load_dotenv latin1_db (w_dotenv dotenv_sample) app_dir env_sample = (Ok true, env') /\
    forall k, os_getenv k env' = dotenv_merge env_sample (@dotenv_dict latin1_db env_sample dotenv_sample) k.
Proof.
  assert (H : dotenv_text (w_dotenv dotenv_sample) app_dir = Ok dotenv_sample) by (vm_compute; reflexivity).
  assert (Hr : @dotenv_refused env_sample (@dotenv_dict latin1_db env_sample dotenv_sample) = false)
    by (vm_compute; reflexivity).
  split; [exact H|]. split; [exact Hr|].
  exact (proj1 (load_dotenv_spec (w_dotenv dotenv_sample) app_dir env_sample dotenv_sample H) Hr).
Defined.

(** The environment's key wins, and the expansion sees it. *)
Example load_dotenv_sample :
  snd (@load_dotenv latin1_db (w_dotenv dotenv_sample) app_dir env_sample)
  = [(py "GEMINI_API_KEY", py "from-env"); (py "MODEL", py "from-env-x")].
Proof. vm_compute. reflexivity. Qed.

Lemma run_script_key_witness :
  dotenv_text (w_dotenv dotenv_sample) app_dir = Ok dotenv_sample /\
  @dotenv_refused [] (@dotenv_dict latin1_db [] dotenv_sample) = false /\
  dotenv_merge [] (@dotenv_dict latin1_db [] dotenv_sample) (py "GEMINI_API_KEY") = Some (py "from-file") /\
  exists env', @run_script latin1_db (reply_service (Ok [])) app_dir [py "bullshit_meter.py"] []
                 (w_dotenv dotenv_sample) =
    (fst (@main latin1_db (reply_service (Ok [])) (Some (py "from-file")) [py "bullshit_meter.py"] (w_dotenv dotenv_sample)),
     env',
     snd (@main latin1_db (reply_service (Ok [])) (Some (py "from-file")) [py "bullshit_meter.py"] (w_dotenv dotenv_sample))).
Proof.
  assert (H : dotenv_text (w_dotenv dotenv_sample) app_dir = Ok dotenv_sample) by (vm_compute; reflexivity).
  assert (Hr : @dotenv_refused [] (@dotenv_dict latin1_db [] dotenv_sample) = false) by (vm_compute; reflexivity).
  assert (Hk : dotenv_merge [] (@dotenv_dict latin1_db [] dotenv_sample) (py "GEMINI_API_KEY") = Some (py "from-file"))
    by (vm_compute; reflexivity).
  split; [exact H|]. split; [exact Hr|]. split; [exact Hk|]. rewrite <- Hk.
  exact (@run_script_key latin1_db (reply_service (Ok [])) app_dir [py "bullshit_meter.py"] [] _ _ H Hr).
Defined.

(** A quoted name holding [=] is accepted by the parser but refused by
    [os.putenv]: the script dies at line 7 with [ValueError]. *)
Example quoted_key_with_equals_aborts :
  @run_script latin1_db (reply_service (Ok [])) app_dir [py "bullshit_meter.py"; py "in.txt"; py "out.md"] []
    (w_dotenv (py "'A=B'=1" ++ [10]))
  = (Raise (Exc ValueError (py "illegal environment variable name")), [], w_dotenv (py "'A=B'=1" ++ [10])).
Proof. vm_compute. reflexivity. Qed.
